(** * Crafting and module installation of the foundry contracts

    A shallow embedding of the Solidity systems
    - [ModuleCraftingSystem]   (systems/ModuleCraftingSystem.sol),
    - [FoundryCraftingSystem]  (spaceship crafting),
    - [FoundryUpgradeSystem]   (systems/FoundryUpgradeSystem.sol),
    - [SpaceshipModuleSystem]  (install / uninstall of modules),
    of the client panes and hooks that call them ([FoundryUpgradePane],
    [ModuleCraftingPane], [SpaceshipModuleManagementPane],
    [useFoundryUpgradeLevel]), and the properties of them that the
    specification states, followed by further properties of the same code.

    Solidity integers are [Z] with the checks of the 0.8 compiler written
    out: an overflowing or underflowing operation reverts.  A revert undoes
    the whole transaction, so an operation is a function from the world
    state to [Result World]: either the new state or the error raised. *)

From stdpp Require Import gmap list.
From Stdlib Require Import ZArith Lia.
From Stdlib Require QArith Qround.

Local Open Scope Z_scope.

(** ** Errors and the revert monad *)

Inductive Error : Type :=
| NotPlanetOwner
| InvalidPlanetType
| PlanetLevelTooLow
| InvalidModuleType
| InvalidSpaceshipType
| FoundryCraftingLimitReached
| InvalidMaterialAmount
| MissingRequiredMaterials
| InvalidMaterialType
| InsufficientMaterialOnPlanet
| ArtifactNotOnPlanet
| ArtifactNotOnPlanet1
| ArtifactNotOnPlanet2
| ArtifactNotOnPlanet3
| InvalidSpaceshipArtifact
| InvalidModuleArtifact
| ModuleAlreadyInstalled
| ModuleSlotFull
| ModuleNotInstalled
| ArtifactStorageFull
| FoundryAtMaxUpgradeLevel
| InsufficientFoundryUpgradeFee (required paid : Z)
| PlanetNotInitialized
| InvalidEnumValue
| Panic.

Inductive Result (A : Type) : Type :=
| Ok (a : A)
| Revert (e : Error).

Arguments Ok {A} a.
Arguments Revert {A} e.

#[global] Instance Result_bind : MBind Result :=
  fun A B (k : A -> Result B) (c : Result A) =>
    match c with
    | Ok a => k a
    | Revert e => Revert e
    end.

#[global] Instance Result_ret : MRet Result := fun A a => Ok a.

(** [if (!b) revert e;] *)
Definition require (b : bool) (e : Error) : Result unit :=
  if b then Ok tt else Revert e.

(** The state a transaction leaves behind: a revert leaves the old one. *)
Definition commit {S : Type} (old : S) (r : Result S) : S :=
  match r with
  | Ok new => new
  | Revert _ => old
  end.

(** ** Checked arithmetic of [uintW] *)

Definition uint_max (w : Z) : Z := 2 ^ w - 1.

Definition checked_add (w a b : Z) : Result Z :=
  if a + b <=? uint_max w then Ok (a + b) else Revert Panic.

Definition checked_sub (a b : Z) : Result Z :=
  if b <=? a then Ok (a - b) else Revert Panic.

Definition checked_mul (w a b : Z) : Result Z :=
  if a * b <=? uint_max w then Ok (a * b) else Revert Panic.

(** ** Enumerations of codegen/common.sol *)

(** Modelled from the spec: codegen/common.sol is not among the sources.
    The rarity tiers are the five the specification lists, after the
    zero value every generated enum starts with. *)
Inductive ArtifactRarity : Type :=
| RARITY_UNKNOWN
| COMMON
| RARE
| EPIC
| LEGENDARY
| MYTHIC.

(** Modelled from the spec: the planet types of codegen/common.sol.  The
    systems only test a planet's type for equality with [FOUNDRY], so that
    the other members matter only as being different from it. *)
Inductive PlanetType : Type :=
| PLANET_TYPE_UNKNOWN
| PLANET
| ASTEROID_FIELD
| FOUNDRY
| SPACETIME_RIP
| QUASAR.

(** Modelled from the spec: the resource kinds of codegen/common.sol.  The
    recipes name eight of them; the systems use that the members are
    distinct and that there are at most twelve of them (the length of the
    arrays [materialFound] and [materialAmounts]). *)
Inductive MaterialType : Type :=
| MATERIAL_UNKNOWN
| WATER_CRYSTALS
| LIVING_WOOD
| WINDSTEEL
| AURORIUM
| MYCELIUM
| SANDGLASS
| CRYOSTONE
| SCRAPIUM
| PYROSTEEL
| BLACKALLOY
| CORRUPTED_CRYSTAL.

#[global] Instance ArtifactRarity_eq_dec : EqDecision ArtifactRarity.
Proof. solve_decision. Defined.

#[global] Instance PlanetType_eq_dec : EqDecision PlanetType.
Proof. solve_decision. Defined.

#[global] Instance MaterialType_eq_dec : EqDecision MaterialType.
Proof. solve_decision. Defined.

(** Modelled from the spec: [uint8(materials[i])], the position of the member
    in the enum. *)
Definition MaterialType_uint8 (m : MaterialType) : Z :=
  match m with
  | MATERIAL_UNKNOWN => 0
  | WATER_CRYSTALS => 1
  | LIVING_WOOD => 2
  | WINDSTEEL => 3
  | AURORIUM => 4
  | MYCELIUM => 5
  | SANDGLASS => 6
  | CRYOSTONE => 7
  | SCRAPIUM => 8
  | PYROSTEEL => 9
  | BLACKALLOY => 10
  | CORRUPTED_CRYSTAL => 11
  end.

(** Modelled from the spec: [uint8(rarity)], the position of the tier in the
    enum.  The client spells the positions out (FoundryUpgradePane.tsx,
    [getRarityMultiplier]): UNKNOWN=0, COMMON=1, RARE=2, EPIC=3, LEGENDARY=4,
    MYTHIC=5. *)
Definition ArtifactRarity_uint8 (r : ArtifactRarity) : Z :=
  match r with
  | RARITY_UNKNOWN => 0
  | COMMON => 1
  | RARE => 2
  | EPIC => 3
  | LEGENDARY => 4
  | MYTHIC => 5
  end.

(** A [Biome] and a [SpaceType] are kept as their [uint8] value, which is
    what the code computes with ([uint8(biome)], [uint8(planet.spaceType) * 3]). *)

(** Modelled from the spec: [type(Biome).max]; the biome is an 11-valued tag,
    ids 0 to 10. *)
Definition Biome_max : Z := 10.

(** Modelled from the spec: [Biome.CORRUPTED], the last biome (id 10). *)
Definition CORRUPTED : Z := 10.

(** Modelled from the spec: [SpaceType.DEAD_SPACE], the fourth zone after
    nebula, space and deep space. *)
Definition DEAD_SPACE : Z := 4.

(** A [Biome] argument of an external function arrives ABI-encoded as a
    word.  The decoder that the compiler puts before the body of the function
    (and before its modifiers) reverts, without error data, for a word that
    is not a member of the enum, that is, one above [type(Biome).max];
    [InvalidEnumValue] stands for that revert. *)
Definition abi_decode_Biome (word : Z) : Result Z :=
  require ((0 <=? word) && (word <=? Biome_max)) InvalidEnumValue;;
  Ok word.

(** ** Bonus records ([SpaceshipBonusData], [ModuleBonusData]) *)

Record BonusData : Type := mkBonus {
  attackBonus : Z;
  defenseBonus : Z;
  speedBonus : Z;
  rangeBonus : Z
}.

Definition zeroBonus : BonusData := mkBonus 0 0 0 0.

Inductive Axis : Type := Attack | Defense | Speed | Range.

Definition axis (a : Axis) (b : BonusData) : Z :=
  match a with
  | Attack => attackBonus b
  | Defense => defenseBonus b
  | Speed => speedBonus b
  | Range => rangeBonus b
  end.

(** ** Table rows (codegen/tables) *)

(** The tables are declared in codegen/tables, which is not among the
    sources; a row has the fields the systems read and write. *)

(** Modelled from the spec: a row of [Artifact], the kind ([artifactIndex], 3
    for a spaceship and 23 for a module) and the rarity of an item. *)
Record ArtifactData : Type := mkArtifactData {
  artifactIndex : Z;
  artifact_rarity : ArtifactRarity
}.

(** Modelled from the spec: a row of [CraftedSpaceship], the record of a
    crafted carrier. *)
Record CraftedSpaceshipData : Type := mkCraftedSpaceshipData {
  spaceshipType : Z;
  ship_biome : Z;
  ship_rarity : ArtifactRarity;
  ship_craftedAt : Z;
  nftTokenId : Z;
  ship_crafter : Z
}.

(** Modelled from the spec: a row of [CraftedModules], the record of a
    crafted module. *)
Record CraftedModulesData : Type := mkCraftedModulesData {
  moduleType : Z;
  module_biome : Z;
  module_rarity : ArtifactRarity;
  module_craftedAt : Z;
  module_crafter : Z
}.

(** Modelled from the spec: a row of [SpaceshipSlot], keyed by carrier and
    slot index: the module the slot holds and its slot category. *)
Record SpaceshipSlotData : Type := mkSpaceshipSlotData {
  slot_moduleSlotType : Z;
  slot_moduleId : Z
}.

(** Modelled from the spec: a row of [SpaceshipModuleInstalled], keyed by
    module: the carrier it is installed on. *)
Record SpaceshipModuleInstalledData : Type := mkSpaceshipModuleInstalledData {
  inst_artifactId : Z;
  inst_moduleSlotType : Z;
  inst_installed : bool
}.

(** Modelled from the spec: a row of [FoundryCraftingCount], the station's
    craft count and the time of its last craft. *)
Record FoundryCraftingCountData : Type := mkFoundryCraftingCountData {
  count : Z;
  lastCraftTime : Z
}.

(** Modelled from the spec: the thresholds of [PlanetBiomeConfig]. *)
Record PlanetBiomeConfigData : Type := mkPlanetBiomeConfigData {
  threshold1 : Z;
  threshold2 : Z
}.

(** Modelled from the spec: the [Planet] memory struct of libraries/Planet.sol
    (not among the sources), with the fields the systems use; the station's
    resource balances are [materials], its inventory of artifact ids is
    [artifactStorage]. *)
Record Planet : Type := mkPlanet {
  owner : Z;
  planetHash : Z;
  planetType : PlanetType;
  level : Z;
  spaceType : Z;
  perlin : Z;
  materials : MaterialType -> Z;
  artifactStorage : list Z
}.

(** ** The world: every table the four systems touch *)

(** A Solidity mapping is total, an absent key reads as the zero row: the
    tables are finite maps read through the [_get] functions below. *)
Record World : Type := mkWorld {
  PlanetTable : gmap Z Planet;
  ArtifactOwner : gmap Z Z;
  ArtifactTable : gmap Z ArtifactData;
  CraftedSpaceship : gmap Z CraftedSpaceshipData;
  CraftedModules : gmap Z CraftedModulesData;
  SpaceshipSlot : gmap (Z * Z) SpaceshipSlotData;
  SpaceshipModuleInstalled : gmap Z SpaceshipModuleInstalledData;
  SpaceshipBonus : gmap Z BonusData;
  ModuleBonus : gmap Z BonusData;
  FoundryCraftingCount : gmap Z FoundryCraftingCountData;
  FoundryUpgrade : gmap Z Z;
  PlanetBiomeConfig : PlanetBiomeConfigData;
  Counter : Z;
  EntryFee : Z;
  RevenueStats : Z
}.

Definition set_PlanetTable (v : gmap Z Planet) (st : World) : World :=
  mkWorld v (ArtifactOwner st) (ArtifactTable st) (CraftedSpaceship st) (CraftedModules st) (SpaceshipSlot st) (SpaceshipModuleInstalled st) (SpaceshipBonus st) (ModuleBonus st) (FoundryCraftingCount st) (FoundryUpgrade st) (PlanetBiomeConfig st) (Counter st) (EntryFee st) (RevenueStats st).

Definition set_ArtifactOwner (v : gmap Z Z) (st : World) : World :=
  mkWorld (PlanetTable st) v (ArtifactTable st) (CraftedSpaceship st) (CraftedModules st) (SpaceshipSlot st) (SpaceshipModuleInstalled st) (SpaceshipBonus st) (ModuleBonus st) (FoundryCraftingCount st) (FoundryUpgrade st) (PlanetBiomeConfig st) (Counter st) (EntryFee st) (RevenueStats st).

Definition set_ArtifactTable (v : gmap Z ArtifactData) (st : World) : World :=
  mkWorld (PlanetTable st) (ArtifactOwner st) v (CraftedSpaceship st) (CraftedModules st) (SpaceshipSlot st) (SpaceshipModuleInstalled st) (SpaceshipBonus st) (ModuleBonus st) (FoundryCraftingCount st) (FoundryUpgrade st) (PlanetBiomeConfig st) (Counter st) (EntryFee st) (RevenueStats st).

Definition set_CraftedSpaceship (v : gmap Z CraftedSpaceshipData) (st : World) : World :=
  mkWorld (PlanetTable st) (ArtifactOwner st) (ArtifactTable st) v (CraftedModules st) (SpaceshipSlot st) (SpaceshipModuleInstalled st) (SpaceshipBonus st) (ModuleBonus st) (FoundryCraftingCount st) (FoundryUpgrade st) (PlanetBiomeConfig st) (Counter st) (EntryFee st) (RevenueStats st).

Definition set_CraftedModules (v : gmap Z CraftedModulesData) (st : World) : World :=
  mkWorld (PlanetTable st) (ArtifactOwner st) (ArtifactTable st) (CraftedSpaceship st) v (SpaceshipSlot st) (SpaceshipModuleInstalled st) (SpaceshipBonus st) (ModuleBonus st) (FoundryCraftingCount st) (FoundryUpgrade st) (PlanetBiomeConfig st) (Counter st) (EntryFee st) (RevenueStats st).

Definition set_SpaceshipSlot (v : gmap (Z * Z) SpaceshipSlotData) (st : World) : World :=
  mkWorld (PlanetTable st) (ArtifactOwner st) (ArtifactTable st) (CraftedSpaceship st) (CraftedModules st) v (SpaceshipModuleInstalled st) (SpaceshipBonus st) (ModuleBonus st) (FoundryCraftingCount st) (FoundryUpgrade st) (PlanetBiomeConfig st) (Counter st) (EntryFee st) (RevenueStats st).

Definition set_SpaceshipModuleInstalled (v : gmap Z SpaceshipModuleInstalledData) (st : World) : World :=
  mkWorld (PlanetTable st) (ArtifactOwner st) (ArtifactTable st) (CraftedSpaceship st) (CraftedModules st) (SpaceshipSlot st) v (SpaceshipBonus st) (ModuleBonus st) (FoundryCraftingCount st) (FoundryUpgrade st) (PlanetBiomeConfig st) (Counter st) (EntryFee st) (RevenueStats st).

Definition set_SpaceshipBonus (v : gmap Z BonusData) (st : World) : World :=
  mkWorld (PlanetTable st) (ArtifactOwner st) (ArtifactTable st) (CraftedSpaceship st) (CraftedModules st) (SpaceshipSlot st) (SpaceshipModuleInstalled st) v (ModuleBonus st) (FoundryCraftingCount st) (FoundryUpgrade st) (PlanetBiomeConfig st) (Counter st) (EntryFee st) (RevenueStats st).

Definition set_ModuleBonus (v : gmap Z BonusData) (st : World) : World :=
  mkWorld (PlanetTable st) (ArtifactOwner st) (ArtifactTable st) (CraftedSpaceship st) (CraftedModules st) (SpaceshipSlot st) (SpaceshipModuleInstalled st) (SpaceshipBonus st) v (FoundryCraftingCount st) (FoundryUpgrade st) (PlanetBiomeConfig st) (Counter st) (EntryFee st) (RevenueStats st).

Definition set_FoundryCraftingCount (v : gmap Z FoundryCraftingCountData) (st : World) : World :=
  mkWorld (PlanetTable st) (ArtifactOwner st) (ArtifactTable st) (CraftedSpaceship st) (CraftedModules st) (SpaceshipSlot st) (SpaceshipModuleInstalled st) (SpaceshipBonus st) (ModuleBonus st) v (FoundryUpgrade st) (PlanetBiomeConfig st) (Counter st) (EntryFee st) (RevenueStats st).

Definition set_FoundryUpgrade (v : gmap Z Z) (st : World) : World :=
  mkWorld (PlanetTable st) (ArtifactOwner st) (ArtifactTable st) (CraftedSpaceship st) (CraftedModules st) (SpaceshipSlot st) (SpaceshipModuleInstalled st) (SpaceshipBonus st) (ModuleBonus st) (FoundryCraftingCount st) v (PlanetBiomeConfig st) (Counter st) (EntryFee st) (RevenueStats st).

Definition set_PlanetBiomeConfig (v : PlanetBiomeConfigData) (st : World) : World :=
  mkWorld (PlanetTable st) (ArtifactOwner st) (ArtifactTable st) (CraftedSpaceship st) (CraftedModules st) (SpaceshipSlot st) (SpaceshipModuleInstalled st) (SpaceshipBonus st) (ModuleBonus st) (FoundryCraftingCount st) (FoundryUpgrade st) v (Counter st) (EntryFee st) (RevenueStats st).

Definition set_Counter (v : Z) (st : World) : World :=
  mkWorld (PlanetTable st) (ArtifactOwner st) (ArtifactTable st) (CraftedSpaceship st) (CraftedModules st) (SpaceshipSlot st) (SpaceshipModuleInstalled st) (SpaceshipBonus st) (ModuleBonus st) (FoundryCraftingCount st) (FoundryUpgrade st) (PlanetBiomeConfig st) v (EntryFee st) (RevenueStats st).

Definition set_EntryFee (v : Z) (st : World) : World :=
  mkWorld (PlanetTable st) (ArtifactOwner st) (ArtifactTable st) (CraftedSpaceship st) (CraftedModules st) (SpaceshipSlot st) (SpaceshipModuleInstalled st) (SpaceshipBonus st) (ModuleBonus st) (FoundryCraftingCount st) (FoundryUpgrade st) (PlanetBiomeConfig st) (Counter st) v (RevenueStats st).

Definition set_RevenueStats (v : Z) (st : World) : World :=
  mkWorld (PlanetTable st) (ArtifactOwner st) (ArtifactTable st) (CraftedSpaceship st) (CraftedModules st) (SpaceshipSlot st) (SpaceshipModuleInstalled st) (SpaceshipBonus st) (ModuleBonus st) (FoundryCraftingCount st) (FoundryUpgrade st) (PlanetBiomeConfig st) (Counter st) (EntryFee st) v.

Definition zeroArtifactData : ArtifactData := mkArtifactData 0 RARITY_UNKNOWN.
Definition zeroCraftedSpaceship : CraftedSpaceshipData :=
  mkCraftedSpaceshipData 0 0 RARITY_UNKNOWN 0 0 0.
Definition zeroCraftedModules : CraftedModulesData :=
  mkCraftedModulesData 0 0 RARITY_UNKNOWN 0 0.
Definition zeroSlot : SpaceshipSlotData := mkSpaceshipSlotData 0 0.
Definition zeroInstalled : SpaceshipModuleInstalledData :=
  mkSpaceshipModuleInstalledData 0 0 false.
Definition zeroCraftingCount : FoundryCraftingCountData :=
  mkFoundryCraftingCountData 0 0.

Definition ArtifactOwner_get (st : World) (id : Z) : Z :=
  default 0 (ArtifactOwner st !! id).
Definition ArtifactTable_get (st : World) (id : Z) : ArtifactData :=
  default zeroArtifactData (ArtifactTable st !! id).
Definition CraftedSpaceship_get (st : World) (id : Z) : CraftedSpaceshipData :=
  default zeroCraftedSpaceship (CraftedSpaceship st !! id).
Definition CraftedModules_get (st : World) (id : Z) : CraftedModulesData :=
  default zeroCraftedModules (CraftedModules st !! id).
Definition SpaceshipSlot_get (st : World) (spaceshipId slotIndex : Z) : SpaceshipSlotData :=
  default zeroSlot (SpaceshipSlot st !! (spaceshipId, slotIndex)).
Definition SpaceshipModuleInstalled_get (st : World) (id : Z) : SpaceshipModuleInstalledData :=
  default zeroInstalled (SpaceshipModuleInstalled st !! id).
Definition SpaceshipBonus_get (st : World) (id : Z) : BonusData :=
  default zeroBonus (SpaceshipBonus st !! id).
Definition ModuleBonus_get (st : World) (id : Z) : BonusData :=
  default zeroBonus (ModuleBonus st !! id).
Definition FoundryCraftingCount_get (st : World) (h : Z) : FoundryCraftingCountData :=
  default zeroCraftingCount (FoundryCraftingCount st !! h).
Definition FoundryUpgrade_getBranchLevel (st : World) (h : Z) : Z :=
  default 0 (FoundryUpgrade st !! h).

(** The transaction: [_msgSender()], [block.timestamp], [_msgValue()]. *)
Record Tx : Type := mkTx {
  msgSender : Z;
  blockTimestamp : Z;
  msgValue : Z
}.

(** [keccak256] is kept abstract: the two digests the systems take, as
    [uint256] values.  [keccakSeed t e h] is
    [keccak256(abi.encodePacked(block.timestamp, executor, planetHash))] and
    [keccakBiome h p] is [keccak256(abi.encodePacked(planetHash, perlin))]. *)
Record Keccak : Type := mkKeccak {
  keccakSeed : Z -> Z -> Z -> Z;
  keccakBiome : Z -> Z -> Z
}.

(** ** libraries/Planet.sol and libraries/DFUtils.sol *)

Module PlanetLib.

Definition getMaterial (p : Planet) (m : MaterialType) : Z := materials p m.

Definition setMaterial (p : Planet) (m : MaterialType) (v : Z) : Planet :=
  mkPlanet (owner p) (planetHash p) (planetType p) (level p) (spaceType p) (perlin p)
    (fun x => if decide (x = m) then v else materials p x) (artifactStorage p).

Definition setArtifactStorage (p : Planet) (l : list Z) : Planet :=
  mkPlanet (owner p) (planetHash p) (planetType p) (level p) (spaceType p) (perlin p)
    (materials p) l.

Definition setPlanetHash (p : Planet) (h : Z) : Planet :=
  mkPlanet (owner p) h (planetType p) (level p) (spaceType p) (perlin p)
    (materials p) (artifactStorage p).

(** Modelled from the spec: libraries/Planet.sol is not among the sources.
    A station's inventory is bounded; the artifact ids of a planet are packed
    as 32-bit words into one [uint256] ([PlanetArtifact.getArtifacts]), which
    holds eight of them. *)
Definition MAX_ARTIFACTS_PER_PLANET : nat := 8.

(** Modelled from the spec: [planet.artifactStorage.Has(id)], whether the
    artifact is in the station's inventory. *)
Definition Has (p : Planet) (id : Z) : bool := bool_decide (id ∈ artifactStorage p).

(** Modelled from the spec: [planet.hasArtifactSlot()], whether the station has
    inventory capacity to receive one more artifact. *)
Definition hasArtifactSlot (p : Planet) : bool :=
  bool_decide (length (artifactStorage p) < MAX_ARTIFACTS_PER_PLANET)%nat.

(** Modelled from the spec: [planet.pushArtifact(id)] adds the artifact to the
    station's inventory, and is rejected when the inventory is full. *)
Definition pushArtifact (p : Planet) (id : Z) : Result Planet :=
  require (hasArtifactSlot p) ArtifactStorageFull;;
  Ok (setArtifactStorage p (artifactStorage p ++ [id])).

(** Modelled from the spec: [planet.removeArtifact(id)] removes the artifact
    from the station's inventory, and is rejected when it is not there. *)
Definition removeArtifact (p : Planet) (id : Z) : Result Planet :=
  require (Has p id) ArtifactNotOnPlanet;;
  Ok (setArtifactStorage p (filter (fun x => x ≠ id) (artifactStorage p))).

(** Modelled from the spec: [planet.writeToStore()] persists the memory struct
    and, as the comment at the end of [_executeUninstallModule] says, sets
    [ArtifactOwner] of every artifact of the inventory to this planet. *)
Definition writeToStore (p : Planet) (st : World) : World :=
  set_ArtifactOwner
    (foldr (fun a o => <[a := planetHash p]> o) (ArtifactOwner st) (artifactStorage p))
    (set_PlanetTable (<[planetHash p := p]> (PlanetTable st)) st).

(** Modelled from the spec: [DFUtils.readInitedPlanet] loads the planet stored
    under the hash and is rejected for a planet that was never initialised.
    ([DFUtils.tick], the clock of the surrounding game, is left out.) *)
Definition readInitedPlanet (st : World) (h : Z) : Result Planet :=
  match PlanetTable st !! h with
  | Some p => Ok (setPlanetHash p h)
  | None => Revert PlanetNotInitialized
  end.

(** Modelled from the spec: [planet.mustGetArtifact(id)] reads the row of an
    artifact and is rejected for an artifact that has none. *)
Definition mustGetArtifact (st : World) (id : Z) : Result ArtifactData :=
  match ArtifactTable st !! id with
  | Some a => Ok a
  | None => Revert ArtifactNotOnPlanet
  end.

(** Modelled from the spec: [artifact.writeToStore()] of libraries/Artifact.sol
    records the new artifact; [_validateInstallModule] reads the kind back as
    [artifactIndex], 3 for a spaceship and 23 for a module. *)
Definition writeArtifact (id index : Z) (r : ArtifactRarity) (st : World) : World :=
  set_ArtifactTable (<[id := mkArtifactData index r]> (ArtifactTable st)) st.

End PlanetLib.

(** ** ModuleCraftingSystem *)

Module ModuleCraftingSystem.

(** The recipe table at the head of [_validateModuleRecipe]:
    [expectedMaterials] and [expectedAmounts]. *)
Definition expectedRecipe (moduleType : Z) : Result (list MaterialType * list Z) :=
  if moduleType =? 1 then Ok ([WINDSTEEL; AURORIUM], [80; 40])
  else if moduleType =? 2 then Ok ([PYROSTEEL; SCRAPIUM], [120; 80])
  else if moduleType =? 3 then Ok ([BLACKALLOY; CORRUPTED_CRYSTAL], [160; 80])
  else if moduleType =? 4 then Ok ([LIVING_WOOD; CRYOSTONE], [160; 120])
  else Revert InvalidModuleType.

(** The loop "Store provided materials": [materialFound] and
    [materialAmounts], indexed by the material. *)
Fixpoint storeProvided (materials : list MaterialType) (amounts : list Z)
    (materialFound : MaterialType -> bool) (materialAmounts : MaterialType -> Z)
    : Result ((MaterialType -> bool) * (MaterialType -> Z)) :=
  match materials, amounts with
  | m :: materials', a :: amounts' =>
      let matType := MaterialType_uint8 m in
      require (negb (matType >? 12)) InvalidMaterialType;;
      require (negb (materialFound m)) InvalidMaterialAmount;;
      storeProvided materials' amounts'
        (fun x => if decide (x = m) then true else materialFound x)
        (fun x => if decide (x = m) then a else materialAmounts x)
  | _, _ => Ok (materialFound, materialAmounts)
  end.

(** The loop "Validate all expected materials are present with correct
    amounts", with its tolerance of one unit. *)
Fixpoint checkExpected (expectedMaterials : list MaterialType) (expectedAmounts : list Z)
    (materialFound : MaterialType -> bool) (materialAmounts : MaterialType -> Z)
    (craftingMultiplier : Z) : Result unit :=
  match expectedMaterials, expectedAmounts with
  | m :: expectedMaterials', a :: expectedAmounts' =>
      require (materialFound m) MissingRequiredMaterials;;
      let expectedAmountWithMultiplier := (a * craftingMultiplier) / 100 in
      let providedAmount := materialAmounts m in
      require (negb ((providedAmount <? expectedAmountWithMultiplier)
                     || (providedAmount >? expectedAmountWithMultiplier + 1)))
              InvalidMaterialAmount;;
      checkExpected expectedMaterials' expectedAmounts' materialFound materialAmounts
        craftingMultiplier
  | _, _ => Ok tt
  end.

(** The loop "Validate foundry has sufficient materials". *)
Fixpoint checkSufficient (foundry : Planet) (expectedMaterials : list MaterialType)
    (expectedAmounts : list Z) (craftingMultiplier : Z) : Result unit :=
  match expectedMaterials, expectedAmounts with
  | m :: expectedMaterials', a :: expectedAmounts' =>
      let requiredAmount := (a * craftingMultiplier) / 100 in
      let currentAmount := PlanetLib.getMaterial foundry m in
      require (negb (currentAmount <? requiredAmount * 1000)) InsufficientMaterialOnPlanet;;
      checkSufficient foundry expectedMaterials' expectedAmounts' craftingMultiplier
  | _, _ => Ok tt
  end.

Definition _validateModuleRecipe (foundry : Planet) (moduleType : Z)
    (materials : list MaterialType) (amounts : list Z) (craftingMultiplier : Z)
    : Result unit :=
  require (bool_decide (length materials = length amounts)) InvalidMaterialAmount;;
  require (negb (bool_decide (length materials = 0%nat))) MissingRequiredMaterials;;
  expected ← expectedRecipe moduleType;
  let expectedMaterials := expected.1 in
  let expectedAmounts := expected.2 in
  require (bool_decide (length materials = length expectedMaterials))
    MissingRequiredMaterials;;
  provided ← storeProvided materials amounts (fun _ => false) (fun _ => 0);
  let materialFound := provided.1 in
  let materialAmounts := provided.2 in
  checkExpected expectedMaterials expectedAmounts materialFound materialAmounts
    craftingMultiplier;;
  let expectedMaterialCount := length expectedMaterials in
  require (negb (bool_decide (expectedMaterialCount < length materials)%nat))
    InvalidMaterialAmount;;
  checkSufficient foundry expectedMaterials expectedAmounts craftingMultiplier.

Definition _getCraftingMMultiplier (craftingCount : Z) : Z :=
  if craftingCount =? 0 then 100
  else if craftingCount =? 1 then 150
  else if craftingCount =? 2 then 225
  else 100.

Definition _validateModuleCrafting (st : World) (foundry : Planet) (executor : Z)
    (moduleType : Z) (materials : list MaterialType) (amounts : list Z) : Result unit :=
  require (bool_decide (owner foundry = executor)) NotPlanetOwner;;
  require (bool_decide (planetType foundry = FOUNDRY)) InvalidPlanetType;;
  require (negb (level foundry <? 4)) PlanetLevelTooLow;;
  require (negb ((moduleType <? 1) || (moduleType >? 4))) InvalidModuleType;;
  let craftingData := FoundryCraftingCount_get st (planetHash foundry) in
  let upgradeLevel := FoundryUpgrade_getBranchLevel st (planetHash foundry) in
  maxCrafts ← checked_add 8 1 upgradeLevel;
  require (negb (count craftingData >=? maxCrafts)) FoundryCraftingLimitReached;;
  let craftingMultiplier := _getCraftingMMultiplier (count craftingData) in
  _validateModuleRecipe foundry moduleType materials amounts craftingMultiplier.

Definition _calculateModuleRarity (planetLevel seed : Z) : Result ArtifactRarity :=
  let lvlBonusSeed := Z.land seed 0xfff000 in
  planetLevel ←
    (if lvlBonusSeed <? 0x40000 then checked_add 256 planetLevel 2
     else if lvlBonusSeed <? 0x100000 then checked_add 256 planetLevel 1
     else Ok planetLevel);
  if planetLevel <=? 1 then Ok COMMON
  else if planetLevel <=? 3 then Ok RARE
  else if planetLevel <=? 5 then Ok EPIC
  else if planetLevel <=? 7 then Ok LEGENDARY
  else Ok MYTHIC.

Definition _getRarityMultiplier (rarity : ArtifactRarity) : Z :=
  match rarity with
  | COMMON => 100
  | RARE => 120
  | EPIC => 150
  | LEGENDARY => 200
  | MYTHIC => 300
  | RARITY_UNKNOWN => 100
  end.

Definition _getBiomeBonus (biome : Z) : Z :=
  let b := biome in
  if (1 <=? b) && (b <=? 3) then 1
  else if (4 <=? b) && (b <=? 6) then 2
  else if (7 <=? b) && (b <=? 9) then 4
  else if b =? 10 then 8
  else 0.

Definition _getModuleRoleAttackBonus (moduleType : Z) : Z :=
  if moduleType =? 1 then 0
  else if moduleType =? 2 then 8
  else if moduleType =? 3 then 0
  else if moduleType =? 4 then 0
  else 0.

Definition _getModuleRoleDefenseBonus (moduleType : Z) : Z :=
  if moduleType =? 1 then 0
  else if moduleType =? 2 then 0
  else if moduleType =? 3 then 8
  else if moduleType =? 4 then 10
  else 0.

Definition _getModuleRoleSpeedBonus (moduleType : Z) : Z :=
  if moduleType =? 1 then 8
  else if moduleType =? 2 then 0
  else if moduleType =? 3 then 0
  else if moduleType =? 4 then 0
  else 0.

Definition _getModuleRoleRangeBonus (moduleType : Z) : Z :=
  if moduleType =? 1 then 3
  else if moduleType =? 2 then 5
  else if moduleType =? 3 then 0
  else if moduleType =? 4 then 0
  else 0.

(** In the four functions below the operands are at most [8 + 15] and [300]:
    the [uint16] sum and product cannot overflow.  [/] is Solidity's integer
    division, which truncates. *)

Definition _calculateAttackBonus (biome : Z) (rarity : ArtifactRarity) (moduleType : Z) : Z :=
  let biomeBonus := _getBiomeBonus biome in
  let roleBonus := _getModuleRoleAttackBonus moduleType in
  let rarityMultiplier := _getRarityMultiplier rarity in
  if roleBonus =? 0 then 0
  else
    let totalBonus := biomeBonus + roleBonus in
    (totalBonus * rarityMultiplier) / 400.

Definition _calculateDefenseBonus (biome : Z) (rarity : ArtifactRarity) (moduleType : Z) : Z :=
  let biomeBonus := _getBiomeBonus biome in
  let roleBonus := _getModuleRoleDefenseBonus moduleType in
  let rarityMultiplier := _getRarityMultiplier rarity in
  if roleBonus =? 0 then 0
  else
    let totalBonus := biomeBonus + roleBonus in
    (totalBonus * rarityMultiplier) / 100.

Definition _calculateSpeedBonus (biome : Z) (rarity : ArtifactRarity) (moduleType : Z) : Z :=
  let biomeBonus := _getBiomeBonus biome in
  let roleBonus := _getModuleRoleSpeedBonus moduleType in
  let rarityMultiplier := _getRarityMultiplier rarity in
  if roleBonus =? 0 then 0
  else
    let totalBonus := biomeBonus + roleBonus in
    (totalBonus * rarityMultiplier) / 100.

Definition _calculateRangeBonus (biome : Z) (rarity : ArtifactRarity) (moduleType : Z) : Z :=
  let biomeBonus := _getBiomeBonus biome in
  let roleBonus := _getModuleRoleRangeBonus moduleType in
  let rarityMultiplier := _getRarityMultiplier rarity in
  if roleBonus =? 0 then 0
  else
    let totalBonus := biomeBonus + roleBonus in
    (totalBonus * rarityMultiplier) / 100.

Definition _calculateBiomeFromPlanet (k : Keccak) (st : World) (planet : Planet) : Result Z :=
  if spaceType planet =? DEAD_SPACE then Ok CORRUPTED
  else
    let biomeBase := keccakBiome k (planetHash planet) (perlin planet) mod 1000 in
    res ← checked_mul 8 (spaceType planet) 3;
    let config := PlanetBiomeConfig st in
    res ←
      (if biomeBase <? threshold1 config then checked_sub res 2
       else if biomeBase <? threshold2 config then checked_sub res 1
       else Ok res);
    let res := if res >? Biome_max then Biome_max else res in
    Ok res.

(** The loop "Consume materials" of [_executeCrafting].  The amounts passed
    validation, so [requiredAmount * 1000] is far below [2^256]; the
    subtraction is checked. *)
Fixpoint consumeMaterials (foundry : Planet) (materials : list MaterialType)
    (amounts : list Z) : Result Planet :=
  match materials, amounts with
  | m :: materials', a :: amounts' =>
      let currentAmount := PlanetLib.getMaterial foundry m in
      let requiredAmount := a in
      v ← checked_sub currentAmount (requiredAmount * 1000);
      consumeMaterials (PlanetLib.setMaterial foundry m v) materials' amounts'
  | _, _ => Ok foundry
  end.

(** [newId] is the id of the artifact that [ArtifactLib.NewModuleArtifact]
    (libraries/Artifact.sol, not among the sources) returns. *)
Definition _executeCrafting (k : Keccak) (tx : Tx) (newId : Z) (st : World)
    (foundry : Planet) (executor : Z) (moduleType : Z)
    (materials : list MaterialType) (amounts : list Z) (biome : Z) : Result World :=
  foundry ← consumeMaterials foundry materials amounts;
  let craftingData := FoundryCraftingCount_get st (planetHash foundry) in
  rarity ← _calculateModuleRarity (level foundry)
             (keccakSeed k (blockTimestamp tx) executor (planetHash foundry));
  calculatedBiome ← _calculateBiomeFromPlanet k st foundry;
  let biome :=
    if (biome =? 0) || (biome >? Biome_max) then calculatedBiome else biome in
  let artifactId := newId mod 2 ^ 32 in
  let st :=
    set_CraftedModules
      (<[artifactId :=
           mkCraftedModulesData moduleType biome rarity (blockTimestamp tx mod 2 ^ 64)
             executor]> (CraftedModules st)) st in
  let st :=
    set_ModuleBonus
      (<[artifactId :=
           mkBonus (_calculateAttackBonus biome rarity moduleType)
             (_calculateDefenseBonus biome rarity moduleType)
             (_calculateSpeedBonus biome rarity moduleType)
             (_calculateRangeBonus biome rarity moduleType)]> (ModuleBonus st)) st in
  let st := PlanetLib.writeArtifact artifactId 23 rarity st in
  foundry ← PlanetLib.pushArtifact foundry newId;
  let st := PlanetLib.writeToStore foundry st in
  newCount ← checked_add 8 (count craftingData) 1;
  let st :=
    set_FoundryCraftingCount
      (<[planetHash foundry :=
           mkFoundryCraftingCountData newCount (blockTimestamp tx mod 2 ^ 64)]>
         (FoundryCraftingCount st)) st in
  Ok (set_Counter (newId mod 2 ^ 24) st).

Definition _processModuleCrafting (k : Keccak) (tx : Tx) (newId : Z) (st : World)
    (foundryHash : Z) (moduleType : Z) (materials : list MaterialType) (amounts : list Z)
    (biome : Z) : Result World :=
  foundry ← PlanetLib.readInitedPlanet st foundryHash;
  let executor := msgSender tx in
  _validateModuleCrafting st foundry executor moduleType materials amounts;;
  _executeCrafting k tx newId st foundry executor moduleType materials amounts biome.

(** The entry point: the [Biome biome] parameter is decoded first.  The
    modifiers and the statistics counters of [_updateStats] belong to
    BaseSystem and the statistics tables, outside the tables modelled here. *)
Definition craftModule (k : Keccak) (tx : Tx) (newId : Z) (st : World)
    (foundryHash : Z) (moduleType : Z) (materials : list MaterialType) (amounts : list Z)
    (biome : Z) : Result World :=
  biome ← abi_decode_Biome biome;
  _processModuleCrafting k tx newId st foundryHash moduleType materials amounts biome.

(** The two public getters. *)
Definition getFoundryMCraftingCount (st : World) (foundryHash : Z) : Z * Z :=
  let data := FoundryCraftingCount_get st foundryHash in
  (count data, lastCraftTime data).

Definition getCraftingMMultiplier (st : World) (foundryHash : Z) : Z :=
  let data := FoundryCraftingCount_get st foundryHash in
  _getCraftingMMultiplier (count data).

End ModuleCraftingSystem.

(** ** FoundryCraftingSystem *)

Module FoundryCraftingSystem.

(** The recipe table at the head of [_validateRecipe]:
    [expectedMaterials] and [expectedAmounts]. *)
Definition expectedRecipe (spaceshipType : Z) : Result (list MaterialType * list Z) :=
  if spaceshipType =? 1 then Ok ([WINDSTEEL; AURORIUM], [100; 50])
  else if spaceshipType =? 2 then Ok ([PYROSTEEL; SCRAPIUM], [150; 100])
  else if spaceshipType =? 3 then Ok ([BLACKALLOY; CORRUPTED_CRYSTAL], [200; 100])
  else if spaceshipType =? 4 then Ok ([LIVING_WOOD; CRYOSTONE], [200; 150])
  else Revert InvalidSpaceshipType.

(** The loop "Store provided materials": [materialFound] and
    [materialAmounts], indexed by the material. *)
Fixpoint storeProvided (materials : list MaterialType) (amounts : list Z)
    (materialFound : MaterialType -> bool) (materialAmounts : MaterialType -> Z)
    : Result ((MaterialType -> bool) * (MaterialType -> Z)) :=
  match materials, amounts with
  | m :: materials', a :: amounts' =>
      let matType := MaterialType_uint8 m in
      require (negb (matType >? 12)) InvalidMaterialType;;
      require (negb (materialFound m)) InvalidMaterialAmount;;
      storeProvided materials' amounts'
        (fun x => if decide (x = m) then true else materialFound x)
        (fun x => if decide (x = m) then a else materialAmounts x)
  | _, _ => Ok (materialFound, materialAmounts)
  end.

(** The loop "Validate all expected materials are present with correct
    amounts", with its tolerance of one unit. *)
Fixpoint checkExpected (expectedMaterials : list MaterialType) (expectedAmounts : list Z)
    (materialFound : MaterialType -> bool) (materialAmounts : MaterialType -> Z)
    (craftingMultiplier : Z) : Result unit :=
  match expectedMaterials, expectedAmounts with
  | m :: expectedMaterials', a :: expectedAmounts' =>
      require (materialFound m) MissingRequiredMaterials;;
      let expectedAmountWithMultiplier := (a * craftingMultiplier) / 100 in
      let providedAmount := materialAmounts m in
      require (negb ((providedAmount <? expectedAmountWithMultiplier)
                     || (providedAmount >? expectedAmountWithMultiplier + 1)))
              InvalidMaterialAmount;;
      checkExpected expectedMaterials' expectedAmounts' materialFound materialAmounts
        craftingMultiplier
  | _, _ => Ok tt
  end.

(** The loop "Validate foundry has sufficient materials". *)
Fixpoint checkSufficient (foundry : Planet) (expectedMaterials : list MaterialType)
    (expectedAmounts : list Z) (craftingMultiplier : Z) : Result unit :=
  match expectedMaterials, expectedAmounts with
  | m :: expectedMaterials', a :: expectedAmounts' =>
      let requiredAmount := (a * craftingMultiplier) / 100 in
      let currentAmount := PlanetLib.getMaterial foundry m in
      require (negb (currentAmount <? requiredAmount * 1000)) InsufficientMaterialOnPlanet;;
      checkSufficient foundry expectedMaterials' expectedAmounts' craftingMultiplier
  | _, _ => Ok tt
  end.

Definition _validateRecipe (foundry : Planet) (spaceshipType : Z)
    (materials : list MaterialType) (amounts : list Z) (craftingMultiplier : Z)
    : Result unit :=
  require (bool_decide (length materials = length amounts)) InvalidMaterialAmount;;
  require (negb (bool_decide (length materials = 0%nat))) MissingRequiredMaterials;;
  expected ← expectedRecipe spaceshipType;
  let expectedMaterials := expected.1 in
  let expectedAmounts := expected.2 in
  require (bool_decide (length materials = length expectedMaterials))
    MissingRequiredMaterials;;
  provided ← storeProvided materials amounts (fun _ => false) (fun _ => 0);
  let materialFound := provided.1 in
  let materialAmounts := provided.2 in
  checkExpected expectedMaterials expectedAmounts materialFound materialAmounts
    craftingMultiplier;;
  let expectedMaterialCount := length expectedMaterials in
  require (negb (bool_decide (expectedMaterialCount < length materials)%nat))
    InvalidMaterialAmount;;
  checkSufficient foundry expectedMaterials expectedAmounts craftingMultiplier.

Definition _getCraftingMultiplier (craftingCount : Z) : Z :=
  if craftingCount =? 0 then 100
  else if craftingCount =? 1 then 150
  else if craftingCount =? 2 then 225
  else 100.

Definition _validateCrafting (st : World) (foundry : Planet) (executor : Z)
    (spaceshipType : Z) (materials : list MaterialType) (amounts : list Z) : Result unit :=
  require (bool_decide (owner foundry = executor)) NotPlanetOwner;;
  require (bool_decide (planetType foundry = FOUNDRY)) InvalidPlanetType;;
  require (negb (level foundry <? 4)) PlanetLevelTooLow;;
  require (negb ((spaceshipType <? 1) || (spaceshipType >? 4))) InvalidSpaceshipType;;
  let craftingData := FoundryCraftingCount_get st (planetHash foundry) in
  let upgradeLevel := FoundryUpgrade_getBranchLevel st (planetHash foundry) in
  maxCrafts ← checked_add 8 1 upgradeLevel;
  require (negb (count craftingData >=? maxCrafts)) FoundryCraftingLimitReached;;
  let craftingMultiplier := _getCraftingMultiplier (count craftingData) in
  _validateRecipe foundry spaceshipType materials amounts craftingMultiplier.

Definition _calculateSpaceshipRarity (planetLevel seed : Z) : Result ArtifactRarity :=
  let lvlBonusSeed := Z.land seed 0xfff000 in
  planetLevel ←
    (if lvlBonusSeed <? 0x40000 then checked_add 256 planetLevel 2
     else if lvlBonusSeed <? 0x100000 then checked_add 256 planetLevel 1
     else Ok planetLevel);
  if planetLevel <=? 1 then Ok COMMON
  else if planetLevel <=? 3 then Ok RARE
  else if planetLevel <=? 5 then Ok EPIC
  else if planetLevel <=? 7 then Ok LEGENDARY
  else Ok MYTHIC.

Definition _getRarityMultiplier (rarity : ArtifactRarity) : Z :=
  match rarity with
  | COMMON => 100
  | RARE => 120
  | EPIC => 150
  | LEGENDARY => 200
  | MYTHIC => 300
  | RARITY_UNKNOWN => 100
  end.

Definition _getBiomeBonus (biome : Z) : Z :=
  let b := biome in
  if (1 <=? b) && (b <=? 3) then 1
  else if (4 <=? b) && (b <=? 6) then 2
  else if (7 <=? b) && (b <=? 9) then 4
  else if b =? 10 then 8
  else 0.

Definition _getSpaceshipRoleAttackBonus (spaceshipType : Z) : Z :=
  if spaceshipType =? 1 then 0
  else if spaceshipType =? 2 then 5
  else if spaceshipType =? 3 then 10
  else if spaceshipType =? 4 then 5
  else 0.

Definition _getSpaceshipRoleDefenseBonus (spaceshipType : Z) : Z :=
  if spaceshipType =? 1 then 0
  else if spaceshipType =? 2 then 5
  else if spaceshipType =? 3 then 10
  else if spaceshipType =? 4 then 15
  else 0.

Definition _getSpaceshipRoleSpeedBonus (spaceshipType : Z) : Z :=
  if spaceshipType =? 1 then 10
  else if spaceshipType =? 2 then 0
  else if spaceshipType =? 3 then 0
  else if spaceshipType =? 4 then 0
  else 0.

Definition _getSpaceshipRoleRangeBonus (spaceshipType : Z) : Z :=
  if spaceshipType =? 1 then 5
  else if spaceshipType =? 2 then 5
  else if spaceshipType =? 3 then 0
  else if spaceshipType =? 4 then 3
  else 0.

(** In the four functions below the operands are at most [8 + 15] and [300]:
    the [uint16] sum and product cannot overflow.  [/] is Solidity's integer
    division, which truncates. *)

Definition _calculateAttackBonus (biome : Z) (rarity : ArtifactRarity) (spaceshipType : Z) : Z :=
  let biomeBonus := _getBiomeBonus biome in
  let roleBonus := _getSpaceshipRoleAttackBonus spaceshipType in
  let rarityMultiplier := _getRarityMultiplier rarity in
  if roleBonus =? 0 then 0
  else
    let totalBonus := biomeBonus + roleBonus in
    (totalBonus * rarityMultiplier) / 100.

Definition _calculateDefenseBonus (biome : Z) (rarity : ArtifactRarity) (spaceshipType : Z) : Z :=
  let biomeBonus := _getBiomeBonus biome in
  let roleBonus := _getSpaceshipRoleDefenseBonus spaceshipType in
  let rarityMultiplier := _getRarityMultiplier rarity in
  if roleBonus =? 0 then 0
  else
    let totalBonus := biomeBonus + roleBonus in
    (totalBonus * rarityMultiplier) / 100.

Definition _calculateSpeedBonus (biome : Z) (rarity : ArtifactRarity) (spaceshipType : Z) : Z :=
  let biomeBonus := _getBiomeBonus biome in
  let roleBonus := _getSpaceshipRoleSpeedBonus spaceshipType in
  let rarityMultiplier := _getRarityMultiplier rarity in
  if roleBonus =? 0 then 0
  else
    let totalBonus := biomeBonus + roleBonus in
    (totalBonus * rarityMultiplier) / 100.

Definition _calculateRangeBonus (biome : Z) (rarity : ArtifactRarity) (spaceshipType : Z) : Z :=
  let biomeBonus := _getBiomeBonus biome in
  let roleBonus := _getSpaceshipRoleRangeBonus spaceshipType in
  let rarityMultiplier := _getRarityMultiplier rarity in
  if roleBonus =? 0 then 0
  else
    let totalBonus := biomeBonus + roleBonus in
    (totalBonus * rarityMultiplier) / 100.

Definition _calculateBiomeFromPlanet (k : Keccak) (st : World) (planet : Planet) : Result Z :=
  if spaceType planet =? DEAD_SPACE then Ok CORRUPTED
  else
    let biomeBase := keccakBiome k (planetHash planet) (perlin planet) mod 1000 in
    res ← checked_mul 8 (spaceType planet) 3;
    let config := PlanetBiomeConfig st in
    res ←
      (if biomeBase <? threshold1 config then checked_sub res 2
       else if biomeBase <? threshold2 config then checked_sub res 1
       else Ok res);
    let res := if res >? Biome_max then Biome_max else res in
    Ok res.

(** The loop "Consume materials" of [_executeCrafting].  The amounts passed
    validation, so [requiredAmount * 1000] is far below [2^256]; the
    subtraction is checked. *)
Fixpoint consumeMaterials (foundry : Planet) (materials : list MaterialType)
    (amounts : list Z) : Result Planet :=
  match materials, amounts with
  | m :: materials', a :: amounts' =>
      let currentAmount := PlanetLib.getMaterial foundry m in
      let requiredAmount := a in
      v ← checked_sub currentAmount (requiredAmount * 1000);
      consumeMaterials (PlanetLib.setMaterial foundry m v) materials' amounts'
  | _, _ => Ok foundry
  end.

(** [newId] is the id of the artifact that [ArtifactLib.NewSpaceshipArtifact]
    (libraries/Artifact.sol, not among the sources) returns. *)
Definition _executeCrafting (k : Keccak) (tx : Tx) (newId : Z) (st : World)
    (foundry : Planet) (executor : Z) (spaceshipType : Z)
    (materials : list MaterialType) (amounts : list Z) (biome : Z) : Result World :=
  foundry ← consumeMaterials foundry materials amounts;
  let craftingData := FoundryCraftingCount_get st (planetHash foundry) in
  rarity ← _calculateSpaceshipRarity (level foundry)
             (keccakSeed k (blockTimestamp tx) executor (planetHash foundry));
  calculatedBiome ← _calculateBiomeFromPlanet k st foundry;
  let biome :=
    if (biome =? 0) || (biome >? Biome_max) then calculatedBiome else biome in
  let artifactId := newId mod 2 ^ 32 in
  let st :=
    set_CraftedSpaceship
      (<[artifactId :=
           mkCraftedSpaceshipData spaceshipType biome rarity
             (blockTimestamp tx mod 2 ^ 64) 0 executor]> (CraftedSpaceship st)) st in
  let st :=
    set_SpaceshipBonus
      (<[artifactId :=
           mkBonus (_calculateAttackBonus biome rarity spaceshipType)
             (_calculateDefenseBonus biome rarity spaceshipType)
             (_calculateSpeedBonus biome rarity spaceshipType)
             (_calculateRangeBonus biome rarity spaceshipType)]> (SpaceshipBonus st)) st in
  let st := PlanetLib.writeArtifact artifactId 3 rarity st in
  foundry ← PlanetLib.pushArtifact foundry newId;
  let st := PlanetLib.writeToStore foundry st in
  newCount ← checked_add 8 (count craftingData) 1;
  let st :=
    set_FoundryCraftingCount
      (<[planetHash foundry :=
           mkFoundryCraftingCountData newCount (blockTimestamp tx mod 2 ^ 64)]>
         (FoundryCraftingCount st)) st in
  Ok (set_Counter (newId mod 2 ^ 24) st).

Definition _processSpaceshipCrafting (k : Keccak) (tx : Tx) (newId : Z) (st : World)
    (foundryHash : Z) (spaceshipType : Z) (materials : list MaterialType) (amounts : list Z)
    (biome : Z) : Result World :=
  foundry ← PlanetLib.readInitedPlanet st foundryHash;
  let executor := msgSender tx in
  _validateCrafting st foundry executor spaceshipType materials amounts;;
  _executeCrafting k tx newId st foundry executor spaceshipType materials amounts biome.

(** The entry point: the [Biome biome] parameter is decoded first.  The
    modifiers and the statistics counters of [_updateStats] belong to
    BaseSystem and the statistics tables, outside the tables modelled here. *)
Definition craftSpaceship (k : Keccak) (tx : Tx) (newId : Z) (st : World)
    (foundryHash : Z) (spaceshipType : Z) (materials : list MaterialType) (amounts : list Z)
    (biome : Z) : Result World :=
  biome ← abi_decode_Biome biome;
  _processSpaceshipCrafting k tx newId st foundryHash spaceshipType materials amounts biome.

(** [a << n] on a [uint256]: a shift is not checked, the bits moved past the
    top are dropped. *)
Definition shl256 (a n : Z) : Z := Z.shiftl a n mod 2 ^ 256.

(** [keccakTime t] is [uint256(keccak256(abi.encodePacked(block.timestamp)))].
    The function is internal and, with the call of [_mintSpaceshipNFT]
    commented out in [_executeCrafting], has no caller yet. *)
Definition _generateSpaceshipTokenId (keccakTime : Z -> Z) (tx : Tx)
    (spaceshipId spaceshipType : Z) : Z :=
  let round := keccakTime (blockTimestamp tx) mod 256 in
  let timestamp := blockTimestamp tx in
  Z.lor
    (Z.lor (Z.lor (shl256 round 248) (shl256 spaceshipType 240))
       (shl256 spaceshipId 224))
    timestamp.

(** The mint itself is commented out in the source: the function returns the
    token id and changes nothing. *)
Definition _mintSpaceshipNFT (keccakTime : Z -> Z) (tx : Tx) (to spaceshipId : Z)
    (spaceshipType biome : Z) (rarity : ArtifactRarity) : Z :=
  let tokenId := _generateSpaceshipTokenId keccakTime tx spaceshipId spaceshipType in
  tokenId.

(** The two public getters. *)
Definition getFoundryCraftingCount (st : World) (foundryHash : Z) : Z * Z :=
  let data := FoundryCraftingCount_get st foundryHash in
  (count data, lastCraftTime data).

Definition getCraftingMultiplier (st : World) (foundryHash : Z) : Z :=
  let data := FoundryCraftingCount_get st foundryHash in
  _getCraftingMultiplier (count data).

End FoundryCraftingSystem.

(** ** FoundryUpgradeSystem *)

Module FoundryUpgradeSystem.

Definition BASE_UPGRADE_FEE_LEVEL_1 : Z := 50000000000000.
Definition BASE_UPGRADE_FEE_LEVEL_2 : Z := 100000000000000.

Definition _validateUpgrade (st : World) (foundry : Planet) (executor foundryHash : Z)
    : Result unit :=
  require (bool_decide (owner foundry = executor)) NotPlanetOwner;;
  require (bool_decide (planetType foundry = FOUNDRY)) InvalidPlanetType;;
  require (negb (level foundry <? 4)) PlanetLevelTooLow;;
  let currentLevel := FoundryUpgrade_getBranchLevel st foundryHash in
  require (negb (currentLevel >=? 2)) FoundryAtMaxUpgradeLevel.

Definition _calculateBiomeFromPlanet (k : Keccak) (st : World) (planet : Planet) : Result Z :=
  if spaceType planet =? DEAD_SPACE then Ok CORRUPTED
  else
    let biomeBase := keccakBiome k (planetHash planet) (perlin planet) mod 1000 in
    res ← checked_mul 8 (spaceType planet) 3;
    let config := PlanetBiomeConfig st in
    res ←
      (if biomeBase <? threshold1 config then checked_sub res 2
       else if biomeBase <? threshold2 config then checked_sub res 1
       else Ok res);
    let res := if res >? Biome_max then Biome_max else res in
    Ok res.

Definition _getBiomeMultiplier (biome : Z) : Z :=
  let b := biome in
  if (1 <=? b) && (b <=? 3) then 100
  else if (4 <=? b) && (b <=? 6) then 150
  else if (7 <=? b) && (b <=? 9) then 200
  else if b =? 10 then 250
  else 100.

Definition _getRarityMultiplier (rarity : ArtifactRarity) : Z :=
  match rarity with
  | COMMON => 100
  | RARE => 120
  | EPIC => 150
  | LEGENDARY => 200
  | MYTHIC => 300
  | RARITY_UNKNOWN => 100
  end.

(** The loop of [_getHighestArtifactRarityMultiplier] over the inventory. *)
Fixpoint highestRarity (st : World) (ids : list Z) (maxRarity : Z) : Result Z :=
  match ids with
  | [] => Ok maxRarity
  | artifactId :: ids' =>
      artifact ← PlanetLib.mustGetArtifact st artifactId;
      let rarityMult := _getRarityMultiplier (artifact_rarity artifact) in
      highestRarity st ids' (if rarityMult >? maxRarity then rarityMult else maxRarity)
  end.

Definition _getHighestArtifactRarityMultiplier (st : World) (foundry : Planet) : Result Z :=
  highestRarity st (artifactStorage foundry) 100.

(** The fee is at most [10^14 * 250 * 300]: its product cannot overflow. *)
Definition upgradeFoundry (k : Keccak) (tx : Tx) (st : World) (foundryHash : Z)
    : Result World :=
  foundry ← PlanetLib.readInitedPlanet st foundryHash;
  let executor := msgSender tx in
  _validateUpgrade st foundry executor foundryHash;;
  let currentLevel := FoundryUpgrade_getBranchLevel st foundryHash in
  let baseFee :=
    if currentLevel =? 0 then BASE_UPGRADE_FEE_LEVEL_1 else BASE_UPGRADE_FEE_LEVEL_2 in
  biome ← _calculateBiomeFromPlanet k st foundry;
  let biomeMultiplier := _getBiomeMultiplier biome in
  rarityMultiplier ← _getHighestArtifactRarityMultiplier st foundry;
  let totalFee := (baseFee * biomeMultiplier * rarityMultiplier) / 10000 in
  totalRequired ← checked_add 256 (EntryFee st) totalFee;
  require (negb (msgValue tx <? totalRequired))
    (InsufficientFoundryUpgradeFee totalRequired (msgValue tx));;
  revenue ← checked_add 256 (RevenueStats st) (msgValue tx);
  let st := set_RevenueStats revenue st in
  newLevel ← checked_add 8 currentLevel 1;
  let st := set_FoundryUpgrade (<[foundryHash := newLevel]> (FoundryUpgrade st)) st in
  Ok (PlanetLib.writeToStore foundry st).

Definition getFoundryUpgradeLevel (st : World) (foundryHash : Z) : Z :=
  FoundryUpgrade_getBranchLevel st foundryHash.

End FoundryUpgradeSystem.

(** ** SpaceshipModuleSystem *)

Module SpaceshipModuleSystem.

Definition ENGINES_SLOT : Z := 1.
Definition WEAPONS_SLOT : Z := 2.
Definition HULL_SLOT : Z := 3.
Definition SHIELD_SLOT : Z := 4.

Definition _getSlotIndexForSlotType (slotType : Z) : Result Z :=
  if slotType =? ENGINES_SLOT then Ok 1
  else if slotType =? WEAPONS_SLOT then Ok 2
  else if (slotType =? HULL_SLOT) || (slotType =? SHIELD_SLOT) then Ok 3
  else Revert InvalidModuleType.

Definition _getSlotTypeForModuleType (moduleType : Z) : Result Z :=
  if moduleType =? 1 then Ok ENGINES_SLOT
  else if moduleType =? 2 then Ok WEAPONS_SLOT
  else if moduleType =? 3 then Ok HULL_SLOT
  else if moduleType =? 4 then Ok SHIELD_SLOT
  else Revert InvalidModuleType.

Definition _getModuleLimit (spaceshipType slotType : Z) : Result Z :=
  if spaceshipType =? 1 then
    if slotType =? ENGINES_SLOT then Ok 1
    else if slotType =? WEAPONS_SLOT then Ok 1
    else if slotType =? HULL_SLOT then Ok 1
    else if slotType =? SHIELD_SLOT then Ok 1
    else Revert InvalidSpaceshipType
  else if spaceshipType =? 2 then
    if slotType =? ENGINES_SLOT then Ok 2
    else if slotType =? WEAPONS_SLOT then Ok 2
    else if slotType =? HULL_SLOT then Ok 2
    else if slotType =? SHIELD_SLOT then Ok 2
    else Revert InvalidSpaceshipType
  else if spaceshipType =? 3 then
    if slotType =? ENGINES_SLOT then Ok 3
    else if slotType =? WEAPONS_SLOT then Ok 4
    else if slotType =? HULL_SLOT then Ok 2
    else if slotType =? SHIELD_SLOT then Ok 2
    else Revert InvalidSpaceshipType
  else if spaceshipType =? 4 then
    if slotType =? ENGINES_SLOT then Ok 4
    else if slotType =? WEAPONS_SLOT then Ok 2
    else if slotType =? HULL_SLOT then Ok 4
    else if slotType =? SHIELD_SLOT then Ok 4
    else Revert InvalidSpaceshipType
  else Revert InvalidSpaceshipType.

Definition _countInstalledModules (st : World) (spaceshipId slotType : Z) : Result Z :=
  let count := 0 in
  slotIndex ← _getSlotIndexForSlotType slotType;
  let slot := SpaceshipSlot_get st spaceshipId slotIndex in
  let count :=
    if (slot_moduleId slot >? 0) && (slot_moduleSlotType slot =? slotType) then 1
    else count in
  Ok count.

Definition _validateInstallModule (st : World) (planet : Planet) (executor : Z)
    (spaceshipId moduleId : Z) : Result unit :=
  require (bool_decide (owner planet = executor)) NotPlanetOwner;;
  let spaceshipPlanetHash := ArtifactOwner_get st spaceshipId in
  require (negb (spaceshipPlanetHash =? 0)) ArtifactNotOnPlanet1;;
  require (spaceshipPlanetHash =? planetHash planet) ArtifactNotOnPlanet1;;
  let spaceshipArtifactData := ArtifactTable_get st spaceshipId in
  require (artifactIndex spaceshipArtifactData =? 3) InvalidSpaceshipArtifact;;
  let modulePlanetHash := ArtifactOwner_get st moduleId in
  require (negb (modulePlanetHash =? 0)) ArtifactNotOnPlanet2;;
  require (modulePlanetHash =? planetHash planet) ArtifactNotOnPlanet2;;
  let moduleArtifactData := ArtifactTable_get st moduleId in
  require (artifactIndex moduleArtifactData =? 23) InvalidModuleArtifact;;
  let installed := SpaceshipModuleInstalled_get st moduleId in
  (if inst_installed installed && (inst_artifactId installed >? 0) then
     require (inst_artifactId installed =? spaceshipId) ModuleAlreadyInstalled
   else Ok tt);;
  let spaceshipData := CraftedSpaceship_get st spaceshipId in
  require (negb (spaceshipType spaceshipData =? 0)) InvalidSpaceshipArtifact;;
  let moduleData := CraftedModules_get st moduleId in
  require (negb (moduleType moduleData =? 0)) InvalidModuleArtifact;;
  slotType ← _getSlotTypeForModuleType (moduleType moduleData);
  slotIndex ← _getSlotIndexForSlotType slotType;
  let slot := SpaceshipSlot_get st spaceshipId slotIndex in
  if slot_moduleId slot >? 0 then
    if slot_moduleId slot =? moduleId then Ok tt
    else if slot_moduleSlotType slot =? slotType then
      currentCount ← _countInstalledModules st spaceshipId slotType;
      limit ← _getModuleLimit (spaceshipType spaceshipData) slotType;
      require (negb (currentCount >=? limit)) ModuleSlotFull
    else Ok tt
  else Ok tt.

(** The four sums are checked [uint16] additions. *)
Definition _executeInstallModule (st : World) (spaceshipId moduleId : Z) (planet : Planet)
    : Result World :=
  let moduleData := CraftedModules_get st moduleId in
  slotType ← _getSlotTypeForModuleType (moduleType moduleData);
  slotIndex ← _getSlotIndexForSlotType slotType;
  let st :=
    set_SpaceshipSlot
      (<[(spaceshipId, slotIndex) := mkSpaceshipSlotData slotType moduleId]>
         (SpaceshipSlot st)) st in
  let st :=
    set_SpaceshipModuleInstalled
      (<[moduleId := mkSpaceshipModuleInstalledData spaceshipId slotType true]>
         (SpaceshipModuleInstalled st)) st in
  let spaceshipBonuses := SpaceshipBonus_get st spaceshipId in
  let newModuleBonuses := ModuleBonus_get st moduleId in
  newAttackBonus ←
    checked_add 16 (attackBonus spaceshipBonuses) (attackBonus newModuleBonuses);
  newDefenseBonus ←
    checked_add 16 (defenseBonus spaceshipBonuses) (defenseBonus newModuleBonuses);
  newSpeedBonus ←
    checked_add 16 (speedBonus spaceshipBonuses) (speedBonus newModuleBonuses);
  newRangeBonus ←
    checked_add 16 (rangeBonus spaceshipBonuses) (rangeBonus newModuleBonuses);
  let st :=
    set_SpaceshipBonus
      (<[spaceshipId :=
           mkBonus newAttackBonus newDefenseBonus newSpeedBonus newRangeBonus]>
         (SpaceshipBonus st)) st in
  planet ← PlanetLib.removeArtifact planet moduleId;
  let st := PlanetLib.writeToStore planet st in
  Ok (set_ArtifactOwner (delete moduleId (ArtifactOwner st)) st).

Definition _processInstallModule (tx : Tx) (st : World) (spaceshipId moduleId planetHash : Z)
    : Result World :=
  planet ← PlanetLib.readInitedPlanet st planetHash;
  let executor := msgSender tx in
  _validateInstallModule st planet executor spaceshipId moduleId;;
  _executeInstallModule st spaceshipId moduleId planet.

Definition installModule := _processInstallModule.

Definition _validateUninstallModule (st : World) (planet : Planet) (executor : Z)
    (spaceshipId moduleId : Z) : Result unit :=
  require (bool_decide (owner planet = executor)) NotPlanetOwner;;
  require (PlanetLib.Has planet spaceshipId) ArtifactNotOnPlanet3;;
  let installed := SpaceshipModuleInstalled_get st moduleId in
  require (inst_artifactId installed =? spaceshipId) ModuleNotInstalled.

Definition _executeUninstallModule (st : World) (spaceshipId moduleId : Z) (planet : Planet)
    : Result World :=
  let installed := SpaceshipModuleInstalled_get st moduleId in
  let slotType := inst_moduleSlotType installed in
  let spaceshipBonuses := SpaceshipBonus_get st spaceshipId in
  let moduleBonuses := ModuleBonus_get st moduleId in
  let newAttackBonus :=
    if attackBonus spaceshipBonuses >=? attackBonus moduleBonuses
    then attackBonus spaceshipBonuses - attackBonus moduleBonuses else 0 in
  let newDefenseBonus :=
    if defenseBonus spaceshipBonuses >=? defenseBonus moduleBonuses
    then defenseBonus spaceshipBonuses - defenseBonus moduleBonuses else 0 in
  let newSpeedBonus :=
    if speedBonus spaceshipBonuses >=? speedBonus moduleBonuses
    then speedBonus spaceshipBonuses - speedBonus moduleBonuses else 0 in
  let newRangeBonus :=
    if rangeBonus spaceshipBonuses >=? rangeBonus moduleBonuses
    then rangeBonus spaceshipBonuses - rangeBonus moduleBonuses else 0 in
  let st :=
    set_SpaceshipBonus
      (<[spaceshipId :=
           mkBonus newAttackBonus newDefenseBonus newSpeedBonus newRangeBonus]>
         (SpaceshipBonus st)) st in
  slotIndex ← _getSlotIndexForSlotType slotType;
  let st :=
    set_SpaceshipSlot
      (<[(spaceshipId, slotIndex) := mkSpaceshipSlotData slotType 0]>
         (SpaceshipSlot st)) st in
  let st :=
    set_SpaceshipModuleInstalled
      (<[moduleId := mkSpaceshipModuleInstalledData 0 0 false]>
         (SpaceshipModuleInstalled st)) st in
  require (PlanetLib.hasArtifactSlot planet) ArtifactStorageFull;;
  planet ← PlanetLib.pushArtifact planet moduleId;
  Ok (PlanetLib.writeToStore planet st).

Definition _processUninstallModule (tx : Tx) (st : World)
    (spaceshipId moduleId planetHash : Z) : Result World :=
  planet ← PlanetLib.readInitedPlanet st planetHash;
  let executor := msgSender tx in
  _validateUninstallModule st planet executor spaceshipId moduleId;;
  _executeUninstallModule st spaceshipId moduleId planet.

Definition uninstallModule := _processUninstallModule.

End SpaceshipModuleSystem.

(** ** The client: the panes and hooks that call the systems *)

(** A JavaScript number is a double.  The numbers the panes compute with are
    integers and quarters far below [2^53], on which the arithmetic of
    doubles is exact, and quotients by 100 of such integers, which the
    rounding to a double moves by less than their distance to the nearest
    half: they are kept as rationals, and [Math.ceil], [Math.floor] and
    [Math.round] (halves up) are those of the rationals. *)
Module JS.

Definition number : Type := QArith_base.Q.
Definition ofZ (z : Z) : number := QArith_base.inject_Z z.
Definition mul (x y : number) : number := QArith_base.Qmult x y.
Definition div (x y : number) : number := QArith_base.Qdiv x y.
Definition Math_ceil (x : number) : Z := Qround.Qceiling x.
Definition Math_floor (x : number) : Z := Qround.Qfloor x.
Definition Math_round (x : number) : Z :=
  Qround.Qfloor (QArith_base.Qplus x (QArith_base.Qmake 1 2)).

End JS.

(** hooks/useFoundryUpgrade.ts.  The component [FoundryUpgrade] of the client
    mirrors the table of the world; a missing row, like a missing hash, gives
    level 0. *)
Module useFoundryUpgrade.

Record FoundryUpgradeData : Type := mkFoundryUpgradeData {
  level : Z;
  maxCrafts : Z
}.

Definition useFoundryUpgradeLevel (st : World) (foundryHash : option Z)
    : FoundryUpgradeData :=
  match foundryHash with
  | None => mkFoundryUpgradeData 0 1
  | Some foundryHash =>
      let level := FoundryUpgrade_getBranchLevel st foundryHash in
      let maxCrafts := 1 + level in
      mkFoundryUpgradeData level maxCrafts
  end.

End useFoundryUpgrade.

(** Frontend/Panes/FoundryUpgradePane.tsx.  An artifact is read for its
    rarity only: the artifacts held by the planet are the list of their
    rarities, as numbers.  The fee is computed on [BigInt]. *)
Module FoundryUpgradePane.

(** What [upgradeCost] returns. *)
Record UpgradeCost : Type := mkUpgradeCost {
  eth : Z;
  biomeMultiplier : Z;
  rarityMultiplier : Z;
  baseFee : Z
}.

Definition getBiomeMultiplier (biome : Z) : Z :=
  let b := biome in
  if (b >=? 1) && (b <=? 3) then 100
  else if (b >=? 4) && (b <=? 6) then 150
  else if (b >=? 7) && (b <=? 9) then 200
  else if b =? 10 then 250
  else 100.

Definition getRarityMultiplier (rarity : Z) : Z :=
  if rarity =? 1 then 100
  else if rarity =? 2 then 120
  else if rarity =? 3 then 150
  else if rarity =? 4 then 200
  else if rarity =? 5 then 300
  else 100.

(** The loop of [getHighestArtifactRarity]. *)
Fixpoint highestFrom (artifacts : list Z) (highest : Z) : Z :=
  match artifacts with
  | [] => highest
  | rarity :: artifacts' =>
      highestFrom artifacts' (if rarity >? highest then rarity else highest)
  end.

Definition getHighestArtifactRarity (artifacts : list Z) : Z :=
  if bool_decide (length artifacts = 0%nat) then 1
  else highestFrom artifacts 1.

Definition canUpgrade (level : Z) : bool := level <? 2.

Definition upgradeCost (level : Z) (planetBiome : Z) (artifacts : list Z) : UpgradeCost :=
  let baseFee := if level =? 0 then 50000000000000 else 10000000000000 in
  let biomeMultiplier := getBiomeMultiplier planetBiome in
  let highestRarity := getHighestArtifactRarity artifacts in
  let rarityMultiplier := getRarityMultiplier highestRarity in
  let totalFee := (baseFee * biomeMultiplier * rarityMultiplier) / 10000 in
  mkUpgradeCost totalFee biomeMultiplier rarityMultiplier baseFee.

End FoundryUpgradePane.

(** Frontend/Panes/ModuleCraftingPane.tsx.  [ModuleType] is the enum of the
    file: Engine = 1, Weapon = 2, Hull = 3, Shield = 4. *)
Module ModuleCraftingPane.

Record MaterialRequirement : Type := mkMaterialRequirement {
  materialType : MaterialType;
  amount : Z;
  currentAmount : Z
}.

(** The display name of a configuration is left out. *)
Record ModuleTypeConfig : Type := mkModuleTypeConfig {
  type : Z;
  baseAttack : Z;
  baseDefense : Z;
  baseSpeed : Z;
  baseRange : Z;
  materialRequirements : list MaterialRequirement
}.

Record ProjectedStats : Type := mkProjectedStats {
  attack : Z;
  defense : Z;
  speed : Z;
  range : Z
}.

(** What [upgradeCost] returns. *)
Record UpgradeCost : Type := mkUpgradeCost {
  eth : Z;
  biomeMultiplier : Z;
  rarityMultiplier : Z;
  baseFee : Z
}.

Definition actualCraftingMultiplier (craftingCount : Z) : JS.number :=
  if craftingCount =? 1 then QArith_base.Qmake 3 2
  else if craftingCount =? 2 then QArith_base.Qmake 9 4
  else JS.ofZ 1.

(** [planet.materials] is the list of the planet's [(materialId,
    materialAmount)] pairs. *)
Definition getMaterialAmount (materials : list (MaterialType * Z))
    (materialType : MaterialType) : Z :=
  match List.find (fun mat => bool_decide (mat.1 = materialType)) materials with
  | None => 0
  | Some material => material.2
  end.

Definition moduleConfigs (craftingCount : Z) (materials : list (MaterialType * Z))
    : list ModuleTypeConfig :=
  let actualCraftingMultiplier := actualCraftingMultiplier craftingCount in
  let requirement (materialType : MaterialType) (base : Z) :=
    mkMaterialRequirement materialType
      (JS.Math_ceil (JS.mul (JS.ofZ base) actualCraftingMultiplier))
      (getMaterialAmount materials materialType) in
  [ mkModuleTypeConfig 1 0 0 8 3 [requirement WINDSTEEL 80; requirement AURORIUM 40];
    mkModuleTypeConfig 2 8 0 0 5 [requirement PYROSTEEL 120; requirement SCRAPIUM 80];
    mkModuleTypeConfig 3 0 8 0 0
      [requirement BLACKALLOY 160; requirement CORRUPTED_CRYSTAL 80];
    mkModuleTypeConfig 4 0 10 0 0 [requirement LIVING_WOOD 160; requirement CRYOSTONE 120] ].

Definition selectedConfig (craftingCount : Z) (materials : list (MaterialType * Z))
    (selectedModuleType : Z) : option ModuleTypeConfig :=
  List.find (fun config => type config =? selectedModuleType)
    (moduleConfigs craftingCount materials).

Definition canCraft (selectedConfig : option ModuleTypeConfig) : bool :=
  match selectedConfig with
  | Some config =>
      forallb (fun req => currentAmount req >=? amount req) (materialRequirements config)
  | None => false
  end.

Definition isCraftingLimitReached (craftingCount maxCrafts : Z) : bool :=
  craftingCount >=? maxCrafts.

(** [planet.planetLevel || 1]: level 0 counts as level 1. *)
Definition predictModuleRarity (selectedConfig : option ModuleTypeConfig)
    (planetLevel : Z) : ArtifactRarity :=
  match selectedConfig with
  | None => COMMON
  | Some _ =>
      let planetLevel := if planetLevel =? 0 then 1 else planetLevel in
      if planetLevel <=? 1 then COMMON
      else if planetLevel <=? 3 then RARE
      else if planetLevel <=? 5 then EPIC
      else if planetLevel <=? 7 then LEGENDARY
      else MYTHIC
  end.

Definition getRarityMultiplier (rarity : ArtifactRarity) : Z :=
  match rarity with
  | COMMON => 100
  | RARE => 120
  | EPIC => 150
  | LEGENDARY => 200
  | MYTHIC => 300
  | RARITY_UNKNOWN => 100
  end.

Definition getBiomeBonus (biome : Z) : Z :=
  let b := biome in
  if (b >=? 1) && (b <=? 3) then 1
  else if (b >=? 4) && (b <=? 6) then 2
  else if (b >=? 7) && (b <=? 9) then 4
  else if b =? 10 then 8
  else 0.

Definition getModuleRoleAttackBonus (moduleType : Z) : Z :=
  if moduleType =? 1 then 0
  else if moduleType =? 2 then 8
  else if moduleType =? 3 then 0
  else if moduleType =? 4 then 0
  else 0.

Definition getModuleRoleDefenseBonus (moduleType : Z) : Z :=
  if moduleType =? 1 then 0
  else if moduleType =? 2 then 0
  else if moduleType =? 3 then 8
  else if moduleType =? 4 then 10
  else 0.

Definition getModuleRoleSpeedBonus (moduleType : Z) : Z :=
  if moduleType =? 1 then 8
  else if moduleType =? 2 then 0
  else if moduleType =? 3 then 0
  else if moduleType =? 4 then 0
  else 0.

Definition getModuleRoleRangeBonus (moduleType : Z) : Z :=
  if moduleType =? 1 then 3
  else if moduleType =? 2 then 5
  else if moduleType =? 3 then 0
  else if moduleType =? 4 then 0
  else 0.

(** The statistics a module card shows for [config]. *)
Definition projectedStats (config : ModuleTypeConfig) (foundryRarity : ArtifactRarity)
    (selectedBiome : Z) : ProjectedStats :=
  let rarityMultiplier := getRarityMultiplier foundryRarity in
  let biomeAttackBonus := getBiomeBonus selectedBiome in
  let biomeDefenseBonus := getBiomeBonus selectedBiome in
  let biomeSpeedBonus := getBiomeBonus selectedBiome in
  let biomeRangeBonus := getBiomeBonus selectedBiome in
  let roleAttackBonus := getModuleRoleAttackBonus (type config) + biomeAttackBonus in
  let roleDefenseBonus := getModuleRoleDefenseBonus (type config) + biomeDefenseBonus in
  let roleSpeedBonus := getModuleRoleSpeedBonus (type config) + biomeSpeedBonus in
  let roleRangeBonus := getModuleRoleRangeBonus (type config) + biomeRangeBonus in
  let projected (base roleBonus : Z) :=
    if base =? 0 then base
    else JS.Math_round (JS.div (JS.ofZ (roleBonus * rarityMultiplier)) (JS.ofZ 100)) in
  mkProjectedStats (projected (baseAttack config) roleAttackBonus)
    (projected (baseDefense config) roleDefenseBonus)
    (projected (baseSpeed config) roleSpeedBonus)
    (projected (baseRange config) roleRangeBonus).

(** [Array.prototype.sort] with the comparator [(a, b) => a.materialType -
    b.materialType]: a stable sort by the number of the material. *)
Fixpoint insertByMaterialType (req : MaterialRequirement)
    (sorted : list MaterialRequirement) : list MaterialRequirement :=
  match sorted with
  | [] => [req]
  | x :: sorted' =>
      if MaterialType_uint8 (materialType req) <=? MaterialType_uint8 (materialType x)
      then req :: sorted
      else x :: insertByMaterialType req sorted'
  end.

Definition sortByMaterialType (requirements : list MaterialRequirement)
    : list MaterialRequirement :=
  foldr insertByMaterialType [] requirements.

(** The render of the pane lists the requirements of the selected card with
    [selectedConfig.materialRequirements.sort(...)], which sorts the array in
    place: it is the array that [selectedConfig], an element of the memoised
    [moduleConfigs], holds.  The craft button is pressed after a render, so
    its handler reads the array in sorted order. *)
Definition renderedRequirements (config : ModuleTypeConfig) : list MaterialRequirement :=
  sortByMaterialType (materialRequirements config).

(** The call [handleCraftModule] makes, if it makes one: the arguments of
    [craftModule]. *)
Definition handleCraftModule (craftingCount : Z) (materials : list (MaterialType * Z))
    (locationId selectedModuleType selectedBiome : Z)
    : option (Z * Z * list MaterialType * list Z * Z) :=
  let selectedConfig := selectedConfig craftingCount materials selectedModuleType in
  match selectedConfig with
  | Some config =>
      if negb (canCraft selectedConfig) then None
      else
        let materialRequirements := renderedRequirements config in
        let materials := map materialType materialRequirements in
        let amounts :=
          map (fun req => JS.Math_floor (JS.ofZ (amount req))) materialRequirements in
        Some (locationId, selectedModuleType, materials, amounts, selectedBiome)
  | None => None
  end.

Definition getBiomeMultiplierForUpgrade (biome : Z) : Z :=
  let b := biome in
  if (b >=? 1) && (b <=? 3) then 100
  else if (b >=? 4) && (b <=? 6) then 150
  else if (b >=? 7) && (b <=? 9) then 200
  else if b =? 10 then 250
  else 100.

Definition getRarityMultiplierForUpgrade (rarity : Z) : Z :=
  if rarity =? 1 then 100
  else if rarity =? 2 then 120
  else if rarity =? 3 then 150
  else if rarity =? 4 then 200
  else if rarity =? 5 then 300
  else 100.

(** The loop of [getHighestArtifactRarityForUpgrade]. *)
Fixpoint highestFrom (artifacts : list Z) (highest : Z) : Z :=
  match artifacts with
  | [] => highest
  | rarity :: artifacts' =>
      highestFrom artifacts' (if rarity >? highest then rarity else highest)
  end.

Definition getHighestArtifactRarityForUpgrade (artifacts : list Z) : Z :=
  if bool_decide (length artifacts = 0%nat) then 1
  else highestFrom artifacts 1.

Definition canUpgrade (level : Z) : bool := level <? 2.

Definition upgradeCost (level : Z) (planetBiome : Z) (artifacts : list Z) : UpgradeCost :=
  let baseFee := if level =? 0 then 50000000000000 else 100000000000000 in
  let biomeMultiplier := getBiomeMultiplierForUpgrade planetBiome in
  let highestRarity := getHighestArtifactRarityForUpgrade artifacts in
  let rarityMultiplier := getRarityMultiplierForUpgrade highestRarity in
  let totalFee := (baseFee * biomeMultiplier * rarityMultiplier) / 10000 in
  mkUpgradeCost totalFee biomeMultiplier rarityMultiplier baseFee.

End ModuleCraftingPane.

(** Frontend/Panes/SpaceshipModuleManagementPane.tsx: the table of limits
    the pane shows.  A missing key of the object reads as [undefined]. *)
Module SpaceshipModuleManagementPane.

Definition SPACESHIP_MODULE_LIMITS (spaceshipType : Z) : option (Z -> option Z) :=
  let row (engines weapons hull shield : Z) : Z -> option Z :=
    fun slotType =>
      if slotType =? 1 then Some engines
      else if slotType =? 2 then Some weapons
      else if slotType =? 3 then Some hull
      else if slotType =? 4 then Some shield
      else None in
  if spaceshipType =? 1 then Some (row 1 1 1 1)
  else if spaceshipType =? 2 then Some (row 2 2 2 2)
  else if spaceshipType =? 3 then Some (row 3 4 2 2)
  else if spaceshipType =? 4 then Some (row 4 2 4 4)
  else None.

(** [SPACESHIP_MODULE_LIMITS[spaceshipType] || SPACESHIP_MODULE_LIMITS[1]]:
    an unknown type is shown with the limits of a Scout. *)
Definition limits (spaceshipType : Z) : Z -> option Z :=
  match SPACESHIP_MODULE_LIMITS spaceshipType with
  | Some l => l
  | None => default (fun _ => None) (SPACESHIP_MODULE_LIMITS 1)
  end.

End SpaceshipModuleManagementPane.

(** ** Operations, the environment, and the reachable states *)

Inductive Op : Type :=
| CraftModule (tx : Tx) (newId foundryHash moduleType : Z)
    (materials : list MaterialType) (amounts : list Z) (biome : Z)
| CraftSpaceship (tx : Tx) (newId foundryHash spaceshipType : Z)
    (materials : list MaterialType) (amounts : list Z) (biome : Z)
| UpgradeFoundry (tx : Tx) (foundryHash : Z)
| InstallModule (tx : Tx) (spaceshipId moduleId planetHash : Z)
| UninstallModule (tx : Tx) (spaceshipId moduleId planetHash : Z).

Definition run (k : Keccak) (op : Op) (st : World) : Result World :=
  match op with
  | CraftModule tx newId h t ms az b =>
      ModuleCraftingSystem.craftModule k tx newId st h t ms az b
  | CraftSpaceship tx newId h t ms az b =>
      FoundryCraftingSystem.craftSpaceship k tx newId st h t ms az b
  | UpgradeFoundry tx h => FoundryUpgradeSystem.upgradeFoundry k tx st h
  | InstallModule tx s m h => SpaceshipModuleSystem.installModule tx st s m h
  | UninstallModule tx s m h => SpaceshipModuleSystem.uninstallModule tx st s m h
  end.

(** Modelled from the spec: [ArtifactLib.NewModuleArtifact] and
    [ArtifactLib.NewSpaceshipArtifact] (libraries/Artifact.sol, not among the
    sources) create an item; the id of a new artifact is a [uint32] that no
    artifact has yet. *)
Definition freshId (st : World) (newId : Z) : Prop :=
  0 <= newId < 2 ^ 32 /\ artifactIndex (ArtifactTable_get st newId) = 0.

Definition opFresh (st : World) (op : Op) : Prop :=
  match op with
  | CraftModule _ newId _ _ _ _ _ => freshId st newId
  | CraftSpaceship _ newId _ _ _ _ _ => freshId st newId
  | _ => True
  end.

(** Modelled from the spec: the surrounding game changes a planet (creation,
    a new owner, materials mined or added) without touching its inventory. *)
Definition sameInventory (st : World) (h : Z) (p : Planet) : Prop :=
  artifactStorage p = from_option artifactStorage [] (PlanetTable st !! h).

Definition envPlanet (h : Z) (p : Planet) (st : World) : World :=
  set_PlanetTable (<[h := p]> (PlanetTable st)) st.

(** Modelled from the spec: a voyage carries an artifact of one planet's
    inventory to another planet (the move system, not among the sources; it
    is exercised by test/SpaceshipMoveTest.t.sol). *)
Definition envVoyage (a h1 h2 : Z) (st : World) : Result World :=
  p1 ← PlanetLib.readInitedPlanet st h1;
  p1 ← PlanetLib.removeArtifact p1 a;
  let st := PlanetLib.writeToStore p1 st in
  let st := set_ArtifactOwner (delete a (ArtifactOwner st)) st in
  p2 ← PlanetLib.readInitedPlanet st h2;
  p2 ← PlanetLib.pushArtifact p2 a;
  Ok (PlanetLib.writeToStore p2 st).

(** The state before any crafting: planets with empty inventories, and
    nothing in the tables of the four systems. *)
Definition initial (st : World) : Prop :=
  (forall h p, PlanetTable st !! h = Some p -> artifactStorage p = []) /\
  ArtifactOwner st = ∅ /\ ArtifactTable st = ∅ /\
  CraftedSpaceship st = ∅ /\ CraftedModules st = ∅ /\
  SpaceshipSlot st = ∅ /\ SpaceshipModuleInstalled st = ∅ /\
  SpaceshipBonus st = ∅ /\ ModuleBonus st = ∅ /\
  FoundryCraftingCount st = ∅ /\ FoundryUpgrade st = ∅.

Inductive reachable (k : Keccak) : World -> Prop :=
| reach_initial st : initial st -> reachable k st
| reach_run st op st' :
    reachable k st -> opFresh st op -> run k op st = Ok st' -> reachable k st'
| reach_planet st h p :
    reachable k st -> sameInventory st h p -> reachable k (envPlanet h p st)
| reach_voyage st a h1 h2 st' :
    reachable k st -> h1 <> h2 -> envVoyage a h1 h2 st = Ok st' -> reachable k st'.

(** ** The bonus a carrier aggregates *)

(** A module is recorded as installed on a carrier by its row of
    [SpaceshipModuleInstalled]: the flag is set and the row names the carrier
    (the rows the client's [useInstalledModules] lists). *)
Definition installedOn (ship : Z) (d : SpaceshipModuleInstalledData) : bool :=
  inst_installed d && (inst_artifactId d =? ship).

Definition sumOver (ax : Axis) (bonus : Z -> BonusData)
    (rows : gmap Z SpaceshipModuleInstalledData) (ship : Z) : Z :=
  map_fold
    (fun m d acc => (if installedOn ship d then axis ax (bonus m) else 0) + acc)
    0 rows.

(** The share of one row in that sum. *)
Definition contribution (ax : Axis) (ship : Z) (bonus : Z -> BonusData) (m : Z)
    (d : SpaceshipModuleInstalledData) : Z :=
  if installedOn ship d then axis ax (bonus m) else 0.

(** The sum, on one axis, of the bonuses of the modules installed on [ship]. *)
Definition sumInstalled (ax : Axis) (st : World) (ship : Z) : Z :=
  sumOver ax (ModuleBonus_get st) (SpaceshipModuleInstalled st) ship.

(** The number of modules recorded as installed on [ship] in a slot category. *)
Definition countInstalled (st : World) (ship slotType : Z) : Z :=
  map_fold
    (fun (m : Z) d acc =>
       (if installedOn ship d && (inst_moduleSlotType d =? slotType) then 1 else 0) + acc)
    0 (SpaceshipModuleInstalled st).

(** The bonuses a carrier was crafted with: what [_executeCrafting] of the
    FoundryCraftingSystem stored in [SpaceshipBonus], as a function of the
    carrier's row of [CraftedSpaceship]. *)
Definition craftedBonus (st : World) (ship : Z) : BonusData :=
  let d := CraftedSpaceship_get st ship in
  mkBonus
    (FoundryCraftingSystem._calculateAttackBonus (ship_biome d) (ship_rarity d) (spaceshipType d))
    (FoundryCraftingSystem._calculateDefenseBonus (ship_biome d) (ship_rarity d) (spaceshipType d))
    (FoundryCraftingSystem._calculateSpeedBonus (ship_biome d) (ship_rarity d) (spaceshipType d))
    (FoundryCraftingSystem._calculateRangeBonus (ship_biome d) (ship_rarity d) (spaceshipType d)).

(** An artifact that is on no planet: it has no owner row and is in no
    inventory (a module that is installed, or an artifact just created). *)
Definition offPlanet (st : World) (a : Z) : Prop :=
  ArtifactOwner_get st a = 0 /\
  forall h p, PlanetTable st !! h = Some p -> a ∉ artifactStorage p.

(** ** Invariants of the reachable states *)

Definition bonus_inv (st : World) : Prop :=
  forall ship ax,
    axis ax (SpaceshipBonus_get st ship)
    = axis ax (craftedBonus st ship) + sumInstalled ax st ship.

Definition craft_inv (st : World) : Prop :=
  forall h,
    0 <= count (FoundryCraftingCount_get st h)
         <= 1 + FoundryUpgrade_getBranchLevel st h /\
    0 <= FoundryUpgrade_getBranchLevel st h <= 2.

Record wf (st : World) : Prop := mkWf {
  wf_bonus : bonus_inv st;
  wf_craft : craft_inv st;
  wf_off_planet : forall m,
    inst_installed (SpaceshipModuleInstalled_get st m) = true -> offPlanet st m;
  wf_cleared : forall m,
    inst_installed (SpaceshipModuleInstalled_get st m) = false ->
    inst_moduleSlotType (SpaceshipModuleInstalled_get st m) = 0;
  wf_kinds : forall m,
    inst_installed (SpaceshipModuleInstalled_get st m) = true ->
    artifactIndex (ArtifactTable_get st m) = 23 /\
    artifactIndex
      (ArtifactTable_get st (inst_artifactId (SpaceshipModuleInstalled_get st m))) = 3;
  wf_owner : forall a,
    ArtifactOwner_get st a <> 0 ->
    exists p, PlanetTable st !! ArtifactOwner_get st a = Some p /\ a ∈ artifactStorage p;
  wf_located : forall h p a,
    PlanetTable st !! h = Some p -> a ∈ artifactStorage p -> ArtifactOwner_get st a = h;
  wf_inventory : forall h p,
    PlanetTable st !! h = Some p ->
    NoDup (artifactStorage p) /\
    (length (artifactStorage p) <= PlanetLib.MAX_ARTIFACTS_PER_PLANET)%nat /\
    forall a, a ∈ artifactStorage p -> artifactIndex (ArtifactTable_get st a) <> 0;
  wf_module_bonus : forall m ax, 0 <= axis ax (ModuleBonus_get st m)
}.

(** ** The operations as compositions of simpler steps *)

(** The proofs split the world an operation leaves into an update of the
    tables and a move of one artifact out of or into an inventory. *)

(** [p] loses the artifact [a]; its row of [ArtifactOwner] is deleted. *)
Definition detach (a : Z) (p : Planet) (st : World) : World :=
  let st1 :=
    PlanetLib.writeToStore
      (PlanetLib.setArtifactStorage p (filter (fun x => x ≠ a) (artifactStorage p))) st in
  set_ArtifactOwner (delete a (ArtifactOwner st1)) st1.

(** [p] receives the artifact [a]. *)
Definition attach (a : Z) (p : Planet) (st : World) : World :=
  PlanetLib.writeToStore (PlanetLib.setArtifactStorage p (artifactStorage p ++ [a])) st.

Definition addBonus (x y : BonusData) : BonusData :=
  mkBonus (attackBonus x + attackBonus y) (defenseBonus x + defenseBonus y)
    (speedBonus x + speedBonus y) (rangeBonus x + rangeBonus y).

Definition floorSub (a b : Z) : Z := if a >=? b then a - b else 0.

Definition subBonus (x y : BonusData) : BonusData :=
  mkBonus (floorSub (attackBonus x) (attackBonus y))
    (floorSub (defenseBonus x) (defenseBonus y))
    (floorSub (speedBonus x) (speedBonus y))
    (floorSub (rangeBonus x) (rangeBonus y)).

(** The rows [_executeInstallModule] writes. *)
Definition markInstalled (s m slotType slotIndex : Z) (st : World) : World :=
  set_SpaceshipBonus
    (<[s := addBonus (SpaceshipBonus_get st s) (ModuleBonus_get st m)]> (SpaceshipBonus st))
    (set_SpaceshipModuleInstalled
       (<[m := mkSpaceshipModuleInstalledData s slotType true]>
          (SpaceshipModuleInstalled st))
       (set_SpaceshipSlot
          (<[(s, slotIndex) := mkSpaceshipSlotData slotType m]> (SpaceshipSlot st)) st)).

(** The rows [_executeUninstallModule] writes. *)
Definition markUninstalled (s m slotType slotIndex : Z) (st : World) : World :=
  set_SpaceshipModuleInstalled
    (<[m := mkSpaceshipModuleInstalledData 0 0 false]> (SpaceshipModuleInstalled st))
    (set_SpaceshipSlot
       (<[(s, slotIndex) := mkSpaceshipSlotData slotType 0]> (SpaceshipSlot st))
       (set_SpaceshipBonus
          (<[s := subBonus (SpaceshipBonus_get st s) (ModuleBonus_get st m)]>
             (SpaceshipBonus st)) st)).

(** The rows the two [_executeCrafting] write for the new artifact. *)
Definition registerModule (id : Z) (d : CraftedModulesData) (bonus : BonusData)
    (st : World) : World :=
  PlanetLib.writeArtifact id 23 (module_rarity d)
    (set_ModuleBonus (<[id := bonus]> (ModuleBonus st))
       (set_CraftedModules (<[id := d]> (CraftedModules st)) st)).

Definition registerSpaceship (id : Z) (d : CraftedSpaceshipData) (st : World) : World :=
  PlanetLib.writeArtifact id 3 (ship_rarity d)
    (set_SpaceshipBonus
       (<[id := mkBonus
                  (FoundryCraftingSystem._calculateAttackBonus (ship_biome d) (ship_rarity d)
                     (spaceshipType d))
                  (FoundryCraftingSystem._calculateDefenseBonus (ship_biome d) (ship_rarity d)
                     (spaceshipType d))
                  (FoundryCraftingSystem._calculateSpeedBonus (ship_biome d) (ship_rarity d)
                     (spaceshipType d))
                  (FoundryCraftingSystem._calculateRangeBonus (ship_biome d) (ship_rarity d)
                     (spaceshipType d))]> (SpaceshipBonus st))
       (set_CraftedSpaceship (<[id := d]> (CraftedSpaceship st)) st)).

(** The count and the counter the two [_executeCrafting] write last. *)
Definition countCraft (h time counter : Z) (st : World) : World :=
  set_Counter counter
    (set_FoundryCraftingCount
       (<[h := mkFoundryCraftingCountData (count (FoundryCraftingCount_get st h) + 1) time]>
          (FoundryCraftingCount st)) st).

(** The rows [upgradeFoundry] writes. *)
Definition raiseUpgrade (h revenue : Z) (st : World) : World :=
  set_FoundryUpgrade (<[h := FoundryUpgrade_getBranchLevel st h + 1]> (FoundryUpgrade st))
    (set_RevenueStats revenue st).

(** ** The formulas of the specification *)

(** Rounding to the nearest integer, halves up: [round(n / d)]. *)
Definition round_div (n d : Z) : Z := (2 * n + d) / (2 * d).

(** [ceil(n / d)]. *)
Definition ceil_div (n d : Z) : Z := (n + d - 1) / d.

(** [biomeBonus]: biome ids 1-3 give 1, 4-6 give 2, 7-9 give 4, 10 gives 8,
    any other 0. *)
Definition spec_biomeBonus (biome : Z) : Z :=
  if decide (1 <= biome <= 3) then 1
  else if decide (4 <= biome <= 6) then 2
  else if decide (7 <= biome <= 9) then 4
  else if decide (biome = 10) then 8
  else 0.

(** [rarityMultiplierPercent]: Common 100, Rare 120, Epic 150, Legendary 200,
    Mythic 300. *)
Definition spec_rarityMultiplierPercent (r : ArtifactRarity) : Z :=
  match r with
  | COMMON => 100
  | RARE => 120
  | EPIC => 150
  | LEGENDARY => 200
  | MYTHIC => 300
  | RARITY_UNKNOWN => 100
  end.

(** The per-axis formula with a rounding [rnd] of the quotient. *)
Definition spec_bonus (rnd : Z -> Z -> Z) (roleBonus D biome : Z) (r : ArtifactRarity) : Z :=
  if decide (roleBonus = 0) then 0
  else rnd ((spec_biomeBonus biome + roleBonus) * spec_rarityMultiplierPercent r) D.

(** The rarity of the specification: the slice of the seed, the effective
    level, and the tier of the effective level. *)
Definition spec_effectiveLevel (seed level : Z) : Z :=
  let slice := Z.land seed 0xfff000 in
  if decide (slice < 0x40000) then level + 2
  else if decide (slice < 0x100000) then level + 1
  else level.

Definition spec_rarity (seed level : Z) : ArtifactRarity :=
  let e := spec_effectiveLevel seed level in
  if decide (e <= 1) then COMMON
  else if decide (e <= 3) then RARE
  else if decide (e <= 5) then EPIC
  else if decide (e <= 7) then LEGENDARY
  else MYTHIC.

(** The biome computed from the foundry, in the words of the code comments:
    Corrupted in dead space, else the zone's lowest, middle or highest variant
    by the digest against the two thresholds, capped at the last biome. *)
Definition spec_planetBiome (k : Keccak) (st : World) (p : Planet) : Z :=
  if decide (spaceType p = DEAD_SPACE) then CORRUPTED
  else
    let base := keccakBiome k (planetHash p) (perlin p) mod 1000 in
    let zone := spaceType p * 3 in
    let res :=
      if decide (base < threshold1 (PlanetBiomeConfig st)) then zone - 2
      else if decide (base < threshold2 (PlanetBiomeConfig st)) then zone - 1
      else zone in
    Z.min res Biome_max.

(** ** Auxiliary predicates of the proofs *)

(** What a recipe check that passes says of the materials and amounts the
    caller supplied, for a recipe of two distinct materials. *)
Definition recipeMatch (foundry : Planet) (mult : Z) (m1 m2 : MaterialType) (b1 b2 : Z)
    (provided : list MaterialType) (amounts : list Z) (x1 x2 : Z) : Prop :=
  ((provided = [m1; m2] /\ amounts = [x1; x2]) \/
   (provided = [m2; m1] /\ amounts = [x2; x1])) /\
  b1 * mult / 100 <= x1 <= b1 * mult / 100 + 1 /\
  b2 * mult / 100 <= x2 <= b2 * mult / 100 + 1 /\
  b1 * mult / 100 * 1000 <= materials foundry m1 /\
  b2 * mult / 100 * 1000 <= materials foundry m2.

(** The consumption loop changes the balances and nothing else of the planet. *)
Definition samePlanetBut (p q : Planet) : Prop :=
  owner q = owner p /\ planetHash q = planetHash p /\ planetType q = planetType p /\
  level q = level p /\ spaceType q = spaceType p /\ perlin q = perlin p /\
  artifactStorage q = artifactStorage p.

Definition craftConsumes (recipe : Result (list MaterialType * list Z)) (mult : Z)
    (st st' : World) (h : Z) (ms : list MaterialType) (az : list Z) : Prop :=
  exists p p' m1 m2 b1 b2 x1 x2,
    PlanetTable st !! h = Some p /\ PlanetTable st' !! h = Some p' /\
    recipe = Ok ([m1; m2], [b1; b2]) /\ m1 <> m2 /\
    ((ms = [m1; m2] /\ az = [x1; x2]) \/ (ms = [m2; m1] /\ az = [x2; x1])) /\
    b1 * mult / 100 <= x1 <= b1 * mult / 100 + 1 /\
    b2 * mult / 100 <= x2 <= b2 * mult / 100 + 1 /\
    materials p' m1 = materials p m1 - x1 * 1000 /\
    materials p' m2 = materials p m2 - x2 * 1000 /\
    (forall m, m <> m1 -> m <> m2 -> materials p' m = materials p m) /\
    count (FoundryCraftingCount_get st' h) = count (FoundryCraftingCount_get st h) + 1.

(** The biome a craft stores for a supplied biome [b] of the enum: the
    computed one for 0, the supplied one otherwise. *)
Definition storedBiome (k : Keccak) (st : World) (h b : Z) (stored : Z) : Prop :=
  exists p,
    PlanetTable st !! h = Some p /\
    stored =
      if decide (b = 0)
      then spec_planetBiome k st (PlanetLib.setPlanetHash p h)
      else b.

(** What [_validateInstallModule] has checked when it passes. *)
Record installChecked (st : World) (planet : Planet) (executor s m : Z)
    (slotType slotIndex : Z) : Prop := mkInstallChecked {
  ic_owner : owner planet = executor;
  ic_ship_here : ArtifactOwner_get st s = planetHash planet;
  ic_here : planetHash planet <> 0;
  ic_ship_kind : artifactIndex (ArtifactTable_get st s) = 3;
  ic_module_here : ArtifactOwner_get st m = planetHash planet;
  ic_module_kind : artifactIndex (ArtifactTable_get st m) = 23;
  ic_not_elsewhere :
    inst_installed (SpaceshipModuleInstalled_get st m) = true ->
    inst_artifactId (SpaceshipModuleInstalled_get st m) > 0 ->
    inst_artifactId (SpaceshipModuleInstalled_get st m) = s;
  ic_ship_type : spaceshipType (CraftedSpaceship_get st s) <> 0;
  ic_slot_type :
    SpaceshipModuleSystem._getSlotTypeForModuleType (moduleType (CraftedModules_get st m))
    = Ok slotType;
  ic_slot_index : SpaceshipModuleSystem._getSlotIndexForSlotType slotType = Ok slotIndex
}.


(** ** Auxiliary predicates of the further properties *)

(** The errors of a recipe check: the five of the recipe, none of the checks
    that come before it. *)
Definition recipeError (e : Error) : Prop :=
  e = InvalidMaterialAmount \/ e = MissingRequiredMaterials \/ e = InvalidModuleType \/
  e = InvalidSpaceshipType \/ e = InvalidMaterialType \/ e = InsufficientMaterialOnPlanet.

(** The bonuses a module was crafted with: what [_executeCrafting] of the
    ModuleCraftingSystem stored in [ModuleBonus], as a function of the
    module's row of [CraftedModules]. *)
Definition moduleCraftedBonus (st : World) (m : Z) : BonusData :=
  let d := CraftedModules_get st m in
  mkBonus
    (ModuleCraftingSystem._calculateAttackBonus (module_biome d) (module_rarity d) (moduleType d))
    (ModuleCraftingSystem._calculateDefenseBonus (module_biome d) (module_rarity d) (moduleType d))
    (ModuleCraftingSystem._calculateSpeedBonus (module_biome d) (module_rarity d) (moduleType d))
    (ModuleCraftingSystem._calculateRangeBonus (module_biome d) (module_rarity d) (moduleType d)).

(** Epic, Legendary or Mythic. *)
Definition atLeastEpic (r : ArtifactRarity) : Prop := 3 <= ArtifactRarity_uint8 r.

(** What the records of the crafted items keep saying in the reachable
    states: an artifact is a spaceship (3) or a module (23); the record of a
    module has a type from 1 to 4 and a rarity from Epic up, and its bonus
    row is the bonus it was crafted with; the record of a spaceship has a
    type from 1 to 4, a rarity from Epic up and no token; an installed
    module sits in the slot category of its type; a bonus of a carrier fits
    a [uint16]. *)
Record records_inv (st : World) : Prop := mkRecordsInv {
  ri_module : forall m,
    artifactIndex (ArtifactTable_get st m) = 23 ->
    1 <= moduleType (CraftedModules_get st m) <= 4 /\
    atLeastEpic (module_rarity (CraftedModules_get st m)) /\
    artifact_rarity (ArtifactTable_get st m) = module_rarity (CraftedModules_get st m) /\
    ModuleBonus_get st m = moduleCraftedBonus st m;
  ri_ship : forall s,
    artifactIndex (ArtifactTable_get st s) = 3 ->
    1 <= spaceshipType (CraftedSpaceship_get st s) <= 4 /\
    atLeastEpic (ship_rarity (CraftedSpaceship_get st s)) /\
    artifact_rarity (ArtifactTable_get st s) = ship_rarity (CraftedSpaceship_get st s) /\
    nftTokenId (CraftedSpaceship_get st s) = 0;
  ri_slot : forall m,
    inst_installed (SpaceshipModuleInstalled_get st m) = true ->
    inst_moduleSlotType (SpaceshipModuleInstalled_get st m)
    = moduleType (CraftedModules_get st m);
  ri_bonus_range : forall s ax, 0 <= axis ax (SpaceshipBonus_get st s) <= uint_max 16
}.

(** ** Traces *)

(** One step of a history: an operation of the four systems, a change of a
    planet by the surrounding game, or a voyage. *)
Inductive Event : Type :=
| EvOp (op : Op)
| EvPlanet (h : Z) (p : Planet)
| EvVoyage (a h1 h2 : Z).

Definition runEvent (k : Keccak) (ev : Event) (st : World) : Result World :=
  match ev with
  | EvOp op => run k op st
  | EvPlanet h p => Ok (envPlanet h p st)
  | EvVoyage a h1 h2 => envVoyage a h1 h2 st
  end.

Definition freshIdb (st : World) (newId : Z) : bool :=
  (0 <=? newId) && (newId <? 2 ^ 32) && (artifactIndex (ArtifactTable_get st newId) =? 0).

(** The side conditions of [reachable] for one event, as a test. *)
Definition eventOk (ev : Event) (st : World) : bool :=
  match ev with
  | EvOp (CraftModule _ newId _ _ _ _ _) => freshIdb st newId
  | EvOp (CraftSpaceship _ newId _ _ _ _ _) => freshIdb st newId
  | EvOp _ => true
  | EvPlanet h p =>
      bool_decide (artifactStorage p = from_option artifactStorage [] (PlanetTable st !! h))
  | EvVoyage _ h1 h2 => negb (h1 =? h2)
  end.

(** The world after a history; an event that reverts leaves the world as it
    was. *)
Fixpoint play (k : Keccak) (evs : list Event) (st : World) : World :=
  match evs with
  | [] => st
  | ev :: evs' => play k evs' (commit st (runEvent k ev st))
  end.

Fixpoint playOk (k : Keccak) (evs : list Event) (st : World) : bool :=
  match evs with
  | [] => true
  | ev :: evs' => eventOk ev st && playOk k evs' (commit st (runEvent k ev st))
  end.

(** ** Example worlds *)

Module Scenario.

(** A digest whose slice gives no level boost, and a biome digest above both
    thresholds. *)
Definition k0 : Keccak := mkKeccak (fun _ _ _ => 0x100000) (fun _ _ => 999).

(** Two level-4 foundries in a nebula and an ordinary planet, all of player 7. *)
Definition foundry1 : Planet := mkPlanet 7 1 FOUNDRY 4 1 0 (fun _ => 1000000) [].
Definition planet2 : Planet := mkPlanet 7 2 PLANET 1 1 0 (fun _ => 0) [].
Definition foundry3 : Planet := mkPlanet 7 3 FOUNDRY 4 1 0 (fun _ => 1000000) [].

Definition st0 : World :=
  mkWorld {[ 1 := foundry1; 2 := planet2; 3 := foundry3 ]} ∅ ∅ ∅ ∅ ∅ ∅ ∅ ∅ ∅ ∅
    (mkPlanetBiomeConfigData 100 500) 0 0 0.

(** A transaction of the owner, one of a stranger, and one of the owner that
    carries the fee of an upgrade. *)
Definition tx7 : Tx := mkTx 7 1000 0.
Definition tx9 : Tx := mkTx 9 1000 0.
Definition txPay : Tx := mkTx 7 1000 1000000000000000.

(** The first craft of foundry 1: a Scout, artifact 1. *)
Definition craftScout : Op :=
  CraftSpaceship tx7 1 1 1 [WINDSTEEL; AURORIUM] [100; 50] 1.

Definition st1 : World := play k0 [EvOp craftScout] st0.

(** The first craft of an Engine, with the amounts of the recipe. *)
Definition craftEngine80 : Result World :=
  ModuleCraftingSystem.craftModule k0 tx7 1 st0 1 1 [WINDSTEEL; AURORIUM] [80; 40] 1.

(** The same craft with biome 0, which leaves the biome to the contract. *)
Definition craftEngineAnyBiome : Result World :=
  ModuleCraftingSystem.craftModule k0 tx7 1 st0 1 1 [WINDSTEEL; AURORIUM] [80; 40] 0.

(** The same craft with one unit of Windsteel more than the recipe. *)
Definition craftEngine81 : Result World :=
  ModuleCraftingSystem.craftModule k0 tx7 1 st0 1 1 [WINDSTEEL; AURORIUM] [81; 40] 1.

Definition balance (st : World) (h : Z) (m : MaterialType) : Z :=
  from_option (fun p => materials p m) 0 (PlanetTable st !! h).

(** Foundry 1 upgraded twice crafts two Scouts (artifacts 1 and 2) and an
    Engine (artifact 3); the Engine is installed on the first Scout. *)
Definition twoScouts : list Event :=
  [ EvOp (UpgradeFoundry txPay 1); EvOp (UpgradeFoundry txPay 1);
    EvOp craftScout;
    EvOp (CraftSpaceship tx7 2 1 1 [WINDSTEEL; AURORIUM] [150; 75] 1);
    EvOp (CraftModule tx7 3 1 1 [WINDSTEEL; AURORIUM] [180; 90] 1) ].

Definition stTwoScouts : World := play k0 twoScouts st0.
Definition stEngineOn1 : World :=
  play k0 (twoScouts ++ [EvOp (InstallModule tx7 1 3 1)]) st0.

(** Foundry 1 upgraded twice crafts a Scout (artifact 1), a Hull (2) and a
    Shield (3); foundry 3 crafts a second Hull (4), which a voyage brings to
    foundry 1. *)
Definition scoutAndThree : list Event :=
  [ EvOp (UpgradeFoundry txPay 1); EvOp (UpgradeFoundry txPay 1);
    EvOp craftScout;
    EvOp (CraftModule tx7 2 1 3 [BLACKALLOY; CORRUPTED_CRYSTAL] [240; 120] 1);
    EvOp (CraftModule tx7 3 1 4 [LIVING_WOOD; CRYOSTONE] [360; 270] 1);
    EvOp (CraftModule tx7 4 3 3 [BLACKALLOY; CORRUPTED_CRYSTAL] [160; 80] 1);
    EvVoyage 4 3 1 ].

Definition stScoutAndThree : World := play k0 scoutAndThree st0.

(** The Hull, the Shield and the second Hull are installed, in this order. *)
Definition threeInstalls : list Event :=
  [ EvOp (InstallModule tx7 1 2 1); EvOp (InstallModule tx7 1 3 1);
    EvOp (InstallModule tx7 1 4 1) ].

Definition stHullShield : World :=
  play k0 (scoutAndThree
           ++ [EvOp (InstallModule tx7 1 2 1); EvOp (InstallModule tx7 1 3 1)]) st0.
Definition stTwoHulls : World := play k0 (scoutAndThree ++ threeInstalls) st0.

(** Foundry 1 upgraded twice crafts a Scout (artifact 1) and two Engines
    (2 and 3); the first Engine is installed. *)
Definition scoutTwoEngines : list Event :=
  [ EvOp (UpgradeFoundry txPay 1); EvOp (UpgradeFoundry txPay 1);
    EvOp craftScout;
    EvOp (CraftModule tx7 2 1 1 [WINDSTEEL; AURORIUM] [120; 60] 1);
    EvOp (CraftModule tx7 3 1 1 [WINDSTEEL; AURORIUM] [180; 90] 1);
    EvOp (InstallModule tx7 1 2 1) ].

Definition stScoutEngine : World := play k0 scoutTwoEngines st0.

End Scenario.

(** ** Further example worlds *)

Module Cases.

(** Foundry 1 with 80 500 of every material: enough for the base amounts of
    an Engine, not for one unit more of Windsteel. *)
Definition leanFoundry : Planet := mkPlanet 7 1 FOUNDRY 4 1 0 (fun _ => 80500) [].

Definition stLean : World := envPlanet 1 leanFoundry Scenario.st0.

(** The Engine installed on the first Scout is taken off again. *)
Definition stEngineOff : World :=
  play Scenario.k0
    (Scenario.twoScouts
     ++ [EvOp (InstallModule Scenario.tx7 1 3 1); EvOp (UninstallModule Scenario.tx7 1 3 1)])
    Scenario.st0.

End Cases.

(** * Proofs *)

(** ** The revert monad *)

Lemma bind_Ok {A B : Type} (c : Result A) (f : A -> Result B) (b : B) :
  (c ≫= f) = Ok b <-> exists a, c = Ok a /\ f a = Ok b.
Proof.
  destruct c as [a|e]; simpl; split.
  - intros H. exists a. auto.
  - intros (a' & Ha & H). injection Ha as ->. exact H.
  - discriminate.
  - intros (a' & Ha & _). discriminate.
Qed.

Lemma require_Ok (b : bool) (e : Error) (u : unit) : require b e = Ok u <-> b = true.
Proof. destruct b, u; simpl; split; intros; try discriminate; reflexivity. Qed.

Lemma require_true (e : Error) : require true e = Ok tt.
Proof. reflexivity. Qed.

Lemma require_false (e : Error) : require false e = Revert e.
Proof. reflexivity. Qed.

Lemma checked_add_Ok (w a b r : Z) :
  checked_add w a b = Ok r <-> a + b <= uint_max w /\ r = a + b.
Proof.
  unfold checked_add. destruct (Z.leb_spec (a + b) (uint_max w)); split.
  - intros [= <-]. auto.
  - intros [_ ->]. reflexivity.
  - discriminate.
  - intros [? _]. lia.
Qed.

Lemma checked_sub_Ok (a b r : Z) :
  checked_sub a b = Ok r <-> b <= a /\ r = a - b.
Proof.
  unfold checked_sub. destruct (Z.leb_spec b a); split.
  - intros [= <-]. auto.
  - intros [_ ->]. reflexivity.
  - discriminate.
  - intros [? _]. lia.
Qed.

(** [bind_inv H as x Hx] splits [H : (x ← c; k x) = Ok r] into [Hx : c = Ok x]
    and [H : k x = Ok r]; [req_inv H as Hb] does it for a [require]. *)
Tactic Notation "bind_inv" hyp(H) "as" ident(x) ident(Hx) :=
  apply bind_Ok in H as (x & Hx & H); cbv zeta in H.

Tactic Notation "req_inv" hyp(H) "as" ident(Hb) :=
  let u := fresh "u" in
  apply bind_Ok in H as (u & Hb & H); apply require_Ok in Hb; destruct u; cbv zeta in H.

Lemma negb_true (b : bool) : negb b = true <-> b = false.
Proof. destruct b; simpl; split; congruence. Qed.

(** ** The decoding of the biome argument *)

Lemma abi_decode_Biome_Ok (b r : Z) :
  abi_decode_Biome b = Ok r <-> 0 <= b <= Biome_max /\ r = b.
Proof.
  unfold abi_decode_Biome.
  destruct (Z.leb_spec 0 b); destruct (Z.leb_spec b Biome_max); simpl; split;
    try discriminate; try (intros [= <-]; split; [lia|reflexivity]);
    try (intros [? ->]; reflexivity); intros [? _]; lia.
Qed.

Lemma abi_decode_Biome_member (b : Z) :
  0 <= b <= Biome_max -> abi_decode_Biome b = Ok b.
Proof. intros Hb. apply abi_decode_Biome_Ok. split; [exact Hb|reflexivity]. Qed.

Lemma abi_decode_Biome_Revert (b : Z) :
  ~ 0 <= b <= Biome_max -> abi_decode_Biome b = Revert InvalidEnumValue.
Proof.
  intros Hb. unfold abi_decode_Biome.
  destruct (Z.leb_spec 0 b); destruct (Z.leb_spec b Biome_max); simpl;
    try reflexivity; lia.
Qed.

Lemma craftModule_decoded k tx newId st h t ms az b :
  0 <= b <= Biome_max ->
  ModuleCraftingSystem.craftModule k tx newId st h t ms az b
  = ModuleCraftingSystem._processModuleCrafting k tx newId st h t ms az b.
Proof.
  intros Hb. unfold ModuleCraftingSystem.craftModule.
  rewrite (abi_decode_Biome_member b Hb). reflexivity.
Qed.

Lemma craftSpaceship_decoded k tx newId st h t ms az b :
  0 <= b <= Biome_max ->
  FoundryCraftingSystem.craftSpaceship k tx newId st h t ms az b
  = FoundryCraftingSystem._processSpaceshipCrafting k tx newId st h t ms az b.
Proof.
  intros Hb. unfold FoundryCraftingSystem.craftSpaceship.
  rewrite (abi_decode_Biome_member b Hb). reflexivity.
Qed.

Lemma craftModule_not_decoded k tx newId st h t ms az b :
  ~ 0 <= b <= Biome_max ->
  ModuleCraftingSystem.craftModule k tx newId st h t ms az b = Revert InvalidEnumValue.
Proof.
  intros Hb. unfold ModuleCraftingSystem.craftModule.
  rewrite (abi_decode_Biome_Revert b Hb). reflexivity.
Qed.

Lemma craftSpaceship_not_decoded k tx newId st h t ms az b :
  ~ 0 <= b <= Biome_max ->
  FoundryCraftingSystem.craftSpaceship k tx newId st h t ms az b = Revert InvalidEnumValue.
Proof.
  intros Hb. unfold FoundryCraftingSystem.craftSpaceship.
  rewrite (abi_decode_Biome_Revert b Hb). reflexivity.
Qed.

Lemma craftModule_process k tx newId st h t ms az b st' :
  ModuleCraftingSystem.craftModule k tx newId st h t ms az b = Ok st' ->
  0 <= b <= Biome_max /\
  ModuleCraftingSystem._processModuleCrafting k tx newId st h t ms az b = Ok st'.
Proof.
  intros H. unfold ModuleCraftingSystem.craftModule in H.
  bind_inv H as b' Hdec. apply abi_decode_Biome_Ok in Hdec as [Hb ->].
  split; assumption.
Qed.

Lemma craftSpaceship_process k tx newId st h t ms az b st' :
  FoundryCraftingSystem.craftSpaceship k tx newId st h t ms az b = Ok st' ->
  0 <= b <= Biome_max /\
  FoundryCraftingSystem._processSpaceshipCrafting k tx newId st h t ms az b = Ok st'.
Proof.
  intros H. unfold FoundryCraftingSystem.craftSpaceship in H.
  bind_inv H as b' Hdec. apply abi_decode_Biome_Ok in Hdec as [Hb ->].
  split; assumption.
Qed.

(** ** Rarity *)

Lemma land_slice_nonneg (seed : Z) : 0 <= Z.land seed 0xfff000.
Proof. apply Z.land_nonneg. right. lia. Qed.

Lemma calculateModuleRarity_spec (level seed : Z) :
  level + 2 <= uint_max 256 ->
  ModuleCraftingSystem._calculateModuleRarity level seed = Ok (spec_rarity seed level).
Proof.
  intros Hl. unfold ModuleCraftingSystem._calculateModuleRarity, spec_rarity,
    spec_effectiveLevel, checked_add.
  repeat case_decide;
    repeat match goal with
    | |- context [?a <? ?b] => destruct (Z.ltb_spec a b); try lia
    | |- context [?a <=? ?b] => destruct (Z.leb_spec a b); try lia
    end; simpl;
    repeat match goal with
    | |- context [?a <=? ?b] => destruct (Z.leb_spec a b); try lia
    end; reflexivity.
Qed.

Lemma calculateSpaceshipRarity_eq (level seed : Z) :
  FoundryCraftingSystem._calculateSpaceshipRarity level seed
  = ModuleCraftingSystem._calculateModuleRarity level seed.
Proof. reflexivity. Qed.

(** C8: the rarity the two crafting systems assign is the function of the
    seed and the station level that the specification describes: the slice
    [seed & 0xfff000] raises the level by 2 below [0x40000], by 1 below
    [0x100000], and the raised level selects the tier (at most 1 Common, at
    most 3 Rare, at most 5 Epic, at most 7 Legendary, else Mythic), and it
    is the only result: equal inputs give equal rarities.  The level is a
    [uint256] that the raise does not overflow. *)
Theorem C8_rarity_is_spec_function (seed level : Z) :
  level + 2 <= uint_max 256 ->
  ModuleCraftingSystem._calculateModuleRarity level seed = Ok (spec_rarity seed level) /\
  FoundryCraftingSystem._calculateSpaceshipRarity level seed = Ok (spec_rarity seed level) /\
  (forall r, ModuleCraftingSystem._calculateModuleRarity level seed = Ok r <->
             r = spec_rarity seed level) /\
  (forall r, FoundryCraftingSystem._calculateSpaceshipRarity level seed = Ok r <->
             r = spec_rarity seed level).
Proof.
  intros Hl.
  pose proof (calculateModuleRarity_spec level seed Hl) as Hm.
  pose proof Hm as Hs. rewrite <- calculateSpaceshipRarity_eq in Hs.
  split; [exact Hm|]. split; [exact Hs|]. split; intros r; split.
  - rewrite Hm. intros [= <-]. reflexivity.
  - intros ->. exact Hm.
  - rewrite Hs. intros [= <-]. reflexivity.
  - intros ->. exact Hs.
Qed.

Lemma C8_rarity_witness :
  4 + 2 <= uint_max 256 /\
  ModuleCraftingSystem._calculateModuleRarity 4 0x3f123 = Ok LEGENDARY /\
  FoundryCraftingSystem._calculateSpaceshipRarity 4 0x3f123 = Ok LEGENDARY.
Proof.
  assert (H : 4 + 2 <= uint_max 256) by (vm_compute; discriminate).
  split; [exact H|].
  destruct (C8_rarity_is_spec_function 0x3f123 4 H) as (H1 & H2 & _ & _).
  split; [exact H1 | exact H2].
Defined.

(** ** Bonuses *)

Lemma getBiomeBonus_spec (biome : Z) :
  ModuleCraftingSystem._getBiomeBonus biome = spec_biomeBonus biome.
Proof.
  unfold ModuleCraftingSystem._getBiomeBonus, spec_biomeBonus.
  repeat case_decide;
    repeat match goal with
    | |- context [?a <=? ?b] => destruct (Z.leb_spec a b); try lia
    | |- context [?a =? ?b] => destruct (Z.eqb_spec a b); try lia
    end; reflexivity.
Qed.

Lemma ship_getBiomeBonus_spec (biome : Z) :
  FoundryCraftingSystem._getBiomeBonus biome = spec_biomeBonus biome.
Proof. apply getBiomeBonus_spec. Qed.

Lemma spec_biomeBonus_nonneg (biome : Z) : 0 <= spec_biomeBonus biome.
Proof. unfold spec_biomeBonus. repeat case_decide; lia. Qed.

Lemma spec_rarityMultiplier_pos (r : ArtifactRarity) : 0 < spec_rarityMultiplierPercent r.
Proof. destruct r; simpl; lia. Qed.

Lemma spec_bonus_floor_unfold (roleBonus D biome : Z) (r : ArtifactRarity) :
  (if roleBonus =? 0 then 0
   else (spec_biomeBonus biome + roleBonus) * spec_rarityMultiplierPercent r / D)
  = spec_bonus Z.div roleBonus D biome r.
Proof.
  unfold spec_bonus. destruct (Z.eqb_spec roleBonus 0); case_decide; try lia; reflexivity.
Qed.

(** Unfolds one [_calculate...Bonus] into the formula of the specification. *)
Ltac bonus_formula :=
  intros;
  match goal with
  | |- ?f ?b ?r ?t = _ => unfold f
  end;
  cbv zeta;
  rewrite ?getBiomeBonus_spec, ?ship_getBiomeBonus_spec;
  apply spec_bonus_floor_unfold.

Lemma module_attack_formula biome r t :
  ModuleCraftingSystem._calculateAttackBonus biome r t
  = spec_bonus Z.div (ModuleCraftingSystem._getModuleRoleAttackBonus t) 400 biome r.
Proof. bonus_formula. Qed.

Lemma module_defense_formula biome r t :
  ModuleCraftingSystem._calculateDefenseBonus biome r t
  = spec_bonus Z.div (ModuleCraftingSystem._getModuleRoleDefenseBonus t) 100 biome r.
Proof. bonus_formula. Qed.

Lemma module_speed_formula biome r t :
  ModuleCraftingSystem._calculateSpeedBonus biome r t
  = spec_bonus Z.div (ModuleCraftingSystem._getModuleRoleSpeedBonus t) 100 biome r.
Proof. bonus_formula. Qed.

Lemma module_range_formula biome r t :
  ModuleCraftingSystem._calculateRangeBonus biome r t
  = spec_bonus Z.div (ModuleCraftingSystem._getModuleRoleRangeBonus t) 100 biome r.
Proof. bonus_formula. Qed.

Lemma ship_attack_formula biome r t :
  FoundryCraftingSystem._calculateAttackBonus biome r t
  = spec_bonus Z.div (FoundryCraftingSystem._getSpaceshipRoleAttackBonus t) 100 biome r.
Proof. bonus_formula. Qed.

Lemma ship_defense_formula biome r t :
  FoundryCraftingSystem._calculateDefenseBonus biome r t
  = spec_bonus Z.div (FoundryCraftingSystem._getSpaceshipRoleDefenseBonus t) 100 biome r.
Proof. bonus_formula. Qed.

Lemma ship_speed_formula biome r t :
  FoundryCraftingSystem._calculateSpeedBonus biome r t
  = spec_bonus Z.div (FoundryCraftingSystem._getSpaceshipRoleSpeedBonus t) 100 biome r.
Proof. bonus_formula. Qed.

Lemma ship_range_formula biome r t :
  FoundryCraftingSystem._calculateRangeBonus biome r t
  = spec_bonus Z.div (FoundryCraftingSystem._getSpaceshipRoleRangeBonus t) 100 biome r.
Proof. bonus_formula. Qed.

(** The role tables have no negative entry. *)
Ltac role_nonneg f :=
  unfold f;
  repeat match goal with
  | |- context [?a =? ?b] => destruct (Z.eqb_spec a b)
  end; lia.

Lemma module_role_attack_nonneg t : 0 <= ModuleCraftingSystem._getModuleRoleAttackBonus t.
Proof. role_nonneg ModuleCraftingSystem._getModuleRoleAttackBonus. Qed.
Lemma module_role_defense_nonneg t : 0 <= ModuleCraftingSystem._getModuleRoleDefenseBonus t.
Proof. role_nonneg ModuleCraftingSystem._getModuleRoleDefenseBonus. Qed.
Lemma module_role_speed_nonneg t : 0 <= ModuleCraftingSystem._getModuleRoleSpeedBonus t.
Proof. role_nonneg ModuleCraftingSystem._getModuleRoleSpeedBonus. Qed.
Lemma module_role_range_nonneg t : 0 <= ModuleCraftingSystem._getModuleRoleRangeBonus t.
Proof. role_nonneg ModuleCraftingSystem._getModuleRoleRangeBonus. Qed.
Lemma ship_role_attack_nonneg t : 0 <= FoundryCraftingSystem._getSpaceshipRoleAttackBonus t.
Proof. role_nonneg FoundryCraftingSystem._getSpaceshipRoleAttackBonus. Qed.
Lemma ship_role_defense_nonneg t : 0 <= FoundryCraftingSystem._getSpaceshipRoleDefenseBonus t.
Proof. role_nonneg FoundryCraftingSystem._getSpaceshipRoleDefenseBonus. Qed.
Lemma ship_role_speed_nonneg t : 0 <= FoundryCraftingSystem._getSpaceshipRoleSpeedBonus t.
Proof. role_nonneg FoundryCraftingSystem._getSpaceshipRoleSpeedBonus. Qed.
Lemma ship_role_range_nonneg t : 0 <= FoundryCraftingSystem._getSpaceshipRoleRangeBonus t.
Proof. role_nonneg FoundryCraftingSystem._getSpaceshipRoleRangeBonus. Qed.

Lemma spec_bonus_floor_nonneg (roleBonus D biome : Z) (r : ArtifactRarity) :
  0 <= roleBonus -> 0 < D -> 0 <= spec_bonus Z.div roleBonus D biome r.
Proof.
  intros Hr HD. unfold spec_bonus. case_decide; [lia|].
  apply Z.div_pos; [|lia].
  pose proof (spec_biomeBonus_nonneg biome). pose proof (spec_rarityMultiplier_pos r). nia.
Qed.

(** C7, as the code has it: a role without aptitude on an axis gets 0 on it
    whatever the biome; otherwise the bonus is
    [(biomeBonus + roleBonus) * rarityMultiplierPercent / D] with the quotient
    truncated (Solidity's integer division) where the specification rounds,
    [D = 400] for the attack of a module and [D = 100] for every other axis
    of a module and every axis of a carrier.  An Engine module in a biome of
    bonus 1 at Common rarity gets speed 9, and attack 0 in every biome. *)
Theorem C7_bonus_formula_truncates (biome : Z) (r : ArtifactRarity) (role : Z) :
  ModuleCraftingSystem._calculateAttackBonus biome r role
  = spec_bonus Z.div (ModuleCraftingSystem._getModuleRoleAttackBonus role) 400 biome r /\
  ModuleCraftingSystem._calculateDefenseBonus biome r role
  = spec_bonus Z.div (ModuleCraftingSystem._getModuleRoleDefenseBonus role) 100 biome r /\
  ModuleCraftingSystem._calculateSpeedBonus biome r role
  = spec_bonus Z.div (ModuleCraftingSystem._getModuleRoleSpeedBonus role) 100 biome r /\
  ModuleCraftingSystem._calculateRangeBonus biome r role
  = spec_bonus Z.div (ModuleCraftingSystem._getModuleRoleRangeBonus role) 100 biome r /\
  FoundryCraftingSystem._calculateAttackBonus biome r role
  = spec_bonus Z.div (FoundryCraftingSystem._getSpaceshipRoleAttackBonus role) 100 biome r /\
  FoundryCraftingSystem._calculateDefenseBonus biome r role
  = spec_bonus Z.div (FoundryCraftingSystem._getSpaceshipRoleDefenseBonus role) 100 biome r /\
  FoundryCraftingSystem._calculateSpeedBonus biome r role
  = spec_bonus Z.div (FoundryCraftingSystem._getSpaceshipRoleSpeedBonus role) 100 biome r /\
  FoundryCraftingSystem._calculateRangeBonus biome r role
  = spec_bonus Z.div (FoundryCraftingSystem._getSpaceshipRoleRangeBonus role) 100 biome r /\
  ModuleCraftingSystem._getModuleRoleSpeedBonus 1 = 8 /\
  ModuleCraftingSystem._getModuleRoleAttackBonus 1 = 0 /\
  (spec_biomeBonus biome = 1 -> ModuleCraftingSystem._calculateSpeedBonus biome COMMON 1 = 9) /\
  ModuleCraftingSystem._calculateAttackBonus biome r 1 = 0.
Proof.
  split; [apply module_attack_formula|].
  split; [apply module_defense_formula|].
  split; [apply module_speed_formula|].
  split; [apply module_range_formula|].
  split; [apply ship_attack_formula|].
  split; [apply ship_defense_formula|].
  split; [apply ship_speed_formula|].
  split; [apply ship_range_formula|].
  split; [reflexivity|].
  split; [reflexivity|].
  split.
  - intros Hb. rewrite module_speed_formula. unfold spec_bonus. rewrite Hb. reflexivity.
  - rewrite module_attack_formula. reflexivity.
Qed.

Lemma C7_bonus_witness :
  spec_biomeBonus 2 = 1 /\
  ModuleCraftingSystem._calculateSpeedBonus 2 COMMON 1 = 9 /\
  ModuleCraftingSystem._calculateAttackBonus 2 COMMON 1 = 0.
Proof.
  split; [reflexivity|].
  destruct (C7_bonus_formula_truncates 2 COMMON 1)
    as (_ & _ & _ & _ & _ & _ & _ & _ & _ & _ & Hspeed & Hattack).
  split; [apply Hspeed; reflexivity | exact Hattack].
Defined.

(** C7 as the specification words it, with rounding to the nearest integer,
    fails: a Weapon module of an Ocean foundry (biome bonus 1) at Rare rarity
    has [(1 + 8) * 120 / 400 = 2.7]; the code stores 2, the rounding gives 3. *)
Lemma C7_rounding_counterexample :
  ModuleCraftingSystem._getModuleRoleAttackBonus 2 <> 0 /\
  ModuleCraftingSystem._calculateAttackBonus 1 RARE 2 = 2 /\
  spec_bonus round_div (ModuleCraftingSystem._getModuleRoleAttackBonus 2) 400 1 RARE = 3 /\
  ModuleCraftingSystem._calculateAttackBonus 1 RARE 2
  <> spec_bonus round_div (ModuleCraftingSystem._getModuleRoleAttackBonus 2) 400 1 RARE.
Proof. repeat split; vm_compute; congruence. Qed.

(** ** Crafting: the recipe check and the consumption *)

Lemma length_two {A : Type} (l : list A) :
  length l = 2%nat -> exists x y, l = [x; y].
Proof.
  destruct l as [|x [|y [|z l]]]; simpl; intros H; try discriminate.
  exists x, y. reflexivity.
Qed.

Lemma module_recipe_distinct t ms bs :
  ModuleCraftingSystem.expectedRecipe t = Ok (ms, bs) ->
  exists m1 m2 b1 b2, ms = [m1; m2] /\ bs = [b1; b2] /\ m1 <> m2.
Proof.
  unfold ModuleCraftingSystem.expectedRecipe.
  repeat match goal with
  | |- context [?a =? ?b] => destruct (Z.eqb_spec a b)
  end; intros [= <- <-]; do 4 eexists; (split; [reflexivity|split; [reflexivity|discriminate]]).
Qed.

Lemma ship_recipe_distinct t ms bs :
  FoundryCraftingSystem.expectedRecipe t = Ok (ms, bs) ->
  exists m1 m2 b1 b2, ms = [m1; m2] /\ bs = [b1; b2] /\ m1 <> m2.
Proof.
  unfold FoundryCraftingSystem.expectedRecipe.
  repeat match goal with
  | |- context [?a =? ?b] => destruct (Z.eqb_spec a b)
  end; intros [= <- <-]; do 4 eexists; (split; [reflexivity|split; [reflexivity|discriminate]]).
Qed.

Lemma module_validateRecipe_Ok foundry t materials amounts mult :
  ModuleCraftingSystem._validateModuleRecipe foundry t materials amounts mult = Ok tt ->
  exists m1 m2 b1 b2 x1 x2,
    ModuleCraftingSystem.expectedRecipe t = Ok ([m1; m2], [b1; b2]) /\ m1 <> m2 /\
    recipeMatch foundry mult m1 m2 b1 b2 materials amounts x1 x2.
Proof.
  intros H. unfold ModuleCraftingSystem._validateModuleRecipe in H.
  req_inv H as Hlen. req_inv H as Hnil. bind_inv H as expected Hexp.
  req_inv H as Hlen2. bind_inv H as provided Hprov.
  bind_inv H as u1 Hchk. req_inv H as Hextra.
  apply bool_decide_eq_true in Hlen, Hlen2.
  destruct expected as [ms bs]. simpl in *.
  destruct (module_recipe_distinct _ _ _ Hexp) as (m1 & m2 & b1 & b2 & -> & -> & Hne).
  simpl in Hlen2.
  destruct (length_two _ Hlen2) as (u & v & ->).
  rewrite Hlen2 in Hlen. symmetry in Hlen. destruct (length_two _ Hlen) as (x & y & ->).
  destruct provided as [found amts]. simpl in *.
  req_inv Hprov as Hidx1. req_inv Hprov as Hidx2. req_inv Hprov as Hdup.
  injection Hprov as <- <-.
  apply negb_true in Hdup.
  destruct (decide (v = u)) as [->|Hvu]; [discriminate|].
  req_inv Hchk as Hf1. req_inv Hchk as Hamt1.
  req_inv Hchk as Hf2. req_inv Hchk as Hamt2. clear Hchk.
  req_inv H as Hsuf1. req_inv H as Hsuf2. clear H.
  apply negb_true, orb_false_iff in Hamt1 as [Hlo1 Hhi1].
  apply negb_true, orb_false_iff in Hamt2 as [Hlo2 Hhi2].
  apply negb_true in Hsuf1, Hsuf2.
  unfold PlanetLib.getMaterial in *.
  exists m1, m2, b1, b2.
  destruct (decide (m1 = v)) as [->|H1v]; destruct (decide (m2 = v)) as [->|H2v];
    try congruence;
    repeat match goal with
    | H : context [decide (?a = ?b)] |- _ => destruct (decide (a = b)); try congruence
    end; try discriminate; subst.
  - exists y, x. split; [assumption|split; [assumption|]].
    unfold recipeMatch. repeat split; try lia. right. auto.
  - exists x, y. split; [assumption|split; [assumption|]].
    unfold recipeMatch. repeat split; try lia. left. auto.
Qed.

Lemma samePlanetBut_refl p : samePlanetBut p p.
Proof. repeat split. Qed.

Lemma module_consume_same foundry ms az f1 :
  ModuleCraftingSystem.consumeMaterials foundry ms az = Ok f1 -> samePlanetBut foundry f1.
Proof.
  revert foundry az. induction ms as [|m ms IH]; intros foundry az H.
  - simpl in H. injection H as <-. apply samePlanetBut_refl.
  - destruct az as [|a az]; simpl in H.
    + injection H as <-. apply samePlanetBut_refl.
    + bind_inv H as v Hv. apply IH in H. exact H.
Qed.

Lemma module_consume_two foundry u v x y f1 :
  u <> v ->
  ModuleCraftingSystem.consumeMaterials foundry [u; v] [x; y] = Ok f1 ->
  materials f1 u = materials foundry u - x * 1000 /\
  materials f1 v = materials foundry v - y * 1000 /\
  (forall m, m <> u -> m <> v -> materials f1 m = materials foundry m) /\
  0 <= materials f1 u - (materials foundry u - x * 1000) /\
  x * 1000 <= materials foundry u /\ y * 1000 <= materials foundry v.
Proof.
  intros Huv H. simpl in H.
  bind_inv H as a Ha. bind_inv H as b Hb. injection H as <-.
  apply checked_sub_Ok in Ha as [Hle1 ->]. apply checked_sub_Ok in Hb as [Hle2 ->].
  unfold PlanetLib.getMaterial in *. simpl in *.
  destruct (decide (v = u)) as [->|_]; [congruence|].
  destruct (decide (v = v)) as [_|]; [|congruence].
  destruct (decide (u = v)) as [->|_]; [congruence|].
  destruct (decide (u = u)) as [_|]; [|congruence].
  repeat split; try lia.
  intros m Hmu Hmv.
  destruct (decide (m = v)); [congruence|]. destruct (decide (m = u)); [congruence|].
  reflexivity.
Qed.

Lemma module_calculateBiome_spec k st p b :
  ModuleCraftingSystem._calculateBiomeFromPlanet k st p = Ok b ->
  b = spec_planetBiome k st p.
Proof.
  unfold ModuleCraftingSystem._calculateBiomeFromPlanet, spec_planetBiome.
  destruct (Z.eqb_spec (spaceType p) DEAD_SPACE) as [Hd|Hd]; case_decide; try lia.
  - intros [= <-]. reflexivity.
  - intros Hc. bind_inv Hc as r Hr. bind_inv Hc as r2 Hr2. injection Hc as <-.
    unfold checked_mul in Hr. destruct (_ <=? _) in Hr; [|discriminate].
    injection Hr as <-.
    repeat case_decide;
      repeat match type of Hr2 with
      | context [?a <? ?b] => destruct (Z.ltb_spec a b); try lia
      end;
      try (apply checked_sub_Ok in Hr2 as [_ ->]); try (injection Hr2 as <-);
      destruct (Z.gtb_spec (spaceType p * 3 - 2) Biome_max);
      destruct (Z.gtb_spec (spaceType p * 3 - 1) Biome_max);
      destruct (Z.gtb_spec (spaceType p * 3) Biome_max); lia.
Qed.

(** The world a successful [craftModule] leaves. *)
Lemma craftModule_Ok k tx newId st h t ms az b st' :
  ModuleCraftingSystem.craftModule k tx newId st h t ms az b = Ok st' ->
  exists p f1 rarity,
    PlanetTable st !! h = Some p /\
    ModuleCraftingSystem._validateModuleCrafting st (PlanetLib.setPlanetHash p h)
      (msgSender tx) t ms az = Ok tt /\
    ModuleCraftingSystem.consumeMaterials (PlanetLib.setPlanetHash p h) ms az = Ok f1 /\
    (length (artifactStorage p) < PlanetLib.MAX_ARTIFACTS_PER_PLANET)%nat /\
    count (FoundryCraftingCount_get st h) + 1 <= uint_max 8 /\
    let biome :=
      if (b =? 0) || (b >? Biome_max) then spec_planetBiome k st (PlanetLib.setPlanetHash p h)
      else b in
    let id := newId mod 2 ^ 32 in
    let f2 := PlanetLib.setArtifactStorage f1 (artifactStorage p ++ [newId]) in
    st' =
    mkWorld (<[h := f2]> (PlanetTable st))
      (foldr (fun a o => <[a := h]> o) (ArtifactOwner st) (artifactStorage p ++ [newId]))
      (<[id := mkArtifactData 23 rarity]> (ArtifactTable st))
      (CraftedSpaceship st)
      (<[id := mkCraftedModulesData t biome rarity (blockTimestamp tx mod 2 ^ 64)
                 (msgSender tx)]> (CraftedModules st))
      (SpaceshipSlot st) (SpaceshipModuleInstalled st) (SpaceshipBonus st)
      (<[id := mkBonus (ModuleCraftingSystem._calculateAttackBonus biome rarity t)
                 (ModuleCraftingSystem._calculateDefenseBonus biome rarity t)
                 (ModuleCraftingSystem._calculateSpeedBonus biome rarity t)
                 (ModuleCraftingSystem._calculateRangeBonus biome rarity t)]> (ModuleBonus st))
      (<[h := mkFoundryCraftingCountData (count (FoundryCraftingCount_get st h) + 1)
                (blockTimestamp tx mod 2 ^ 64)]> (FoundryCraftingCount st))
      (FoundryUpgrade st) (PlanetBiomeConfig st) (newId mod 2 ^ 24)
      (EntryFee st) (RevenueStats st).
Proof.
  intros H. apply craftModule_process in H as [_ H].
  unfold ModuleCraftingSystem._processModuleCrafting in H.
  bind_inv H as foundry Hread. bind_inv H as u0 Hval. destruct u0.
  unfold PlanetLib.readInitedPlanet in Hread.
  destruct (PlanetTable st !! h) as [p|] eqn:Hp; [|discriminate].
  injection Hread as <-.
  unfold ModuleCraftingSystem._executeCrafting in H.
  bind_inv H as f1 Hcons. bind_inv H as rarity Hrar. bind_inv H as cb Hcb.
  bind_inv H as f2 Hpush. bind_inv H as newCount Hcnt. injection H as <-.
  pose proof (module_consume_same _ _ _ _ Hcons) as (Ho & Hh & Hty & Hl & Hs & Hpe & Hst).
  simpl in Ho, Hh, Hty, Hl, Hs, Hpe, Hst.
  unfold PlanetLib.pushArtifact in Hpush. req_inv Hpush as Hslot. injection Hpush as <-.
  unfold PlanetLib.hasArtifactSlot in Hslot. apply bool_decide_eq_true in Hslot.
  rewrite Hst in Hslot.
  apply checked_add_Ok in Hcnt as [Hcnt ->]. rewrite Hh in Hcnt.
  apply module_calculateBiome_spec in Hcb. subst cb.
  exists p, f1, rarity.
  split; [reflexivity|]. split; [exact Hval|]. split; [exact Hcons|].
  split; [exact Hslot|]. split; [exact Hcnt|].
  cbv zeta. unfold PlanetLib.writeToStore, PlanetLib.writeArtifact. simpl.
  rewrite Hh, Hst.
  assert (Hsp : spec_planetBiome k st f1 = spec_planetBiome k st (PlanetLib.setPlanetHash p h)).
  { unfold spec_planetBiome. simpl. rewrite Hs, Hh, Hpe. reflexivity. }
  rewrite Hsp. reflexivity.
Qed.

Lemma module_validateCrafting_Ok st foundry executor t ms az :
  ModuleCraftingSystem._validateModuleCrafting st foundry executor t ms az = Ok tt ->
  owner foundry = executor /\ planetType foundry = FOUNDRY /\ 4 <= level foundry /\
  1 <= t <= 4 /\
  count (FoundryCraftingCount_get st (planetHash foundry))
  < 1 + FoundryUpgrade_getBranchLevel st (planetHash foundry) /\
  ModuleCraftingSystem._validateModuleRecipe foundry t ms az
    (ModuleCraftingSystem._getCraftingMMultiplier
       (count (FoundryCraftingCount_get st (planetHash foundry)))) = Ok tt.
Proof.
  intros H. unfold ModuleCraftingSystem._validateModuleCrafting in H.
  req_inv H as Hown. req_inv H as Hty. req_inv H as Hlvl. req_inv H as Ht.
  bind_inv H as maxCrafts Hmax. req_inv H as Hlim.
  apply bool_decide_eq_true in Hown, Hty.
  apply negb_true in Hlvl, Ht, Hlim. apply orb_false_iff in Ht as [Ht1 Ht2].
  apply checked_add_Ok in Hmax as [_ ->].
  repeat split; try assumption; lia.
Qed.

(** At the crafting limit [_validateModuleCrafting] reverts, and with
    [FoundryCraftingLimitReached] when the checks before the limit pass. *)
Lemma module_validate_at_limit st foundry executor t ms az :
  count (FoundryCraftingCount_get st (planetHash foundry))
  >= 1 + FoundryUpgrade_getBranchLevel st (planetHash foundry) ->
  (exists e, ModuleCraftingSystem._validateModuleCrafting st foundry executor t ms az
             = Revert e) /\
  (owner foundry = executor -> planetType foundry = FOUNDRY -> 4 <= level foundry ->
   1 <= t <= 4 -> FoundryUpgrade_getBranchLevel st (planetHash foundry) <= 254 ->
   ModuleCraftingSystem._validateModuleCrafting st foundry executor t ms az
   = Revert FoundryCraftingLimitReached).
Proof.
  intros Hlim. split.
  - destruct (ModuleCraftingSystem._validateModuleCrafting st foundry executor t ms az)
      as [[]|e] eqn:H; [|eauto].
    apply module_validateCrafting_Ok in H. lia.
  - intros Hown Hty Hlvl Ht Htier.
    unfold ModuleCraftingSystem._validateModuleCrafting.
    rewrite (bool_decide_eq_true_2 _ Hown), (bool_decide_eq_true_2 _ Hty). simpl.
    destruct (Z.ltb_spec (level foundry) 4); [lia|].
    destruct (Z.ltb_spec t 1); [lia|]. destruct (Z.gtb_spec t 4); [lia|]. simpl.
    unfold checked_add. change (uint_max 8) with 255.
    destruct (Z.leb_spec (1 + FoundryUpgrade_getBranchLevel st (planetHash foundry)) 255);
      [|lia].
    simpl.
    destruct (Z.geb_spec (count (FoundryCraftingCount_get st (planetHash foundry)))
                (1 + FoundryUpgrade_getBranchLevel st (planetHash foundry))); [|lia].
    reflexivity.
Qed.

(** The same lemmas for the FoundryCraftingSystem, whose functions repeat
    those of the ModuleCraftingSystem. *)

Lemma ship_validateRecipe_Ok foundry t materials amounts mult :
  FoundryCraftingSystem._validateRecipe foundry t materials amounts mult = Ok tt ->
  exists m1 m2 b1 b2 x1 x2,
    FoundryCraftingSystem.expectedRecipe t = Ok ([m1; m2], [b1; b2]) /\ m1 <> m2 /\
    recipeMatch foundry mult m1 m2 b1 b2 materials amounts x1 x2.
Proof.
  intros H. unfold FoundryCraftingSystem._validateRecipe in H.
  req_inv H as Hlen. req_inv H as Hnil. bind_inv H as expected Hexp.
  req_inv H as Hlen2. bind_inv H as provided Hprov.
  bind_inv H as u1 Hchk. req_inv H as Hextra.
  apply bool_decide_eq_true in Hlen, Hlen2.
  destruct expected as [ms bs]. simpl in *.
  destruct (ship_recipe_distinct _ _ _ Hexp) as (m1 & m2 & b1 & b2 & -> & -> & Hne).
  simpl in Hlen2.
  destruct (length_two _ Hlen2) as (u & v & ->).
  rewrite Hlen2 in Hlen. symmetry in Hlen. destruct (length_two _ Hlen) as (x & y & ->).
  destruct provided as [found amts]. simpl in *.
  req_inv Hprov as Hidx1. req_inv Hprov as Hidx2. req_inv Hprov as Hdup.
  injection Hprov as <- <-.
  apply negb_true in Hdup.
  destruct (decide (v = u)) as [->|Hvu]; [discriminate|].
  req_inv Hchk as Hf1. req_inv Hchk as Hamt1.
  req_inv Hchk as Hf2. req_inv Hchk as Hamt2. clear Hchk.
  req_inv H as Hsuf1. req_inv H as Hsuf2. clear H.
  apply negb_true, orb_false_iff in Hamt1 as [Hlo1 Hhi1].
  apply negb_true, orb_false_iff in Hamt2 as [Hlo2 Hhi2].
  apply negb_true in Hsuf1, Hsuf2.
  unfold PlanetLib.getMaterial in *.
  exists m1, m2, b1, b2.
  destruct (decide (m1 = v)) as [->|H1v]; destruct (decide (m2 = v)) as [->|H2v];
    try congruence;
    repeat match goal with
    | H : context [decide (?a = ?b)] |- _ => destruct (decide (a = b)); try congruence
    end; try discriminate; subst.
  - exists y, x. split; [assumption|split; [assumption|]].
    unfold recipeMatch. repeat split; try lia. right. auto.
  - exists x, y. split; [assumption|split; [assumption|]].
    unfold recipeMatch. repeat split; try lia. left. auto.
Qed.

Lemma ship_consume_same foundry ms az f1 :
  FoundryCraftingSystem.consumeMaterials foundry ms az = Ok f1 -> samePlanetBut foundry f1.
Proof.
  revert foundry az. induction ms as [|m ms IH]; intros foundry az H.
  - simpl in H. injection H as <-. apply samePlanetBut_refl.
  - destruct az as [|a az]; simpl in H.
    + injection H as <-. apply samePlanetBut_refl.
    + bind_inv H as v Hv. apply IH in H. exact H.
Qed.

Lemma ship_consume_two foundry u v x y f1 :
  u <> v ->
  FoundryCraftingSystem.consumeMaterials foundry [u; v] [x; y] = Ok f1 ->
  materials f1 u = materials foundry u - x * 1000 /\
  materials f1 v = materials foundry v - y * 1000 /\
  (forall m, m <> u -> m <> v -> materials f1 m = materials foundry m) /\
  0 <= materials f1 u - (materials foundry u - x * 1000) /\
  x * 1000 <= materials foundry u /\ y * 1000 <= materials foundry v.
Proof.
  intros Huv H. simpl in H.
  bind_inv H as a Ha. bind_inv H as b Hb. injection H as <-.
  apply checked_sub_Ok in Ha as [Hle1 ->]. apply checked_sub_Ok in Hb as [Hle2 ->].
  unfold PlanetLib.getMaterial in *. simpl in *.
  destruct (decide (v = u)) as [->|_]; [congruence|].
  destruct (decide (v = v)) as [_|]; [|congruence].
  destruct (decide (u = v)) as [->|_]; [congruence|].
  destruct (decide (u = u)) as [_|]; [|congruence].
  repeat split; try lia.
  intros m Hmu Hmv.
  destruct (decide (m = v)); [congruence|]. destruct (decide (m = u)); [congruence|].
  reflexivity.
Qed.

Lemma ship_calculateBiome_spec k st p b :
  FoundryCraftingSystem._calculateBiomeFromPlanet k st p = Ok b ->
  b = spec_planetBiome k st p.
Proof.
  unfold FoundryCraftingSystem._calculateBiomeFromPlanet, spec_planetBiome.
  destruct (Z.eqb_spec (spaceType p) DEAD_SPACE) as [Hd|Hd]; case_decide; try lia.
  - intros [= <-]. reflexivity.
  - intros Hc. bind_inv Hc as r Hr. bind_inv Hc as r2 Hr2. injection Hc as <-.
    unfold checked_mul in Hr. destruct (_ <=? _) in Hr; [|discriminate].
    injection Hr as <-.
    repeat case_decide;
      repeat match type of Hr2 with
      | context [?a <? ?b] => destruct (Z.ltb_spec a b); try lia
      end;
      try (apply checked_sub_Ok in Hr2 as [_ ->]); try (injection Hr2 as <-);
      destruct (Z.gtb_spec (spaceType p * 3 - 2) Biome_max);
      destruct (Z.gtb_spec (spaceType p * 3 - 1) Biome_max);
      destruct (Z.gtb_spec (spaceType p * 3) Biome_max); lia.
Qed.

Lemma ship_validateCrafting_Ok st foundry executor t ms az :
  FoundryCraftingSystem._validateCrafting st foundry executor t ms az = Ok tt ->
  owner foundry = executor /\ planetType foundry = FOUNDRY /\ 4 <= level foundry /\
  1 <= t <= 4 /\
  count (FoundryCraftingCount_get st (planetHash foundry))
  < 1 + FoundryUpgrade_getBranchLevel st (planetHash foundry) /\
  FoundryCraftingSystem._validateRecipe foundry t ms az
    (FoundryCraftingSystem._getCraftingMultiplier
       (count (FoundryCraftingCount_get st (planetHash foundry)))) = Ok tt.
Proof.
  intros H. unfold FoundryCraftingSystem._validateCrafting in H.
  req_inv H as Hown. req_inv H as Hty. req_inv H as Hlvl. req_inv H as Ht.
  bind_inv H as maxCrafts Hmax. req_inv H as Hlim.
  apply bool_decide_eq_true in Hown, Hty.
  apply negb_true in Hlvl, Ht, Hlim. apply orb_false_iff in Ht as [Ht1 Ht2].
  apply checked_add_Ok in Hmax as [_ ->].
  repeat split; try assumption; lia.
Qed.

Lemma ship_validate_at_limit st foundry executor t ms az :
  count (FoundryCraftingCount_get st (planetHash foundry))
  >= 1 + FoundryUpgrade_getBranchLevel st (planetHash foundry) ->
  (exists e, FoundryCraftingSystem._validateCrafting st foundry executor t ms az
             = Revert e) /\
  (owner foundry = executor -> planetType foundry = FOUNDRY -> 4 <= level foundry ->
   1 <= t <= 4 -> FoundryUpgrade_getBranchLevel st (planetHash foundry) <= 254 ->
   FoundryCraftingSystem._validateCrafting st foundry executor t ms az
   = Revert FoundryCraftingLimitReached).
Proof.
  intros Hlim. split.
  - destruct (FoundryCraftingSystem._validateCrafting st foundry executor t ms az)
      as [[]|e] eqn:H; [|eauto].
    apply ship_validateCrafting_Ok in H. lia.
  - intros Hown Hty Hlvl Ht Htier.
    unfold FoundryCraftingSystem._validateCrafting.
    rewrite (bool_decide_eq_true_2 _ Hown), (bool_decide_eq_true_2 _ Hty). simpl.
    destruct (Z.ltb_spec (level foundry) 4); [lia|].
    destruct (Z.ltb_spec t 1); [lia|]. destruct (Z.gtb_spec t 4); [lia|]. simpl.
    unfold checked_add. change (uint_max 8) with 255.
    destruct (Z.leb_spec (1 + FoundryUpgrade_getBranchLevel st (planetHash foundry)) 255);
      [|lia].
    simpl.
    destruct (Z.geb_spec (count (FoundryCraftingCount_get st (planetHash foundry)))
                (1 + FoundryUpgrade_getBranchLevel st (planetHash foundry))); [|lia].
    reflexivity.
Qed.

Lemma craftSpaceship_Ok k tx newId st h t ms az b st' :
  FoundryCraftingSystem.craftSpaceship k tx newId st h t ms az b = Ok st' ->
  exists p f1 rarity,
    PlanetTable st !! h = Some p /\
    FoundryCraftingSystem._validateCrafting st (PlanetLib.setPlanetHash p h)
      (msgSender tx) t ms az = Ok tt /\
    FoundryCraftingSystem.consumeMaterials (PlanetLib.setPlanetHash p h) ms az = Ok f1 /\
    (length (artifactStorage p) < PlanetLib.MAX_ARTIFACTS_PER_PLANET)%nat /\
    count (FoundryCraftingCount_get st h) + 1 <= uint_max 8 /\
    let biome :=
      if (b =? 0) || (b >? Biome_max) then spec_planetBiome k st (PlanetLib.setPlanetHash p h)
      else b in
    let id := newId mod 2 ^ 32 in
    let f2 := PlanetLib.setArtifactStorage f1 (artifactStorage p ++ [newId]) in
    st' =
    mkWorld (<[h := f2]> (PlanetTable st))
      (foldr (fun a o => <[a := h]> o) (ArtifactOwner st) (artifactStorage p ++ [newId]))
      (<[id := mkArtifactData 3 rarity]> (ArtifactTable st))
      (<[id := mkCraftedSpaceshipData t biome rarity (blockTimestamp tx mod 2 ^ 64) 0
                 (msgSender tx)]> (CraftedSpaceship st))
      (CraftedModules st)
      (SpaceshipSlot st) (SpaceshipModuleInstalled st)
      (<[id := mkBonus (FoundryCraftingSystem._calculateAttackBonus biome rarity t)
                 (FoundryCraftingSystem._calculateDefenseBonus biome rarity t)
                 (FoundryCraftingSystem._calculateSpeedBonus biome rarity t)
                 (FoundryCraftingSystem._calculateRangeBonus biome rarity t)]> (SpaceshipBonus st))
      (ModuleBonus st)
      (<[h := mkFoundryCraftingCountData (count (FoundryCraftingCount_get st h) + 1)
                (blockTimestamp tx mod 2 ^ 64)]> (FoundryCraftingCount st))
      (FoundryUpgrade st) (PlanetBiomeConfig st) (newId mod 2 ^ 24)
      (EntryFee st) (RevenueStats st).
Proof.
  intros H. apply craftSpaceship_process in H as [_ H].
  unfold FoundryCraftingSystem._processSpaceshipCrafting in H.
  bind_inv H as foundry Hread. bind_inv H as u0 Hval. destruct u0.
  unfold PlanetLib.readInitedPlanet in Hread.
  destruct (PlanetTable st !! h) as [p|] eqn:Hp; [|discriminate].
  injection Hread as <-.
  unfold FoundryCraftingSystem._executeCrafting in H.
  bind_inv H as f1 Hcons. bind_inv H as rarity Hrar. bind_inv H as cb Hcb.
  bind_inv H as f2 Hpush. bind_inv H as newCount Hcnt. injection H as <-.
  pose proof (ship_consume_same _ _ _ _ Hcons) as (Ho & Hh & Hty & Hl & Hs & Hpe & Hst).
  simpl in Ho, Hh, Hty, Hl, Hs, Hpe, Hst.
  unfold PlanetLib.pushArtifact in Hpush. req_inv Hpush as Hslot. injection Hpush as <-.
  unfold PlanetLib.hasArtifactSlot in Hslot. apply bool_decide_eq_true in Hslot.
  rewrite Hst in Hslot.
  apply checked_add_Ok in Hcnt as [Hcnt ->]. rewrite Hh in Hcnt.
  apply ship_calculateBiome_spec in Hcb. subst cb.
  exists p, f1, rarity.
  split; [reflexivity|]. split; [exact Hval|]. split; [exact Hcons|].
  split; [exact Hslot|]. split; [exact Hcnt|].
  cbv zeta. unfold PlanetLib.writeToStore, PlanetLib.writeArtifact. simpl.
  rewrite Hh, Hst.
  assert (Hsp : spec_planetBiome k st f1 = spec_planetBiome k st (PlanetLib.setPlanetHash p h)).
  { unfold spec_planetBiome. simpl. rewrite Hs, Hh, Hpe. reflexivity. }
  rewrite Hsp. reflexivity.
Qed.

(** ** C5, C6, C10: what a craft consumes, stores and refuses *)

Lemma craftModule_consumes k tx newId st h t ms az b st' :
  ModuleCraftingSystem.craftModule k tx newId st h t ms az b = Ok st' ->
  craftConsumes (ModuleCraftingSystem.expectedRecipe t)
    (ModuleCraftingSystem._getCraftingMMultiplier (count (FoundryCraftingCount_get st h)))
    st st' h ms az.
Proof.
  intros H. apply craftModule_Ok in H as (p & f1 & rarity & Hp & Hval & Hcons & _ & _ & Hst).
  cbv zeta in Hst.
  apply module_validateCrafting_Ok in Hval as (_ & _ & _ & _ & _ & Hrec). simpl in Hrec.
  apply module_validateRecipe_Ok in Hrec
    as (m1 & m2 & b1 & b2 & x1 & x2 & Hexp & Hne & Hsel & Hx1 & Hx2 & _).
  exists p, (PlanetLib.setArtifactStorage f1 (artifactStorage p ++ [newId])),
    m1, m2, b1, b2, x1, x2.
  split; [exact Hp|]. split; [subst st'; simpl; apply lookup_insert_eq|].
  split; [exact Hexp|]. split; [exact Hne|]. split; [exact Hsel|].
  split; [exact Hx1|]. split; [exact Hx2|].
  assert (Hbal : materials f1 m1 = materials p m1 - x1 * 1000 /\
                 materials f1 m2 = materials p m2 - x2 * 1000 /\
                 (forall m, m <> m1 -> m <> m2 -> materials f1 m = materials p m)).
  { destruct Hsel as [[-> ->]|[-> ->]].
    - apply module_consume_two in Hcons as (H1 & H2 & H3 & _); [|exact Hne].
      simpl in H1, H2, H3. auto.
    - apply module_consume_two in Hcons as (H1 & H2 & H3 & _); [|congruence].
      simpl in H1, H2, H3. split; [exact H2|]. split; [exact H1|].
      intros m Hm1 Hm2. apply H3; assumption. }
  destruct Hbal as (H1 & H2 & H3). simpl.
  split; [exact H1|]. split; [exact H2|]. split; [exact H3|].
  subst st'. unfold FoundryCraftingCount_get at 1. simpl. rewrite lookup_insert_eq. reflexivity.
Qed.

Lemma craftSpaceship_consumes k tx newId st h t ms az b st' :
  FoundryCraftingSystem.craftSpaceship k tx newId st h t ms az b = Ok st' ->
  craftConsumes (FoundryCraftingSystem.expectedRecipe t)
    (FoundryCraftingSystem._getCraftingMultiplier (count (FoundryCraftingCount_get st h)))
    st st' h ms az.
Proof.
  intros H. apply craftSpaceship_Ok in H as (p & f1 & rarity & Hp & Hval & Hcons & _ & _ & Hst).
  cbv zeta in Hst.
  apply ship_validateCrafting_Ok in Hval as (_ & _ & _ & _ & _ & Hrec). simpl in Hrec.
  apply ship_validateRecipe_Ok in Hrec
    as (m1 & m2 & b1 & b2 & x1 & x2 & Hexp & Hne & Hsel & Hx1 & Hx2 & _).
  exists p, (PlanetLib.setArtifactStorage f1 (artifactStorage p ++ [newId])),
    m1, m2, b1, b2, x1, x2.
  split; [exact Hp|]. split; [subst st'; simpl; apply lookup_insert_eq|].
  split; [exact Hexp|]. split; [exact Hne|]. split; [exact Hsel|].
  split; [exact Hx1|]. split; [exact Hx2|].
  assert (Hbal : materials f1 m1 = materials p m1 - x1 * 1000 /\
                 materials f1 m2 = materials p m2 - x2 * 1000 /\
                 (forall m, m <> m1 -> m <> m2 -> materials f1 m = materials p m)).
  { destruct Hsel as [[-> ->]|[-> ->]].
    - apply ship_consume_two in Hcons as (H1 & H2 & H3 & _); [|exact Hne].
      simpl in H1, H2, H3. auto.
    - apply ship_consume_two in Hcons as (H1 & H2 & H3 & _); [|congruence].
      simpl in H1, H2, H3. split; [exact H2|]. split; [exact H1|].
      intros m Hm1 Hm2. apply H3; assumption. }
  destruct Hbal as (H1 & H2 & H3). simpl.
  split; [exact H1|]. split; [exact H2|]. split; [exact H3|].
  subst st'. unfold FoundryCraftingCount_get at 1. simpl. rewrite lookup_insert_eq. reflexivity.
Qed.

(** C5, as the code has it: a craft that succeeds lowers the station's balance
    of each of the two materials of the recipe by the amount the caller
    supplied for it (times 1000, the scale of the stored balances), an amount
    the validation holds between [floor(base * multiplierPercent / 100)] and
    that plus one; no other balance changes, and the station's craft count
    goes up by exactly 1.  This holds for modules and for carriers. *)
Theorem C5_craft_consumes_supplied_amounts k tx newId st h t ms az b st' :
  (ModuleCraftingSystem.craftModule k tx newId st h t ms az b = Ok st' ->
   craftConsumes (ModuleCraftingSystem.expectedRecipe t)
     (ModuleCraftingSystem._getCraftingMMultiplier (count (FoundryCraftingCount_get st h)))
     st st' h ms az) /\
  (FoundryCraftingSystem.craftSpaceship k tx newId st h t ms az b = Ok st' ->
   craftConsumes (FoundryCraftingSystem.expectedRecipe t)
     (FoundryCraftingSystem._getCraftingMultiplier (count (FoundryCraftingCount_get st h)))
     st st' h ms az).
Proof.
  split; [apply craftModule_consumes | apply craftSpaceship_consumes].
Qed.

Lemma C5_craft_witness :
  Scenario.craftEngine80 = Ok (commit Scenario.st0 Scenario.craftEngine80) /\
  craftConsumes (ModuleCraftingSystem.expectedRecipe 1)
    (ModuleCraftingSystem._getCraftingMMultiplier
       (count (FoundryCraftingCount_get Scenario.st0 1)))
    Scenario.st0 (commit Scenario.st0 Scenario.craftEngine80) 1
    [WINDSTEEL; AURORIUM] [80; 40].
Proof.
  assert (H : Scenario.craftEngine80 = Ok (commit Scenario.st0 Scenario.craftEngine80))
    by (vm_compute; reflexivity).
  split; [exact H|].
  exact (proj1 (C5_craft_consumes_supplied_amounts Scenario.k0 Scenario.tx7 1 Scenario.st0 1 1
                  [WINDSTEEL; AURORIUM] [80; 40] 1 _) H).
Defined.

(** C5 as the specification words it fails: the first craft of an Engine
    (base 80 Windsteel, multiplier 100) with 81 units supplied passes the
    tolerance of the validation and lowers the balance by 81 units of 1000,
    while [ceil(80 * 100 / 100)] is 80. *)
Lemma C5_ceil_counterexample :
  Scenario.craftEngine81 = Ok (commit Scenario.st0 Scenario.craftEngine81) /\
  Scenario.balance Scenario.st0 1 WINDSTEEL
  - Scenario.balance (commit Scenario.st0 Scenario.craftEngine81) 1 WINDSTEEL = 81 * 1000 /\
  ceil_div (80 * ModuleCraftingSystem._getCraftingMMultiplier
                   (count (FoundryCraftingCount_get Scenario.st0 1))) 100 = 80.
Proof.
  split; [vm_compute; reflexivity|]. split; vm_compute; reflexivity.
Qed.

Lemma craftModule_at_limit k tx newId st h t ms az b :
  count (FoundryCraftingCount_get st h) >= 1 + FoundryUpgrade_getBranchLevel st h ->
  (exists e, ModuleCraftingSystem.craftModule k tx newId st h t ms az b = Revert e) /\
  (forall p, PlanetTable st !! h = Some p -> owner p = msgSender tx ->
     planetType p = FOUNDRY -> 4 <= level p -> 1 <= t <= 4 ->
     FoundryUpgrade_getBranchLevel st h <= 254 -> 0 <= b <= Biome_max ->
     ModuleCraftingSystem.craftModule k tx newId st h t ms az b
     = Revert FoundryCraftingLimitReached).
Proof.
  intros Hlim. destruct (decide (0 <= b <= Biome_max)) as [Hb|Hb].
  2: { rewrite (craftModule_not_decoded _ _ _ _ _ _ _ _ _ Hb). split; [eauto|].
       intros; contradiction. }
  rewrite (craftModule_decoded _ _ _ _ _ _ _ _ _ Hb).
  unfold ModuleCraftingSystem._processModuleCrafting, PlanetLib.readInitedPlanet.
  destruct (PlanetTable st !! h) as [p|] eqn:Hp; simpl.
  - destruct (module_validate_at_limit st (PlanetLib.setPlanetHash p h) (msgSender tx)
                t ms az Hlim) as [[e He] Hfull].
    split.
    + exists e. rewrite He. reflexivity.
    + intros p' [= <-] Hown Hty Hlvl Ht Htier _. rewrite Hfull; auto.
  - split; [eauto|]. intros p' [=].
Qed.

Lemma craftSpaceship_at_limit k tx newId st h t ms az b :
  count (FoundryCraftingCount_get st h) >= 1 + FoundryUpgrade_getBranchLevel st h ->
  (exists e, FoundryCraftingSystem.craftSpaceship k tx newId st h t ms az b = Revert e) /\
  (forall p, PlanetTable st !! h = Some p -> owner p = msgSender tx ->
     planetType p = FOUNDRY -> 4 <= level p -> 1 <= t <= 4 ->
     FoundryUpgrade_getBranchLevel st h <= 254 -> 0 <= b <= Biome_max ->
     FoundryCraftingSystem.craftSpaceship k tx newId st h t ms az b
     = Revert FoundryCraftingLimitReached).
Proof.
  intros Hlim. destruct (decide (0 <= b <= Biome_max)) as [Hb|Hb].
  2: { rewrite (craftSpaceship_not_decoded _ _ _ _ _ _ _ _ _ Hb). split; [eauto|].
       intros; contradiction. }
  rewrite (craftSpaceship_decoded _ _ _ _ _ _ _ _ _ Hb).
  unfold FoundryCraftingSystem._processSpaceshipCrafting, PlanetLib.readInitedPlanet.
  destruct (PlanetTable st !! h) as [p|] eqn:Hp; simpl.
  - destruct (ship_validate_at_limit st (PlanetLib.setPlanetHash p h) (msgSender tx)
                t ms az Hlim) as [[e He] Hfull].
    split.
    + exists e. rewrite He. reflexivity.
    + intros p' [= <-] Hown Hty Hlvl Ht Htier _. rewrite Hfull; auto.
  - split; [eauto|]. intros p' [=].
Qed.

(** The checks of a craft that come before the crafting limit, in the order
    of the code, for a biome argument that decodes. *)
Lemma craft_checks_before_limit k tx newId st h t ms az b p :
  PlanetTable st !! h = Some p -> 0 <= b <= Biome_max ->
  let module := ModuleCraftingSystem.craftModule k tx newId st h t ms az b in
  let ship := FoundryCraftingSystem.craftSpaceship k tx newId st h t ms az b in
  (owner p <> msgSender tx ->
   module = Revert NotPlanetOwner /\ ship = Revert NotPlanetOwner) /\
  (owner p = msgSender tx -> planetType p <> FOUNDRY ->
   module = Revert InvalidPlanetType /\ ship = Revert InvalidPlanetType) /\
  (owner p = msgSender tx -> planetType p = FOUNDRY -> level p < 4 ->
   module = Revert PlanetLevelTooLow /\ ship = Revert PlanetLevelTooLow) /\
  (owner p = msgSender tx -> planetType p = FOUNDRY -> 4 <= level p -> ~ 1 <= t <= 4 ->
   module = Revert InvalidModuleType /\ ship = Revert InvalidSpaceshipType) /\
  (owner p = msgSender tx -> planetType p = FOUNDRY -> 4 <= level p -> 1 <= t <= 4 ->
   254 < FoundryUpgrade_getBranchLevel st h ->
   module = Revert Panic /\ ship = Revert Panic).
Proof.
  intros Hp Hb module ship. unfold module, ship.
  rewrite (craftModule_decoded _ _ _ _ _ _ _ _ _ Hb),
    (craftSpaceship_decoded _ _ _ _ _ _ _ _ _ Hb).
  unfold ModuleCraftingSystem._processModuleCrafting,
    FoundryCraftingSystem._processSpaceshipCrafting, PlanetLib.readInitedPlanet,
    ModuleCraftingSystem._validateModuleCrafting, FoundryCraftingSystem._validateCrafting.
  rewrite Hp.
  cbn [mbind Result_bind PlanetLib.setPlanetHash owner planetType level planetHash].
  split; [|split; [|split; [|split]]].
  - intros Ho. rewrite (bool_decide_eq_false_2 _ Ho). split; reflexivity.
  - intros Ho Hty. rewrite (bool_decide_eq_true_2 _ Ho), (bool_decide_eq_false_2 _ Hty).
    split; reflexivity.
  - intros Ho Hty Hl.
    rewrite (bool_decide_eq_true_2 _ Ho), (bool_decide_eq_true_2 _ Hty).
    destruct (Z.ltb_spec (level p) 4); [|lia]. split; reflexivity.
  - intros Ho Hty Hl Ht.
    rewrite (bool_decide_eq_true_2 _ Ho), (bool_decide_eq_true_2 _ Hty).
    destruct (Z.ltb_spec (level p) 4); [lia|].
    destruct (Z.ltb_spec t 1), (Z.gtb_spec t 4); try lia; split; reflexivity.
  - intros Ho Hty Hl Ht Htier.
    rewrite (bool_decide_eq_true_2 _ Ho), (bool_decide_eq_true_2 _ Hty).
    destruct (Z.ltb_spec (level p) 4); [lia|].
    destruct (Z.ltb_spec t 1), (Z.gtb_spec t 4); try lia.
    cbn [negb orb require mbind Result_bind]. unfold checked_add.
    change (uint_max 8) with 255.
    destruct (Z.leb_spec (1 + FoundryUpgrade_getBranchLevel st h) 255); [lia|].
    split; reflexivity.
Qed.

(** C6, as the code has it: the multiplier is 100, 150, 225 for the counts 0,
    1, 2; a craft attempted at [craftCount >= 1 + upgradeTier] is always
    rejected and leaves the state as it was.  The rejection is the error of
    the first check that fails, in the order of the code: the biome argument
    is not a member of its enum ([InvalidEnumValue], the revert of the
    decoder), the planet is not initialised, the caller does not own it, it
    is not a foundry, its level is below 4, the role is not one of 1..4,
    [1 + upgradeTier] does not fit its [uint8] (an arithmetic panic); when
    all of these pass it is [FoundryCraftingLimitReached]. *)
Theorem C6_multiplier_table_and_limit k tx newId st h t ms az b :
  count (FoundryCraftingCount_get st h) >= 1 + FoundryUpgrade_getBranchLevel st h ->
  let module := ModuleCraftingSystem.craftModule k tx newId st h t ms az b in
  let ship := FoundryCraftingSystem.craftSpaceship k tx newId st h t ms az b in
  (ModuleCraftingSystem._getCraftingMMultiplier 0 = 100 /\
   ModuleCraftingSystem._getCraftingMMultiplier 1 = 150 /\
   ModuleCraftingSystem._getCraftingMMultiplier 2 = 225 /\
   FoundryCraftingSystem._getCraftingMultiplier 0 = 100 /\
   FoundryCraftingSystem._getCraftingMultiplier 1 = 150 /\
   FoundryCraftingSystem._getCraftingMultiplier 2 = 225) /\
  (exists e, module = Revert e) /\ (exists e, ship = Revert e) /\
  commit st module = st /\ commit st ship = st /\
  (~ 0 <= b <= Biome_max ->
   module = Revert InvalidEnumValue /\ ship = Revert InvalidEnumValue) /\
  (0 <= b <= Biome_max -> PlanetTable st !! h = None ->
   module = Revert PlanetNotInitialized /\ ship = Revert PlanetNotInitialized) /\
  (forall p,
     0 <= b <= Biome_max -> PlanetTable st !! h = Some p ->
     (owner p <> msgSender tx ->
      module = Revert NotPlanetOwner /\ ship = Revert NotPlanetOwner) /\
     (owner p = msgSender tx -> planetType p <> FOUNDRY ->
      module = Revert InvalidPlanetType /\ ship = Revert InvalidPlanetType) /\
     (owner p = msgSender tx -> planetType p = FOUNDRY -> level p < 4 ->
      module = Revert PlanetLevelTooLow /\ ship = Revert PlanetLevelTooLow) /\
     (owner p = msgSender tx -> planetType p = FOUNDRY -> 4 <= level p ->
      ~ 1 <= t <= 4 ->
      module = Revert InvalidModuleType /\ ship = Revert InvalidSpaceshipType) /\
     (owner p = msgSender tx -> planetType p = FOUNDRY -> 4 <= level p ->
      1 <= t <= 4 -> 254 < FoundryUpgrade_getBranchLevel st h ->
      module = Revert Panic /\ ship = Revert Panic) /\
     (owner p = msgSender tx -> planetType p = FOUNDRY -> 4 <= level p ->
      1 <= t <= 4 -> FoundryUpgrade_getBranchLevel st h <= 254 ->
      module = Revert FoundryCraftingLimitReached /\
      ship = Revert FoundryCraftingLimitReached)).
Proof.
  intros Hlim module ship.
  destruct (craftModule_at_limit k tx newId st h t ms az b Hlim) as [[e1 He1] Hm].
  destruct (craftSpaceship_at_limit k tx newId st h t ms az b Hlim) as [[e2 He2] Hs].
  fold module in He1, Hm. fold ship in He2, Hs.
  split; [repeat split|].
  split; [eauto|]. split; [eauto|].
  split; [rewrite He1; reflexivity|]. split; [rewrite He2; reflexivity|].
  split; [|split].
  - intros Hb. unfold module, ship.
    rewrite (craftModule_not_decoded _ _ _ _ _ _ _ _ _ Hb),
      (craftSpaceship_not_decoded _ _ _ _ _ _ _ _ _ Hb). split; reflexivity.
  - intros Hb Hnone. unfold module, ship.
    rewrite (craftModule_decoded _ _ _ _ _ _ _ _ _ Hb),
      (craftSpaceship_decoded _ _ _ _ _ _ _ _ _ Hb).
    unfold ModuleCraftingSystem._processModuleCrafting,
      FoundryCraftingSystem._processSpaceshipCrafting, PlanetLib.readInitedPlanet.
    rewrite Hnone. split; reflexivity.
  - intros p Hb Hp.
    destruct (craft_checks_before_limit k tx newId st h t ms az b p Hp Hb)
      as (H1 & H2 & H3 & H4 & H5).
    split; [exact H1|]. split; [exact H2|]. split; [exact H3|]. split; [exact H4|].
    split; [exact H5|].
    intros Hown Hty Hlvl Ht Htier. split; [eapply Hm | eapply Hs]; eassumption.
Qed.

Lemma C6_limit_witness :
  count (FoundryCraftingCount_get Scenario.st1 1)
  >= 1 + FoundryUpgrade_getBranchLevel Scenario.st1 1 /\
  ModuleCraftingSystem.craftModule Scenario.k0 Scenario.tx7 2 Scenario.st1 1 1
    [WINDSTEEL; AURORIUM] [120; 60] 1 = Revert FoundryCraftingLimitReached /\
  FoundryCraftingSystem.craftSpaceship Scenario.k0 Scenario.tx7 2 Scenario.st1 1 1
    [WINDSTEEL; AURORIUM] [120; 60] 1 = Revert FoundryCraftingLimitReached.
Proof.
  assert (H : count (FoundryCraftingCount_get Scenario.st1 1)
              >= 1 + FoundryUpgrade_getBranchLevel Scenario.st1 1)
    by (vm_compute; discriminate).
  split; [exact H|].
  destruct (C6_multiplier_table_and_limit Scenario.k0 Scenario.tx7 2 Scenario.st1 1 1
              [WINDSTEEL; AURORIUM] [120; 60] 1 H)
    as (_ & _ & _ & _ & _ & _ & _ & Hfull).
  edestruct Hfull as (_ & _ & _ & _ & _ & Hlimit).
  - vm_compute. intuition discriminate.
  - vm_compute. reflexivity.
  - apply Hlimit.
    + reflexivity.
    + reflexivity.
    + vm_compute. discriminate.
    + lia.
    + vm_compute. discriminate.
Defined.

(** C6 as the specification words it fails: at the limit, the craft of a
    caller who does not own the foundry is rejected with [NotPlanetOwner],
    the first check of the validation. *)
Lemma C6_limit_counterexample :
  count (FoundryCraftingCount_get Scenario.st1 1)
  >= 1 + FoundryUpgrade_getBranchLevel Scenario.st1 1 /\
  ModuleCraftingSystem.craftModule Scenario.k0 Scenario.tx9 2 Scenario.st1 1 1
    [WINDSTEEL; AURORIUM] [120; 60] 1 = Revert NotPlanetOwner /\
  ModuleCraftingSystem.craftModule Scenario.k0 Scenario.tx9 2 Scenario.st1 1 1
    [WINDSTEEL; AURORIUM] [120; 60] 1 <> Revert FoundryCraftingLimitReached.
Proof.
  split; [vm_compute; discriminate|]. split; [vm_compute; reflexivity|].
  vm_compute. discriminate.
Qed.

(** ** C10: the biome a craft stores *)

Lemma biome_choice (b c : Z) :
  0 <= b <= Biome_max ->
  (if (b =? 0) || (b >? Biome_max) then c else b) = if decide (b = 0) then c else b.
Proof.
  intros Hb. destruct (Z.eqb_spec b 0); destruct (Z.gtb_spec b Biome_max); case_decide;
    simpl; try reflexivity; lia.
Qed.

(** C10, as the code has it: a craft is served only for a biome argument
    that is a member of the enum, 0 to the maximum; a request with a greater
    one reverts in the decoder of the entry point, so the second test of the
    condition in [_executeCrafting] never holds.  A craft that succeeds
    stores, for the crafted item, the biome the caller supplied when it lies
    in 1..max; when the supplied biome is 0 it stores the biome computed from
    the foundry: Corrupted in dead space, and otherwise the variant of the
    foundry's zone that [keccak256(planetHash, perlin) mod 1000] selects
    against the two configured thresholds, capped at the last biome. *)
Theorem C10_stored_biome k tx newId st h t ms az b st' :
  (ModuleCraftingSystem.craftModule k tx newId st h t ms az b = Ok st' ->
   0 <= b <= Biome_max /\
   storedBiome k st h b (module_biome (CraftedModules_get st' (newId mod 2 ^ 32)))) /\
  (FoundryCraftingSystem.craftSpaceship k tx newId st h t ms az b = Ok st' ->
   0 <= b <= Biome_max /\
   storedBiome k st h b (ship_biome (CraftedSpaceship_get st' (newId mod 2 ^ 32)))) /\
  (Biome_max < b ->
   ModuleCraftingSystem.craftModule k tx newId st h t ms az b = Revert InvalidEnumValue /\
   FoundryCraftingSystem.craftSpaceship k tx newId st h t ms az b
   = Revert InvalidEnumValue).
Proof.
  split; [|split].
  - intros H. pose proof (proj1 (craftModule_process _ _ _ _ _ _ _ _ _ _ H)) as Hb.
    split; [exact Hb|].
    apply craftModule_Ok in H as (p & f1 & rarity & Hp & _ & _ & _ & _ & Hst).
    cbv zeta in Hst. exists p. split; [exact Hp|].
    subst st'. unfold CraftedModules_get. simpl. rewrite lookup_insert_eq. simpl.
    apply biome_choice, Hb.
  - intros H. pose proof (proj1 (craftSpaceship_process _ _ _ _ _ _ _ _ _ _ H)) as Hb.
    split; [exact Hb|].
    apply craftSpaceship_Ok in H as (p & f1 & rarity & Hp & _ & _ & _ & _ & Hst).
    cbv zeta in Hst. exists p. split; [exact Hp|].
    subst st'. unfold CraftedSpaceship_get. simpl. rewrite lookup_insert_eq. simpl.
    apply biome_choice, Hb.
  - intros Hb. split;
      [apply craftModule_not_decoded|apply craftSpaceship_not_decoded]; lia.
Qed.

Lemma C10_stored_biome_witness :
  Scenario.craftEngineAnyBiome
  = Ok (commit Scenario.st0 Scenario.craftEngineAnyBiome) /\
  module_biome (CraftedModules_get (commit Scenario.st0 Scenario.craftEngineAnyBiome)
                  (1 mod 2 ^ 32))
  = spec_planetBiome Scenario.k0 Scenario.st0 (PlanetLib.setPlanetHash Scenario.foundry1 1).
Proof.
  assert (H : Scenario.craftEngineAnyBiome
              = Ok (commit Scenario.st0 Scenario.craftEngineAnyBiome))
    by (vm_compute; reflexivity).
  split; [exact H|].
  destruct (proj1 (C10_stored_biome Scenario.k0 Scenario.tx7 1 Scenario.st0 1 1
                     [WINDSTEEL; AURORIUM] [80; 40] 0 _) H) as (_ & p & Hp & ->).
  injection Hp as <-. reflexivity.
Defined.

(** C10 as the specification words it fails: the craft of an Engine that
    succeeds with biome 1 is, with biome 11 (one above the maximum), not
    served with a computed biome: it reverts in the decoder, and no item is
    crafted. *)
Lemma C10_out_of_range_counterexample :
  Biome_max < 11 /\
  Scenario.craftEngine80 = Ok (commit Scenario.st0 Scenario.craftEngine80) /\
  ModuleCraftingSystem.craftModule Scenario.k0 Scenario.tx7 1 Scenario.st0 1 1
    [WINDSTEEL; AURORIUM] [80; 40] 11 = Revert InvalidEnumValue /\
  FoundryCraftingSystem.craftSpaceship Scenario.k0 Scenario.tx7 1 Scenario.st0 1 1
    [WINDSTEEL; AURORIUM] [100; 50] 11 = Revert InvalidEnumValue /\
  ~ (exists st',
       ModuleCraftingSystem.craftModule Scenario.k0 Scenario.tx7 1 Scenario.st0 1 1
         [WINDSTEEL; AURORIUM] [80; 40] 11 = Ok st' /\
       module_biome (CraftedModules_get st' (1 mod 2 ^ 32))
       = spec_planetBiome Scenario.k0 Scenario.st0
           (PlanetLib.setPlanetHash Scenario.foundry1 1)).
Proof.
  split; [reflexivity|]. split; [vm_compute; reflexivity|].
  split; [vm_compute; reflexivity|]. split; [vm_compute; reflexivity|].
  intros (st' & H & _). revert H. vm_compute. discriminate.
Qed.

(** ** Tables: reading after a write *)

Lemma default_insert {K : Type} `{Countable K} {V : Type} (z v : V) (k j : K)
    (M : gmap K V) :
  default z (<[k := v]> M !! j) = if decide (k = j) then v else default z (M !! j).
Proof. rewrite lookup_insert. case_decide; reflexivity. Qed.

Lemma owner_foldr_in (l : list Z) (h : Z) (AO : gmap Z Z) (a : Z) :
  a ∈ l -> foldr (fun a o => <[a := h]> o) AO l !! a = Some h.
Proof.
  induction l as [|x l IH]; intros Hin.
  - apply elem_of_nil in Hin. destruct Hin.
  - cbn [foldr]. apply elem_of_cons in Hin as [->|Hin].
    + apply lookup_insert_eq.
    + destruct (decide (x = a)) as [->|Hne]; [apply lookup_insert_eq|].
      rewrite lookup_insert_ne by exact Hne. apply IH, Hin.
Qed.

Lemma owner_foldr_notin (l : list Z) (h : Z) (AO : gmap Z Z) (a : Z) :
  a ∉ l -> foldr (fun a o => <[a := h]> o) AO l !! a = AO !! a.
Proof.
  induction l as [|x l IH]; intros Hnin; [reflexivity|].
  cbn [foldr]. apply not_elem_of_cons in Hnin as [Hne Hnin].
  rewrite lookup_insert_ne by congruence. apply IH, Hnin.
Qed.

(** ** Sums over the installed modules *)

Section SumOver.

Variables (ax : Axis) (ship : Z).

Lemma sumOver_empty bonus : sumOver ax bonus ∅ ship = 0.
Proof. unfold sumOver. apply map_fold_empty. Qed.

Lemma sumOver_insert_fresh bonus rows m d :
  rows !! m = None ->
  sumOver ax bonus (<[m := d]> rows) ship
  = contribution ax ship bonus m d + sumOver ax bonus rows ship.
Proof.
  intros Hm. unfold sumOver. rewrite map_fold_insert_L; [reflexivity| |exact Hm].
  intros. lia.
Qed.

Lemma sumOver_delete bonus rows m d :
  rows !! m = Some d ->
  sumOver ax bonus rows ship
  = contribution ax ship bonus m d + sumOver ax bonus (delete m rows) ship.
Proof.
  intros Hm. unfold sumOver. rewrite (map_fold_delete_L _ _ m d rows); [reflexivity| |exact Hm].
  intros. lia.
Qed.

(** Writing the row of [m]: the old row's share leaves the sum, the new
    row's share enters it. *)
Lemma sumOver_insert bonus rows m d :
  sumOver ax bonus (<[m := d]> rows) ship
  = sumOver ax bonus rows ship
    - contribution ax ship bonus m (default zeroInstalled (rows !! m))
    + contribution ax ship bonus m d.
Proof.
  rewrite <- insert_delete_eq.
  rewrite sumOver_insert_fresh by apply lookup_delete_eq.
  destruct (rows !! m) as [d0|] eqn:Hm; simpl.
  - rewrite (sumOver_delete bonus rows m d0 Hm). lia.
  - rewrite delete_id by exact Hm.
    change (contribution ax ship bonus m zeroInstalled) with 0. lia.
Qed.

Lemma sumOver_ext bonus bonus' rows :
  (forall m d, rows !! m = Some d -> installedOn ship d = true -> bonus m = bonus' m) ->
  sumOver ax bonus rows ship = sumOver ax bonus' rows ship.
Proof.
  induction rows as [|m d rows Hm IH] using map_ind; intros Hext.
  - rewrite !sumOver_empty. reflexivity.
  - rewrite !sumOver_insert_fresh by exact Hm.
    rewrite IH.
    + f_equal. unfold contribution. destruct (installedOn ship d) eqn:Hi; [|reflexivity].
      rewrite (Hext m d); [reflexivity|apply lookup_insert_eq|exact Hi].
    + intros m' d' Hm' Hi. apply (Hext m' d'); [|exact Hi].
      rewrite lookup_insert_ne; [exact Hm'|]. intros ->. congruence.
Qed.

Lemma sumOver_nonneg bonus rows :
  (forall m, 0 <= axis ax (bonus m)) -> 0 <= sumOver ax bonus rows ship.
Proof.
  intros Hb. induction rows as [|m d rows Hm IH] using map_ind.
  - rewrite sumOver_empty. lia.
  - rewrite sumOver_insert_fresh by exact Hm. unfold contribution.
    destruct (installedOn ship d); [specialize (Hb m)|]; lia.
Qed.

Lemma sumOver_none bonus rows :
  (forall m d, rows !! m = Some d -> installedOn ship d = false) ->
  sumOver ax bonus rows ship = 0.
Proof.
  induction rows as [|m d rows Hm IH] using map_ind; intros Hnone.
  - apply sumOver_empty.
  - rewrite sumOver_insert_fresh by exact Hm. unfold contribution.
    rewrite (Hnone m d) by apply lookup_insert_eq.
    rewrite IH; [reflexivity|].
    intros m' d' Hm'. apply (Hnone m' d').
    rewrite lookup_insert_ne; [exact Hm'|]. intros ->. congruence.
Qed.

(** An installed module's bonus is part of the sum. *)
Lemma sumOver_member bonus rows m d :
  (forall m, 0 <= axis ax (bonus m)) ->
  rows !! m = Some d -> installedOn ship d = true ->
  axis ax (bonus m) <= sumOver ax bonus rows ship.
Proof.
  intros Hb Hm Hi. rewrite (sumOver_delete bonus rows m d Hm).
  unfold contribution. rewrite Hi.
  pose proof (sumOver_nonneg bonus (delete m rows) Hb). lia.
Qed.

End SumOver.

(** ** The invariant is kept by a write of one inventory *)

Lemma offPlanet_not_stored st a h p :
  offPlanet st a -> PlanetTable st !! h = Some p -> a ∉ artifactStorage p.
Proof. intros [_ Hoff]. apply Hoff. Qed.

Lemma stored_old st h x :
  x ∈ from_option artifactStorage [] (PlanetTable st !! h) ->
  exists p, PlanetTable st !! h = Some p /\ x ∈ artifactStorage p.
Proof.
  destruct (PlanetTable st !! h) as [p|]; simpl; intros Hx.
  - eauto.
  - apply elem_of_nil in Hx. destruct Hx.
Qed.

(** The planet [h] is written with the inventory [artifactStorage p'], and
    [ArtifactOwner] becomes [AO']: the artifacts of the new inventory are
    owned by [h], those that left it have no owner row, and the rows of all
    others stay. *)
Lemma inventory_wf st h p' (AO' : gmap Z Z) :
  wf st ->
  NoDup (artifactStorage p') ->
  (length (artifactStorage p') <= PlanetLib.MAX_ARTIFACTS_PER_PLANET)%nat ->
  (forall x, x ∈ artifactStorage p' ->
     default 0 (AO' !! x) = h /\ artifactIndex (ArtifactTable_get st x) <> 0 /\
     inst_installed (SpaceshipModuleInstalled_get st x) = false /\
     (x ∈ from_option artifactStorage [] (PlanetTable st !! h) \/ offPlanet st x)) ->
  (forall x, x ∉ artifactStorage p' ->
     x ∈ from_option artifactStorage [] (PlanetTable st !! h) -> default 0 (AO' !! x) = 0) ->
  (forall x, x ∉ artifactStorage p' ->
     x ∉ from_option artifactStorage [] (PlanetTable st !! h) ->
     default 0 (AO' !! x) = ArtifactOwner_get st x) ->
  wf (set_ArtifactOwner AO' (set_PlanetTable (<[h := p']> (PlanetTable st)) st)).
Proof.
  intros Hwf Hnd Hlen Hnew Hgone Hrest.
  assert (Hinst : forall m, inst_installed (SpaceshipModuleInstalled_get st m) = true ->
                    (m ∉ artifactStorage p') /\
                    (m ∉ from_option artifactStorage [] (PlanetTable st !! h))).
  { intros m Hm. split.
    - intros Hin. destruct (Hnew m Hin) as (_ & _ & Hf & _). congruence.
    - intros Hin. apply stored_old in Hin as (p & Hp & Hin).
      exact (offPlanet_not_stored st m h p (wf_off_planet st Hwf m Hm) Hp Hin). }
  constructor.
  - exact (wf_bonus st Hwf).
  - exact (wf_craft st Hwf).
  - intros m Hm. change (inst_installed (SpaceshipModuleInstalled_get st m) = true) in Hm.
    destruct (Hinst m Hm) as [Hn1 Hn2]. destruct (wf_off_planet st Hwf m Hm) as [Hao Hst].
    split.
    + unfold ArtifactOwner_get. simpl. rewrite (Hrest m Hn1 Hn2). exact Hao.
    + intros h' q Hq. simpl in Hq.
      destruct (decide (h = h')) as [<-|Hne].
      * rewrite lookup_insert_eq in Hq. injection Hq as <-. exact Hn1.
      * rewrite lookup_insert_ne in Hq by exact Hne. exact (Hst h' q Hq).
  - exact (wf_cleared st Hwf).
  - exact (wf_kinds st Hwf).
  - intros x Hx. unfold ArtifactOwner_get in *. simpl in *.
    destruct (decide (x ∈ artifactStorage p')) as [Hin|Hnin].
    + destruct (Hnew x Hin) as [-> _]. exists p'. rewrite lookup_insert_eq. auto.
    + destruct (decide (x ∈ from_option artifactStorage [] (PlanetTable st !! h)))
        as [Hold|Hnold].
      * rewrite (Hgone x Hnin Hold) in Hx. congruence.
      * rewrite (Hrest x Hnin Hnold) in *.
        destruct (wf_owner st Hwf x Hx) as (q & Hq & Hxq). unfold ArtifactOwner_get in *.
        destruct (decide (h = default 0 (ArtifactOwner st !! x))) as [Heq|Hne].
        -- exfalso. apply Hnold. rewrite Heq, Hq. exact Hxq.
        -- exists q. rewrite lookup_insert_ne by exact Hne. auto.
  - intros h' q x Hq Hx. unfold ArtifactOwner_get. simpl in *.
    destruct (decide (h = h')) as [<-|Hne].
    + rewrite lookup_insert_eq in Hq. injection Hq as <-.
      destruct (Hnew x Hx) as [-> _]. reflexivity.
    + rewrite lookup_insert_ne in Hq by exact Hne.
      pose proof (wf_located st Hwf h' q x Hq Hx) as Hloc.
      assert (Hnold : x ∉ from_option artifactStorage [] (PlanetTable st !! h)).
      { intros Hold. apply stored_old in Hold as (p & Hp & Hin).
        pose proof (wf_located st Hwf h p x Hp Hin). congruence. }
      assert (Hnin : x ∉ artifactStorage p').
      { intros Hin. destruct (Hnew x Hin) as (_ & _ & _ & [Hold|Hoff]).
        - exact (Hnold Hold).
        - exact (offPlanet_not_stored st x h' q Hoff Hq Hx). }
      rewrite (Hrest x Hnin Hnold). exact Hloc.
  - intros h' q Hq. simpl in Hq.
    destruct (decide (h = h')) as [<-|Hne].
    + rewrite lookup_insert_eq in Hq. injection Hq as <-.
      split; [exact Hnd|]. split; [exact Hlen|].
      intros a Ha. destruct (Hnew a Ha) as (_ & Hidx & _). exact Hidx.
    + rewrite lookup_insert_ne in Hq by exact Hne. exact (wf_inventory st Hwf h' q Hq).
  - exact (wf_module_bonus st Hwf).
Qed.

Lemma attach_wf st h p0 p a :
  wf st -> PlanetTable st !! h = Some p0 ->
  planetHash p = h -> artifactStorage p = artifactStorage p0 ->
  offPlanet st a -> inst_installed (SpaceshipModuleInstalled_get st a) = false ->
  artifactIndex (ArtifactTable_get st a) <> 0 ->
  (length (artifactStorage p0) < PlanetLib.MAX_ARTIFACTS_PER_PLANET)%nat ->
  wf (attach a p st).
Proof.
  intros Hwf Hp0 Hh Hst Hoff Hni Hidx Hlen.
  destruct (wf_inventory st Hwf h p0 Hp0) as (Hnd & _ & Hidx0).
  unfold attach, PlanetLib.writeToStore. simpl. rewrite Hh, Hst.
  apply inventory_wf; simpl; rewrite ?Hp0; simpl.
  - exact Hwf.
  - apply NoDup_app. split; [exact Hnd|]. split; [|apply NoDup_singleton].
    intros x Hx Hxa. apply list_elem_of_singleton in Hxa as ->.
    exact (offPlanet_not_stored st a h p0 Hoff Hp0 Hx).
  - rewrite length_app. simpl. lia.
  - intros x Hx. rewrite owner_foldr_in by exact Hx. split; [reflexivity|].
    apply elem_of_app in Hx as [Hx|Hx].
    + split; [exact (Hidx0 x Hx)|]. split; [|left; exact Hx].
      destruct (inst_installed (SpaceshipModuleInstalled_get st x)) eqn:Hi; [|reflexivity].
      exfalso. exact (offPlanet_not_stored st x h p0 (wf_off_planet st Hwf x Hi) Hp0 Hx).
    + apply list_elem_of_singleton in Hx as ->. auto.
  - intros x Hn Ho. exfalso. apply Hn, elem_of_app. left. exact Ho.
  - intros x Hn _. rewrite owner_foldr_notin by exact Hn. reflexivity.
Qed.

Lemma detach_wf st h p0 p a :
  wf st -> PlanetTable st !! h = Some p0 ->
  planetHash p = h -> artifactStorage p = artifactStorage p0 ->
  a ∈ artifactStorage p0 ->
  wf (detach a p st) /\ offPlanet (detach a p st) a.
Proof.
  intros Hwf Hp0 Hh Hst Ha.
  destruct (wf_inventory st Hwf h p0 Hp0) as (Hnd & Hlen & Hidx0).
  assert (Hwf' : wf (detach a p st)).
  { unfold detach, PlanetLib.writeToStore. simpl. rewrite Hh, Hst.
    apply inventory_wf; simpl; rewrite ?Hp0; simpl.
    - exact Hwf.
    - apply NoDup_filter, Hnd.
    - pose proof (length_filter (fun x => x ≠ a) (artifactStorage p0)). lia.
    - intros x Hx. pose proof Hx as Hx'. apply list_elem_of_filter in Hx' as [Hne Hx'].
      rewrite lookup_delete_ne by congruence.
      rewrite owner_foldr_in by exact Hx. split; [reflexivity|].
      split; [exact (Hidx0 x Hx')|]. split; [|left; exact Hx'].
      destruct (inst_installed (SpaceshipModuleInstalled_get st x)) eqn:Hi; [|reflexivity].
      exfalso. exact (offPlanet_not_stored st x h p0 (wf_off_planet st Hwf x Hi) Hp0 Hx').
    - intros x Hn Ho. destruct (decide (x = a)) as [->|Hne].
      + rewrite lookup_delete_eq. reflexivity.
      + exfalso. apply Hn, list_elem_of_filter. auto.
    - intros x Hn Ho. rewrite lookup_delete_ne by (intros ->; exact (Ho Ha)).
      rewrite owner_foldr_notin by exact Hn. reflexivity. }
  split; [exact Hwf'|]. split.
  - unfold ArtifactOwner_get, detach. simpl. rewrite lookup_delete_eq. reflexivity.
  - intros h' q Hq Hin.
    pose proof (wf_located _ Hwf' h' q a Hq Hin) as Hloc.
    unfold ArtifactOwner_get, detach in Hloc. simpl in Hloc.
    rewrite lookup_delete_eq in Hloc. simpl in Hloc. subst h'.
    unfold detach, PlanetLib.writeToStore in Hq. simpl in Hq.
    destruct (decide (planetHash p = 0)) as [H0|H0].
    + rewrite H0, lookup_insert_eq in Hq. injection Hq as <-. simpl in Hin.
      apply list_elem_of_filter in Hin as [Hne _]. congruence.
    + rewrite lookup_insert_ne in Hq by exact H0.
      pose proof (wf_located st Hwf 0 q a Hq Hin) as H1.
      pose proof (wf_located st Hwf h p0 a Hp0 Ha) as H2. congruence.
Qed.

(** [planet.writeToStore()] of a planet whose inventory did not change. *)
Lemma rewrite_wf st h p0 p :
  wf st -> PlanetTable st !! h = Some p0 ->
  planetHash p = h -> artifactStorage p = artifactStorage p0 ->
  wf (PlanetLib.writeToStore p st).
Proof.
  intros Hwf Hp0 Hh Hst.
  destruct (wf_inventory st Hwf h p0 Hp0) as (Hnd & Hlen & Hidx0).
  unfold PlanetLib.writeToStore. rewrite Hh.
  apply inventory_wf; rewrite ?Hst, ?Hp0; simpl.
  - exact Hwf.
  - exact Hnd.
  - exact Hlen.
  - intros x Hx. rewrite owner_foldr_in by exact Hx. split; [reflexivity|].
    split; [exact (Hidx0 x Hx)|]. split; [|left; exact Hx].
    destruct (inst_installed (SpaceshipModuleInstalled_get st x)) eqn:Hi; [|reflexivity].
    exfalso. exact (offPlanet_not_stored st x h p0 (wf_off_planet st Hwf x Hi) Hp0 Hx).
  - intros x Hn Ho. exfalso. exact (Hn Ho).
  - intros x Hn _. rewrite owner_foldr_notin by exact Hn. reflexivity.
Qed.

Lemma envPlanet_wf st h p : wf st -> sameInventory st h p -> wf (envPlanet h p st).
Proof.
  intros Hwf Hsame. unfold sameInventory in Hsame.
  change (envPlanet h p st)
    with (set_ArtifactOwner (ArtifactOwner st)
            (set_PlanetTable (<[h := p]> (PlanetTable st)) st)).
  apply inventory_wf; rewrite ?Hsame.
  - exact Hwf.
  - destruct (PlanetTable st !! h) as [p0|] eqn:Hp0; simpl; [|constructor].
    apply (wf_inventory st Hwf h p0 Hp0).
  - destruct (PlanetTable st !! h) as [p0|] eqn:Hp0; simpl; [|lia].
    apply (wf_inventory st Hwf h p0 Hp0).
  - intros x Hx. pose proof Hx as Hx'. apply stored_old in Hx' as (p0 & Hp0 & Hin).
    split; [exact (wf_located st Hwf h p0 x Hp0 Hin)|].
    split; [apply (wf_inventory st Hwf h p0 Hp0), Hin|]. split; [|left; exact Hx].
    destruct (inst_installed (SpaceshipModuleInstalled_get st x)) eqn:Hi; [|reflexivity].
    exfalso. exact (offPlanet_not_stored st x h p0 (wf_off_planet st Hwf x Hi) Hp0 Hin).
  - intros x Hn Ho. exfalso. exact (Hn Ho).
  - intros x _ _. reflexivity.
Qed.

(** ** The invariant is kept by the writes of the tables *)

Lemma craftedBonus_nonneg st ship ax : 0 <= axis ax (craftedBonus st ship).
Proof.
  unfold craftedBonus. destruct ax; simpl.
  - rewrite ship_attack_formula. apply spec_bonus_floor_nonneg; [apply ship_role_attack_nonneg|lia].
  - rewrite ship_defense_formula.
    apply spec_bonus_floor_nonneg; [apply ship_role_defense_nonneg|lia].
  - rewrite ship_speed_formula. apply spec_bonus_floor_nonneg; [apply ship_role_speed_nonneg|lia].
  - rewrite ship_range_formula. apply spec_bonus_floor_nonneg; [apply ship_role_range_nonneg|lia].
Qed.

Lemma axis_addBonus ax x y : axis ax (addBonus x y) = axis ax x + axis ax y.
Proof. destruct ax; reflexivity. Qed.

Lemma axis_subBonus ax x y :
  axis ax y <= axis ax x -> axis ax (subBonus x y) = axis ax x - axis ax y.
Proof.
  intros Hle. unfold subBonus, floorSub.
  destruct ax; simpl in *;
    match goal with |- context [?a >=? ?b] => destruct (Z.geb_spec a b) end; lia.
Qed.

Lemma installedOn_true ship d :
  installedOn ship d = true <-> inst_installed d = true /\ inst_artifactId d = ship.
Proof.
  unfold installedOn. rewrite andb_true_iff, Z.eqb_eq. reflexivity.
Qed.

Lemma row_get st m d :
  SpaceshipModuleInstalled st !! m = Some d -> SpaceshipModuleInstalled_get st m = d.
Proof. intros H. unfold SpaceshipModuleInstalled_get. rewrite H. reflexivity. Qed.

Lemma markInstalled_wf st s m slotType slotIndex :
  wf st -> offPlanet st m ->
  inst_installed (SpaceshipModuleInstalled_get st m) = false ->
  artifactIndex (ArtifactTable_get st m) = 23 ->
  artifactIndex (ArtifactTable_get st s) = 3 ->
  wf (markInstalled s m slotType slotIndex st).
Proof.
  intros Hwf Hoff Hni Hm Hs.
  assert (Hget : forall m',
            SpaceshipModuleInstalled_get (markInstalled s m slotType slotIndex st) m'
            = if decide (m = m') then mkSpaceshipModuleInstalledData s slotType true
              else SpaceshipModuleInstalled_get st m').
  { intros m'. unfold SpaceshipModuleInstalled_get. simpl. apply default_insert. }
  constructor.
  - intros ship ax. unfold sumInstalled, SpaceshipBonus_get.
    change (craftedBonus (markInstalled s m slotType slotIndex st) ship)
      with (craftedBonus st ship).
    change (ModuleBonus_get (markInstalled s m slotType slotIndex st))
      with (ModuleBonus_get st).
    simpl. rewrite default_insert, sumOver_insert.
    change (default zeroInstalled (SpaceshipModuleInstalled st !! m))
      with (SpaceshipModuleInstalled_get st m).
    pose proof (wf_bonus st Hwf ship ax) as Hb. unfold sumInstalled in Hb.
    assert (Hold : contribution ax ship (ModuleBonus_get st)
                     m (SpaceshipModuleInstalled_get st m) = 0).
    { unfold contribution, installedOn. rewrite Hni. reflexivity. }
    rewrite Hold. unfold contribution, installedOn. simpl.
    destruct (decide (s = ship)) as [->|Hne].
    + rewrite Z.eqb_refl, axis_addBonus. fold (SpaceshipBonus_get st ship). lia.
    + destruct (Z.eqb_spec s ship); [congruence|]. fold (SpaceshipBonus_get st ship). lia.
  - exact (wf_craft st Hwf).
  - intros m' Hi. rewrite Hget in Hi. destruct (decide (m = m')) as [<-|Hne].
    + exact Hoff.
    + exact (wf_off_planet st Hwf m' Hi).
  - intros m' Hi. rewrite Hget in *. destruct (decide (m = m')) as [<-|Hne].
    + discriminate.
    + exact (wf_cleared st Hwf m' Hi).
  - intros m' Hi. rewrite Hget in *.
    change (ArtifactTable_get (markInstalled s m slotType slotIndex st))
      with (ArtifactTable_get st).
    destruct (decide (m = m')) as [<-|Hne].
    + simpl. auto.
    + exact (wf_kinds st Hwf m' Hi).
  - exact (wf_owner st Hwf).
  - exact (wf_located st Hwf).
  - exact (wf_inventory st Hwf).
  - exact (wf_module_bonus st Hwf).
Qed.

Lemma markUninstalled_wf st s m slotType slotIndex :
  wf st ->
  inst_installed (SpaceshipModuleInstalled_get st m) = true ->
  inst_artifactId (SpaceshipModuleInstalled_get st m) = s ->
  wf (markUninstalled s m slotType slotIndex st) /\
  (forall ax,
     axis ax (SpaceshipBonus_get (markUninstalled s m slotType slotIndex st) s)
     = axis ax (SpaceshipBonus_get st s) - axis ax (ModuleBonus_get st m)).
Proof.
  intros Hwf Hi Hs.
  assert (Hget : forall m',
            SpaceshipModuleInstalled_get (markUninstalled s m slotType slotIndex st) m'
            = if decide (m = m') then zeroInstalled
              else SpaceshipModuleInstalled_get st m').
  { intros m'. unfold SpaceshipModuleInstalled_get. simpl. apply default_insert. }
  assert (Hrow : SpaceshipModuleInstalled st !! m = Some (SpaceshipModuleInstalled_get st m)).
  { unfold SpaceshipModuleInstalled_get in *.
    destruct (SpaceshipModuleInstalled st !! m); [reflexivity|discriminate]. }
  assert (Hle : forall ax, axis ax (ModuleBonus_get st m) <= axis ax (SpaceshipBonus_get st s)).
  { intros ax. rewrite (wf_bonus st Hwf s ax).
    pose proof (craftedBonus_nonneg st s ax).
    pose proof (sumOver_member ax s (ModuleBonus_get st) _ m _
                  (fun m => wf_module_bonus st Hwf m ax) Hrow
                  (proj2 (installedOn_true s _) (conj Hi Hs))).
    unfold sumInstalled. lia. }
  split; [constructor|].
  - intros ship ax. unfold sumInstalled, SpaceshipBonus_get.
    change (craftedBonus (markUninstalled s m slotType slotIndex st) ship)
      with (craftedBonus st ship).
    change (ModuleBonus_get (markUninstalled s m slotType slotIndex st))
      with (ModuleBonus_get st).
    simpl. rewrite default_insert, sumOver_insert.
    change (default zeroInstalled (SpaceshipModuleInstalled st !! m))
      with (SpaceshipModuleInstalled_get st m).
    pose proof (wf_bonus st Hwf ship ax) as Hb. unfold sumInstalled in Hb.
    change (contribution ax ship (ModuleBonus_get st) m
              (mkSpaceshipModuleInstalledData 0 0 false)) with 0.
    unfold contribution, installedOn. rewrite Hi, Hs. simpl.
    destruct (decide (s = ship)) as [->|Hne].
    + rewrite Z.eqb_refl, axis_subBonus by apply Hle.
      fold (SpaceshipBonus_get st ship). lia.
    + destruct (Z.eqb_spec s ship); [congruence|]. fold (SpaceshipBonus_get st ship). lia.
  - exact (wf_craft st Hwf).
  - intros m' Hi'. rewrite Hget in Hi'. destruct (decide (m = m')) as [<-|Hne].
    + discriminate.
    + exact (wf_off_planet st Hwf m' Hi').
  - intros m' Hi'. rewrite Hget in *. destruct (decide (m = m')) as [<-|Hne].
    + reflexivity.
    + exact (wf_cleared st Hwf m' Hi').
  - intros m' Hi'. rewrite Hget in *.
    change (ArtifactTable_get (markUninstalled s m slotType slotIndex st))
      with (ArtifactTable_get st).
    destruct (decide (m = m')) as [<-|Hne].
    + discriminate.
    + exact (wf_kinds st Hwf m' Hi').
  - exact (wf_owner st Hwf).
  - exact (wf_located st Hwf).
  - exact (wf_inventory st Hwf).
  - exact (wf_module_bonus st Hwf).
  - intros ax. unfold SpaceshipBonus_get at 1. simpl. rewrite lookup_insert_eq. simpl.
    apply axis_subBonus, Hle.
Qed.

(** A fresh id names no artifact: it is on no planet and in no row. *)
Lemma fresh_offPlanet st id :
  wf st -> artifactIndex (ArtifactTable_get st id) = 0 ->
  offPlanet st id /\ inst_installed (SpaceshipModuleInstalled_get st id) = false /\
  (forall m, inst_installed (SpaceshipModuleInstalled_get st m) = true ->
     m <> id /\ inst_artifactId (SpaceshipModuleInstalled_get st m) <> id).
Proof.
  intros Hwf Hid.
  assert (Hns : forall h p, PlanetTable st !! h = Some p -> id ∉ artifactStorage p).
  { intros h p Hp Hin. destruct (wf_inventory st Hwf h p Hp) as (_ & _ & Hidx).
    exact (Hidx id Hin Hid). }
  split; [split|split].
  - destruct (decide (ArtifactOwner_get st id = 0)) as [H0|H0]; [exact H0|].
    destruct (wf_owner st Hwf id H0) as (p & Hp & Hin). destruct (Hns _ _ Hp Hin).
  - exact Hns.
  - destruct (inst_installed (SpaceshipModuleInstalled_get st id)) eqn:Hi; [|reflexivity].
    destruct (wf_kinds st Hwf id Hi) as [H23 _]. congruence.
  - intros m Hi. destruct (wf_kinds st Hwf m Hi) as [H23 H3]. split; congruence.
Qed.

Lemma registerModule_wf st id d bonus :
  wf st -> artifactIndex (ArtifactTable_get st id) = 0 ->
  (forall ax, 0 <= axis ax bonus) ->
  wf (registerModule id d bonus st).
Proof.
  intros Hwf Hid Hbonus.
  destruct (fresh_offPlanet st id Hwf Hid) as (Hoff & Hni & Hother).
  assert (Hat : forall a, a <> id ->
            ArtifactTable_get (registerModule id d bonus st) a = ArtifactTable_get st a).
  { intros a Ha. unfold ArtifactTable_get. simpl. rewrite lookup_insert_ne by congruence.
    reflexivity. }
  constructor.
  - intros ship ax. pose proof (wf_bonus st Hwf ship ax) as Hb.
    change (SpaceshipBonus_get (registerModule id d bonus st) ship)
      with (SpaceshipBonus_get st ship).
    change (craftedBonus (registerModule id d bonus st) ship) with (craftedBonus st ship).
    rewrite Hb. f_equal. unfold sumInstalled.
    change (SpaceshipModuleInstalled (registerModule id d bonus st))
      with (SpaceshipModuleInstalled st).
    apply sumOver_ext. intros m row Hrow Hon.
    apply installedOn_true in Hon as [Hi _].
    rewrite <- (row_get st m row Hrow) in Hi. destruct (Hother m Hi) as [Hne _].
    unfold ModuleBonus_get. simpl. rewrite lookup_insert_ne by congruence. reflexivity.
  - exact (wf_craft st Hwf).
  - exact (wf_off_planet st Hwf).
  - exact (wf_cleared st Hwf).
  - intros m Hi.
    change (SpaceshipModuleInstalled_get (registerModule id d bonus st))
      with (SpaceshipModuleInstalled_get st) in *.
    destruct (Hother m Hi) as [Hne1 Hne2]. rewrite !Hat by assumption.
    exact (wf_kinds st Hwf m Hi).
  - exact (wf_owner st Hwf).
  - exact (wf_located st Hwf).
  - intros h p Hp. destruct (wf_inventory st Hwf h p Hp) as (Hnd & Hlen & Hidx).
    split; [exact Hnd|]. split; [exact Hlen|]. intros a Ha.
    rewrite Hat; [exact (Hidx a Ha)|]. intros ->. exact (Hidx id Ha Hid).
  - intros m ax. unfold ModuleBonus_get. simpl. rewrite default_insert.
    case_decide; [apply Hbonus|apply (wf_module_bonus st Hwf)].
Qed.

Lemma registerSpaceship_wf st id d :
  wf st -> artifactIndex (ArtifactTable_get st id) = 0 ->
  wf (registerSpaceship id d st).
Proof.
  intros Hwf Hid.
  destruct (fresh_offPlanet st id Hwf Hid) as (Hoff & Hni & Hother).
  assert (Hat : forall a, a <> id ->
            ArtifactTable_get (registerSpaceship id d st) a = ArtifactTable_get st a).
  { intros a Ha. unfold ArtifactTable_get. simpl. rewrite lookup_insert_ne by congruence.
    reflexivity. }
  constructor.
  - intros ship ax. pose proof (wf_bonus st Hwf ship ax) as Hb.
    change (sumInstalled ax (registerSpaceship id d st) ship) with (sumInstalled ax st ship).
    destruct (decide (ship = id)) as [->|Hne].
    + assert (Hsum : sumInstalled ax st id = 0).
      { apply sumOver_none. intros m row Hrow.
        destruct (installedOn id row) eqn:Hon; [|reflexivity].
        apply installedOn_true in Hon as [Hi Hs].
        rewrite <- (row_get st m row Hrow) in Hi, Hs.
        destruct (Hother m Hi) as [_ Hne]. congruence. }
      rewrite Hsum. unfold SpaceshipBonus_get, craftedBonus, CraftedSpaceship_get. simpl.
      rewrite !lookup_insert_eq. simpl. destruct ax; simpl; lia.
    + unfold SpaceshipBonus_get, craftedBonus, CraftedSpaceship_get. simpl.
      rewrite !lookup_insert_ne by congruence. exact Hb.
  - exact (wf_craft st Hwf).
  - exact (wf_off_planet st Hwf).
  - exact (wf_cleared st Hwf).
  - intros m Hi.
    change (SpaceshipModuleInstalled_get (registerSpaceship id d st))
      with (SpaceshipModuleInstalled_get st) in *.
    destruct (Hother m Hi) as [Hne1 Hne2]. rewrite !Hat by assumption.
    exact (wf_kinds st Hwf m Hi).
  - exact (wf_owner st Hwf).
  - exact (wf_located st Hwf).
  - intros h p Hp. destruct (wf_inventory st Hwf h p Hp) as (Hnd & Hlen & Hidx).
    split; [exact Hnd|]. split; [exact Hlen|]. intros a Ha.
    rewrite Hat; [exact (Hidx a Ha)|]. intros ->. exact (Hidx id Ha Hid).
  - exact (wf_module_bonus st Hwf).
Qed.

Lemma countCraft_craft_inv st h time counter :
  craft_inv st ->
  count (FoundryCraftingCount_get st h) < 1 + FoundryUpgrade_getBranchLevel st h ->
  craft_inv (countCraft h time counter st).
Proof.
  intros Hc Hlt h'. specialize (Hc h').
  change (FoundryUpgrade_getBranchLevel (countCraft h time counter st))
    with (FoundryUpgrade_getBranchLevel st).
  unfold FoundryCraftingCount_get at 1 2. simpl. rewrite default_insert.
  destruct (decide (h = h')) as [<-|Hne]; simpl; [lia|exact Hc].
Qed.

Lemma raiseUpgrade_craft_inv st h revenue :
  craft_inv st -> FoundryUpgrade_getBranchLevel st h < 2 ->
  craft_inv (raiseUpgrade h revenue st).
Proof.
  intros Hc Hlt h'. pose proof (Hc h) as Hh. specialize (Hc h').
  change (FoundryCraftingCount_get (raiseUpgrade h revenue st))
    with (FoundryCraftingCount_get st).
  unfold FoundryUpgrade_getBranchLevel at 1 2 3. simpl. rewrite default_insert.
  destruct (decide (h = h')) as [<-|Hne]; [lia|exact Hc].
Qed.

Lemma countCraft_wf st h time counter :
  wf st ->
  count (FoundryCraftingCount_get st h) < 1 + FoundryUpgrade_getBranchLevel st h ->
  wf (countCraft h time counter st).
Proof.
  intros Hwf Hlt. constructor; try apply Hwf.
  apply countCraft_craft_inv; [apply Hwf|exact Hlt].
Qed.

Lemma raiseUpgrade_wf st h revenue :
  wf st -> FoundryUpgrade_getBranchLevel st h < 2 -> wf (raiseUpgrade h revenue st).
Proof.
  intros Hwf Hlt. constructor; try apply Hwf.
  apply raiseUpgrade_craft_inv; [apply Hwf|exact Hlt].
Qed.

Lemma initial_wf st : initial st -> wf st.
Proof.
  intros (Hinv & Hao & Hat & Hcs & Hcm & Hsl & Hsmi & Hsb & Hmb & Hfc & Hfu).
  constructor.
  - intros ship ax. unfold SpaceshipBonus_get, sumInstalled, craftedBonus, CraftedSpaceship_get.
    rewrite Hsb, Hcs, Hsmi, sumOver_empty, !lookup_empty. destruct ax; reflexivity.
  - intros h. unfold FoundryCraftingCount_get, FoundryUpgrade_getBranchLevel.
    rewrite Hfc, Hfu, !lookup_empty. simpl. lia.
  - intros m. unfold SpaceshipModuleInstalled_get. rewrite Hsmi, lookup_empty. discriminate.
  - intros m. unfold SpaceshipModuleInstalled_get. rewrite Hsmi, lookup_empty. reflexivity.
  - intros m. unfold SpaceshipModuleInstalled_get. rewrite Hsmi, lookup_empty. discriminate.
  - intros a. unfold ArtifactOwner_get. rewrite Hao, lookup_empty. simpl. congruence.
  - intros h p a Hp Ha. rewrite (Hinv h p Hp) in Ha. apply elem_of_nil in Ha. destruct Ha.
  - intros h p Hp. rewrite (Hinv h p Hp). split; [constructor|]. split; [simpl; lia|].
    intros a Ha. apply elem_of_nil in Ha. destruct Ha.
  - intros m ax. unfold ModuleBonus_get. rewrite Hmb, lookup_empty. destruct ax; simpl; lia.
Qed.

(** ** The world each operation leaves *)

Lemma readInitedPlanet_Ok st h p :
  PlanetLib.readInitedPlanet st h = Ok p ->
  exists p0, PlanetTable st !! h = Some p0 /\ p = PlanetLib.setPlanetHash p0 h.
Proof.
  unfold PlanetLib.readInitedPlanet. destruct (PlanetTable st !! h) as [p0|]; [|discriminate].
  intros [= <-]. eauto.
Qed.

Lemma stored_not_installed st h p a :
  wf st -> PlanetTable st !! h = Some p -> a ∈ artifactStorage p ->
  inst_installed (SpaceshipModuleInstalled_get st a) = false.
Proof.
  intros Hwf Hp Ha.
  destruct (inst_installed (SpaceshipModuleInstalled_get st a)) eqn:Hi; [|reflexivity].
  destruct (offPlanet_not_stored st a h p (wf_off_planet st Hwf a Hi) Hp Ha).
Qed.

Lemma owned_stored st a h :
  wf st -> ArtifactOwner_get st a = h -> h <> 0 ->
  exists p, PlanetTable st !! h = Some p /\ a ∈ artifactStorage p.
Proof. intros Hwf <- H0. exact (wf_owner st Hwf a H0). Qed.

Lemma craftModule_steps k tx newId st h t ms az b st' :
  ModuleCraftingSystem.craftModule k tx newId st h t ms az b = Ok st' ->
  exists p0 f1 d bonus,
    PlanetTable st !! h = Some p0 /\
    planetHash f1 = h /\ artifactStorage f1 = artifactStorage p0 /\
    (length (artifactStorage p0) < PlanetLib.MAX_ARTIFACTS_PER_PLANET)%nat /\
    count (FoundryCraftingCount_get st h) < 1 + FoundryUpgrade_getBranchLevel st h /\
    (forall ax, 0 <= axis ax bonus) /\
    st' = countCraft h (blockTimestamp tx mod 2 ^ 64) (newId mod 2 ^ 24)
            (attach newId f1 (registerModule (newId mod 2 ^ 32) d bonus st)).
Proof.
  intros H. apply craftModule_Ok in H
    as (p0 & f1 & rarity & Hp & Hval & Hcons & Hlen & _ & Hst). cbv zeta in Hst.
  apply module_validateCrafting_Ok in Hval as (_ & _ & _ & _ & Hlim & _). simpl in Hlim.
  apply module_consume_same in Hcons as (_ & Hh & _ & _ & _ & _ & Hsto).
  simpl in Hh, Hsto.
  eexists p0, f1, (mkCraftedModulesData t _ rarity _ _), (mkBonus _ _ _ _).
  split; [exact Hp|]. split; [exact Hh|]. split; [exact Hsto|]. split; [exact Hlen|].
  split; [exact Hlim|]. split; [|rewrite Hst].
  2: { unfold countCraft, attach, registerModule, PlanetLib.writeToStore,
         PlanetLib.writeArtifact. simpl. rewrite Hh, Hsto. reflexivity. }
  intros ax. destruct ax; simpl.
  - rewrite module_attack_formula.
    apply spec_bonus_floor_nonneg; [apply module_role_attack_nonneg|lia].
  - rewrite module_defense_formula.
    apply spec_bonus_floor_nonneg; [apply module_role_defense_nonneg|lia].
  - rewrite module_speed_formula.
    apply spec_bonus_floor_nonneg; [apply module_role_speed_nonneg|lia].
  - rewrite module_range_formula.
    apply spec_bonus_floor_nonneg; [apply module_role_range_nonneg|lia].
Qed.

Lemma craftSpaceship_steps k tx newId st h t ms az b st' :
  FoundryCraftingSystem.craftSpaceship k tx newId st h t ms az b = Ok st' ->
  exists p0 f1 d,
    PlanetTable st !! h = Some p0 /\
    planetHash f1 = h /\ artifactStorage f1 = artifactStorage p0 /\
    (length (artifactStorage p0) < PlanetLib.MAX_ARTIFACTS_PER_PLANET)%nat /\
    count (FoundryCraftingCount_get st h) < 1 + FoundryUpgrade_getBranchLevel st h /\
    st' = countCraft h (blockTimestamp tx mod 2 ^ 64) (newId mod 2 ^ 24)
            (attach newId f1 (registerSpaceship (newId mod 2 ^ 32) d st)).
Proof.
  intros H. apply craftSpaceship_Ok in H
    as (p0 & f1 & rarity & Hp & Hval & Hcons & Hlen & _ & Hst). cbv zeta in Hst.
  apply ship_validateCrafting_Ok in Hval as (_ & _ & _ & _ & Hlim & _). simpl in Hlim.
  apply ship_consume_same in Hcons as (_ & Hh & _ & _ & _ & _ & Hsto).
  simpl in Hh, Hsto.
  eexists p0, f1, (mkCraftedSpaceshipData t _ rarity _ 0 _).
  split; [exact Hp|]. split; [exact Hh|]. split; [exact Hsto|]. split; [exact Hlen|].
  split; [exact Hlim|]. rewrite Hst.
  unfold countCraft, attach, registerSpaceship, PlanetLib.writeToStore,
    PlanetLib.writeArtifact. simpl. rewrite Hh, Hsto. reflexivity.
Qed.

Lemma upgradeFoundry_steps k tx st h st' :
  FoundryUpgradeSystem.upgradeFoundry k tx st h = Ok st' ->
  exists p0 revenue,
    PlanetTable st !! h = Some p0 /\ FoundryUpgrade_getBranchLevel st h < 2 /\
    st' = PlanetLib.writeToStore (PlanetLib.setPlanetHash p0 h) (raiseUpgrade h revenue st).
Proof.
  intros H. unfold FoundryUpgradeSystem.upgradeFoundry in H.
  bind_inv H as foundry Hread. apply readInitedPlanet_Ok in Hread as (p0 & Hp & ->).
  bind_inv H as u Hval. destruct u.
  bind_inv H as biome Hbiome. bind_inv H as rm Hrm. bind_inv H as total Htot.
  req_inv H as Hfee. bind_inv H as revenue Hrev. bind_inv H as newLevel Hnew.
  injection H as <-.
  unfold FoundryUpgradeSystem._validateUpgrade in Hval.
  req_inv Hval as Hown. req_inv Hval as Hty. req_inv Hval as Hlvl. apply require_Ok in Hval.
  apply negb_true in Hval. apply checked_add_Ok in Hnew as [_ ->].
  exists p0, revenue. split; [exact Hp|].
  split; [destruct (Z.geb_spec (FoundryUpgrade_getBranchLevel st h) 2); [discriminate|lia]|].
  reflexivity.
Qed.

Lemma validateInstallModule_Ok st planet executor s m :
  SpaceshipModuleSystem._validateInstallModule st planet executor s m = Ok tt ->
  exists slotType slotIndex, installChecked st planet executor s m slotType slotIndex.
Proof.
  intros H. unfold SpaceshipModuleSystem._validateInstallModule in H.
  req_inv H as Hown. req_inv H as Hs0. req_inv H as Hs1. req_inv H as Hs2.
  req_inv H as Hm0. req_inv H as Hm1. req_inv H as Hm2.
  bind_inv H as u Hinst. destruct u. req_inv H as Hst. req_inv H as Hmt.
  bind_inv H as slotType Hslot. bind_inv H as slotIndex Hidx.
  apply bool_decide_eq_true in Hown. apply negb_true in Hs0, Hm0, Hst, Hmt.
  apply Z.eqb_eq in Hs1, Hs2, Hm1, Hm2. apply Z.eqb_neq in Hs0, Hm0, Hst, Hmt.
  exists slotType, slotIndex. constructor; try assumption; try congruence.
  intros Hi Hpos.
  destruct (inst_installed (SpaceshipModuleInstalled_get st m)); [|discriminate].
  destruct (Z.gtb_spec (inst_artifactId (SpaceshipModuleInstalled_get st m)) 0); [|lia].
  simpl in Hinst. apply require_Ok, Z.eqb_eq in Hinst. exact Hinst.
Qed.

Lemma slotIndex_valid slotType slotIndex :
  SpaceshipModuleSystem._getSlotIndexForSlotType slotType = Ok slotIndex ->
  1 <= slotType <= 4.
Proof.
  unfold SpaceshipModuleSystem._getSlotIndexForSlotType,
    SpaceshipModuleSystem.ENGINES_SLOT, SpaceshipModuleSystem.WEAPONS_SLOT,
    SpaceshipModuleSystem.HULL_SLOT, SpaceshipModuleSystem.SHIELD_SLOT.
  repeat match goal with
  | |- context [?a =? ?b] => destruct (Z.eqb_spec a b); simpl; try lia
  end; discriminate.
Qed.

Lemma installModule_steps tx st s m h st' :
  SpaceshipModuleSystem.installModule tx st s m h = Ok st' ->
  exists p0 slotType slotIndex,
    PlanetTable st !! h = Some p0 /\
    installChecked st (PlanetLib.setPlanetHash p0 h) (msgSender tx) s m slotType slotIndex /\
    PlanetLib.Has (PlanetLib.setPlanetHash p0 h) m = true /\
    (forall ax, axis ax (SpaceshipBonus_get st s) + axis ax (ModuleBonus_get st m)
                <= uint_max 16) /\
    st' = markInstalled s m slotType slotIndex (detach m (PlanetLib.setPlanetHash p0 h) st).
Proof.
  intros H. unfold SpaceshipModuleSystem.installModule,
    SpaceshipModuleSystem._processInstallModule in H.
  bind_inv H as planet Hread. apply readInitedPlanet_Ok in Hread as (p0 & Hp & ->).
  bind_inv H as u Hval. destruct u.
  apply validateInstallModule_Ok in Hval as (slotType & slotIndex & Hic).
  unfold SpaceshipModuleSystem._executeInstallModule in H.
  rewrite (ic_slot_type _ _ _ _ _ _ _ Hic) in H. simpl in H.
  rewrite (ic_slot_index _ _ _ _ _ _ _ Hic) in H. simpl in H.
  bind_inv H as na Hna. bind_inv H as nd Hnd. bind_inv H as ns Hns. bind_inv H as nr Hnr.
  bind_inv H as planet' Hrem. injection H as <-.
  apply checked_add_Ok in Hna as [Hna ->], Hnd as [Hnd ->], Hns as [Hns ->], Hnr as [Hnr ->].
  unfold PlanetLib.removeArtifact in Hrem. req_inv Hrem as Hhas. injection Hrem as <-.
  exists p0, slotType, slotIndex.
  split; [exact Hp|]. split; [exact Hic|]. split; [exact Hhas|].
  split; [intros ax; destruct ax; assumption|]. reflexivity.
Qed.

Lemma uninstallModule_steps tx st s m h st' :
  SpaceshipModuleSystem.uninstallModule tx st s m h = Ok st' ->
  exists p0 slotIndex,
    PlanetTable st !! h = Some p0 /\ owner p0 = msgSender tx /\
    s ∈ artifactStorage p0 /\
    inst_artifactId (SpaceshipModuleInstalled_get st m) = s /\
    SpaceshipModuleSystem._getSlotIndexForSlotType
      (inst_moduleSlotType (SpaceshipModuleInstalled_get st m)) = Ok slotIndex /\
    (length (artifactStorage p0) < PlanetLib.MAX_ARTIFACTS_PER_PLANET)%nat /\
    st' = attach m (PlanetLib.setPlanetHash p0 h)
            (markUninstalled s m (inst_moduleSlotType (SpaceshipModuleInstalled_get st m))
               slotIndex st).
Proof.
  intros H. unfold SpaceshipModuleSystem.uninstallModule,
    SpaceshipModuleSystem._processUninstallModule in H.
  bind_inv H as planet Hread. apply readInitedPlanet_Ok in Hread as (p0 & Hp & ->).
  bind_inv H as u Hval. destruct u.
  unfold SpaceshipModuleSystem._validateUninstallModule in Hval.
  req_inv Hval as Hown. req_inv Hval as Hhas. apply require_Ok in Hval.
  apply bool_decide_eq_true in Hown, Hhas. apply Z.eqb_eq in Hval.
  unfold SpaceshipModuleSystem._executeUninstallModule in H.
  bind_inv H as slotIndex Hidx. req_inv H as Hslot. bind_inv H as planet' Hpush.
  injection H as <-.
  unfold PlanetLib.pushArtifact in Hpush. rewrite Hslot in Hpush. simpl in Hpush.
  injection Hpush as <-.
  unfold PlanetLib.hasArtifactSlot in Hslot. apply bool_decide_eq_true in Hslot.
  exists p0, slotIndex. repeat (split; [assumption|]). reflexivity.
Qed.

(** The converse: when its checks pass, [uninstallModule] succeeds. *)
Lemma uninstallModule_succeeds tx st s m h p0 slotIndex :
  PlanetTable st !! h = Some p0 -> owner p0 = msgSender tx ->
  s ∈ artifactStorage p0 ->
  inst_artifactId (SpaceshipModuleInstalled_get st m) = s ->
  SpaceshipModuleSystem._getSlotIndexForSlotType
    (inst_moduleSlotType (SpaceshipModuleInstalled_get st m)) = Ok slotIndex ->
  (length (artifactStorage p0) < PlanetLib.MAX_ARTIFACTS_PER_PLANET)%nat ->
  SpaceshipModuleSystem.uninstallModule tx st s m h
  = Ok (attach m (PlanetLib.setPlanetHash p0 h)
          (markUninstalled s m (inst_moduleSlotType (SpaceshipModuleInstalled_get st m))
             slotIndex st)).
Proof.
  intros Hp Hown Hs Hrow Hidx Hlen.
  unfold SpaceshipModuleSystem.uninstallModule,
    SpaceshipModuleSystem._processUninstallModule, PlanetLib.readInitedPlanet.
  rewrite Hp. simpl.
  unfold SpaceshipModuleSystem._validateUninstallModule, PlanetLib.Has. simpl.
  rewrite (bool_decide_eq_true_2 _ Hown), (bool_decide_eq_true_2 _ Hs). simpl.
  rewrite Hrow, Z.eqb_refl. simpl.
  unfold SpaceshipModuleSystem._executeUninstallModule.
  rewrite Hidx. simpl.
  unfold PlanetLib.pushArtifact, PlanetLib.hasArtifactSlot. simpl.
  rewrite (bool_decide_eq_true_2 _ Hlen). reflexivity.
Qed.

Lemma envVoyage_steps a h1 h2 st st' :
  envVoyage a h1 h2 st = Ok st' ->
  exists p1 p2,
    PlanetTable st !! h1 = Some p1 /\ a ∈ artifactStorage p1 /\
    PlanetTable (detach a (PlanetLib.setPlanetHash p1 h1) st) !! h2 = Some p2 /\
    (length (artifactStorage p2) < PlanetLib.MAX_ARTIFACTS_PER_PLANET)%nat /\
    st' = attach a (PlanetLib.setPlanetHash p2 h2)
            (detach a (PlanetLib.setPlanetHash p1 h1) st).
Proof.
  intros H. unfold envVoyage in H.
  bind_inv H as p1 Hread. apply readInitedPlanet_Ok in Hread as (p01 & Hp1 & ->).
  bind_inv H as p1' Hrem. unfold PlanetLib.removeArtifact in Hrem.
  req_inv Hrem as Hhas. injection Hrem as <-.
  bind_inv H as p2 Hread2. apply readInitedPlanet_Ok in Hread2 as (p02 & Hp2 & ->).
  bind_inv H as p2' Hpush. injection H as <-.
  unfold PlanetLib.pushArtifact in Hpush. req_inv Hpush as Hslot. injection Hpush as <-.
  unfold PlanetLib.hasArtifactSlot in Hslot. apply bool_decide_eq_true in Hslot, Hhas.
  exists p01, p02. split; [exact Hp1|]. split; [exact Hhas|]. split; [exact Hp2|].
  split; [exact Hslot|]. reflexivity.
Qed.

(** ** Every reachable state is well-formed *)

Lemma fresh_mod st newId :
  freshId st newId ->
  newId mod 2 ^ 32 = newId /\ artifactIndex (ArtifactTable_get st newId) = 0.
Proof. intros [Hr Hi]. split; [apply Z.mod_small; exact Hr|exact Hi]. Qed.

Lemma uninstall_row_installed st m slotIndex :
  wf st ->
  SpaceshipModuleSystem._getSlotIndexForSlotType
    (inst_moduleSlotType (SpaceshipModuleInstalled_get st m)) = Ok slotIndex ->
  inst_installed (SpaceshipModuleInstalled_get st m) = true.
Proof.
  intros Hwf Hidx. apply slotIndex_valid in Hidx.
  destruct (inst_installed (SpaceshipModuleInstalled_get st m)) eqn:Hi; [reflexivity|].
  pose proof (wf_cleared st Hwf m Hi). lia.
Qed.

Lemma craftModule_wf k tx newId st h t ms az b st' :
  wf st -> freshId st newId ->
  ModuleCraftingSystem.craftModule k tx newId st h t ms az b = Ok st' -> wf st'.
Proof.
  intros Hwf Hfresh H. apply fresh_mod in Hfresh as [Hmod Hidx].
  apply craftModule_steps in H
    as (p0 & f1 & d & bonus & Hp & Hh & Hsto & Hlen & Hlim & Hbonus & ->).
  rewrite Hmod.
  destruct (fresh_offPlanet st newId Hwf Hidx) as (Hoff & Hni & _).
  apply countCraft_wf; [|exact Hlim].
  apply (attach_wf _ h p0); try assumption.
  - apply registerModule_wf; assumption.
  - unfold ArtifactTable_get. simpl. rewrite lookup_insert_eq. simpl. discriminate.
Qed.

Lemma craftSpaceship_wf k tx newId st h t ms az b st' :
  wf st -> freshId st newId ->
  FoundryCraftingSystem.craftSpaceship k tx newId st h t ms az b = Ok st' -> wf st'.
Proof.
  intros Hwf Hfresh H. apply fresh_mod in Hfresh as [Hmod Hidx].
  apply craftSpaceship_steps in H as (p0 & f1 & d & Hp & Hh & Hsto & Hlen & Hlim & ->).
  rewrite Hmod.
  destruct (fresh_offPlanet st newId Hwf Hidx) as (Hoff & Hni & _).
  apply countCraft_wf; [|exact Hlim].
  apply (attach_wf _ h p0); try assumption.
  - apply registerSpaceship_wf; assumption.
  - unfold ArtifactTable_get. simpl. rewrite lookup_insert_eq. simpl. discriminate.
Qed.

Lemma upgradeFoundry_wf k tx st h st' :
  wf st -> FoundryUpgradeSystem.upgradeFoundry k tx st h = Ok st' -> wf st'.
Proof.
  intros Hwf H. apply upgradeFoundry_steps in H as (p0 & revenue & Hp & Hlt & ->).
  apply (rewrite_wf _ h p0); try reflexivity.
  - apply raiseUpgrade_wf; assumption.
  - exact Hp.
Qed.

Lemma installModule_wf tx st s m h st' :
  wf st -> SpaceshipModuleSystem.installModule tx st s m h = Ok st' -> wf st'.
Proof.
  intros Hwf H. apply installModule_steps in H
    as (p0 & slotType & slotIndex & Hp & Hic & Hhas & _ & ->).
  apply bool_decide_eq_true in Hhas. simpl in Hhas.
  destruct (detach_wf st h p0 (PlanetLib.setPlanetHash p0 h) m Hwf Hp eq_refl eq_refl Hhas)
    as [Hwf1 Hoff1].
  apply markInstalled_wf.
  - exact Hwf1.
  - exact Hoff1.
  - exact (stored_not_installed st h p0 m Hwf Hp Hhas).
  - exact (ic_module_kind _ _ _ _ _ _ _ Hic).
  - exact (ic_ship_kind _ _ _ _ _ _ _ Hic).
Qed.

Lemma uninstallModule_wf tx st s m h st' :
  wf st -> SpaceshipModuleSystem.uninstallModule tx st s m h = Ok st' -> wf st'.
Proof.
  intros Hwf H. apply uninstallModule_steps in H
    as (p0 & slotIndex & Hp & _ & _ & Hrow & Hidx & Hlen & ->).
  pose proof (uninstall_row_installed st m slotIndex Hwf Hidx) as Hi.
  destruct (markUninstalled_wf st s m
              (inst_moduleSlotType (SpaceshipModuleInstalled_get st m)) slotIndex
              Hwf Hi Hrow) as [Hwf1 _].
  apply (attach_wf _ h p0); try reflexivity.
  - exact Hwf1.
  - exact Hp.
  - exact (wf_off_planet st Hwf m Hi).
  - unfold SpaceshipModuleInstalled_get. simpl. rewrite lookup_insert_eq. reflexivity.
  - change (artifactIndex (ArtifactTable_get st m) <> 0).
    destruct (wf_kinds st Hwf m Hi) as [H23 _]. rewrite H23. discriminate.
  - exact Hlen.
Qed.

Lemma envVoyage_wf a h1 h2 st st' :
  wf st -> envVoyage a h1 h2 st = Ok st' -> wf st'.
Proof.
  intros Hwf H. apply envVoyage_steps in H as (p1 & p2 & Hp1 & Ha & Hp2 & Hlen & ->).
  destruct (detach_wf st h1 p1 (PlanetLib.setPlanetHash p1 h1) a Hwf Hp1 eq_refl eq_refl Ha)
    as [Hwf1 Hoff1].
  apply (attach_wf _ h2 p2); try reflexivity; try assumption.
  - exact (stored_not_installed st h1 p1 a Hwf Hp1 Ha).
  - destruct (wf_inventory st Hwf h1 p1 Hp1) as (_ & _ & Hidx). exact (Hidx a Ha).
Qed.

Lemma run_wf k op st st' : wf st -> opFresh st op -> run k op st = Ok st' -> wf st'.
Proof.
  intros Hwf Hfresh H. destruct op; simpl in *.
  - eapply craftModule_wf; eassumption.
  - eapply craftSpaceship_wf; eassumption.
  - eapply upgradeFoundry_wf; eassumption.
  - eapply installModule_wf; eassumption.
  - eapply uninstallModule_wf; eassumption.
Qed.

Lemma reachable_wf k st : reachable k st -> wf st.
Proof.
  induction 1 as [st Hinit|st op st' _ IH Hfresh Hrun|st h p _ IH Hsame|st a h1 h2 st' _ IH _ Hv].
  - apply initial_wf, Hinit.
  - exact (run_wf k op st st' IH Hfresh Hrun).
  - exact (envPlanet_wf st h p IH Hsame).
  - exact (envVoyage_wf a h1 h2 st st' IH Hv).
Qed.

(** ** Histories reach reachable states *)

Lemma freshIdb_true st newId : freshIdb st newId = true -> freshId st newId.
Proof.
  unfold freshIdb, freshId. rewrite !andb_true_iff, Z.leb_le, Z.ltb_lt, Z.eqb_eq. tauto.
Qed.

Lemma reachable_event k ev st :
  reachable k st -> eventOk ev st = true -> reachable k (commit st (runEvent k ev st)).
Proof.
  intros Hr Hok. destruct (runEvent k ev st) as [st'|e] eqn:Hrun; simpl; [|exact Hr].
  destruct ev as [op|h p|a h1 h2]; simpl in *.
  - apply (reach_run k st op st' Hr); [|exact Hrun].
    destruct op; simpl in *; try exact I; apply freshIdb_true, Hok.
  - injection Hrun as <-. apply reach_planet; [exact Hr|].
    apply bool_decide_eq_true in Hok. exact Hok.
  - apply (reach_voyage k st a h1 h2 st' Hr); [|exact Hrun].
    apply negb_true, Z.eqb_neq in Hok. exact Hok.
Qed.

Lemma reachable_play k evs st :
  reachable k st -> playOk k evs st = true -> reachable k (play k evs st).
Proof.
  revert st. induction evs as [|ev evs IH]; intros st Hr Hok; simpl in *; [exact Hr|].
  apply andb_true_iff in Hok as [Hev Hok].
  apply IH; [|exact Hok]. apply reachable_event; assumption.
Qed.

Lemma scenario_initial : initial Scenario.st0.
Proof.
  unfold initial. split; [|repeat split].
  intros h p Hp. unfold Scenario.st0 in Hp. simpl in Hp.
  repeat (apply lookup_insert_Some in Hp as [[_ <-]|[_ Hp]]; [reflexivity|]).
  apply lookup_singleton_Some in Hp as [_ <-]. reflexivity.
Qed.

Lemma scenario_reachable evs :
  playOk Scenario.k0 evs Scenario.st0 = true ->
  reachable Scenario.k0 (play Scenario.k0 evs Scenario.st0).
Proof. apply reachable_play, reach_initial, scenario_initial. Qed.

(** ** C9: the craft count stays within the upgrade tier *)

Lemma run_craft_inv k op st st' : craft_inv st -> run k op st = Ok st' -> craft_inv st'.
Proof.
  intros Hc H. destruct op; simpl in H.
  - apply craftModule_steps in H as (p0 & f1 & d & bonus & _ & _ & _ & _ & Hlim & _ & ->).
    apply countCraft_craft_inv; [exact Hc|exact Hlim].
  - apply craftSpaceship_steps in H as (p0 & f1 & d & _ & _ & _ & _ & Hlim & ->).
    apply countCraft_craft_inv; [exact Hc|exact Hlim].
  - apply upgradeFoundry_steps in H as (p0 & revenue & _ & Hlt & ->).
    exact (raiseUpgrade_craft_inv st foundryHash revenue Hc Hlt).
  - apply installModule_steps in H as (p0 & slotType & slotIndex & _ & _ & _ & _ & ->).
    exact Hc.
  - apply uninstallModule_steps in H as (p0 & slotIndex & _ & _ & _ & _ & _ & _ & ->).
    exact Hc.
Qed.

(** C9: in every reachable state, every station has
    [craftCount <= 1 + upgradeTier] with the tier among 0, 1, 2, hence a craft
    count of at most 3; and every operation of the four systems that succeeds
    (a craft of either kind, a foundry upgrade, an install, an uninstall)
    leaves a state in which this holds again. *)
Theorem C9_craft_count_within_tier k st :
  reachable k st ->
  (forall h,
     0 <= count (FoundryCraftingCount_get st h) <= 1 + FoundryUpgrade_getBranchLevel st h /\
     0 <= FoundryUpgrade_getBranchLevel st h <= 2 /\
     count (FoundryCraftingCount_get st h) <= 3) /\
  (forall op st' h,
     run k op st = Ok st' ->
     0 <= count (FoundryCraftingCount_get st' h)
       <= 1 + FoundryUpgrade_getBranchLevel st' h /\
     0 <= FoundryUpgrade_getBranchLevel st' h <= 2 /\
     count (FoundryCraftingCount_get st' h) <= 3).
Proof.
  intros Hr. pose proof (wf_craft st (reachable_wf k st Hr)) as Hc. split.
  - intros h. destruct (Hc h) as [H1 H2]. repeat split; lia.
  - intros op st' h Hrun. destruct (run_craft_inv k op st st' Hc Hrun h) as [H1 H2].
    repeat split; lia.
Qed.

Lemma C9_craft_count_witness :
  reachable Scenario.k0 Scenario.stTwoScouts /\
  count (FoundryCraftingCount_get Scenario.stTwoScouts 1) <= 3.
Proof.
  assert (Hr : reachable Scenario.k0 Scenario.stTwoScouts)
    by (apply scenario_reachable; vm_compute; reflexivity).
  split; [exact Hr|].
  destruct (C9_craft_count_within_tier Scenario.k0 Scenario.stTwoScouts Hr) as [H _].
  exact (proj2 (proj2 (H 1))).
Defined.

(** ** C1: what a carrier's bonus row aggregates *)

Lemma commit_wf st (r : Result World) :
  wf st -> (forall st', r = Ok st' -> wf st') -> wf (commit st r).
Proof. intros Hwf H. destruct r as [st'|e]; simpl; [apply H; reflexivity|exact Hwf]. Qed.

(** C1, as the code has it: in every reachable state, and in the state any
    install or uninstall leaves, the bonus row of every carrier equals, on
    each of the four axes, the bonus the carrier itself was crafted with plus
    the sum of the bonuses of the modules that [SpaceshipModuleInstalled]
    records as installed on it.  ([SpaceshipBonus] is one row: crafting
    writes the carrier's own bonus into it and install adds to it.) *)
Theorem C1_bonus_row_is_crafted_plus_installed k st :
  reachable k st ->
  (forall ship ax,
     axis ax (SpaceshipBonus_get st ship)
     = axis ax (craftedBonus st ship) + sumInstalled ax st ship) /\
  (forall tx s m h ship ax,
     let st' := commit st (SpaceshipModuleSystem.installModule tx st s m h) in
     axis ax (SpaceshipBonus_get st' ship)
     = axis ax (craftedBonus st' ship) + sumInstalled ax st' ship) /\
  (forall tx s m h ship ax,
     let st' := commit st (SpaceshipModuleSystem.uninstallModule tx st s m h) in
     axis ax (SpaceshipBonus_get st' ship)
     = axis ax (craftedBonus st' ship) + sumInstalled ax st' ship).
Proof.
  intros Hr. pose proof (reachable_wf k st Hr) as Hwf. split; [|split].
  - exact (wf_bonus st Hwf).
  - intros tx s m h. apply wf_bonus, commit_wf; [exact Hwf|].
    intros st' H. exact (installModule_wf tx st s m h st' Hwf H).
  - intros tx s m h. apply wf_bonus, commit_wf; [exact Hwf|].
    intros st' H. exact (uninstallModule_wf tx st s m h st' Hwf H).
Qed.

Lemma C1_bonus_row_witness :
  reachable Scenario.k0 Scenario.stTwoHulls /\
  axis Defense (SpaceshipBonus_get Scenario.stTwoHulls 1)
  = axis Defense (craftedBonus Scenario.stTwoHulls 1)
    + sumInstalled Defense Scenario.stTwoHulls 1.
Proof.
  assert (Hr : reachable Scenario.k0 Scenario.stTwoHulls)
    by (apply scenario_reachable; vm_compute; reflexivity).
  split; [exact Hr|].
  exact (proj1 (C1_bonus_row_is_crafted_plus_installed Scenario.k0 Scenario.stTwoHulls Hr)
           1 Defense).
Defined.

(** C1 as the specification words it fails: a Scout just crafted carries no
    module, and its bonus row already holds the speed it was crafted with. *)
Lemma C1_crafted_bonus_counterexample :
  reachable Scenario.k0 Scenario.st1 /\
  SpaceshipModuleInstalled Scenario.st1 = ∅ /\
  sumInstalled Speed Scenario.st1 1 = 0 /\
  axis Speed (SpaceshipBonus_get Scenario.st1 1) = 16 /\
  axis Speed (SpaceshipBonus_get Scenario.st1 1) <> sumInstalled Speed Scenario.st1 1.
Proof.
  split; [apply scenario_reachable; vm_compute; reflexivity|].
  split; [vm_compute; reflexivity|]. split; [vm_compute; reflexivity|].
  split; [vm_compute; reflexivity|]. vm_compute. discriminate.
Qed.

(** ** C4: install followed by uninstall *)

Lemma filter_absent (l : list Z) (a : Z) : a ∉ l -> filter (fun x => x ≠ a) l = l.
Proof.
  induction l as [|x l IH]; intros Hn; [reflexivity|].
  apply not_elem_of_cons in Hn as [Hne Hn].
  rewrite filter_cons_True by congruence. rewrite IH by exact Hn. reflexivity.
Qed.

Lemma filter_remove_length (l : list Z) (a : Z) :
  NoDup l -> a ∈ l -> (length (filter (fun x => x ≠ a) l) + 1 = length l)%nat.
Proof.
  induction l as [|x l IH]; intros Hnd Hin.
  - apply elem_of_nil in Hin. destruct Hin.
  - apply NoDup_cons in Hnd as [Hx Hnd].
    destruct (decide (x = a)) as [->|Hne].
    + rewrite filter_cons_False by (intros H; apply H; reflexivity).
      rewrite filter_absent by exact Hx. simpl. lia.
    + rewrite filter_cons_True by exact Hne. simpl.
      apply elem_of_cons in Hin as [->|Hin]; [congruence|].
      rewrite <- (IH Hnd Hin). lia.
Qed.

(** C4: from a reachable state, a successful install of module [m] on
    carrier [s] at station [h] followed at once by its uninstall (a
    transaction [tx'] of the same sender) succeeds,
    gives the carrier's bonus row its values of before the install on all
    four axes, and leaves the module in the station's inventory, owned by
    the station, with as many artifacts in the inventory as before. *)
Theorem C4_install_uninstall_roundtrip k st tx tx' s m h st1 :
  reachable k st ->
  msgSender tx' = msgSender tx ->
  SpaceshipModuleSystem.installModule tx st s m h = Ok st1 ->
  exists st2 p p2,
    SpaceshipModuleSystem.uninstallModule tx' st1 s m h = Ok st2 /\
    (forall ax, axis ax (SpaceshipBonus_get st2 s) = axis ax (SpaceshipBonus_get st s)) /\
    PlanetTable st !! h = Some p /\ PlanetTable st2 !! h = Some p2 /\
    m ∈ artifactStorage p /\ m ∈ artifactStorage p2 /\
    length (artifactStorage p2) = length (artifactStorage p) /\
    ArtifactOwner_get st m = h /\ ArtifactOwner_get st2 m = h /\
    inst_installed (SpaceshipModuleInstalled_get st2 m) = false.
Proof.
  intros Hr Htx Hinst. pose proof (reachable_wf k st Hr) as Hwf.
  pose proof (installModule_wf tx st s m h st1 Hwf Hinst) as Hwf1.
  apply installModule_steps in Hinst
    as (p0 & slotType & slotIndex & Hp & Hic & Hhas & _ & Hst1).
  apply bool_decide_eq_true in Hhas. simpl in Hhas.
  destruct (wf_inventory st Hwf h p0 Hp) as (Hnd & Hlen & _).
  pose proof (ic_ship_here _ _ _ _ _ _ _ Hic) as Hsh. simpl in Hsh.
  pose proof (ic_here _ _ _ _ _ _ _ Hic) as Hh0. simpl in Hh0.
  destruct (owned_stored st s h Hwf Hsh Hh0) as (p0' & Hp' & Hs).
  rewrite Hp in Hp'. injection Hp' as <-.
  assert (Hsm : s <> m).
  { intros ->. pose proof (ic_ship_kind _ _ _ _ _ _ _ Hic).
    pose proof (ic_module_kind _ _ _ _ _ _ _ Hic). congruence. }
  set (p1 := PlanetLib.setArtifactStorage (PlanetLib.setPlanetHash p0 h)
               (filter (fun x => x ≠ m) (artifactStorage p0))).
  assert (Hp1 : PlanetTable st1 !! h = Some p1).
  { subst st1. simpl. apply lookup_insert_eq. }
  assert (Hrow : SpaceshipModuleInstalled_get st1 m
                 = mkSpaceshipModuleInstalledData s slotType true).
  { subst st1. unfold SpaceshipModuleInstalled_get. simpl. rewrite lookup_insert_eq.
    reflexivity. }
  pose proof (filter_remove_length (artifactStorage p0) m Hnd Hhas) as Hfl.
  assert (Hun : SpaceshipModuleSystem.uninstallModule tx' st1 s m h
                = Ok (attach m (PlanetLib.setPlanetHash p1 h)
                        (markUninstalled s m
                           (inst_moduleSlotType (SpaceshipModuleInstalled_get st1 m))
                           slotIndex st1))).
  { apply uninstallModule_succeeds.
    - exact Hp1.
    - rewrite Htx. exact (ic_owner _ _ _ _ _ _ _ Hic).
    - simpl. apply list_elem_of_filter. split; [exact Hsm|exact Hs].
    - rewrite Hrow. reflexivity.
    - rewrite Hrow. exact (ic_slot_index _ _ _ _ _ _ _ Hic).
    - simpl. lia. }
  eexists _, p0, _. split; [exact Hun|].
  split; [|split; [exact Hp|split; [simpl; apply lookup_insert_eq|]]].
  - intros ax.
    assert (Hi1 : inst_installed (SpaceshipModuleInstalled_get st1 m) = true)
      by (rewrite Hrow; reflexivity).
    assert (Hs1 : inst_artifactId (SpaceshipModuleInstalled_get st1 m) = s)
      by (rewrite Hrow; reflexivity).
    destruct (markUninstalled_wf st1 s m
                (inst_moduleSlotType (SpaceshipModuleInstalled_get st1 m)) slotIndex
                Hwf1 Hi1 Hs1) as [_ Hsub].
    change (axis ax (SpaceshipBonus_get
                       (markUninstalled s m
                          (inst_moduleSlotType (SpaceshipModuleInstalled_get st1 m))
                          slotIndex st1) s)
            = axis ax (SpaceshipBonus_get st s)).
    rewrite Hsub. subst st1. unfold SpaceshipBonus_get at 1. simpl.
    rewrite lookup_insert_eq. simpl. rewrite axis_addBonus.
    change (ModuleBonus_get
              (markInstalled s m slotType slotIndex
                 (detach m (PlanetLib.setPlanetHash p0 h) st)) m)
      with (ModuleBonus_get st m).
    change (SpaceshipBonus_get (detach m (PlanetLib.setPlanetHash p0 h) st) s)
      with (SpaceshipBonus_get st s).
    change (ModuleBonus_get (detach m (PlanetLib.setPlanetHash p0 h) st) m)
      with (ModuleBonus_get st m).
    lia.
  - simpl. split; [exact Hhas|].
    split; [apply elem_of_app; right; apply list_elem_of_singleton; reflexivity|].
    split; [rewrite length_app; simpl; lia|].
    split; [exact (ic_module_here _ _ _ _ _ _ _ Hic)|]. split.
    + unfold ArtifactOwner_get. simpl. rewrite owner_foldr_in; [reflexivity|].
      apply elem_of_app. right. apply list_elem_of_singleton. reflexivity.
    + unfold SpaceshipModuleInstalled_get. simpl. rewrite lookup_insert_eq. reflexivity.
Qed.

Lemma C4_roundtrip_witness :
  reachable Scenario.k0 Scenario.stTwoScouts /\
  SpaceshipModuleSystem.installModule Scenario.tx7 Scenario.stTwoScouts 1 3 1
  = Ok Scenario.stEngineOn1 /\
  exists st2 p p2,
    SpaceshipModuleSystem.uninstallModule Scenario.tx7 Scenario.stEngineOn1 1 3 1 = Ok st2 /\
    (forall ax, axis ax (SpaceshipBonus_get st2 1)
                = axis ax (SpaceshipBonus_get Scenario.stTwoScouts 1)) /\
    PlanetTable Scenario.stTwoScouts !! 1 = Some p /\ PlanetTable st2 !! 1 = Some p2 /\
    3 ∈ artifactStorage p /\ 3 ∈ artifactStorage p2 /\
    length (artifactStorage p2) = length (artifactStorage p) /\
    ArtifactOwner_get Scenario.stTwoScouts 3 = 1 /\ ArtifactOwner_get st2 3 = 1 /\
    inst_installed (SpaceshipModuleInstalled_get st2 3) = false.
Proof.
  assert (Hr : reachable Scenario.k0 Scenario.stTwoScouts)
    by (apply scenario_reachable; vm_compute; reflexivity).
  assert (Hi : SpaceshipModuleSystem.installModule Scenario.tx7 Scenario.stTwoScouts 1 3 1
               = Ok Scenario.stEngineOn1) by (vm_compute; reflexivity).
  split; [exact Hr|]. split; [exact Hi|].
  exact (C4_install_uninstall_roundtrip Scenario.k0 Scenario.stTwoScouts Scenario.tx7
           Scenario.tx7 1 3 1 Scenario.stEngineOn1 Hr eq_refl Hi).
Defined.

(** ** C3: the rejections of install *)

Lemma install_of_installed_rejected k st tx s m h :
  reachable k st ->
  inst_installed (SpaceshipModuleInstalled_get st m) = true ->
  exists e,
    SpaceshipModuleSystem.installModule tx st s m h = Revert e /\
    (e = PlanetNotInitialized \/ e = NotPlanetOwner \/ e = ArtifactNotOnPlanet1 \/
     e = InvalidSpaceshipArtifact \/ e = ArtifactNotOnPlanet2) /\
    (forall p, PlanetTable st !! h = Some p -> owner p = msgSender tx ->
       ArtifactOwner_get st s = h -> h <> 0 ->
       artifactIndex (ArtifactTable_get st s) = 3 -> e = ArtifactNotOnPlanet2).
Proof.
  intros Hr Hi. pose proof (reachable_wf k st Hr) as Hwf.
  destruct (wf_off_planet st Hwf m Hi) as [Hao _].
  unfold SpaceshipModuleSystem.installModule, SpaceshipModuleSystem._processInstallModule,
    PlanetLib.readInitedPlanet.
  destruct (PlanetTable st !! h) as [p0|] eqn:Hp; simpl.
  2: { eexists. split; [reflexivity|]. split; [auto|]. intros p [=]. }
  unfold SpaceshipModuleSystem._validateInstallModule. simpl.
  destruct (bool_decide (owner p0 = msgSender tx)) eqn:Hown; simpl.
  2: { eexists. split; [reflexivity|]. split; [auto|].
       intros p [= <-] Ho. apply bool_decide_eq_false in Hown. contradiction. }
  destruct (Z.eqb_spec (ArtifactOwner_get st s) 0) as [Hs0|Hs0]; simpl.
  { eexists. split; [reflexivity|]. split; [auto|]. intros p _ _ Hs Hh. congruence. }
  destruct (Z.eqb_spec (ArtifactOwner_get st s) h) as [Hsh|Hsh]; simpl.
  2: { eexists. split; [reflexivity|]. split; [auto|]. intros p _ _ Hs. congruence. }
  destruct (Z.eqb_spec (artifactIndex (ArtifactTable_get st s)) 3) as [Hs3|Hs3]; simpl.
  2: { eexists. split; [reflexivity|]. split; [auto 6|]. intros p _ _ _ _ H3.
       congruence. }
  rewrite Hao. simpl. eexists. split; [reflexivity|]. split; [auto 6|]. reflexivity.
Qed.

(** The slot check: another module of the same category in the slot, and a
    limit of one for the category. *)
Lemma install_slot_full st tx s m h p0 slotType slotIndex :
  PlanetTable st !! h = Some p0 ->
  installChecked st (PlanetLib.setPlanetHash p0 h) (msgSender tx) s m slotType slotIndex ->
  slot_moduleId (SpaceshipSlot_get st s slotIndex) > 0 ->
  slot_moduleId (SpaceshipSlot_get st s slotIndex) <> m ->
  slot_moduleSlotType (SpaceshipSlot_get st s slotIndex) = slotType ->
  SpaceshipModuleSystem._getModuleLimit (spaceshipType (CraftedSpaceship_get st s)) slotType
  = Ok 1 ->
  SpaceshipModuleSystem.installModule tx st s m h = Revert ModuleSlotFull.
Proof.
  intros Hp [Hown Hs Hh Hs3 Hm Hm23 Hels Hst Hslot Hidx] Hocc Hother Hsame Hlimit.
  simpl in Hown, Hs, Hh, Hm.
  unfold SpaceshipModuleSystem.installModule, SpaceshipModuleSystem._processInstallModule,
    PlanetLib.readInitedPlanet.
  rewrite Hp. simpl. unfold SpaceshipModuleSystem._validateInstallModule. simpl.
  rewrite (bool_decide_eq_true_2 _ Hown), Hs, Hm, Hs3, Hm23, !Z.eqb_refl. simpl.
  destruct (Z.eqb_spec h 0); [congruence|]. simpl.
  assert (Hguard :
    (if inst_installed (SpaceshipModuleInstalled_get st m)
        && (inst_artifactId (SpaceshipModuleInstalled_get st m) >? 0)
     then require (inst_artifactId (SpaceshipModuleInstalled_get st m) =? s)
            ModuleAlreadyInstalled
     else Ok tt) = Ok tt).
  { destruct (inst_installed (SpaceshipModuleInstalled_get st m)) eqn:Hi; [|reflexivity].
    destruct (Z.gtb_spec (inst_artifactId (SpaceshipModuleInstalled_get st m)) 0);
      [|reflexivity].
    simpl. rewrite (Hels eq_refl) by lia. rewrite Z.eqb_refl. reflexivity. }
  rewrite Hguard. simpl.
  destruct (Z.eqb_spec (spaceshipType (CraftedSpaceship_get st s)) 0); [congruence|]. simpl.
  destruct (Z.eqb_spec (moduleType (CraftedModules_get st m)) 0) as [H0|H0]; simpl.
  { rewrite H0 in Hslot. discriminate. }
  rewrite Hslot. simpl. rewrite Hidx. simpl.
  destruct (Z.gtb_spec (slot_moduleId (SpaceshipSlot_get st s slotIndex)) 0); [|lia].
  destruct (Z.eqb_spec (slot_moduleId (SpaceshipSlot_get st s slotIndex)) m); [congruence|].
  rewrite Hsame, Z.eqb_refl.
  unfold SpaceshipModuleSystem._countInstalledModules. rewrite Hidx. simpl.
  destruct (Z.gtb_spec (slot_moduleId (SpaceshipSlot_get st s slotIndex)) 0); [|lia].
  rewrite Hsame, Z.eqb_refl. simpl. rewrite Hlimit. reflexivity.
Qed.

(** C3 on the code.  [_validateInstallModule] has the guard the
    specification describes: its comments say that a module installed on a different
    spaceship is answered with [ModuleAlreadyInstalled] and that one already
    installed on this spaceship is allowed as a replacement.  The guard comes
    after the check of the module's owner row, and every install deletes
    that row: in a reachable state a module that is recorded as installed,
    on this carrier or on another, has no owner row, so its install is
    rejected before the guard, with [ArtifactNotOnPlanet2] when the caller
    owns the planet and the carrier is a spaceship on it; it is never
    answered with [ModuleAlreadyInstalled] and never accepted.  When the
    checks pass and the carrier's slot holds another module of the same
    category, a carrier whose limit for the category is one rejects the
    install with [ModuleSlotFull]. *)
Theorem C3_install_rejections k tx s m h :
  (forall st,
     reachable k st ->
     inst_installed (SpaceshipModuleInstalled_get st m) = true ->
     exists e,
       SpaceshipModuleSystem.installModule tx st s m h = Revert e /\
       commit st (SpaceshipModuleSystem.installModule tx st s m h) = st /\
       e <> ModuleAlreadyInstalled /\
       (e = PlanetNotInitialized \/ e = NotPlanetOwner \/ e = ArtifactNotOnPlanet1 \/
        e = InvalidSpaceshipArtifact \/ e = ArtifactNotOnPlanet2) /\
       (forall p, PlanetTable st !! h = Some p -> owner p = msgSender tx ->
          ArtifactOwner_get st s = h -> h <> 0 ->
          artifactIndex (ArtifactTable_get st s) = 3 -> e = ArtifactNotOnPlanet2)) /\
  (forall st p0 slotType slotIndex,
     PlanetTable st !! h = Some p0 ->
     installChecked st (PlanetLib.setPlanetHash p0 h) (msgSender tx) s m slotType slotIndex ->
     slot_moduleId (SpaceshipSlot_get st s slotIndex) > 0 ->
     slot_moduleId (SpaceshipSlot_get st s slotIndex) <> m ->
     slot_moduleSlotType (SpaceshipSlot_get st s slotIndex) = slotType ->
     SpaceshipModuleSystem._getModuleLimit
       (spaceshipType (CraftedSpaceship_get st s)) slotType = Ok 1 ->
     SpaceshipModuleSystem.installModule tx st s m h = Revert ModuleSlotFull).
Proof.
  split.
  - intros st Hr Hi.
    destruct (install_of_installed_rejected k st tx s m h Hr Hi) as (e & He & Hset & Hnp).
    exists e. split; [exact He|]. split; [rewrite He; reflexivity|].
    split; [|split; assumption].
    destruct Hset as [->|[->|[->|[->| ->]]]]; discriminate.
  - intros st p0 slotType slotIndex. apply install_slot_full.
Qed.

Lemma C3_install_rejections_witness :
  (reachable Scenario.k0 Scenario.stEngineOn1 /\
   SpaceshipModuleInstalled_get Scenario.stEngineOn1 3
   = mkSpaceshipModuleInstalledData 1 1 true /\
   SpaceshipModuleSystem.installModule Scenario.tx7 Scenario.stEngineOn1 2 3 1
   = Revert ArtifactNotOnPlanet2 /\
   SpaceshipModuleSystem.installModule Scenario.tx7 Scenario.stEngineOn1 1 3 1
   = Revert ArtifactNotOnPlanet2) /\
  (reachable Scenario.k0 Scenario.stScoutEngine /\
   SpaceshipModuleSystem.installModule Scenario.tx7 Scenario.stScoutEngine 1 3 1
   = Revert ModuleSlotFull).
Proof.
  assert (Hr : reachable Scenario.k0 Scenario.stEngineOn1)
    by (apply scenario_reachable; vm_compute; reflexivity).
  assert (Hrow : SpaceshipModuleInstalled_get Scenario.stEngineOn1 3
                 = mkSpaceshipModuleInstalledData 1 1 true) by (vm_compute; reflexivity).
  assert (Hi : inst_installed (SpaceshipModuleInstalled_get Scenario.stEngineOn1 3) = true)
    by (rewrite Hrow; reflexivity).
  split; [split; [exact Hr|split; [exact Hrow|split]]|split].
  - destruct (proj1 (C3_install_rejections Scenario.k0 Scenario.tx7 2 3 1)
                Scenario.stEngineOn1 Hr Hi) as (e & He & _ & _ & _ & Hnp).
    rewrite He. f_equal. eapply Hnp.
    + vm_compute. reflexivity.
    + reflexivity.
    + vm_compute. reflexivity.
    + discriminate.
    + vm_compute. reflexivity.
  - destruct (proj1 (C3_install_rejections Scenario.k0 Scenario.tx7 1 3 1)
                Scenario.stEngineOn1 Hr Hi) as (e & He & _ & _ & _ & Hnp).
    rewrite He. f_equal. eapply Hnp.
    + vm_compute. reflexivity.
    + reflexivity.
    + vm_compute. reflexivity.
    + discriminate.
    + vm_compute. reflexivity.
  - apply scenario_reachable. vm_compute. reflexivity.
  - eapply (proj2 (C3_install_rejections Scenario.k0 Scenario.tx7 1 3 1)
              Scenario.stScoutEngine _ 1 1).
    + vm_compute. reflexivity.
    + constructor.
      * reflexivity.
      * vm_compute. reflexivity.
      * discriminate.
      * vm_compute. reflexivity.
      * vm_compute. reflexivity.
      * vm_compute. reflexivity.
      * intros Hinst. exfalso. revert Hinst. vm_compute. discriminate.
      * vm_compute. discriminate.
      * vm_compute. reflexivity.
      * vm_compute. reflexivity.
    + vm_compute. reflexivity.
    + vm_compute. discriminate.
    + vm_compute. reflexivity.
    + vm_compute. reflexivity.
Defined.

(** ** C2: the slot limit *)

(** C2 fails on the code: a Scout allows one module per category, yet after
    a Hull and a Shield (which share slot index 3) are installed, the install
    of a second Hull succeeds, and [SpaceshipModuleInstalled] records two
    Hulls on the Scout.  [_validateInstallModule] only compares the new
    module with the one module the shared slot row remembers. *)
Theorem C2_scout_ends_with_two_hulls :
  reachable Scenario.k0 Scenario.stHullShield /\
  spaceshipType (CraftedSpaceship_get Scenario.stHullShield 1) = 1 /\
  SpaceshipModuleSystem._getModuleLimit 1 SpaceshipModuleSystem.HULL_SLOT = Ok 1 /\
  countInstalled Scenario.stHullShield 1 SpaceshipModuleSystem.HULL_SLOT = 1 /\
  SpaceshipModuleSystem.installModule Scenario.tx7 Scenario.stHullShield 1 4 1
  = Ok Scenario.stTwoHulls /\
  countInstalled Scenario.stTwoHulls 1 SpaceshipModuleSystem.HULL_SLOT = 2.
Proof.
  split; [apply scenario_reachable; vm_compute; reflexivity|].
  split; [vm_compute; reflexivity|]. split; [vm_compute; reflexivity|].
  split; [vm_compute; reflexivity|]. split; vm_compute; reflexivity.
Qed.

(** * Further properties of the systems *)

(** ** The bonus functions *)

Lemma biomeBonus_cases (biome : Z) :
  ModuleCraftingSystem._getBiomeBonus biome = 0 \/
  ModuleCraftingSystem._getBiomeBonus biome = 1 \/
  ModuleCraftingSystem._getBiomeBonus biome = 2 \/
  ModuleCraftingSystem._getBiomeBonus biome = 4 \/
  ModuleCraftingSystem._getBiomeBonus biome = 8.
Proof.
  unfold ModuleCraftingSystem._getBiomeBonus. cbv zeta.
  repeat (case_match; [tauto|]). tauto.
Qed.

Lemma rarityMultiplier_cases (r : ArtifactRarity) :
  100 <= ModuleCraftingSystem._getRarityMultiplier r <= 300.
Proof. destruct r; simpl; lia. Qed.


Ltac bonus_range calc role :=
  unfold calc; cbv zeta;
  match goal with
  | |- context [ModuleCraftingSystem._getBiomeBonus ?b] =>
      pose proof (biomeBonus_cases b) as Hb;
      generalize dependent (ModuleCraftingSystem._getBiomeBonus b)
  | |- context [FoundryCraftingSystem._getBiomeBonus ?b] =>
      pose proof (biomeBonus_cases b) as Hb;
      change (ModuleCraftingSystem._getBiomeBonus b)
        with (FoundryCraftingSystem._getBiomeBonus b) in Hb;
      generalize dependent (FoundryCraftingSystem._getBiomeBonus b)
  end;
  match goal with
  | |- context [ModuleCraftingSystem._getRarityMultiplier ?r] =>
      pose proof (rarityMultiplier_cases r) as Hm;
      generalize dependent (ModuleCraftingSystem._getRarityMultiplier r)
  | |- context [FoundryCraftingSystem._getRarityMultiplier ?r] =>
      pose proof (rarityMultiplier_cases r) as Hm;
      change (ModuleCraftingSystem._getRarityMultiplier r)
        with (FoundryCraftingSystem._getRarityMultiplier r) in Hm;
      generalize dependent (FoundryCraftingSystem._getRarityMultiplier r)
  end;
  let m := fresh "m" in let b := fresh "b" in
  intros m Hm b Hb; assert (0 <= b <= 8) by lia; clear Hb; unfold role;
  repeat case_match; try lia;
  (split; [apply Z.div_pos; nia | apply Z.lt_succ_r, Z.div_lt_upper_bound; nia]).

Lemma module_attack_range biome r t :
  0 <= ModuleCraftingSystem._calculateAttackBonus biome r t <= 12.
Proof.
  bonus_range ModuleCraftingSystem._calculateAttackBonus
    ModuleCraftingSystem._getModuleRoleAttackBonus.
Qed.

Lemma module_defense_range biome r t :
  0 <= ModuleCraftingSystem._calculateDefenseBonus biome r t <= 54.
Proof.
  bonus_range ModuleCraftingSystem._calculateDefenseBonus
    ModuleCraftingSystem._getModuleRoleDefenseBonus.
Qed.

Lemma module_speed_range biome r t :
  0 <= ModuleCraftingSystem._calculateSpeedBonus biome r t <= 48.
Proof.
  bonus_range ModuleCraftingSystem._calculateSpeedBonus
    ModuleCraftingSystem._getModuleRoleSpeedBonus.
Qed.

Lemma module_range_range biome r t :
  0 <= ModuleCraftingSystem._calculateRangeBonus biome r t <= 39.
Proof.
  bonus_range ModuleCraftingSystem._calculateRangeBonus
    ModuleCraftingSystem._getModuleRoleRangeBonus.
Qed.

Lemma ship_attack_range biome r t :
  0 <= FoundryCraftingSystem._calculateAttackBonus biome r t <= 54.
Proof.
  bonus_range FoundryCraftingSystem._calculateAttackBonus
    FoundryCraftingSystem._getSpaceshipRoleAttackBonus.
Qed.

Lemma ship_defense_range biome r t :
  0 <= FoundryCraftingSystem._calculateDefenseBonus biome r t <= 69.
Proof.
  bonus_range FoundryCraftingSystem._calculateDefenseBonus
    FoundryCraftingSystem._getSpaceshipRoleDefenseBonus.
Qed.

Lemma ship_speed_range biome r t :
  0 <= FoundryCraftingSystem._calculateSpeedBonus biome r t <= 54.
Proof.
  bonus_range FoundryCraftingSystem._calculateSpeedBonus
    FoundryCraftingSystem._getSpaceshipRoleSpeedBonus.
Qed.

Lemma ship_range_range biome r t :
  0 <= FoundryCraftingSystem._calculateRangeBonus biome r t <= 39.
Proof.
  bonus_range FoundryCraftingSystem._calculateRangeBonus
    FoundryCraftingSystem._getSpaceshipRoleRangeBonus.
Qed.

(** X1: every bonus the two crafting systems compute is between 0 and a small
    bound (at most 69), whatever the biome, rarity and kind: the [uint16]
    arithmetic of the eight functions never overflows. *)
Theorem X1_crafted_bonus_bounds (biome : Z) (r : ArtifactRarity) (t : Z) :
  0 <= ModuleCraftingSystem._calculateAttackBonus biome r t <= 12 /\
  0 <= ModuleCraftingSystem._calculateDefenseBonus biome r t <= 54 /\
  0 <= ModuleCraftingSystem._calculateSpeedBonus biome r t <= 48 /\
  0 <= ModuleCraftingSystem._calculateRangeBonus biome r t <= 39 /\
  0 <= FoundryCraftingSystem._calculateAttackBonus biome r t <= 54 /\
  0 <= FoundryCraftingSystem._calculateDefenseBonus biome r t <= 69 /\
  0 <= FoundryCraftingSystem._calculateSpeedBonus biome r t <= 54 /\
  0 <= FoundryCraftingSystem._calculateRangeBonus biome r t <= 39 /\
  ModuleCraftingSystem._calculateDefenseBonus 10 MYTHIC 4 = 54 /\
  FoundryCraftingSystem._calculateDefenseBonus 10 MYTHIC 4 = 69.
Proof.
  split; [apply module_attack_range|].
  split; [apply module_defense_range|].
  split; [apply module_speed_range|].
  split; [apply module_range_range|].
  split; [apply ship_attack_range|].
  split; [apply ship_defense_range|].
  split; [apply ship_speed_range|].
  split; [apply ship_range_range|].
  split; reflexivity.
Qed.

Lemma rarityMultiplier_mono (r1 r2 : ArtifactRarity) :
  ArtifactRarity_uint8 r1 <= ArtifactRarity_uint8 r2 ->
  0 <= ModuleCraftingSystem._getRarityMultiplier r1
    <= ModuleCraftingSystem._getRarityMultiplier r2.
Proof. destruct r1, r2; simpl; lia. Qed.

Lemma biomeBonus_mono (b1 b2 : Z) :
  0 <= b1 <= b2 -> b2 <= Biome_max ->
  0 <= ModuleCraftingSystem._getBiomeBonus b1 <= ModuleCraftingSystem._getBiomeBonus b2.
Proof.
  unfold ModuleCraftingSystem._getBiomeBonus, Biome_max. cbv zeta. intros H1 H2.
  repeat case_match; lia.
Qed.

Lemma bonus_quotient_mono (b1 b2 role m1 m2 D : Z) :
  0 <= b1 <= b2 -> 0 <= role -> 0 <= m1 <= m2 -> 0 < D ->
  (if role =? 0 then 0 else (b1 + role) * m1 / D)
  <= (if role =? 0 then 0 else (b2 + role) * m2 / D).
Proof.
  intros Hb Hr Hm HD. destruct (role =? 0); [lia|].
  apply Z.div_le_mono; [lia|nia].
Qed.

(** X2: for one kind of module or spaceship, a rarer item, or one of a later
    biome (ids 0 to 10), never has a lower bonus on any axis. *)
Theorem X2_bonus_monotone (b1 b2 : Z) (r1 r2 : ArtifactRarity) (t : Z) :
  0 <= b1 <= b2 -> b2 <= Biome_max ->
  ArtifactRarity_uint8 r1 <= ArtifactRarity_uint8 r2 ->
  ModuleCraftingSystem._calculateAttackBonus b1 r1 t
  <= ModuleCraftingSystem._calculateAttackBonus b2 r2 t /\
  ModuleCraftingSystem._calculateDefenseBonus b1 r1 t
  <= ModuleCraftingSystem._calculateDefenseBonus b2 r2 t /\
  ModuleCraftingSystem._calculateSpeedBonus b1 r1 t
  <= ModuleCraftingSystem._calculateSpeedBonus b2 r2 t /\
  ModuleCraftingSystem._calculateRangeBonus b1 r1 t
  <= ModuleCraftingSystem._calculateRangeBonus b2 r2 t /\
  FoundryCraftingSystem._calculateAttackBonus b1 r1 t
  <= FoundryCraftingSystem._calculateAttackBonus b2 r2 t /\
  FoundryCraftingSystem._calculateDefenseBonus b1 r1 t
  <= FoundryCraftingSystem._calculateDefenseBonus b2 r2 t /\
  FoundryCraftingSystem._calculateSpeedBonus b1 r1 t
  <= FoundryCraftingSystem._calculateSpeedBonus b2 r2 t /\
  FoundryCraftingSystem._calculateRangeBonus b1 r1 t
  <= FoundryCraftingSystem._calculateRangeBonus b2 r2 t.
Proof.
  intros Hb Hmax Hr.
  pose proof (biomeBonus_mono b1 b2 Hb Hmax) as Hbb.
  pose proof (rarityMultiplier_mono r1 r2 Hr) as Hmm.
  repeat split;
    (apply bonus_quotient_mono;
     [ exact Hbb
     | first [ apply module_role_attack_nonneg | apply module_role_defense_nonneg
             | apply module_role_speed_nonneg | apply module_role_range_nonneg
             | apply ship_role_attack_nonneg | apply ship_role_defense_nonneg
             | apply ship_role_speed_nonneg | apply ship_role_range_nonneg ]
     | exact Hmm
     | lia ]).
Qed.

Lemma X2_bonus_monotone_witness :
  ModuleCraftingSystem._calculateDefenseBonus 2 EPIC 4
  <= ModuleCraftingSystem._calculateDefenseBonus 10 MYTHIC 4.
Proof.
  refine (proj1 (proj2 (X2_bonus_monotone 2 10 EPIC MYTHIC 4 _ _ _)));
    vm_compute; intuition discriminate.
Defined.

(** ** Rarity and level *)

(** The tier of an effective level, the second half of the two rarity
    functions. *)
Lemma rarity_tier (l : Z) (r : ArtifactRarity) :
  (if l <=? 1 then Ok COMMON
   else if l <=? 3 then Ok RARE
   else if l <=? 5 then Ok EPIC
   else if l <=? 7 then Ok LEGENDARY
   else Ok MYTHIC) = Ok r ->
  (l <= 1 /\ r = COMMON) \/ (2 <= l <= 3 /\ r = RARE) \/ (4 <= l <= 5 /\ r = EPIC) \/
  (6 <= l <= 7 /\ r = LEGENDARY) \/ (8 <= l /\ r = MYTHIC).
Proof.
  repeat match goal with
         | |- context [?a <=? ?b] => destruct (Z.leb_spec a b)
         end; intros [= <-];
    repeat (first [left; split; [lia|reflexivity] | right]);
    split; [lia|reflexivity].
Qed.

Lemma calculateModuleRarity_Ok (level seed : Z) (r : ArtifactRarity) :
  ModuleCraftingSystem._calculateModuleRarity level seed = Ok r ->
  exists l, level <= l <= level + 2 /\
    l = spec_effectiveLevel seed level /\
    ((l <= 1 /\ r = COMMON) \/ (2 <= l <= 3 /\ r = RARE) \/ (4 <= l <= 5 /\ r = EPIC) \/
     (6 <= l <= 7 /\ r = LEGENDARY) \/ (8 <= l /\ r = MYTHIC)).
Proof.
  unfold ModuleCraftingSystem._calculateModuleRarity, spec_effectiveLevel. cbv zeta.
  intros H. bind_inv H as l Hl. exists l. apply rarity_tier in H.
  split; [|split; [|exact H]].
  - repeat case_match; try apply checked_add_Ok in Hl as [_ ->];
      try injection Hl as <-; lia.
  - repeat case_decide;
      repeat match goal with
             | H : context [?a <? ?b] |- _ => destruct (Z.ltb_spec a b); try lia
             end;
      try apply checked_add_Ok in Hl as [_ ->]; try injection Hl as <-; reflexivity.
Qed.

(** X3: the rarity of a crafted item never falls when the level of the
    foundry rises (for one seed); it is never the zero member of the enum; a
    foundry of level 4, the least that may craft, gives Epic or better, and
    one of level 8 or more gives Mythic. *)
Theorem X3_rarity_grows_with_level (level level' seed : Z) (r r' : ArtifactRarity) :
  ModuleCraftingSystem._calculateModuleRarity level seed = Ok r ->
  FoundryCraftingSystem._calculateSpaceshipRarity level' seed = Ok r' ->
  level <= level' ->
  ArtifactRarity_uint8 r <= ArtifactRarity_uint8 r' /\
  r <> RARITY_UNKNOWN /\ r' <> RARITY_UNKNOWN /\
  (4 <= level -> r = EPIC \/ r = LEGENDARY \/ r = MYTHIC) /\
  (8 <= level -> r = MYTHIC).
Proof.
  intros H H' Hle. rewrite calculateSpaceshipRarity_eq in H'.
  apply calculateModuleRarity_Ok in H as (l & Hl & He & Ht).
  apply calculateModuleRarity_Ok in H' as (l' & Hl' & He' & Ht').
  assert (l <= l').
  { subst l l'. unfold spec_effectiveLevel. cbv zeta. repeat case_decide; lia. }
  destruct Ht as [[? ->]|[[? ->]|[[? ->]|[[? ->]|[? ->]]]]],
           Ht' as [[? ->]|[[? ->]|[[? ->]|[[? ->]|[? ->]]]]];
    simpl; repeat split; try discriminate; try lia; intros; try lia; auto.
Qed.

Lemma X3_rarity_grows_with_level_witness :
  ModuleCraftingSystem._calculateModuleRarity 4 0x3f123 = Ok LEGENDARY /\
  FoundryCraftingSystem._calculateSpaceshipRarity 9 0x3f123 = Ok MYTHIC /\
  4 <= 9 /\
  ArtifactRarity_uint8 LEGENDARY <= ArtifactRarity_uint8 MYTHIC.
Proof.
  assert (H1 : ModuleCraftingSystem._calculateModuleRarity 4 0x3f123 = Ok LEGENDARY)
    by (vm_compute; reflexivity).
  assert (H2 : FoundryCraftingSystem._calculateSpaceshipRarity 9 0x3f123 = Ok MYTHIC)
    by (vm_compute; reflexivity).
  assert (H3 : 4 <= 9) by lia.
  split; [exact H1|]. split; [exact H2|]. split; [exact H3|].
  exact (proj1 (X3_rarity_grows_with_level 4 9 0x3f123 LEGENDARY MYTHIC H1 H2 H3)).
Defined.

(** ** Slots and limits *)

(** X4: the slot category of a module is its type, defined for the types 1
    to 4; the slot index separates the categories except Hull and Shield,
    which share index 3; any other type or category is rejected with
    InvalidModuleType. *)
Theorem X4_slot_index_shared (a b : Z) :
  (forall s, SpaceshipModuleSystem._getSlotTypeForModuleType a = Ok s <->
             1 <= a <= 4 /\ s = a) /\
  (forall e, SpaceshipModuleSystem._getSlotTypeForModuleType a = Revert e ->
             e = InvalidModuleType) /\
  (forall i, SpaceshipModuleSystem._getSlotIndexForSlotType a = Ok i ->
             1 <= a <= 4 /\ 1 <= i <= 3) /\
  (forall e, SpaceshipModuleSystem._getSlotIndexForSlotType a = Revert e ->
             e = InvalidModuleType /\ ~ 1 <= a <= 4) /\
  (forall i j,
     SpaceshipModuleSystem._getSlotIndexForSlotType a = Ok i ->
     SpaceshipModuleSystem._getSlotIndexForSlotType b = Ok j ->
     (i = j <->
      a = b \/
      (a = SpaceshipModuleSystem.HULL_SLOT /\ b = SpaceshipModuleSystem.SHIELD_SLOT) \/
      (a = SpaceshipModuleSystem.SHIELD_SLOT /\ b = SpaceshipModuleSystem.HULL_SLOT))).
Proof.
  unfold SpaceshipModuleSystem._getSlotTypeForModuleType,
    SpaceshipModuleSystem._getSlotIndexForSlotType,
    SpaceshipModuleSystem.ENGINES_SLOT, SpaceshipModuleSystem.WEAPONS_SLOT,
    SpaceshipModuleSystem.HULL_SLOT, SpaceshipModuleSystem.SHIELD_SLOT.
  destruct (Z.eqb_spec a 1) as [Ha1|Ha1], (Z.eqb_spec a 2) as [Ha2|Ha2],
    (Z.eqb_spec a 3) as [Ha3|Ha3], (Z.eqb_spec a 4) as [Ha4|Ha4];
    try lia; simpl;
    (split;
     [intros st; split;
      [first [discriminate | intros [= <-]; lia]
      | intros [Hr Hs]; first [lia | f_equal; lia] ]|]);
    (split; [intros err; first [discriminate | intros [= <-]; reflexivity]|]);
    (split; [intros idx; first [discriminate | intros [= <-]; lia]|]);
    (split; [intros err; first [discriminate | intros [= <-]; split; [reflexivity|lia]]|]);
    intros idx jdx; first [discriminate | intros [= <-]];
    destruct (Z.eqb_spec b 1) as [Hb1|Hb1], (Z.eqb_spec b 2) as [Hb2|Hb2],
      (Z.eqb_spec b 3) as [Hb3|Hb3], (Z.eqb_spec b 4) as [Hb4|Hb4];
    try lia; simpl; first [discriminate | intros [= <-]]; lia.
Qed.

(** Case analysis on every test [x =? y] of the goal and the hypotheses. *)
Ltac zeqb :=
  repeat match goal with
         | |- context [?x =? ?y] => destruct (Z.eqb_spec x y); try lia
         | H : context [?x =? ?y] |- _ => destruct (Z.eqb_spec x y); try lia
         end.

(** X5: the limit of a carrier type and slot category is defined exactly for
    the types 1 to 4 and the categories 1 to 4, lies between 1 and 4, and is
    the number the management pane of the client shows; any other pair is
    rejected with InvalidSpaceshipType, an unknown category included. *)
Theorem X5_module_limit_table (t s : Z) :
  (forall n, SpaceshipModuleSystem._getModuleLimit t s = Ok n <->
     exists row, SpaceshipModuleManagementPane.SPACESHIP_MODULE_LIMITS t = Some row /\
                 row s = Some n) /\
  (forall n, SpaceshipModuleSystem._getModuleLimit t s = Ok n ->
     1 <= t <= 4 /\ 1 <= s <= 4 /\ 1 <= n <= 4) /\
  (forall e, SpaceshipModuleSystem._getModuleLimit t s = Revert e ->
     e = InvalidSpaceshipType /\ ~ (1 <= t <= 4 /\ 1 <= s <= 4)) /\
  (forall n, SpaceshipModuleSystem._getModuleLimit t s = Ok n ->
     SpaceshipModuleManagementPane.limits t s = Some n).
Proof.
  unfold SpaceshipModuleManagementPane.limits, SpaceshipModuleSystem._getModuleLimit,
    SpaceshipModuleManagementPane.SPACESHIP_MODULE_LIMITS,
    SpaceshipModuleSystem.ENGINES_SLOT, SpaceshipModuleSystem.WEAPONS_SLOT,
    SpaceshipModuleSystem.HULL_SLOT, SpaceshipModuleSystem.SHIELD_SLOT.
  cbv zeta.
  split; [|split; [|split]].
  - intros n0; split.
    + intros H. zeqb; try discriminate H;
        (eexists; split; [reflexivity|]; cbv beta; zeqb; congruence).
    + intros (row & Hrow & Hn). zeqb; try discriminate Hrow;
        injection Hrow as <-; cbv beta in Hn; zeqb; congruence.
  - intros n0 H. zeqb; try discriminate H; injection H as <-; lia.
  - intros err H. zeqb; try discriminate H; injection H as <-; (split; [reflexivity|lia]).
  - intros n0 H. zeqb; try discriminate H; injection H as <-; cbv beta; zeqb; reflexivity.
Qed.

(** ** The biome of a planet *)

Lemma calculateBiome_same (k : Keccak) (st : World) (p : Planet) :
  FoundryCraftingSystem._calculateBiomeFromPlanet k st p
  = ModuleCraftingSystem._calculateBiomeFromPlanet k st p /\
  FoundryUpgradeSystem._calculateBiomeFromPlanet k st p
  = ModuleCraftingSystem._calculateBiomeFromPlanet k st p.
Proof. split; reflexivity. Qed.

(** X6: for a planet in one of the four zones (nebula 1, space 2, deep space
    3, dead space 4) the three copies of the biome computation return the
    same biome, one of the three biomes of the zone (Corrupted, 10, in dead
    space), whatever the digest and the thresholds; so the zone alone fixes
    what the multiplier and bonus functions give the computed biome: the
    biome multiplier of the upgrade system (100, 150, 200, 250) and the
    biome bonus of the two crafting systems (1, 2, 4, 8). *)
Theorem X6_biome_by_zone (k : Keccak) (st : World) (p : Planet) :
  1 <= spaceType p <= 4 ->
  exists b,
    ModuleCraftingSystem._calculateBiomeFromPlanet k st p = Ok b /\
    FoundryCraftingSystem._calculateBiomeFromPlanet k st p = Ok b /\
    FoundryUpgradeSystem._calculateBiomeFromPlanet k st p = Ok b /\
    3 * spaceType p - 2 <= b <= 3 * spaceType p /\ 1 <= b <= Biome_max /\
    (spaceType p = DEAD_SPACE -> b = CORRUPTED) /\
    FoundryUpgradeSystem._getBiomeMultiplier b = 50 + 50 * spaceType p /\
    ModuleCraftingSystem._getBiomeBonus b = 2 ^ (spaceType p - 1) /\
    FoundryCraftingSystem._getBiomeBonus b = 2 ^ (spaceType p - 1).
Proof.
  intros Hz.
  destruct (calculateBiome_same k st p) as [-> ->].
  unfold ModuleCraftingSystem._calculateBiomeFromPlanet.
  assert (Hs : spaceType p = 1 \/ spaceType p = 2 \/ spaceType p = 3 \/ spaceType p = 4)
    by lia.
  destruct Hs as [Hs|[Hs|[Hs|Hs]]]; rewrite Hs; simpl;
    repeat match goal with
           | |- context [?a <? ?b] => destruct (a <? b)
           end; simpl; eexists; repeat split; try reflexivity; try discriminate;
    unfold Biome_max; lia.
Qed.

Lemma X6_biome_by_zone_witness :
  1 <= spaceType Scenario.foundry1 <= 4 /\
  exists b,
    ModuleCraftingSystem._calculateBiomeFromPlanet Scenario.k0 Scenario.st0 Scenario.foundry1
    = Ok b /\ 1 <= b <= 3.
Proof.
  assert (H : 1 <= spaceType Scenario.foundry1 <= 4) by (simpl; lia).
  split; [exact H|].
  destruct (X6_biome_by_zone Scenario.k0 Scenario.st0 Scenario.foundry1 H)
    as (b & Hb & _ & _ & Hr & _).
  exists b. split; [exact Hb|]. simpl in Hr. lia.
Defined.

(** X7: for a planet whose space type is the zero member of the enum, the
    subtraction [res -= 2] or [res -= 1] underflows: the three copies of the
    biome computation revert with an arithmetic panic when the digest is
    below a threshold, and return biome 0 otherwise. *)
Theorem X7_biome_unknown_zone (k : Keccak) (st : World) (p : Planet) :
  spaceType p = 0 ->
  let biomeBase := keccakBiome k (planetHash p) (perlin p) mod 1000 in
  let result :=
    if decide (biomeBase < threshold1 (PlanetBiomeConfig st)
               \/ biomeBase < threshold2 (PlanetBiomeConfig st))
    then Revert Panic else Ok 0 in
  ModuleCraftingSystem._calculateBiomeFromPlanet k st p = result /\
  FoundryCraftingSystem._calculateBiomeFromPlanet k st p = result /\
  FoundryUpgradeSystem._calculateBiomeFromPlanet k st p = result.
Proof.
  intros Hs biomeBase result.
  destruct (calculateBiome_same k st p) as [-> ->].
  assert (ModuleCraftingSystem._calculateBiomeFromPlanet k st p = result); [|tauto].
  unfold ModuleCraftingSystem._calculateBiomeFromPlanet, result. rewrite Hs. simpl.
  fold biomeBase.
  destruct (Z.ltb_spec biomeBase (threshold1 (PlanetBiomeConfig st)));
    [|destruct (Z.ltb_spec biomeBase (threshold2 (PlanetBiomeConfig st)))];
    case_decide; try lia; reflexivity.
Qed.

Lemma X7_biome_unknown_zone_witness :
  spaceType (mkPlanet 7 1 FOUNDRY 4 0 0 (fun _ => 0) []) = 0 /\
  ModuleCraftingSystem._calculateBiomeFromPlanet
    (mkKeccak (fun _ _ _ => 0) (fun _ _ => 50)) Scenario.st0
    (mkPlanet 7 1 FOUNDRY 4 0 0 (fun _ => 0) []) = Revert Panic.
Proof.
  split; [reflexivity|].
  exact (proj1 (X7_biome_unknown_zone (mkKeccak (fun _ _ _ => 0) (fun _ _ => 50))
                  Scenario.st0 (mkPlanet 7 1 FOUNDRY 4 0 0 (fun _ => 0) []) eq_refl)).
Defined.

(** ** The token id of a spaceship *)

Lemma land_disjoint (a b n : Z) :
  0 <= n -> 0 <= b < 2 ^ n -> Z.land (a * 2 ^ n) b = 0.
Proof.
  intros Hn Hb. destruct (Z.eq_dec b 0) as [->|Hb0]; [apply Z.land_0_r|].
  apply Z.bits_inj'; intros i Hi. rewrite Z.land_spec, Z.bits_0.
  destruct (Z.lt_ge_cases i n) as [Hlt|Hge].
  - rewrite Z.mul_pow2_bits_low by lia. reflexivity.
  - rewrite (Z.bits_above_log2 b i); [apply andb_false_r|lia|].
    apply Z.log2_lt_pow2; [lia|].
    apply Z.lt_le_trans with (2 ^ n); [lia|apply Z.pow_le_mono_r; lia].
Qed.

Lemma lor_disjoint (a b n : Z) :
  0 <= n -> 0 <= b < 2 ^ n -> Z.lor (a * 2 ^ n) b = a * 2 ^ n + b.
Proof.
  intros Hn Hb. pose proof (land_disjoint a b n Hn Hb) as H0.
  rewrite <- Z.lxor_lor by exact H0. symmetry. apply Z.add_nocarry_lxor. exact H0.
Qed.

Lemma shl256_small (a n : Z) :
  0 <= n -> 0 <= a -> a * 2 ^ n < 2 ^ 256 -> FoundryCraftingSystem.shl256 a n = a * 2 ^ n.
Proof.
  intros Hn Ha Hlt. unfold FoundryCraftingSystem.shl256.
  rewrite Z.shiftl_mul_pow2 by exact Hn. apply Z.mod_small. split; [|exact Hlt].
  apply Z.mul_nonneg_nonneg; [exact Ha|apply Z.pow_nonneg; lia].
Qed.

Lemma tokenId_sum (keccakTime : Z -> Z) (tx : Tx) (spaceshipId spaceshipType : Z) :
  0 <= spaceshipType < 2 ^ 8 -> 0 <= spaceshipId < 2 ^ 16 ->
  0 <= blockTimestamp tx < 2 ^ 224 ->
  FoundryCraftingSystem._generateSpaceshipTokenId keccakTime tx spaceshipId spaceshipType
  = (keccakTime (blockTimestamp tx) mod 256) * 2 ^ 248 + spaceshipType * 2 ^ 240
    + spaceshipId * 2 ^ 224 + blockTimestamp tx.
Proof.
  intros Ht Hi Hs. unfold FoundryCraftingSystem._generateSpaceshipTokenId. cbv zeta.
  pose proof (Z.mod_pos_bound (keccakTime (blockTimestamp tx)) 256 ltac:(lia)) as Hr.
  set (r := keccakTime (blockTimestamp tx) mod 256) in *.
  rewrite !shl256_small by lia.
  rewrite (lor_disjoint r _ 248) by lia.
  replace (r * 2 ^ 248 + spaceshipType * 2 ^ 240)
    with ((r * 2 ^ 8 + spaceshipType) * 2 ^ 240) by lia.
  rewrite (lor_disjoint _ _ 240) by lia.
  replace ((r * 2 ^ 8 + spaceshipType) * 2 ^ 240 + spaceshipId * 2 ^ 224)
    with ((r * 2 ^ 24 + spaceshipType * 2 ^ 16 + spaceshipId) * 2 ^ 224) by lia.
  rewrite lor_disjoint by lia. lia.
Qed.

(** X8: the token id packs the round (top 8 bits), the type (8 bits), the
    spaceship id and the timestamp into one [uint256]; for a type below
    [2^8], an id below [2^16] and a timestamp below [2^224] the fields do not
    overlap and each is read back from the token id, so distinct spaceships
    get distinct token ids; [_mintSpaceshipNFT] returns this id. *)
Theorem X8_token_id_fields (keccakTime : Z -> Z) (tx : Tx) (to biome : Z)
    (rarity : ArtifactRarity) (spaceshipId spaceshipType : Z) :
  0 <= spaceshipType < 2 ^ 8 -> 0 <= spaceshipId < 2 ^ 16 ->
  0 <= blockTimestamp tx < 2 ^ 224 ->
  let tokenId :=
    FoundryCraftingSystem._generateSpaceshipTokenId keccakTime tx spaceshipId spaceshipType in
  FoundryCraftingSystem._mintSpaceshipNFT keccakTime tx to spaceshipId spaceshipType biome
    rarity = tokenId /\
  0 <= tokenId < 2 ^ 256 /\
  tokenId / 2 ^ 248 = keccakTime (blockTimestamp tx) mod 256 /\
  (tokenId / 2 ^ 240) mod 2 ^ 8 = spaceshipType /\
  (tokenId / 2 ^ 224) mod 2 ^ 16 = spaceshipId /\
  tokenId mod 2 ^ 224 = blockTimestamp tx.
Proof.
  intros Ht Hi Hs tokenId. split; [reflexivity|].
  unfold tokenId. rewrite tokenId_sum by assumption.
  pose proof (Z.mod_pos_bound (keccakTime (blockTimestamp tx)) 256 ltac:(lia)) as Hr.
  set (r := keccakTime (blockTimestamp tx) mod 256) in *.
  set (ts := blockTimestamp tx) in *.
  split; [lia|].
  split; [symmetry; apply (Z.div_unique _ _ _ (spaceshipType * 2 ^ 240
                             + spaceshipId * 2 ^ 224 + ts)); lia|].
  split.
  - replace ((r * 2 ^ 248 + spaceshipType * 2 ^ 240 + spaceshipId * 2 ^ 224 + ts) / 2 ^ 240)
      with (r * 2 ^ 8 + spaceshipType)
      by (apply (Z.div_unique _ _ _ (spaceshipId * 2 ^ 224 + ts)); lia).
    symmetry. apply (Z.mod_unique _ _ r); lia.
  - split.
    + replace ((r * 2 ^ 248 + spaceshipType * 2 ^ 240 + spaceshipId * 2 ^ 224 + ts) / 2 ^ 224)
        with (r * 2 ^ 24 + spaceshipType * 2 ^ 16 + spaceshipId)
        by (apply (Z.div_unique _ _ _ ts); lia).
      symmetry. apply (Z.mod_unique _ _ (r * 2 ^ 8 + spaceshipType)); lia.
    + symmetry.
      apply (Z.mod_unique _ _ (r * 2 ^ 24 + spaceshipType * 2 ^ 16 + spaceshipId)); lia.
Qed.

Lemma X8_token_id_fields_witness :
  0 <= 3 < 2 ^ 8 /\ 0 <= 7 < 2 ^ 16 /\ 0 <= blockTimestamp Scenario.tx7 < 2 ^ 224 /\
  (FoundryCraftingSystem._generateSpaceshipTokenId (fun _ => 5) Scenario.tx7 7 3 / 2 ^ 224)
    mod 2 ^ 16 = 7.
Proof.
  assert (H1 : 0 <= 3 < 2 ^ 8) by lia.
  assert (H2 : 0 <= 7 < 2 ^ 16) by lia.
  assert (H3 : 0 <= blockTimestamp Scenario.tx7 < 2 ^ 224) by (simpl; lia).
  split; [exact H1|]. split; [exact H2|]. split; [exact H3|].
  exact (proj1 (proj2 (proj2 (proj2 (proj2
    (X8_token_id_fields (fun _ => 5) Scenario.tx7 0 0 COMMON 7 3 H1 H2 H3)))))).
Defined.

(** ** The fee of an upgrade *)

Lemma upgrade_rarityMultiplier_range (r : ArtifactRarity) :
  100 <= FoundryUpgradeSystem._getRarityMultiplier r <= 300.
Proof. destruct r; simpl; lia. Qed.

(** The loop of [_getHighestArtifactRarityMultiplier] returns the greatest of
    the start value and the multipliers of the artifacts. *)
Lemma highestRarity_Ok (st : World) (ids : list Z) (acc rm : Z) :
  FoundryUpgradeSystem.highestRarity st ids acc = Ok rm ->
  acc <= rm /\
  (forall a, a ∈ ids ->
     FoundryUpgradeSystem._getRarityMultiplier (artifact_rarity (ArtifactTable_get st a))
     <= rm) /\
  (rm = acc \/
   exists a, a ∈ ids /\
     rm = FoundryUpgradeSystem._getRarityMultiplier
            (artifact_rarity (ArtifactTable_get st a))) /\
  rm = foldl (fun m a =>
                Z.max m (FoundryUpgradeSystem._getRarityMultiplier
                           (artifact_rarity (ArtifactTable_get st a)))) acc ids.
Proof.
  revert acc. induction ids as [|a ids IH]; intros acc H; simpl in H.
  - injection H as <-. split; [lia|]. split; [intros a Ha; inversion Ha|].
    split; [left; reflexivity|reflexivity].
  - bind_inv H as art Hart. unfold PlanetLib.mustGetArtifact in Hart.
    destruct (ArtifactTable st !! a) as [d|] eqn:Hd; [|discriminate].
    injection Hart as <-.
    assert (Hget : ArtifactTable_get st a = d).
    { unfold ArtifactTable_get. rewrite Hd. reflexivity. }
    apply IH in H as (Hacc & Hall & Hex & Hfold).
    set (m := FoundryUpgradeSystem._getRarityMultiplier (artifact_rarity d)) in *.
    assert (Hmax : (if m >? acc then m else acc) = Z.max acc m).
    { destruct (Z.gtb_spec m acc); lia. }
    rewrite Hmax in Hacc, Hex, Hfold.
    split; [lia|]. split; [|split].
    + intros x Hx. apply elem_of_cons in Hx as [->|Hx]; [rewrite Hget; fold m; lia|].
      apply Hall, Hx.
    + destruct Hex as [Hex|(x & Hx & Hex)].
      * destruct (Z.max_spec acc m) as [[_ Hm]|[_ Hm]].
        -- right. exists a. split; [left|]. rewrite Hget. fold m. lia.
        -- left. lia.
      * right. exists x. split; [right; exact Hx|exact Hex].
    + simpl. rewrite Hget. fold m. exact Hfold.
Qed.

Lemma highestMultiplier_range (st : World) (foundry : Planet) (rm : Z) :
  FoundryUpgradeSystem._getHighestArtifactRarityMultiplier st foundry = Ok rm ->
  100 <= rm <= 300.
Proof.
  unfold FoundryUpgradeSystem._getHighestArtifactRarityMultiplier. intros H.
  apply highestRarity_Ok in H as (Hacc & _ & Hex & _).
  split; [exact Hacc|]. destruct Hex as [->|(a & _ & ->)]; [lia|].
  apply upgrade_rarityMultiplier_range.
Qed.

(** X9: when it returns, the rarity multiplier of the upgrade fee is the
    greatest of 100 and the multipliers of the artifacts the foundry holds:
    it is 100 for an empty inventory, between 100 and 300, at least the
    multiplier of every artifact held and, above 100, that of one of them. *)
Theorem X9_highest_rarity_multiplier (st : World) (foundry : Planet) (rm : Z) :
  FoundryUpgradeSystem._getHighestArtifactRarityMultiplier st foundry = Ok rm ->
  100 <= rm <= 300 /\
  (artifactStorage foundry = [] -> rm = 100) /\
  (forall a, a ∈ artifactStorage foundry ->
     FoundryUpgradeSystem._getRarityMultiplier (artifact_rarity (ArtifactTable_get st a))
     <= rm) /\
  (rm = 100 \/
   exists a, a ∈ artifactStorage foundry /\
     rm = FoundryUpgradeSystem._getRarityMultiplier
            (artifact_rarity (ArtifactTable_get st a))).
Proof.
  unfold FoundryUpgradeSystem._getHighestArtifactRarityMultiplier. intros H.
  pose proof H as H0. apply highestRarity_Ok in H as (Hacc & Hall & Hex & _).
  split; [|split; [|split; [exact Hall|exact Hex]]].
  - exact (highestMultiplier_range _ _ _ H0).
  - intros Hnil. rewrite Hnil in H0. simpl in H0. injection H0 as <-. reflexivity.
Qed.

Lemma X9_highest_rarity_multiplier_witness :
  FoundryUpgradeSystem._getHighestArtifactRarityMultiplier Scenario.st1
    (mkPlanet 7 1 FOUNDRY 4 1 0 (fun _ => 0) [1]) = Ok 150 /\
  100 <= 150 <= 300.
Proof.
  assert (H : FoundryUpgradeSystem._getHighestArtifactRarityMultiplier Scenario.st1
                (mkPlanet 7 1 FOUNDRY 4 1 0 (fun _ => 0) [1]) = Ok 150)
    by (vm_compute; reflexivity).
  split; [exact H|].
  exact (proj1 (X9_highest_rarity_multiplier _ _ _ H)).
Defined.

(** ** The upgrade fee the client shows *)

Lemma pane_highestFrom_same (l : list Z) (h : Z) :
  ModuleCraftingPane.highestFrom l h = FoundryUpgradePane.highestFrom l h.
Proof. revert h. induction l as [|x l IH]; intros h; simpl; [reflexivity|apply IH]. Qed.

(** The multiplier of the highest rarity the pane finds is the greatest
    multiplier the contract finds. *)
Lemma pane_highest_multiplier (st : World) (ids : list Z) (h : Z) :
  1 <= h <= 5 ->
  FoundryUpgradePane.getRarityMultiplier
    (FoundryUpgradePane.highestFrom
       (map (fun a => ArtifactRarity_uint8 (artifact_rarity (ArtifactTable_get st a))) ids) h)
  = foldl (fun m a =>
             Z.max m (FoundryUpgradeSystem._getRarityMultiplier
                        (artifact_rarity (ArtifactTable_get st a))))
      (FoundryUpgradePane.getRarityMultiplier h) ids.
Proof.
  revert h. induction ids as [|a ids IH]; intros h Hh; simpl; [reflexivity|].
  set (r := artifact_rarity (ArtifactTable_get st a)).
  assert (Hstep :
    1 <= (if ArtifactRarity_uint8 r >? h then ArtifactRarity_uint8 r else h) <= 5 /\
    FoundryUpgradePane.getRarityMultiplier
      (if ArtifactRarity_uint8 r >? h then ArtifactRarity_uint8 r else h)
    = Z.max (FoundryUpgradePane.getRarityMultiplier h)
        (FoundryUpgradeSystem._getRarityMultiplier r)).
  { assert (Hc : h = 1 \/ h = 2 \/ h = 3 \/ h = 4 \/ h = 5) by lia.
    destruct Hc as [->|[->|[->|[->| ->]]]]; destruct r; (split; [simpl; lia|reflexivity]). }
  destruct Hstep as [Hr Hm]. rewrite IH by exact Hr. rewrite Hm. reflexivity.
Qed.

(** X10: for the level, the biome and the artifacts of the foundry, the
    upgrade cost the crafting pane shows is the fee the contract computes
    from its two base fees and its two multipliers; the cost the upgrade
    pane shows is that fee for the first upgrade and, its second base fee
    being [10^13] against the [10^14] of the contract, a tenth of it for the
    second. *)
Theorem X10_pane_upgrade_cost (st : World) (foundry : Planet) (rm level biome : Z) :
  FoundryUpgradeSystem._getHighestArtifactRarityMultiplier st foundry = Ok rm ->
  let held :=
    map (fun a => ArtifactRarity_uint8 (artifact_rarity (ArtifactTable_get st a)))
      (artifactStorage foundry) in
  let fee :=
    (if level =? 0 then FoundryUpgradeSystem.BASE_UPGRADE_FEE_LEVEL_1
     else FoundryUpgradeSystem.BASE_UPGRADE_FEE_LEVEL_2)
    * FoundryUpgradeSystem._getBiomeMultiplier biome * rm / 10000 in
  ModuleCraftingPane.eth (ModuleCraftingPane.upgradeCost level biome held) = fee /\
  (level = 0 ->
   FoundryUpgradePane.eth (FoundryUpgradePane.upgradeCost level biome held) = fee) /\
  (level <> 0 ->
   10 * FoundryUpgradePane.eth (FoundryUpgradePane.upgradeCost level biome held) = fee).
Proof.
  intros H held fee.
  unfold FoundryUpgradeSystem._getHighestArtifactRarityMultiplier in H.
  apply highestRarity_Ok in H as (_ & _ & _ & Hfold).
  assert (Hrm : FoundryUpgradePane.getRarityMultiplier
                  (FoundryUpgradePane.getHighestArtifactRarity held) = rm).
  { unfold FoundryUpgradePane.getHighestArtifactRarity, held.
    case_bool_decide as Hlen.
    - rewrite length_map in Hlen. apply nil_length_inv in Hlen.
      rewrite Hlen in Hfold. simpl in Hfold. subst rm. reflexivity.
    - rewrite pane_highest_multiplier by lia. subst rm. reflexivity. }
  assert (Hrm' : ModuleCraftingPane.getRarityMultiplierForUpgrade
                   (ModuleCraftingPane.getHighestArtifactRarityForUpgrade held) = rm).
  { rewrite <- Hrm. unfold ModuleCraftingPane.getHighestArtifactRarityForUpgrade,
      FoundryUpgradePane.getHighestArtifactRarity.
    rewrite pane_highestFrom_same. reflexivity. }
  assert (Hbm : FoundryUpgradePane.getBiomeMultiplier biome
                = FoundryUpgradeSystem._getBiomeMultiplier biome).
  { unfold FoundryUpgradePane.getBiomeMultiplier, FoundryUpgradeSystem._getBiomeMultiplier.
    cbv zeta. rewrite !Z.geb_leb. reflexivity. }
  assert (Hbm' : ModuleCraftingPane.getBiomeMultiplierForUpgrade biome
                 = FoundryUpgradeSystem._getBiomeMultiplier biome) by exact Hbm.
  unfold ModuleCraftingPane.upgradeCost, FoundryUpgradePane.upgradeCost, fee,
    FoundryUpgradeSystem.BASE_UPGRADE_FEE_LEVEL_1,
    FoundryUpgradeSystem.BASE_UPGRADE_FEE_LEVEL_2.
  cbv zeta. simpl ModuleCraftingPane.eth. simpl FoundryUpgradePane.eth.
  rewrite Hrm, Hrm', Hbm, Hbm'.
  set (bm := FoundryUpgradeSystem._getBiomeMultiplier biome).
  split; [reflexivity|]. split.
  - intros ->. reflexivity.
  - intros Hl. destruct (Z.eqb_spec level 0) as [|_]; [contradiction|].
    replace (10000000000000 * bm * rm) with (1000000000 * bm * rm * 10000) by lia.
    replace (100000000000000 * bm * rm) with (10000000000 * bm * rm * 10000) by lia.
    rewrite !Z.div_mul by lia. lia.
Qed.

Lemma X10_pane_upgrade_cost_witness :
  FoundryUpgradeSystem._getHighestArtifactRarityMultiplier Scenario.st1
    (mkPlanet 7 1 FOUNDRY 4 1 0 (fun _ => 0) [1]) = Ok 150 /\
  ModuleCraftingPane.eth (ModuleCraftingPane.upgradeCost 1 2 [3]) = 150000000000000 /\
  FoundryUpgradePane.eth (FoundryUpgradePane.upgradeCost 1 2 [3]) = 15000000000000.
Proof.
  assert (H : FoundryUpgradeSystem._getHighestArtifactRarityMultiplier Scenario.st1
                (mkPlanet 7 1 FOUNDRY 4 1 0 (fun _ => 0) [1]) = Ok 150)
    by (vm_compute; reflexivity).
  split; [exact H|].
  split; [exact (proj1 (X10_pane_upgrade_cost _ _ _ 1 2 H))|].
  vm_compute. reflexivity.
Defined.

(** ** The crafting pane of the client *)

(** The amounts of the pane are those of the contract: for the base amounts
    of the four recipes the product with the multiplier is an integer. *)
Lemma pane_amount (craftingCount base : Z) :
  base = 40 \/ base = 80 \/ base = 120 \/ base = 160 ->
  JS.Math_floor
    (JS.ofZ (JS.Math_ceil
               (JS.mul (JS.ofZ base)
                  (ModuleCraftingPane.actualCraftingMultiplier craftingCount))))
  = base * ModuleCraftingSystem._getCraftingMMultiplier craftingCount / 100.
Proof.
  unfold ModuleCraftingPane.actualCraftingMultiplier,
    ModuleCraftingSystem._getCraftingMMultiplier.
  intros [->|[->|[->| ->]]];
    destruct (Z.eqb_spec craftingCount 1) as [->|H1];
    try reflexivity;
    destruct (Z.eqb_spec craftingCount 2) as [->|H2];
    try reflexivity;
    destruct (Z.eqb_spec craftingCount 0) as [->|H0];
    reflexivity.
Qed.

Lemma uint8_le_12 (m : MaterialType) : (MaterialType_uint8 m >? 12) = false.
Proof. destruct m; reflexivity. Qed.

Lemma module_validateRecipe_complete foundry t mult m1 m2 b1 b2 ms az x1 x2 :
  ModuleCraftingSystem.expectedRecipe t = Ok ([m1; m2], [b1; b2]) ->
  recipeMatch foundry mult m1 m2 b1 b2 ms az x1 x2 ->
  ModuleCraftingSystem._validateModuleRecipe foundry t ms az mult = Ok tt.
Proof.
  intros Hexp (Hord & Hx1 & Hx2 & Hs1 & Hs2).
  destruct (module_recipe_distinct _ _ _ Hexp) as (m1' & m2' & b1' & b2' & [= <- <-] & _ & Hne).
  unfold ModuleCraftingSystem._validateModuleRecipe. rewrite Hexp.
  unfold PlanetLib.getMaterial.
  destruct Hord as [[-> ->]|[-> ->]]; simpl; rewrite !uint8_le_12; simpl;
    repeat (case_decide; try congruence; simpl);
    repeat match goal with
           | |- context [?a <? ?b] =>
               destruct (Z.ltb_spec a b); try (unfold PlanetLib.getMaterial in *; lia)
           | |- context [?a >? ?b] =>
               destruct (Z.gtb_spec a b); try (unfold PlanetLib.getMaterial in *; lia)
           end; reflexivity.
Qed.

Lemma ship_validateRecipe_complete foundry t mult m1 m2 b1 b2 ms az x1 x2 :
  FoundryCraftingSystem.expectedRecipe t = Ok ([m1; m2], [b1; b2]) ->
  recipeMatch foundry mult m1 m2 b1 b2 ms az x1 x2 ->
  FoundryCraftingSystem._validateRecipe foundry t ms az mult = Ok tt.
Proof.
  intros Hexp (Hord & Hx1 & Hx2 & Hs1 & Hs2).
  destruct (ship_recipe_distinct _ _ _ Hexp) as (m1' & m2' & b1' & b2' & [= <- <-] & _ & Hne).
  unfold FoundryCraftingSystem._validateRecipe. rewrite Hexp.
  unfold PlanetLib.getMaterial.
  destruct Hord as [[-> ->]|[-> ->]]; simpl; rewrite !uint8_le_12; simpl;
    repeat (case_decide; try congruence; simpl);
    repeat match goal with
           | |- context [?a <? ?b] =>
               destruct (Z.ltb_spec a b); try (unfold PlanetLib.getMaterial in *; lia)
           | |- context [?a >? ?b] =>
               destruct (Z.gtb_spec a b); try (unfold PlanetLib.getMaterial in *; lia)
           end; reflexivity.
Qed.

(** X11: the recipe check of either crafting system passes exactly when the
    caller supplies the two materials of the recipe of the kind, in either
    order, each with an amount between the scaled base amount (rounded down)
    and one unit more, and the foundry holds a thousand times the scaled base
    amount of each. *)
Theorem X11_recipe_check_characterised (foundry : Planet) (t : Z)
    (ms : list MaterialType) (az : list Z) (mult : Z) :
  (ModuleCraftingSystem._validateModuleRecipe foundry t ms az mult = Ok tt <->
   exists m1 m2 b1 b2 x1 x2,
     ModuleCraftingSystem.expectedRecipe t = Ok ([m1; m2], [b1; b2]) /\
     recipeMatch foundry mult m1 m2 b1 b2 ms az x1 x2) /\
  (FoundryCraftingSystem._validateRecipe foundry t ms az mult = Ok tt <->
   exists m1 m2 b1 b2 x1 x2,
     FoundryCraftingSystem.expectedRecipe t = Ok ([m1; m2], [b1; b2]) /\
     recipeMatch foundry mult m1 m2 b1 b2 ms az x1 x2).
Proof.
  split; split.
  - intros H. apply module_validateRecipe_Ok in H
      as (m1 & m2 & b1 & b2 & x1 & x2 & He & _ & Hm).
    exists m1, m2, b1, b2, x1, x2. split; assumption.
  - intros (m1 & m2 & b1 & b2 & x1 & x2 & He & Hm).
    exact (module_validateRecipe_complete _ _ _ _ _ _ _ _ _ _ _ He Hm).
  - intros H. apply ship_validateRecipe_Ok in H
      as (m1 & m2 & b1 & b2 & x1 & x2 & He & _ & Hm).
    exists m1, m2, b1, b2, x1, x2. split; assumption.
  - intros (m1 & m2 & b1 & b2 & x1 & x2 & He & Hm).
    exact (ship_validateRecipe_complete _ _ _ _ _ _ _ _ _ _ _ He Hm).
Qed.

Lemma module_consume_exact (foundry : Planet) (m1 m2 : MaterialType) (x1 x2 : Z) :
  m1 <> m2 -> x1 * 1000 <= materials foundry m1 -> x2 * 1000 <= materials foundry m2 ->
  exists f1, ModuleCraftingSystem.consumeMaterials foundry [m1; m2] [x1; x2] = Ok f1.
Proof.
  intros Hne H1 H2. simpl. unfold PlanetLib.getMaterial, checked_sub.
  destruct (Z.leb_spec (x1 * 1000) (materials foundry m1)); [|lia]. simpl.
  destruct (decide (m2 = m1)); [congruence|].
  destruct (Z.leb_spec (x2 * 1000) (materials foundry m2)); [|lia]. simpl.
  eexists. reflexivity.
Qed.

(** X12: a craft request the pane sends names the two materials of the
    contract's recipe for the module type in the ascending order of their
    numbers, the order the render leaves them in (for the Weapon the reverse
    of the contract's recipe, Scrapium before Pyrosteel), each with exactly
    the scaled base amount the contract computes for it, for every craft
    count; the recipe check accepts the request, and the consumption goes
    through, whenever the foundry holds a thousand times these amounts. *)
Theorem X12_pane_request_accepted (craftingCount : Z) (held : list (MaterialType * Z))
    (locationId t biome : Z) (call : Z * Z * list MaterialType * list Z * Z) :
  ModuleCraftingPane.handleCraftModule craftingCount held locationId t biome = Some call ->
  let mult := ModuleCraftingSystem._getCraftingMMultiplier craftingCount in
  exists m1 m2 b1 b2 ms az,
    ModuleCraftingSystem.expectedRecipe t = Ok ([m1; m2], [b1; b2]) /\
    call = (locationId, t, ms, az, biome) /\
    (ms, az)
    = (if MaterialType_uint8 m1 <=? MaterialType_uint8 m2
       then ([m1; m2], [b1 * mult / 100; b2 * mult / 100])
       else ([m2; m1], [b2 * mult / 100; b1 * mult / 100])) /\
    (t = 2 -> ms = [SCRAPIUM; PYROSTEEL] /\ [m1; m2] = [PYROSTEEL; SCRAPIUM]) /\
    forall foundry,
      b1 * mult / 100 * 1000 <= materials foundry m1 ->
      b2 * mult / 100 * 1000 <= materials foundry m2 ->
      ModuleCraftingSystem._validateModuleRecipe foundry t ms az mult = Ok tt /\
      exists f1, ModuleCraftingSystem.consumeMaterials foundry ms az = Ok f1.
Proof.
  intros H mult.
  assert (Hcall : exists m1 m2 b1 b2,
            ModuleCraftingSystem.expectedRecipe t = Ok ([m1; m2], [b1; b2]) /\
            (t = 2 -> [m1; m2] = [PYROSTEEL; SCRAPIUM]) /\
            call
            = (locationId, t,
               (if MaterialType_uint8 m1 <=? MaterialType_uint8 m2
                then ([m1; m2], [b1 * mult / 100; b2 * mult / 100])
                else ([m2; m1], [b2 * mult / 100; b1 * mult / 100])).1,
               (if MaterialType_uint8 m1 <=? MaterialType_uint8 m2
                then ([m1; m2], [b1 * mult / 100; b2 * mult / 100])
                else ([m2; m1], [b2 * mult / 100; b1 * mult / 100])).2, biome)).
  { unfold ModuleCraftingPane.handleCraftModule, ModuleCraftingPane.selectedConfig,
      ModuleCraftingPane.moduleConfigs in H.
    cbv zeta in H. unfold List.find in H. cbn [ModuleCraftingPane.type] in H.
    unfold ModuleCraftingSystem.expectedRecipe.
    destruct (Z.eqb_spec 1 t) as [<-|H1];
      [|destruct (Z.eqb_spec 2 t) as [<-|H2];
        [|destruct (Z.eqb_spec 3 t) as [<-|H3];
          [|destruct (Z.eqb_spec 4 t) as [<-|H4]; [|discriminate H]]]];
      (match type of H with
       | (if negb ?c then _ else _) = _ => destruct c; [|discriminate H]
       end);
      cbn [negb ModuleCraftingPane.renderedRequirements
             ModuleCraftingPane.sortByMaterialType foldr
             ModuleCraftingPane.insertByMaterialType
             ModuleCraftingPane.materialRequirements map ModuleCraftingPane.materialType
             ModuleCraftingPane.amount MaterialType_uint8] in H;
      repeat match type of H with
             | context [?a <=? ?b] =>
                 let c := eval vm_compute in (a <=? b) in
                 change (a <=? b) with c in H
             end;
      cbn [map ModuleCraftingPane.materialType ModuleCraftingPane.amount] in H;
      rewrite !pane_amount in H by tauto; injection H as <-;
      repeat match goal with
             | |- context [?a =? ?b] => destruct (Z.eqb_spec a b); try lia
             end;
      do 4 eexists; (split; [reflexivity|]); (split; [intros; try reflexivity; lia|]);
      reflexivity. }
  destruct Hcall as (m1 & m2 & b1 & b2 & Hexp & Hweapon & ->).
  destruct (module_recipe_distinct _ _ _ Hexp) as (? & ? & ? & ? & [= <- <-] & _ & Hne).
  exists m1, m2, b1, b2.
  destruct (MaterialType_uint8 m1 <=? MaterialType_uint8 m2) eqn:Hord;
    cbn [fst snd]; do 2 eexists;
    (split; [exact Hexp|]); (split; [reflexivity|]); (split; [reflexivity|]); split.
  - intros ->. pose proof (Hweapon eq_refl) as Hw. injection Hw as -> ->.
    vm_compute in Hord. discriminate Hord.
  - intros foundry Hs1 Hs2. split.
    + apply (module_validateRecipe_complete foundry t mult m1 m2 b1 b2 _ _
               (b1 * mult / 100) (b2 * mult / 100) Hexp).
      unfold recipeMatch. split; [left; split; reflexivity|]. lia.
    + apply module_consume_exact; assumption.
  - intros ->. pose proof (Hweapon eq_refl) as Hw. injection Hw as -> ->.
    split; reflexivity.
  - intros foundry Hs1 Hs2. split.
    + apply (module_validateRecipe_complete foundry t mult m1 m2 b1 b2 _ _
               (b1 * mult / 100) (b2 * mult / 100) Hexp).
      unfold recipeMatch. split; [right; split; reflexivity|]. lia.
    + apply module_consume_exact; [congruence|assumption|assumption].
Qed.

Lemma X12_pane_request_accepted_witness :
  ModuleCraftingPane.handleCraftModule 0 [(PYROSTEEL, 500); (SCRAPIUM, 500)] 1 2 1
  = Some (1, 2, [SCRAPIUM; PYROSTEEL], [80; 120], 1) /\
  ModuleCraftingSystem._validateModuleRecipe Scenario.foundry1 2 [SCRAPIUM; PYROSTEEL]
    [80; 120] 100 = Ok tt.
Proof.
  assert (H : ModuleCraftingPane.handleCraftModule 0
                [(PYROSTEEL, 500); (SCRAPIUM, 500)] 1 2 1
              = Some (1, 2, [SCRAPIUM; PYROSTEEL], [80; 120], 1))
    by (vm_compute; reflexivity).
  split; [exact H|].
  destruct (X12_pane_request_accepted 0 _ 1 2 1 _ H)
    as (m1 & m2 & b1 & b2 & ms & az & Hexp & Hcall & Hord & _ & Hok).
  injection Hexp as <- <- <- <-. injection Hcall as <- <-.
  refine (proj1 (Hok Scenario.foundry1 _ _)); vm_compute; discriminate.
Defined.

(** ** The errors of the recipe check *)

Lemma bind_Revert {A B : Type} (c : Result A) (f : A -> Result B) (e : Error) :
  (c ≫= f) = Revert e <-> c = Revert e \/ exists a, c = Ok a /\ f a = Revert e.
Proof.
  destruct c as [a|e']; simpl; split.
  - intros H. right. exists a. auto.
  - intros [H|(a' & [= <-] & H)]; [discriminate|exact H].
  - intros [= ->]. left. reflexivity.
  - intros [[= ->]|(a' & H & _)]; [reflexivity|discriminate].
Qed.

Lemma require_Revert (b : bool) (e e' : Error) :
  require b e' = Revert e <-> b = false /\ e = e'.
Proof.
  destruct b; simpl; split.
  - discriminate.
  - intros [H _]. discriminate.
  - intros [= <-]. auto.
  - intros [_ ->]. reflexivity.
Qed.

Ltac recipe_error :=
  unfold recipeError;
  repeat match goal with
         | H : (_ ≫= _) = Revert _ |- _ =>
             apply bind_Revert in H as [H|(? & _ & H)]
         | H : require _ _ = Revert _ |- _ => apply require_Revert in H as [_ ->]
         end; auto 10.

Lemma module_storeProvided_error ms az f g e :
  ModuleCraftingSystem.storeProvided ms az f g = Revert e -> recipeError e.
Proof.
  revert az f g. induction ms as [|m ms IH]; intros [|a az] f g H; simpl in H;
    try discriminate.
  apply bind_Revert in H as [H|(? & _ & H)]; [recipe_error|].
  apply bind_Revert in H as [H|(? & _ & H)]; [recipe_error|].
  exact (IH _ _ _ H).
Qed.

Lemma module_checkExpected_error ms bs f g mult e :
  ModuleCraftingSystem.checkExpected ms bs f g mult = Revert e -> recipeError e.
Proof.
  revert bs. induction ms as [|m ms IH]; intros [|b bs] H; simpl in H; try discriminate.
  apply bind_Revert in H as [H|(? & _ & H)]; [recipe_error|].
  apply bind_Revert in H as [H|(? & _ & H)]; [recipe_error|].
  exact (IH _ H).
Qed.

Lemma module_checkSufficient_error foundry ms bs mult e :
  ModuleCraftingSystem.checkSufficient foundry ms bs mult = Revert e -> recipeError e.
Proof.
  revert bs. induction ms as [|m ms IH]; intros [|b bs] H; simpl in H; try discriminate.
  apply bind_Revert in H as [H|(? & _ & H)]; [recipe_error|].
  exact (IH _ H).
Qed.

Lemma module_validateRecipe_error foundry t ms az mult e :
  ModuleCraftingSystem._validateModuleRecipe foundry t ms az mult = Revert e ->
  recipeError e.
Proof.
  unfold ModuleCraftingSystem._validateModuleRecipe. intros H.
  apply bind_Revert in H as [H|(? & _ & H)]; [recipe_error|].
  apply bind_Revert in H as [H|(? & _ & H)]; [recipe_error|].
  apply bind_Revert in H as [H|(? & _ & H)].
  { unfold ModuleCraftingSystem.expectedRecipe in H.
    repeat case_match; try discriminate. injection H as <-. recipe_error. }
  apply bind_Revert in H as [H|(? & _ & H)]; [recipe_error|].
  apply bind_Revert in H as [H|(? & _ & H)];
    [exact (module_storeProvided_error _ _ _ _ _ H)|].
  apply bind_Revert in H as [H|(? & _ & H)];
    [exact (module_checkExpected_error _ _ _ _ _ _ H)|].
  apply bind_Revert in H as [H|(? & _ & H)]; [recipe_error|].
  exact (module_checkSufficient_error _ _ _ _ _ H).
Qed.

Lemma ship_storeProvided_error ms az f g e :
  FoundryCraftingSystem.storeProvided ms az f g = Revert e -> recipeError e.
Proof.
  revert az f g. induction ms as [|m ms IH]; intros [|a az] f g H; simpl in H;
    try discriminate.
  apply bind_Revert in H as [H|(? & _ & H)]; [recipe_error|].
  apply bind_Revert in H as [H|(? & _ & H)]; [recipe_error|].
  exact (IH _ _ _ H).
Qed.

Lemma ship_checkExpected_error ms bs f g mult e :
  FoundryCraftingSystem.checkExpected ms bs f g mult = Revert e -> recipeError e.
Proof.
  revert bs. induction ms as [|m ms IH]; intros [|b bs] H; simpl in H; try discriminate.
  apply bind_Revert in H as [H|(? & _ & H)]; [recipe_error|].
  apply bind_Revert in H as [H|(? & _ & H)]; [recipe_error|].
  exact (IH _ H).
Qed.

Lemma ship_checkSufficient_error foundry ms bs mult e :
  FoundryCraftingSystem.checkSufficient foundry ms bs mult = Revert e -> recipeError e.
Proof.
  revert bs. induction ms as [|m ms IH]; intros [|b bs] H; simpl in H; try discriminate.
  apply bind_Revert in H as [H|(? & _ & H)]; [recipe_error|].
  exact (IH _ H).
Qed.

Lemma ship_validateRecipe_error foundry t ms az mult e :
  FoundryCraftingSystem._validateRecipe foundry t ms az mult = Revert e ->
  recipeError e.
Proof.
  unfold FoundryCraftingSystem._validateRecipe. intros H.
  apply bind_Revert in H as [H|(? & _ & H)]; [recipe_error|].
  apply bind_Revert in H as [H|(? & _ & H)]; [recipe_error|].
  apply bind_Revert in H as [H|(? & _ & H)].
  { unfold FoundryCraftingSystem.expectedRecipe in H.
    repeat case_match; try discriminate. injection H as <-. recipe_error. }
  apply bind_Revert in H as [H|(? & _ & H)]; [recipe_error|].
  apply bind_Revert in H as [H|(? & _ & H)];
    [exact (ship_storeProvided_error _ _ _ _ _ H)|].
  apply bind_Revert in H as [H|(? & _ & H)];
    [exact (ship_checkExpected_error _ _ _ _ _ _ H)|].
  apply bind_Revert in H as [H|(? & _ & H)]; [recipe_error|].
  exact (ship_checkSufficient_error _ _ _ _ _ H).
Qed.

Lemma recipeError_not_limit (e : Error) :
  recipeError e -> e <> FoundryCraftingLimitReached.
Proof. unfold recipeError. intros H ->. repeat destruct H as [H|H]; discriminate. Qed.

(** X13: for the owner of a foundry of level 4 or more and a valid kind, the
    crafting pane reports the crafting limit as reached (craft count at least
    [1 + level] of the upgrade hook) exactly when the contract rejects the
    craft with FoundryCraftingLimitReached, for modules and for spaceships. *)
Theorem X13_pane_limit_agrees (st : World) (foundry : Planet) (executor t : Z)
    (ms : list MaterialType) (az : list Z) :
  owner foundry = executor -> planetType foundry = FOUNDRY -> 4 <= level foundry ->
  1 <= t <= 4 ->
  FoundryUpgrade_getBranchLevel st (planetHash foundry) <= 254 ->
  let hook := useFoundryUpgrade.useFoundryUpgradeLevel st (Some (planetHash foundry)) in
  let craftingCount := count (FoundryCraftingCount_get st (planetHash foundry)) in
  (ModuleCraftingPane.isCraftingLimitReached craftingCount
     (useFoundryUpgrade.maxCrafts hook) = true <->
   ModuleCraftingSystem._validateModuleCrafting st foundry executor t ms az
   = Revert FoundryCraftingLimitReached) /\
  (ModuleCraftingPane.isCraftingLimitReached craftingCount
     (useFoundryUpgrade.maxCrafts hook) = true <->
   FoundryCraftingSystem._validateCrafting st foundry executor t ms az
   = Revert FoundryCraftingLimitReached).
Proof.
  intros Ho Hty Hl Ht Hu hook craftingCount.
  unfold ModuleCraftingPane.isCraftingLimitReached, hook,
    useFoundryUpgrade.useFoundryUpgradeLevel. cbn [useFoundryUpgrade.maxCrafts].
  fold craftingCount.
  set (lvl := FoundryUpgrade_getBranchLevel st (planetHash foundry)) in *.
  unfold ModuleCraftingSystem._validateModuleCrafting,
    FoundryCraftingSystem._validateCrafting.
  rewrite (bool_decide_eq_true_2 _ Ho), (bool_decide_eq_true_2 _ Hty).
  destruct (Z.ltb_spec (level foundry) 4) as [|_]; [lia|].
  destruct (Z.ltb_spec t 1) as [|_]; [lia|].
  destruct (Z.gtb_spec t 4) as [|_]; [lia|].
  cbn [negb orb require mbind Result_bind]. fold lvl craftingCount.
  unfold checked_add, uint_max.
  destruct (Z.leb_spec (1 + lvl) (2 ^ 8 - 1)) as [_|]; [|lia].
  cbn [mbind Result_bind].
  destruct (Z.geb_spec craftingCount (1 + lvl)) as [Hge|Hlt]; cbn [negb require].
  - split; split; reflexivity.
  - split; (split; [discriminate|]); intros H; exfalso.
    + apply module_validateRecipe_error, recipeError_not_limit in H. congruence.
    + apply ship_validateRecipe_error, recipeError_not_limit in H. congruence.
Qed.

Lemma X13_pane_limit_agrees_witness :
  owner Scenario.foundry1 = 7 /\
  ModuleCraftingPane.isCraftingLimitReached
    (count (FoundryCraftingCount_get Scenario.st1 1))
    (useFoundryUpgrade.maxCrafts
       (useFoundryUpgrade.useFoundryUpgradeLevel Scenario.st1 (Some 1))) = true /\
  ModuleCraftingSystem._validateModuleCrafting Scenario.st1 Scenario.foundry1 7 1
    [WINDSTEEL; AURORIUM] [120; 60] = Revert FoundryCraftingLimitReached.
Proof.
  split; [reflexivity|].
  assert (Hlim : ModuleCraftingPane.isCraftingLimitReached
                   (count (FoundryCraftingCount_get Scenario.st1 1))
                   (useFoundryUpgrade.maxCrafts
                      (useFoundryUpgrade.useFoundryUpgradeLevel Scenario.st1 (Some 1)))
                 = true) by (vm_compute; reflexivity).
  split; [exact Hlim|].
  refine (proj1 (proj1 (X13_pane_limit_agrees Scenario.st1 Scenario.foundry1 7 1
                          [WINDSTEEL; AURORIUM] [120; 60] eq_refl eq_refl _ _ _)) Hlim);
    vm_compute; intuition discriminate.
Defined.

(** X14: the rarity the crafting pane predicts from the level of the planet
    is never above the rarity the contract assigns, and equals it whenever
    the seed gives no level boost (slice at least [0x100000]). *)
Theorem X14_pane_rarity_is_lower_bound (config : ModuleCraftingPane.ModuleTypeConfig)
    (planetLevel seed : Z) (r : ArtifactRarity) :
  0 <= planetLevel ->
  ModuleCraftingSystem._calculateModuleRarity planetLevel seed = Ok r ->
  let predicted := ModuleCraftingPane.predictModuleRarity (Some config) planetLevel in
  ArtifactRarity_uint8 predicted <= ArtifactRarity_uint8 r /\
  (0x100000 <= Z.land seed 0xfff000 -> predicted = r).
Proof.
  intros Hl H predicted.
  apply calculateModuleRarity_Ok in H as (l & Hr & He & Ht).
  unfold predicted, ModuleCraftingPane.predictModuleRarity.
  split.
  - destruct (Z.eqb_spec planetLevel 0) as [->|Hne];
      repeat match goal with
             | |- context [?a <=? ?b] => destruct (Z.leb_spec a b)
             end;
      destruct Ht as [[? ->]|[[? ->]|[[? ->]|[[? ->]|[? ->]]]]]; simpl; lia.
  - intros Hs. assert (l = planetLevel).
    { rewrite He. unfold spec_effectiveLevel. cbv zeta. repeat case_decide; lia. }
    subst l.
    destruct (Z.eqb_spec planetLevel 0) as [->|Hne];
      repeat match goal with
             | |- context [?a <=? ?b] => destruct (Z.leb_spec a b)
             end;
      destruct Ht as [[? ->]|[[? ->]|[[? ->]|[[? ->]|[? ->]]]]]; first [reflexivity | lia].
Qed.

Lemma X14_pane_rarity_is_lower_bound_witness :
  0 <= 4 /\
  ModuleCraftingSystem._calculateModuleRarity 4 0x3f123 = Ok LEGENDARY /\
  ArtifactRarity_uint8
    (ModuleCraftingPane.predictModuleRarity
       (Some (ModuleCraftingPane.mkModuleTypeConfig 1 0 0 8 3 [])) 4)
  <= ArtifactRarity_uint8 LEGENDARY.
Proof.
  assert (H0 : 0 <= 4) by lia.
  assert (H : ModuleCraftingSystem._calculateModuleRarity 4 0x3f123 = Ok LEGENDARY)
    by (vm_compute; reflexivity).
  split; [exact H0|]. split; [exact H|].
  exact (proj1 (X14_pane_rarity_is_lower_bound
                  (ModuleCraftingPane.mkModuleTypeConfig 1 0 0 8 3 []) 4 0x3f123
                  LEGENDARY H0 H)).
Defined.

(** [Math.round(n / 100)] of an integer [n] is the rounding of the
    specification. *)
Lemma Math_round_div100 (n : Z) :
  JS.Math_round (JS.div (JS.ofZ n) (JS.ofZ 100)) = round_div n 100.
Proof.
  unfold JS.Math_round, JS.div, JS.ofZ, round_div, Qround.Qfloor, QArith_base.Qplus,
    QArith_base.Qdiv, QArith_base.Qmult, QArith_base.Qinv, QArith_base.inject_Z.
  simpl. f_equal. lia.
Qed.

Lemma round_div_near (n : Z) : n / 100 <= round_div n 100 <= n / 100 + 1.
Proof. unfold round_div. Z.to_euclidean_division_equations. lia. Qed.

Lemma round_div_quarter (n : Z) : 0 <= n -> n / 400 <= round_div n 100.
Proof. unfold round_div. intros. Z.to_euclidean_division_equations. lia. Qed.

Lemma pane_configs_base (craftingCount : Z) (held : list (MaterialType * Z))
    (config : ModuleCraftingPane.ModuleTypeConfig) :
  config ∈ ModuleCraftingPane.moduleConfigs craftingCount held ->
  1 <= ModuleCraftingPane.type config <= 4 /\
  ModuleCraftingPane.baseAttack config
  = ModuleCraftingSystem._getModuleRoleAttackBonus (ModuleCraftingPane.type config) /\
  ModuleCraftingPane.baseDefense config
  = ModuleCraftingSystem._getModuleRoleDefenseBonus (ModuleCraftingPane.type config) /\
  ModuleCraftingPane.baseSpeed config
  = ModuleCraftingSystem._getModuleRoleSpeedBonus (ModuleCraftingPane.type config) /\
  ModuleCraftingPane.baseRange config
  = ModuleCraftingSystem._getModuleRoleRangeBonus (ModuleCraftingPane.type config).
Proof.
  unfold ModuleCraftingPane.moduleConfigs. cbv zeta. intros H.
  repeat (apply elem_of_cons in H as [->|H]; [simpl; repeat split; lia|]).
  inversion H.
Qed.

(** X15: for each module card of the crafting pane the projected statistic
    is the formula of the contract with the quotient by 100 rounded to the
    nearest integer instead of truncated: on the defense, speed and range
    axes it is the bonus the contract stores for the same biome and rarity,
    or one more; on the attack axis, where the contract divides by 400, it is
    never below the stored bonus. *)
Theorem X15_pane_projection (craftingCount : Z) (held : list (MaterialType * Z))
    (config : ModuleCraftingPane.ModuleTypeConfig) (rarity : ArtifactRarity) (biome : Z) :
  config ∈ ModuleCraftingPane.moduleConfigs craftingCount held ->
  let shown := ModuleCraftingPane.projectedStats config rarity biome in
  let t := ModuleCraftingPane.type config in
  ModuleCraftingPane.attack shown
  = spec_bonus round_div (ModuleCraftingSystem._getModuleRoleAttackBonus t) 100 biome rarity /\
  ModuleCraftingPane.defense shown
  = spec_bonus round_div (ModuleCraftingSystem._getModuleRoleDefenseBonus t) 100 biome rarity /\
  ModuleCraftingPane.speed shown
  = spec_bonus round_div (ModuleCraftingSystem._getModuleRoleSpeedBonus t) 100 biome rarity /\
  ModuleCraftingPane.range shown
  = spec_bonus round_div (ModuleCraftingSystem._getModuleRoleRangeBonus t) 100 biome rarity /\
  ModuleCraftingSystem._calculateAttackBonus biome rarity t
  <= ModuleCraftingPane.attack shown /\
  ModuleCraftingSystem._calculateDefenseBonus biome rarity t
  <= ModuleCraftingPane.defense shown
  <= ModuleCraftingSystem._calculateDefenseBonus biome rarity t + 1 /\
  ModuleCraftingSystem._calculateSpeedBonus biome rarity t
  <= ModuleCraftingPane.speed shown
  <= ModuleCraftingSystem._calculateSpeedBonus biome rarity t + 1 /\
  ModuleCraftingSystem._calculateRangeBonus biome rarity t
  <= ModuleCraftingPane.range shown
  <= ModuleCraftingSystem._calculateRangeBonus biome rarity t + 1.
Proof.
  intros Hin shown t.
  destruct (pane_configs_base _ _ _ Hin) as (Ht & Ha & Hd & Hs & Hr). fold t in Ha, Hd, Hs, Hr.
  assert (Hbb : ModuleCraftingPane.getBiomeBonus biome = spec_biomeBonus biome).
  { rewrite <- getBiomeBonus_spec. unfold ModuleCraftingPane.getBiomeBonus,
      ModuleCraftingSystem._getBiomeBonus. cbv zeta. rewrite !Z.geb_leb. reflexivity. }
  assert (Hshown : forall base role,
    (if base =? 0 then base
     else JS.Math_round
            (JS.div (JS.ofZ ((role + ModuleCraftingPane.getBiomeBonus biome)
                             * ModuleCraftingPane.getRarityMultiplier rarity)) (JS.ofZ 100)))
    = if base =? 0 then 0
      else round_div ((spec_biomeBonus biome + role) * spec_rarityMultiplierPercent rarity) 100).
  { intros base role. destruct (Z.eqb_spec base 0) as [->|_]; [reflexivity|].
    rewrite Math_round_div100, Hbb. f_equal. destruct rarity; simpl; lia. }
  assert (Hspec : forall role,
    spec_bonus round_div role 100 biome rarity
    = if role =? 0 then 0
      else round_div ((spec_biomeBonus biome + role) * spec_rarityMultiplierPercent rarity) 100).
  { intros role. unfold spec_bonus. destruct (Z.eqb_spec role 0); case_decide; try lia;
      reflexivity. }
  assert (Hatt : ModuleCraftingPane.attack shown
                 = spec_bonus round_div (ModuleCraftingSystem._getModuleRoleAttackBonus t)
                     100 biome rarity).
  { unfold shown, ModuleCraftingPane.projectedStats. cbv zeta.
    cbn [ModuleCraftingPane.attack]. rewrite Hspec, Ha.
    exact (Hshown _ (ModuleCraftingSystem._getModuleRoleAttackBonus t)). }
  assert (Hdef : ModuleCraftingPane.defense shown
                 = spec_bonus round_div (ModuleCraftingSystem._getModuleRoleDefenseBonus t)
                     100 biome rarity).
  { unfold shown, ModuleCraftingPane.projectedStats. cbv zeta.
    cbn [ModuleCraftingPane.defense]. rewrite Hspec, Hd.
    exact (Hshown _ (ModuleCraftingSystem._getModuleRoleDefenseBonus t)). }
  assert (Hspd : ModuleCraftingPane.speed shown
                 = spec_bonus round_div (ModuleCraftingSystem._getModuleRoleSpeedBonus t)
                     100 biome rarity).
  { unfold shown, ModuleCraftingPane.projectedStats. cbv zeta.
    cbn [ModuleCraftingPane.speed]. rewrite Hspec, Hs.
    exact (Hshown _ (ModuleCraftingSystem._getModuleRoleSpeedBonus t)). }
  assert (Hrng : ModuleCraftingPane.range shown
                 = spec_bonus round_div (ModuleCraftingSystem._getModuleRoleRangeBonus t)
                     100 biome rarity).
  { unfold shown, ModuleCraftingPane.projectedStats. cbv zeta.
    cbn [ModuleCraftingPane.range]. rewrite Hspec, Hr.
    exact (Hshown _ (ModuleCraftingSystem._getModuleRoleRangeBonus t)). }
  split; [exact Hatt|]. split; [exact Hdef|]. split; [exact Hspd|]. split; [exact Hrng|].
  rewrite Hatt, Hdef, Hspd, Hrng.
  rewrite module_attack_formula, module_defense_formula, module_speed_formula,
    module_range_formula.
  unfold spec_bonus.
  pose proof (spec_biomeBonus_nonneg biome) as Hb0.
  pose proof (spec_rarityMultiplier_pos rarity) as Hm0.
  pose proof (module_role_attack_nonneg t) as Hr0.
  repeat split; case_decide; try lia;
    try (pose proof (round_div_near
           ((spec_biomeBonus biome + ModuleCraftingSystem._getModuleRoleDefenseBonus t)
            * spec_rarityMultiplierPercent rarity)); lia);
    try (pose proof (round_div_near
           ((spec_biomeBonus biome + ModuleCraftingSystem._getModuleRoleSpeedBonus t)
            * spec_rarityMultiplierPercent rarity)); lia);
    try (pose proof (round_div_near
           ((spec_biomeBonus biome + ModuleCraftingSystem._getModuleRoleRangeBonus t)
            * spec_rarityMultiplierPercent rarity)); lia).
  apply round_div_quarter. nia.
Qed.

Lemma X15_pane_projection_witness :
  exists config,
    config ∈ ModuleCraftingPane.moduleConfigs 0 [] /\
    ModuleCraftingPane.type config = 4 /\
    ModuleCraftingPane.defense (ModuleCraftingPane.projectedStats config RARE 1)
    = spec_bonus round_div (ModuleCraftingSystem._getModuleRoleDefenseBonus 4) 100 1 RARE.
Proof.
  eexists. split; [|split].
  - do 3 apply list_elem_of_further. apply list_elem_of_here.
  - reflexivity.
  - refine (proj1 (proj2 (X15_pane_projection 0 [] _ RARE 1 _))).
    do 3 apply list_elem_of_further. apply list_elem_of_here.
Defined.

(** * Further properties of the transactions *)

(** ** The checks of a craft *)

(** X16: a craft at an initialised planet is rejected by the first check that
    fails, in the order of the code: the biome argument is not a member of
    its enum (InvalidEnumValue, the revert of the decoder), the sender is not
    the owner (NotPlanetOwner), the planet is not a foundry
    (InvalidPlanetType), its level is below 4 (PlanetLevelTooLow), the kind
    is not 1 to 4 (InvalidModuleType for a module, InvalidSpaceshipType for a
    spaceship); the materials are looked at only after these. *)
Theorem X16_craft_checks_in_order (k : Keccak) (tx : Tx) (newId : Z) (st : World)
    (h t : Z) (ms : list MaterialType) (az : list Z) (b : Z) (p : Planet) :
  PlanetTable st !! h = Some p ->
  let module := ModuleCraftingSystem.craftModule k tx newId st h t ms az b in
  let ship := FoundryCraftingSystem.craftSpaceship k tx newId st h t ms az b in
  (~ 0 <= b <= Biome_max ->
   module = Revert InvalidEnumValue /\ ship = Revert InvalidEnumValue) /\
  (0 <= b <= Biome_max -> owner p <> msgSender tx ->
   module = Revert NotPlanetOwner /\ ship = Revert NotPlanetOwner) /\
  (0 <= b <= Biome_max -> owner p = msgSender tx -> planetType p <> FOUNDRY ->
   module = Revert InvalidPlanetType /\ ship = Revert InvalidPlanetType) /\
  (0 <= b <= Biome_max -> owner p = msgSender tx -> planetType p = FOUNDRY ->
   level p < 4 ->
   module = Revert PlanetLevelTooLow /\ ship = Revert PlanetLevelTooLow) /\
  (0 <= b <= Biome_max -> owner p = msgSender tx -> planetType p = FOUNDRY ->
   4 <= level p -> ~ 1 <= t <= 4 ->
   module = Revert InvalidModuleType /\ ship = Revert InvalidSpaceshipType).
Proof.
  intros Hp module ship.
  split.
  { intros Hb. unfold module, ship.
    rewrite (craftModule_not_decoded _ _ _ _ _ _ _ _ _ Hb),
      (craftSpaceship_not_decoded _ _ _ _ _ _ _ _ _ Hb). split; reflexivity. }
  split; [|split; [|split]]; intros Hb;
    destruct (craft_checks_before_limit k tx newId st h t ms az b p Hp Hb)
      as (H1 & H2 & H3 & H4 & _); assumption.
Qed.

Lemma X16_craft_checks_in_order_witness :
  PlanetTable Scenario.st0 !! 2 = Some Scenario.planet2 /\
  ModuleCraftingSystem.craftModule Scenario.k0 Scenario.tx7 1 Scenario.st0 2 1
    [WINDSTEEL; AURORIUM] [80; 40] 1 = Revert InvalidPlanetType /\
  ModuleCraftingSystem.craftModule Scenario.k0 Scenario.tx7 1 Scenario.st0 2 1
    [WINDSTEEL; AURORIUM] [80; 40] 11 = Revert InvalidEnumValue.
Proof.
  assert (H : PlanetTable Scenario.st0 !! 2 = Some Scenario.planet2)
    by (vm_compute; reflexivity).
  split; [exact H|]. split.
  - refine (proj1 (proj1 (proj2 (proj2 (X16_craft_checks_in_order Scenario.k0 Scenario.tx7 1
                                   Scenario.st0 2 1 [WINDSTEEL; AURORIUM] [80; 40] 1
                                   Scenario.planet2 H))) _ _ _)).
    + vm_compute. intuition discriminate.
    + reflexivity.
    + discriminate.
  - refine (proj1 (proj1 (X16_craft_checks_in_order Scenario.k0 Scenario.tx7 1
                            Scenario.st0 2 1 [WINDSTEEL; AURORIUM] [80; 40] 11
                            Scenario.planet2 H) _)).
    vm_compute. intros [_ Hle]. apply Hle. reflexivity.
Defined.

(** ** A craft that overdraws *)

Lemma module_consume_overdraw (foundry : Planet) (u v : MaterialType) (x y : Z) :
  u <> v ->
  materials foundry u < x * 1000 \/ materials foundry v < y * 1000 ->
  ModuleCraftingSystem.consumeMaterials foundry [u; v] [x; y] = Revert Panic.
Proof.
  intros Hne H. simpl. unfold PlanetLib.getMaterial, checked_sub.
  destruct (Z.leb_spec (x * 1000) (materials foundry u)); [|reflexivity]. simpl.
  destruct (decide (v = u)); [congruence|].
  destruct (Z.leb_spec (y * 1000) (materials foundry v)); [lia|reflexivity].
Qed.

Lemma ship_consume_overdraw (foundry : Planet) (u v : MaterialType) (x y : Z) :
  u <> v ->
  materials foundry u < x * 1000 \/ materials foundry v < y * 1000 ->
  FoundryCraftingSystem.consumeMaterials foundry [u; v] [x; y] = Revert Panic.
Proof. exact (module_consume_overdraw foundry u v x y). Qed.

(** X17: the recipe check compares the balance with the scaled base amount,
    the consumption subtracts the amount the caller supplied, which may be
    one unit more: when a craft (with a biome argument of the enum) passes
    every check but the foundry holds less than a thousand times a supplied
    amount, the subtraction underflows and the craft reverts with an
    arithmetic panic, for modules and for spaceships. *)
Theorem X17_craft_overdraw_panics (k : Keccak) (tx : Tx) (newId : Z) (st : World)
    (h t : Z) (ms : list MaterialType) (az : list Z) (b : Z) (p : Planet)
    (m : MaterialType) (x : Z) :
  PlanetTable st !! h = Some p ->
  (m, x) ∈ zip ms az ->
  materials p m < x * 1000 ->
  0 <= b <= Biome_max ->
  (ModuleCraftingSystem._validateModuleCrafting st (PlanetLib.setPlanetHash p h)
     (msgSender tx) t ms az = Ok tt ->
   ModuleCraftingSystem.craftModule k tx newId st h t ms az b = Revert Panic) /\
  (FoundryCraftingSystem._validateCrafting st (PlanetLib.setPlanetHash p h)
     (msgSender tx) t ms az = Ok tt ->
   FoundryCraftingSystem.craftSpaceship k tx newId st h t ms az b = Revert Panic).
Proof.
  intros Hp Hin Hlt Hb. split; intros Hval.
  - rewrite (craftModule_decoded _ _ _ _ _ _ _ _ _ Hb).
    unfold ModuleCraftingSystem._processModuleCrafting,
      PlanetLib.readInitedPlanet. rewrite Hp. cbn [mbind Result_bind]. rewrite Hval.
    cbn [mbind Result_bind]. unfold ModuleCraftingSystem._executeCrafting.
    apply module_validateCrafting_Ok in Hval as (_ & _ & _ & _ & _ & Hrec).
    apply module_validateRecipe_Ok in Hrec
      as (m1 & m2 & b1 & b2 & x1 & x2 & _ & Hne & ([[-> ->]|[-> ->]] & _)).
    + rewrite module_consume_overdraw; [reflexivity|exact Hne|].
      simpl in Hin. apply elem_of_cons in Hin as [[= -> ->]|Hin]; [left; exact Hlt|].
      apply elem_of_cons in Hin as [[= -> ->]|Hin]; [right; exact Hlt|inversion Hin].
    + rewrite module_consume_overdraw; [reflexivity|congruence|].
      simpl in Hin. apply elem_of_cons in Hin as [[= -> ->]|Hin]; [left; exact Hlt|].
      apply elem_of_cons in Hin as [[= -> ->]|Hin]; [right; exact Hlt|inversion Hin].
  - rewrite (craftSpaceship_decoded _ _ _ _ _ _ _ _ _ Hb).
    unfold FoundryCraftingSystem._processSpaceshipCrafting, PlanetLib.readInitedPlanet.
    rewrite Hp. cbn [mbind Result_bind]. rewrite Hval.
    cbn [mbind Result_bind]. unfold FoundryCraftingSystem._executeCrafting.
    apply ship_validateCrafting_Ok in Hval as (_ & _ & _ & _ & _ & Hrec).
    apply ship_validateRecipe_Ok in Hrec
      as (m1 & m2 & b1 & b2 & x1 & x2 & _ & Hne & ([[-> ->]|[-> ->]] & _)).
    + rewrite ship_consume_overdraw; [reflexivity|exact Hne|].
      simpl in Hin. apply elem_of_cons in Hin as [[= -> ->]|Hin]; [left; exact Hlt|].
      apply elem_of_cons in Hin as [[= -> ->]|Hin]; [right; exact Hlt|inversion Hin].
    + rewrite ship_consume_overdraw; [reflexivity|congruence|].
      simpl in Hin. apply elem_of_cons in Hin as [[= -> ->]|Hin]; [left; exact Hlt|].
      apply elem_of_cons in Hin as [[= -> ->]|Hin]; [right; exact Hlt|inversion Hin].
Qed.

Lemma X17_craft_overdraw_panics_witness :
  PlanetTable Cases.stLean !! 1 = Some Cases.leanFoundry /\
  (WINDSTEEL, 81) ∈ zip [WINDSTEEL; AURORIUM] [81; 40] /\
  materials Cases.leanFoundry WINDSTEEL < 81 * 1000 /\
  0 <= 1 <= Biome_max /\
  ModuleCraftingSystem._validateModuleCrafting Cases.stLean
    (PlanetLib.setPlanetHash Cases.leanFoundry 1) (msgSender Scenario.tx7) 1
    [WINDSTEEL; AURORIUM] [81; 40] = Ok tt /\
  ModuleCraftingSystem.craftModule Scenario.k0 Scenario.tx7 1 Cases.stLean 1 1
    [WINDSTEEL; AURORIUM] [81; 40] 1 = Revert Panic.
Proof.
  assert (Hp : PlanetTable Cases.stLean !! 1 = Some Cases.leanFoundry)
    by (vm_compute; reflexivity).
  assert (Hin : (WINDSTEEL, 81) ∈ zip [WINDSTEEL; AURORIUM] [81; 40])
    by (simpl; apply list_elem_of_here).
  assert (Hlt : materials Cases.leanFoundry WINDSTEEL < 81 * 1000) by (simpl; lia).
  assert (Hval : ModuleCraftingSystem._validateModuleCrafting Cases.stLean
                   (PlanetLib.setPlanetHash Cases.leanFoundry 1) (msgSender Scenario.tx7) 1
                   [WINDSTEEL; AURORIUM] [81; 40] = Ok tt) by (vm_compute; reflexivity).
  assert (Hb : 0 <= 1 <= Biome_max) by (vm_compute; intuition discriminate).
  split; [exact Hp|]. split; [exact Hin|]. split; [exact Hlt|]. split; [exact Hb|].
  split; [exact Hval|].
  exact (proj1 (X17_craft_overdraw_panics Scenario.k0 Scenario.tx7 1 Cases.stLean 1 1
                  [WINDSTEEL; AURORIUM] [81; 40] 1 Cases.leanFoundry WINDSTEEL 81
                  Hp Hin Hlt Hb) Hval).
Defined.

(** ** The craft counter of a foundry *)

Lemma craftModule_count k tx newId st h t ms az b st' :
  ModuleCraftingSystem.craftModule k tx newId st h t ms az b = Ok st' ->
  FoundryCraftingCount st'
  = <[h := mkFoundryCraftingCountData (count (FoundryCraftingCount_get st h) + 1)
             (blockTimestamp tx mod 2 ^ 64)]> (FoundryCraftingCount st) /\
  FoundryUpgrade st' = FoundryUpgrade st.
Proof.
  intros H. apply craftModule_Ok in H as (p & f1 & rarity & _ & _ & _ & _ & _ & ->).
  split; reflexivity.
Qed.

Lemma craftSpaceship_count k tx newId st h t ms az b st' :
  FoundryCraftingSystem.craftSpaceship k tx newId st h t ms az b = Ok st' ->
  FoundryCraftingCount st'
  = <[h := mkFoundryCraftingCountData (count (FoundryCraftingCount_get st h) + 1)
             (blockTimestamp tx mod 2 ^ 64)]> (FoundryCraftingCount st) /\
  FoundryUpgrade st' = FoundryUpgrade st.
Proof.
  intros H. apply craftSpaceship_Ok in H as (p & f1 & rarity & _ & _ & _ & _ & _ & ->).
  split; reflexivity.
Qed.

(** X18: modules and spaceships are counted by one counter per foundry: a
    successful craft of either kind raises by one the count that both
    systems report, stamps it with the block time, leaves the counts of the
    other foundries and every upgrade level as they were, and both systems
    report the same multiplier for the next craft; if the new count reaches
    the limit [1 + level], the next craft of either kind is rejected. *)
Theorem X18_crafts_share_counter (k : Keccak) (tx : Tx) (newId : Z) (st : World)
    (h t : Z) (ms : list MaterialType) (az : list Z) (b : Z) (st' : World) :
  ModuleCraftingSystem.craftModule k tx newId st h t ms az b = Ok st' \/
  FoundryCraftingSystem.craftSpaceship k tx newId st h t ms az b = Ok st' ->
  let c := count (FoundryCraftingCount_get st h) in
  ModuleCraftingSystem.getFoundryMCraftingCount st' h
  = (c + 1, blockTimestamp tx mod 2 ^ 64) /\
  FoundryCraftingSystem.getFoundryCraftingCount st' h
  = (c + 1, blockTimestamp tx mod 2 ^ 64) /\
  ModuleCraftingSystem.getCraftingMMultiplier st' h
  = ModuleCraftingSystem._getCraftingMMultiplier (c + 1) /\
  FoundryCraftingSystem.getCraftingMultiplier st' h
  = ModuleCraftingSystem.getCraftingMMultiplier st' h /\
  (forall h', h' <> h ->
     FoundryCraftingSystem.getFoundryCraftingCount st' h'
     = FoundryCraftingSystem.getFoundryCraftingCount st h') /\
  (forall h', FoundryUpgradeSystem.getFoundryUpgradeLevel st' h'
              = FoundryUpgradeSystem.getFoundryUpgradeLevel st h') /\
  (c + 1 >= 1 + FoundryUpgradeSystem.getFoundryUpgradeLevel st h ->
   forall tx2 id2 t2 ms2 az2 b2,
     (exists e, ModuleCraftingSystem.craftModule k tx2 id2 st' h t2 ms2 az2 b2 = Revert e) /\
     (exists e, FoundryCraftingSystem.craftSpaceship k tx2 id2 st' h t2 ms2 az2 b2
                = Revert e)).
Proof.
  intros H c.
  assert (Hc : FoundryCraftingCount st'
               = <[h := mkFoundryCraftingCountData (c + 1) (blockTimestamp tx mod 2 ^ 64)]>
                   (FoundryCraftingCount st) /\
               FoundryUpgrade st' = FoundryUpgrade st).
  { destruct H as [H|H];
      [exact (craftModule_count _ _ _ _ _ _ _ _ _ _ H)
      |exact (craftSpaceship_count _ _ _ _ _ _ _ _ _ _ H)]. }
  destruct Hc as [Hc Hu].
  assert (Hrow : FoundryCraftingCount_get st' h
                 = mkFoundryCraftingCountData (c + 1) (blockTimestamp tx mod 2 ^ 64)).
  { unfold FoundryCraftingCount_get. rewrite Hc, lookup_insert_eq. reflexivity. }
  assert (Hlvl : forall h', FoundryUpgrade_getBranchLevel st' h'
                            = FoundryUpgrade_getBranchLevel st h').
  { intros h'. unfold FoundryUpgrade_getBranchLevel. rewrite Hu. reflexivity. }
  unfold ModuleCraftingSystem.getFoundryMCraftingCount,
    FoundryCraftingSystem.getFoundryCraftingCount,
    ModuleCraftingSystem.getCraftingMMultiplier,
    FoundryCraftingSystem.getCraftingMultiplier,
    FoundryUpgradeSystem.getFoundryUpgradeLevel.
  cbv zeta. rewrite Hrow. cbn [count lastCraftTime].
  split; [reflexivity|]. split; [reflexivity|]. split; [reflexivity|].
  split; [reflexivity|]. split; [|split].
  - intros h' Hne. unfold FoundryCraftingCount_get. rewrite Hc, lookup_insert_ne by congruence.
    reflexivity.
  - exact Hlvl.
  - intros Hlim tx2 id2 t2 ms2 az2 b2.
    assert (Hat : count (FoundryCraftingCount_get st' h)
                  >= 1 + FoundryUpgrade_getBranchLevel st' h).
    { rewrite Hrow, Hlvl. cbn [count]. exact Hlim. }
    split.
    + exact (proj1 (craftModule_at_limit k tx2 id2 st' h t2 ms2 az2 b2 Hat)).
    + exact (proj1 (craftSpaceship_at_limit k tx2 id2 st' h t2 ms2 az2 b2 Hat)).
Qed.

Lemma X18_crafts_share_counter_witness :
  (ModuleCraftingSystem.craftModule Scenario.k0 Scenario.tx7 1 Scenario.st0 1 1
     [WINDSTEEL; AURORIUM] [80; 40] 1
   = Ok (commit Scenario.st0 Scenario.craftEngine80) \/
   FoundryCraftingSystem.craftSpaceship Scenario.k0 Scenario.tx7 1 Scenario.st0 1 1
     [WINDSTEEL; AURORIUM] [80; 40] 1
   = Ok (commit Scenario.st0 Scenario.craftEngine80)) /\
  FoundryCraftingSystem.getFoundryCraftingCount
    (commit Scenario.st0 Scenario.craftEngine80) 1 = (1, 1000).
Proof.
  assert (H : ModuleCraftingSystem.craftModule Scenario.k0 Scenario.tx7 1 Scenario.st0 1 1
                [WINDSTEEL; AURORIUM] [80; 40] 1
              = Ok (commit Scenario.st0 Scenario.craftEngine80))
    by (vm_compute; reflexivity).
  split; [left; exact H|].
  exact (proj1 (proj2 (X18_crafts_share_counter _ _ _ _ _ _ _ _ _ _ (or_introl H)))).
Defined.

(** X19: in every reachable state the two multiplier getters agree and
    report 100, 150 or 225; they report 100 for a foundry that has not
    crafted yet and also for one that has crafted three times, for which the
    fall-through branch of the table is taken and every further craft is
    rejected. *)
Theorem X19_multiplier_getter (k : Keccak) (st : World) (h : Z) :
  reachable k st ->
  let c := fst (FoundryCraftingSystem.getFoundryCraftingCount st h) in
  let m := FoundryCraftingSystem.getCraftingMultiplier st h in
  ModuleCraftingSystem.getCraftingMMultiplier st h = m /\
  0 <= c <= 3 /\
  (c = 0 \/ c = 3 <-> m = 100) /\ (c = 1 <-> m = 150) /\ (c = 2 <-> m = 225) /\
  (c = 3 ->
   forall tx id t ms az b,
     (exists e, ModuleCraftingSystem.craftModule k tx id st h t ms az b = Revert e) /\
     (exists e, FoundryCraftingSystem.craftSpaceship k tx id st h t ms az b = Revert e)).
Proof.
  intros Hr c m. pose proof (wf_craft st (reachable_wf k st Hr) h) as [Hc Hl].
  unfold c, m, FoundryCraftingSystem.getFoundryCraftingCount,
    FoundryCraftingSystem.getCraftingMultiplier,
    ModuleCraftingSystem.getCraftingMMultiplier,
    FoundryCraftingSystem._getCraftingMultiplier,
    ModuleCraftingSystem._getCraftingMMultiplier.
  cbn [fst]. set (n := count (FoundryCraftingCount_get st h)) in *.
  split; [reflexivity|]. split; [lia|].
  split; [|split; [|split]].
  1-3: zeqb; intuition lia.
  intros H3 tx id t ms az b.
  assert (Hat : n >= 1 + FoundryUpgrade_getBranchLevel st h) by lia.
  split.
  - exact (proj1 (craftModule_at_limit k tx id st h t ms az b Hat)).
  - exact (proj1 (craftSpaceship_at_limit k tx id st h t ms az b Hat)).
Qed.

Lemma X19_multiplier_getter_witness :
  reachable Scenario.k0 Scenario.stTwoScouts /\
  fst (FoundryCraftingSystem.getFoundryCraftingCount Scenario.stTwoScouts 1) = 3 /\
  FoundryCraftingSystem.getCraftingMultiplier Scenario.stTwoScouts 1 = 100.
Proof.
  assert (Hr : reachable Scenario.k0 Scenario.stTwoScouts)
    by (apply scenario_reachable; vm_compute; reflexivity).
  assert (H3 : fst (FoundryCraftingSystem.getFoundryCraftingCount Scenario.stTwoScouts 1)
               = 3) by (vm_compute; reflexivity).
  split; [exact Hr|]. split; [exact H3|].
  exact (proj1 (proj1 (proj2 (proj2 (X19_multiplier_getter _ _ 1 Hr)))) (or_intror H3)).
Defined.

(** ** The upgrade of a foundry *)

Lemma upgrade_biomeMultiplier_range (biome : Z) :
  100 <= FoundryUpgradeSystem._getBiomeMultiplier biome <= 250.
Proof.
  unfold FoundryUpgradeSystem._getBiomeMultiplier. cbv zeta. repeat case_match; lia.
Qed.

(** The fee is between the base fee and seven and a half times the base fee. *)
Lemma upgrade_fee_range (base bm rm : Z) :
  0 <= base -> 100 <= bm <= 250 -> 100 <= rm <= 300 ->
  base <= base * bm * rm / 10000 <= base * 15 / 2.
Proof.
  intros Hb Hbm Hrm.
  assert (Hlo : 10000 <= bm * rm) by nia.
  assert (Hhi : bm * rm <= 75000) by nia.
  rewrite <- Z.mul_assoc. generalize dependent (bm * rm). intros x Hlo Hhi. split.
  - apply Z.div_le_lower_bound; [lia|nia].
  - assert (base * x / 10000 <= base * 75000 / 10000)
      by (apply Z.div_le_mono; [lia|nia]).
    assert (base * 75000 / 10000 = base * 15 / 2).
    { replace (base * 75000) with ((base * 15) * 5000) by lia.
      replace 10000 with (2 * 5000) by lia.
      rewrite Z.div_mul_cancel_r by lia. reflexivity. }
    lia.
Qed.

Lemma upgradeFoundry_Ok k tx st h st' :
  FoundryUpgradeSystem.upgradeFoundry k tx st h = Ok st' ->
  exists p biome rm,
    PlanetTable st !! h = Some p /\ owner p = msgSender tx /\ planetType p = FOUNDRY /\
    4 <= level p /\ FoundryUpgrade_getBranchLevel st h < 2 /\
    FoundryUpgradeSystem._calculateBiomeFromPlanet k st (PlanetLib.setPlanetHash p h)
    = Ok biome /\
    FoundryUpgradeSystem._getHighestArtifactRarityMultiplier st (PlanetLib.setPlanetHash p h)
    = Ok rm /\
    EntryFee st
    + (if FoundryUpgrade_getBranchLevel st h =? 0
       then FoundryUpgradeSystem.BASE_UPGRADE_FEE_LEVEL_1
       else FoundryUpgradeSystem.BASE_UPGRADE_FEE_LEVEL_2)
      * FoundryUpgradeSystem._getBiomeMultiplier biome * rm / 10000 <= msgValue tx /\
    st' = PlanetLib.writeToStore (PlanetLib.setPlanetHash p h)
            (raiseUpgrade h (RevenueStats st + msgValue tx) st).
Proof.
  intros H. unfold FoundryUpgradeSystem.upgradeFoundry in H.
  bind_inv H as foundry Hread. apply readInitedPlanet_Ok in Hread as (p0 & Hp & ->).
  bind_inv H as u Hval. destruct u.
  bind_inv H as biome Hbiome. bind_inv H as rm Hrm. bind_inv H as total Htot.
  req_inv H as Hfee. bind_inv H as revenue Hrev. bind_inv H as newLevel Hnew.
  injection H as <-.
  unfold FoundryUpgradeSystem._validateUpgrade in Hval.
  req_inv Hval as Hown. req_inv Hval as Hty. req_inv Hval as Hlvl. apply require_Ok in Hval.
  apply negb_true in Hval, Hlvl, Hfee. apply bool_decide_eq_true in Hown, Hty.
  apply checked_add_Ok in Hnew as [_ ->]. apply checked_add_Ok in Hrev as [_ ->].
  apply checked_add_Ok in Htot as [_ ->].
  exists p0, biome, rm. simpl in Hown, Hty, Hlvl.
  split; [exact Hp|]. split; [exact Hown|]. split; [exact Hty|].
  split; [destruct (Z.ltb_spec (level p0) 4); [discriminate|lia]|].
  split; [destruct (Z.geb_spec (FoundryUpgrade_getBranchLevel st h) 2); [discriminate|lia]|].
  split; [exact Hbiome|]. split; [exact Hrm|].
  split; [|reflexivity].
  match type of Hfee with (?a <? ?b) = false => destruct (Z.ltb_spec a b) end;
    [discriminate|lia].
Qed.

(** X20: a successful upgrade raises the level of the foundry by one, from 0
    or 1, and changes no other level and no craft count; the payment covers
    the entry fee and the upgrade fee, which is the base fee of the level
    times the biome multiplier and the highest rarity multiplier, between the
    base fee and seven and a half times the base fee; the whole payment is
    added to the revenue, also what exceeds the fee. *)
Theorem X20_upgrade_payment (k : Keccak) (tx : Tx) (st : World) (h : Z) (st' : World) :
  FoundryUpgradeSystem.upgradeFoundry k tx st h = Ok st' ->
  let lvl := FoundryUpgradeSystem.getFoundryUpgradeLevel st h in
  let base :=
    if lvl =? 0 then FoundryUpgradeSystem.BASE_UPGRADE_FEE_LEVEL_1
    else FoundryUpgradeSystem.BASE_UPGRADE_FEE_LEVEL_2 in
  lvl < 2 /\
  FoundryUpgradeSystem.getFoundryUpgradeLevel st' h = lvl + 1 /\
  (forall h', h' <> h ->
     FoundryUpgradeSystem.getFoundryUpgradeLevel st' h'
     = FoundryUpgradeSystem.getFoundryUpgradeLevel st h') /\
  FoundryCraftingCount st' = FoundryCraftingCount st /\
  RevenueStats st' = RevenueStats st + msgValue tx /\
  EntryFee st' = EntryFee st /\
  (exists p biome rm,
     PlanetTable st !! h = Some p /\
     FoundryUpgradeSystem._calculateBiomeFromPlanet k st (PlanetLib.setPlanetHash p h)
     = Ok biome /\
     FoundryUpgradeSystem._getHighestArtifactRarityMultiplier st
       (PlanetLib.setPlanetHash p h) = Ok rm /\
     let fee := base * FoundryUpgradeSystem._getBiomeMultiplier biome * rm / 10000 in
     EntryFee st + fee <= msgValue tx /\ base <= fee <= base * 15 / 2).
Proof.
  intros H lvl base.
  apply upgradeFoundry_Ok in H
    as (p & biome & rm & Hp & _ & _ & _ & Hlvl & Hb & Hrm & Hfee & ->).
  unfold FoundryUpgradeSystem.getFoundryUpgradeLevel in *.
  split; [exact Hlvl|]. split; [|split].
  - unfold FoundryUpgrade_getBranchLevel at 1. simpl. rewrite lookup_insert_eq. reflexivity.
  - intros h' Hne. unfold FoundryUpgrade_getBranchLevel at 1. simpl.
    rewrite lookup_insert_ne by congruence. reflexivity.
  - split; [reflexivity|]. split; [reflexivity|]. split; [reflexivity|].
    exists p, biome, rm. split; [exact Hp|]. split; [exact Hb|]. split; [exact Hrm|].
    cbv zeta. split; [exact Hfee|].
    apply upgrade_fee_range.
    + unfold base, FoundryUpgradeSystem.BASE_UPGRADE_FEE_LEVEL_1,
        FoundryUpgradeSystem.BASE_UPGRADE_FEE_LEVEL_2.
      destruct (lvl =? 0); lia.
    + apply upgrade_biomeMultiplier_range.
    + exact (highestMultiplier_range _ _ _ Hrm).
Qed.

Lemma X20_upgrade_payment_witness :
  FoundryUpgradeSystem.upgradeFoundry Scenario.k0 Scenario.txPay Scenario.st0 1
  = Ok (play Scenario.k0 [EvOp (UpgradeFoundry Scenario.txPay 1)] Scenario.st0) /\
  FoundryUpgradeSystem.getFoundryUpgradeLevel
    (play Scenario.k0 [EvOp (UpgradeFoundry Scenario.txPay 1)] Scenario.st0) 1
  = FoundryUpgradeSystem.getFoundryUpgradeLevel Scenario.st0 1 + 1.
Proof.
  assert (H : FoundryUpgradeSystem.upgradeFoundry Scenario.k0 Scenario.txPay Scenario.st0 1
              = Ok (play Scenario.k0 [EvOp (UpgradeFoundry Scenario.txPay 1)] Scenario.st0))
    by (vm_compute; reflexivity).
  split; [exact H|].
  exact (proj1 (proj2 (X20_upgrade_payment _ _ _ _ _ H))).
Defined.

(** X21: an upgrade at an initialised planet is rejected by the first check
    that fails: the sender is not the owner (NotPlanetOwner), the planet is
    not a foundry (InvalidPlanetType), its level is below 4
    (PlanetLevelTooLow), the foundry is at level 2
    (FoundryAtMaxUpgradeLevel); after these, a payment below the entry fee
    plus the upgrade fee is rejected with InsufficientFoundryUpgradeFee,
    which carries the required sum and the payment. *)
Theorem X21_upgrade_rejections (k : Keccak) (tx : Tx) (st : World) (h : Z) (p : Planet) :
  PlanetTable st !! h = Some p ->
  let result := FoundryUpgradeSystem.upgradeFoundry k tx st h in
  let lvl := FoundryUpgradeSystem.getFoundryUpgradeLevel st h in
  (owner p <> msgSender tx -> result = Revert NotPlanetOwner) /\
  (owner p = msgSender tx -> planetType p <> FOUNDRY -> result = Revert InvalidPlanetType) /\
  (owner p = msgSender tx -> planetType p = FOUNDRY -> level p < 4 ->
   result = Revert PlanetLevelTooLow) /\
  (owner p = msgSender tx -> planetType p = FOUNDRY -> 4 <= level p -> 2 <= lvl ->
   result = Revert FoundryAtMaxUpgradeLevel) /\
  (owner p = msgSender tx -> planetType p = FOUNDRY -> 4 <= level p -> lvl < 2 ->
   forall biome rm,
     FoundryUpgradeSystem._calculateBiomeFromPlanet k st (PlanetLib.setPlanetHash p h)
     = Ok biome ->
     FoundryUpgradeSystem._getHighestArtifactRarityMultiplier st
       (PlanetLib.setPlanetHash p h) = Ok rm ->
     let required :=
       EntryFee st
       + (if lvl =? 0 then FoundryUpgradeSystem.BASE_UPGRADE_FEE_LEVEL_1
          else FoundryUpgradeSystem.BASE_UPGRADE_FEE_LEVEL_2)
         * FoundryUpgradeSystem._getBiomeMultiplier biome * rm / 10000 in
     required <= uint_max 256 -> msgValue tx < required ->
     result = Revert (InsufficientFoundryUpgradeFee required (msgValue tx))).
Proof.
  intros Hp result lvl.
  unfold result, lvl, FoundryUpgradeSystem.getFoundryUpgradeLevel,
    FoundryUpgradeSystem.upgradeFoundry, PlanetLib.readInitedPlanet,
    FoundryUpgradeSystem._validateUpgrade.
  rewrite Hp. cbn [mbind Result_bind PlanetLib.setPlanetHash owner planetType level].
  split; [|split; [|split; [|split]]].
  - intros Ho. rewrite (bool_decide_eq_false_2 _ Ho). reflexivity.
  - intros Ho Hty. rewrite (bool_decide_eq_true_2 _ Ho), (bool_decide_eq_false_2 _ Hty).
    reflexivity.
  - intros Ho Hty Hl.
    rewrite (bool_decide_eq_true_2 _ Ho), (bool_decide_eq_true_2 _ Hty).
    destruct (Z.ltb_spec (level p) 4); [|lia]. reflexivity.
  - intros Ho Hty Hl Hmax.
    rewrite (bool_decide_eq_true_2 _ Ho), (bool_decide_eq_true_2 _ Hty).
    destruct (Z.ltb_spec (level p) 4); [lia|].
    destruct (Z.geb_spec (FoundryUpgrade_getBranchLevel st h) 2); [|lia]. reflexivity.
  - intros Ho Hty Hl Hlt biome rm Hb Hrm. cbv zeta.
    match goal with |- ?r <= _ -> _ => set (required := r) end.
    intros Hmax Hpay.
    rewrite (bool_decide_eq_true_2 _ Ho), (bool_decide_eq_true_2 _ Hty).
    destruct (Z.ltb_spec (level p) 4); [lia|].
    destruct (Z.geb_spec (FoundryUpgrade_getBranchLevel st h) 2); [lia|].
    cbn [negb require mbind Result_bind].
    rewrite Hb. cbn [mbind Result_bind].
    rewrite Hrm. cbn [mbind Result_bind].
    match goal with
    | |- (checked_add 256 ?a ?b ≫= _) = _ =>
        assert (Hadd : checked_add 256 a b = Ok required)
          by (apply checked_add_Ok; split; [exact Hmax|reflexivity]);
        rewrite Hadd
    end.
    cbn [mbind Result_bind].
    destruct (Z.ltb_spec (msgValue tx) required); [|lia]. reflexivity.
Qed.

Lemma X21_upgrade_rejections_witness :
  PlanetTable Scenario.st0 !! 1 = Some Scenario.foundry1 /\
  FoundryUpgradeSystem.upgradeFoundry Scenario.k0 Scenario.tx7 Scenario.st0 1
  = Revert (InsufficientFoundryUpgradeFee 50000000000000 0).
Proof.
  assert (H : PlanetTable Scenario.st0 !! 1 = Some Scenario.foundry1)
    by (vm_compute; reflexivity).
  split; [exact H|].
  refine (proj2 (proj2 (proj2 (proj2
            (X21_upgrade_rejections Scenario.k0 Scenario.tx7 Scenario.st0 1
               Scenario.foundry1 H)))) eq_refl eq_refl _ _ 3 100 eq_refl eq_refl _ _);
    vm_compute; intuition discriminate.
Defined.

(** ** The errors of the execution of a craft *)

Lemma checked_add_Revert (w a b : Z) (e : Error) :
  checked_add w a b = Revert e -> e = Panic.
Proof. unfold checked_add. case_match; [discriminate|]. intros [= <-]. reflexivity. Qed.

Lemma checked_sub_Revert (a b : Z) (e : Error) :
  checked_sub a b = Revert e -> e = Panic.
Proof. unfold checked_sub. case_match; [discriminate|]. intros [= <-]. reflexivity. Qed.

Lemma checked_mul_Revert (w a b : Z) (e : Error) :
  checked_mul w a b = Revert e -> e = Panic.
Proof. unfold checked_mul. case_match; [discriminate|]. intros [= <-]. reflexivity. Qed.

Lemma module_consume_error foundry ms az e :
  ModuleCraftingSystem.consumeMaterials foundry ms az = Revert e -> e = Panic.
Proof.
  revert foundry az. induction ms as [|m ms IH]; intros foundry [|a az] H; simpl in H;
    try discriminate.
  apply bind_Revert in H as [H|(? & _ & H)]; [exact (checked_sub_Revert _ _ _ H)|].
  exact (IH _ _ H).
Qed.

Lemma calculateRarity_error level seed e :
  ModuleCraftingSystem._calculateModuleRarity level seed = Revert e -> e = Panic.
Proof.
  unfold ModuleCraftingSystem._calculateModuleRarity. cbv zeta. intros H.
  apply bind_Revert in H as [H|(l & _ & H)].
  - repeat case_match; try discriminate; exact (checked_add_Revert _ _ _ _ H).
  - repeat case_match; discriminate.
Qed.

Lemma calculateBiome_error k st p e :
  ModuleCraftingSystem._calculateBiomeFromPlanet k st p = Revert e -> e = Panic.
Proof.
  unfold ModuleCraftingSystem._calculateBiomeFromPlanet. cbv zeta. intros H.
  case_match; [discriminate|].
  apply bind_Revert in H as [H|(res & _ & H)]; [exact (checked_mul_Revert _ _ _ _ H)|].
  apply bind_Revert in H as [H|(res' & _ & H)]; [|discriminate].
  repeat case_match; try discriminate; exact (checked_sub_Revert _ _ _ H).
Qed.

Lemma pushArtifact_error p a e :
  PlanetLib.pushArtifact p a = Revert e -> e = ArtifactStorageFull.
Proof.
  unfold PlanetLib.pushArtifact. intros H.
  apply bind_Revert in H as [H|(? & _ & H)]; [|discriminate].
  apply require_Revert in H as [_ ->]. reflexivity.
Qed.

(** Once the checks have passed, a craft can only fail on arithmetic or on
    a full inventory. *)
Lemma module_execute_error k tx newId st foundry executor t ms az b e :
  ModuleCraftingSystem._executeCrafting k tx newId st foundry executor t ms az b = Revert e ->
  e = Panic \/ e = ArtifactStorageFull.
Proof.
  unfold ModuleCraftingSystem._executeCrafting. intros H.
  apply bind_Revert in H as [H|(f1 & _ & H)]; [left; exact (module_consume_error _ _ _ _ H)|].
  cbv zeta in H.
  apply bind_Revert in H as [H|(r & _ & H)]; [left; exact (calculateRarity_error _ _ _ H)|].
  apply bind_Revert in H as [H|(cb & _ & H)]; [left; exact (calculateBiome_error _ _ _ _ H)|].
  cbv zeta in H.
  apply bind_Revert in H as [H|(f2 & _ & H)]; [right; exact (pushArtifact_error _ _ _ H)|].
  cbv zeta in H.
  apply bind_Revert in H as [H|(c & _ & H)]; [left; exact (checked_add_Revert _ _ _ _ H)|].
  discriminate.
Qed.

Lemma ship_execute_error k tx newId st foundry executor t ms az b e :
  FoundryCraftingSystem._executeCrafting k tx newId st foundry executor t ms az b = Revert e ->
  e = Panic \/ e = ArtifactStorageFull.
Proof.
  unfold FoundryCraftingSystem._executeCrafting. intros H.
  apply bind_Revert in H as [H|(f1 & _ & H)]; [left; exact (module_consume_error _ _ _ _ H)|].
  cbv zeta in H.
  apply bind_Revert in H as [H|(r & _ & H)]; [left; exact (calculateRarity_error _ _ _ H)|].
  apply bind_Revert in H as [H|(cb & _ & H)]; [left; exact (calculateBiome_error _ _ _ _ H)|].
  cbv zeta in H.
  apply bind_Revert in H as [H|(f2 & _ & H)]; [right; exact (pushArtifact_error _ _ _ H)|].
  cbv zeta in H.
  apply bind_Revert in H as [H|(c & _ & H)]; [left; exact (checked_add_Revert _ _ _ _ H)|].
  discriminate.
Qed.

(** A craft is rejected with FoundryCraftingLimitReached only at the limit. *)
Lemma module_limit_error k tx newId st h t ms az b :
  ModuleCraftingSystem.craftModule k tx newId st h t ms az b
  = Revert FoundryCraftingLimitReached ->
  count (FoundryCraftingCount_get st h) >= 1 + FoundryUpgrade_getBranchLevel st h.
Proof.
  unfold ModuleCraftingSystem.craftModule. intros H.
  apply bind_Revert in H as [H|(b' & _ & H)].
  { unfold abi_decode_Biome in H.
    apply bind_Revert in H as [H|(? & _ & H)]; [|discriminate].
    apply require_Revert in H as [_ [=]]. }
  unfold ModuleCraftingSystem._processModuleCrafting in H.
  apply bind_Revert in H as [H|(foundry & Hread & H)].
  { unfold PlanetLib.readInitedPlanet in H. case_match; discriminate. }
  apply readInitedPlanet_Ok in Hread as (p & Hp & ->). cbv zeta in H.
  apply bind_Revert in H as [H|([] & _ & H)].
  - unfold ModuleCraftingSystem._validateModuleCrafting in H.
    apply bind_Revert in H as [H|([] & _ & H)];
      [apply require_Revert in H as [_ [=]]|].
    apply bind_Revert in H as [H|([] & _ & H)];
      [apply require_Revert in H as [_ [=]]|].
    apply bind_Revert in H as [H|([] & _ & H)];
      [apply require_Revert in H as [_ [=]]|].
    apply bind_Revert in H as [H|([] & _ & H)];
      [apply require_Revert in H as [_ [=]]|].
    cbv zeta in H.
    apply bind_Revert in H as [H|(maxCrafts & Hmax & H)];
      [apply checked_add_Revert in H; discriminate|].
    apply checked_add_Ok in Hmax as [_ ->].
    apply bind_Revert in H as [H|([] & _ & H)].
    + apply require_Revert in H as [H _]. apply negb_false_iff in H. simpl in H.
      destruct (Z.geb_spec (count (FoundryCraftingCount_get st h))
                  (1 + FoundryUpgrade_getBranchLevel st h)); [lia|discriminate].
    + apply module_validateRecipe_error, recipeError_not_limit in H. congruence.
  - apply module_execute_error in H as [H|H]; discriminate.
Qed.

Lemma ship_limit_error k tx newId st h t ms az b :
  FoundryCraftingSystem.craftSpaceship k tx newId st h t ms az b
  = Revert FoundryCraftingLimitReached ->
  count (FoundryCraftingCount_get st h) >= 1 + FoundryUpgrade_getBranchLevel st h.
Proof.
  unfold FoundryCraftingSystem.craftSpaceship. intros H.
  apply bind_Revert in H as [H|(b' & _ & H)].
  { unfold abi_decode_Biome in H.
    apply bind_Revert in H as [H|(? & _ & H)]; [|discriminate].
    apply require_Revert in H as [_ [=]]. }
  unfold FoundryCraftingSystem._processSpaceshipCrafting in H.
  apply bind_Revert in H as [H|(foundry & Hread & H)].
  { unfold PlanetLib.readInitedPlanet in H. case_match; discriminate. }
  apply readInitedPlanet_Ok in Hread as (p & Hp & ->). cbv zeta in H.
  apply bind_Revert in H as [H|([] & _ & H)].
  - unfold FoundryCraftingSystem._validateCrafting in H.
    apply bind_Revert in H as [H|([] & _ & H)];
      [apply require_Revert in H as [_ [=]]|].
    apply bind_Revert in H as [H|([] & _ & H)];
      [apply require_Revert in H as [_ [=]]|].
    apply bind_Revert in H as [H|([] & _ & H)];
      [apply require_Revert in H as [_ [=]]|].
    apply bind_Revert in H as [H|([] & _ & H)];
      [apply require_Revert in H as [_ [=]]|].
    cbv zeta in H.
    apply bind_Revert in H as [H|(maxCrafts & Hmax & H)];
      [apply checked_add_Revert in H; discriminate|].
    apply checked_add_Ok in Hmax as [_ ->].
    apply bind_Revert in H as [H|([] & _ & H)].
    + apply require_Revert in H as [H _]. apply negb_false_iff in H. simpl in H.
      destruct (Z.geb_spec (count (FoundryCraftingCount_get st h))
                  (1 + FoundryUpgrade_getBranchLevel st h)); [lia|discriminate].
    + apply ship_validateRecipe_error, recipeError_not_limit in H. congruence.
  - apply ship_execute_error in H as [H|H]; discriminate.
Qed.

(** X22: in a reachable state a successful upgrade leaves the foundry with a
    craft count below its new limit: until its next craft, no craft of a
    module or a spaceship at this foundry is rejected with
    FoundryCraftingLimitReached. *)
Theorem X22_upgrade_lifts_limit (k : Keccak) (st : World) (tx : Tx) (h : Z) (st' : World) :
  reachable k st ->
  FoundryUpgradeSystem.upgradeFoundry k tx st h = Ok st' ->
  fst (FoundryCraftingSystem.getFoundryCraftingCount st' h)
  < 1 + FoundryUpgradeSystem.getFoundryUpgradeLevel st' h /\
  forall tx2 id t ms az b,
    ModuleCraftingSystem.craftModule k tx2 id st' h t ms az b
    <> Revert FoundryCraftingLimitReached /\
    FoundryCraftingSystem.craftSpaceship k tx2 id st' h t ms az b
    <> Revert FoundryCraftingLimitReached.
Proof.
  intros Hr H.
  pose proof (wf_craft st (reachable_wf k st Hr) h) as [Hc _].
  apply upgradeFoundry_Ok in H as (p & biome & rm & _ & _ & _ & _ & _ & _ & _ & _ & ->).
  assert (Hlt : count (FoundryCraftingCount_get
                         (PlanetLib.writeToStore (PlanetLib.setPlanetHash p h)
                            (raiseUpgrade h (RevenueStats st + msgValue tx) st)) h)
                < 1 + FoundryUpgrade_getBranchLevel
                        (PlanetLib.writeToStore (PlanetLib.setPlanetHash p h)
                           (raiseUpgrade h (RevenueStats st + msgValue tx) st)) h).
  { change (count (FoundryCraftingCount_get st h)
            < 1 + default 0 (<[h := FoundryUpgrade_getBranchLevel st h + 1]>
                               (FoundryUpgrade st) !! h)).
    rewrite lookup_insert_eq. simpl. lia. }
  split; [exact Hlt|].
  intros tx2 id t ms az b. split; intros Hlim.
  - apply module_limit_error in Hlim. lia.
  - apply ship_limit_error in Hlim. lia.
Qed.

Lemma X22_upgrade_lifts_limit_witness :
  reachable Scenario.k0 Scenario.st1 /\
  FoundryUpgradeSystem.upgradeFoundry Scenario.k0 Scenario.txPay Scenario.st1 1
  = Ok (play Scenario.k0 [EvOp (UpgradeFoundry Scenario.txPay 1)] Scenario.st1) /\
  ModuleCraftingSystem.craftModule Scenario.k0 Scenario.tx7 2 Scenario.st1 1 1
    [WINDSTEEL; AURORIUM] [120; 60] 1 = Revert FoundryCraftingLimitReached /\
  ModuleCraftingSystem.craftModule Scenario.k0 Scenario.tx7 2
    (play Scenario.k0 [EvOp (UpgradeFoundry Scenario.txPay 1)] Scenario.st1) 1 1
    [WINDSTEEL; AURORIUM] [120; 60] 1 <> Revert FoundryCraftingLimitReached.
Proof.
  assert (Hr : reachable Scenario.k0 Scenario.st1)
    by (apply scenario_reachable; vm_compute; reflexivity).
  assert (H : FoundryUpgradeSystem.upgradeFoundry Scenario.k0 Scenario.txPay Scenario.st1 1
              = Ok (play Scenario.k0 [EvOp (UpgradeFoundry Scenario.txPay 1)] Scenario.st1))
    by (vm_compute; reflexivity).
  split; [exact Hr|]. split; [exact H|]. split; [vm_compute; reflexivity|].
  exact (proj1 (proj2 (X22_upgrade_lifts_limit _ _ _ _ _ Hr H) Scenario.tx7 2 1
                  [WINDSTEEL; AURORIUM] [120; 60] 1)).
Defined.

(** ** Installing and uninstalling *)

(** X23: a successful install records the module as installed on the carrier
    in the slot category of its type, writes it into the slot of the
    category's index, adds its bonus to the carrier's on every axis (the sum
    fits a [uint16]), removes it from the inventory of the planet and deletes
    its owner row; the other carriers, the other modules' records and the
    rest of the inventory are as before. *)
Theorem X23_install_effects (tx : Tx) (st : World) (s m h : Z) (st' : World) :
  SpaceshipModuleSystem.installModule tx st s m h = Ok st' ->
  exists p p' slotType slotIndex,
    PlanetTable st !! h = Some p /\ m ∈ artifactStorage p /\
    slotType = moduleType (CraftedModules_get st m) /\ 1 <= slotType <= 4 /\
    SpaceshipModuleSystem._getSlotIndexForSlotType slotType = Ok slotIndex /\
    SpaceshipModuleInstalled_get st' m = mkSpaceshipModuleInstalledData s slotType true /\
    SpaceshipSlot_get st' s slotIndex = mkSpaceshipSlotData slotType m /\
    (forall ax, axis ax (SpaceshipBonus_get st' s)
                = axis ax (SpaceshipBonus_get st s) + axis ax (ModuleBonus_get st m)) /\
    (forall ax, axis ax (SpaceshipBonus_get st' s) <= uint_max 16) /\
    ArtifactOwner_get st' m = 0 /\
    PlanetTable st' !! h = Some p' /\
    artifactStorage p' = filter (fun x => x ≠ m) (artifactStorage p) /\
    (forall s', s' <> s -> SpaceshipBonus_get st' s' = SpaceshipBonus_get st s') /\
    (forall m', m' <> m ->
       SpaceshipModuleInstalled_get st' m' = SpaceshipModuleInstalled_get st m') /\
    ModuleBonus st' = ModuleBonus st.
Proof.
  intros H. apply installModule_steps in H
    as (p0 & slotType & slotIndex & Hp & Hchk & Hhas & Hsum & ->).
  destruct Hchk as [_ _ _ _ _ _ _ _ Hst Hsi].
  assert (Hty : slotType = moduleType (CraftedModules_get st m) /\ 1 <= slotType <= 4).
  { unfold SpaceshipModuleSystem._getSlotTypeForModuleType,
      SpaceshipModuleSystem.ENGINES_SLOT, SpaceshipModuleSystem.WEAPONS_SLOT,
      SpaceshipModuleSystem.HULL_SLOT, SpaceshipModuleSystem.SHIELD_SLOT in Hst.
    zeqb; try discriminate Hst; injection Hst as <-; lia. }
  destruct Hty as [Hty Hrange].
  unfold PlanetLib.Has in Hhas. apply bool_decide_eq_true in Hhas. simpl in Hhas.
  exists p0,
    (PlanetLib.setArtifactStorage (PlanetLib.setPlanetHash p0 h)
       (filter (fun x => x ≠ m) (artifactStorage p0))),
    slotType, slotIndex.
  assert (Hb : SpaceshipBonus_get
                 (markInstalled s m slotType slotIndex
                    (detach m (PlanetLib.setPlanetHash p0 h) st)) s
               = addBonus (SpaceshipBonus_get st s) (ModuleBonus_get st m)).
  { unfold SpaceshipBonus_get at 1. simpl. rewrite lookup_insert_eq. reflexivity. }
  split; [exact Hp|]. split; [exact Hhas|]. split; [exact Hty|]. split; [exact Hrange|].
  split; [exact Hsi|].
  split; [unfold SpaceshipModuleInstalled_get; simpl; rewrite lookup_insert_eq; reflexivity|].
  split; [unfold SpaceshipSlot_get; simpl; rewrite lookup_insert_eq; reflexivity|].
  split; [intros ax; rewrite Hb; apply axis_addBonus|].
  split; [intros ax; rewrite Hb, axis_addBonus; apply Hsum|].
  split; [unfold ArtifactOwner_get; simpl; rewrite lookup_delete_eq; reflexivity|].
  split; [simpl; rewrite lookup_insert_eq; reflexivity|].
  split; [reflexivity|].
  split; [intros s' Hne; unfold SpaceshipBonus_get; simpl;
          rewrite lookup_insert_ne by congruence; reflexivity|].
  split; [intros m' Hne; unfold SpaceshipModuleInstalled_get; simpl;
          rewrite lookup_insert_ne by congruence; reflexivity|].
  reflexivity.
Qed.

Lemma X23_install_effects_witness :
  SpaceshipModuleSystem.installModule Scenario.tx7 Scenario.stTwoScouts 1 3 1
  = Ok Scenario.stEngineOn1 /\
  ArtifactOwner_get Scenario.stEngineOn1 3 = 0.
Proof.
  assert (H : SpaceshipModuleSystem.installModule Scenario.tx7 Scenario.stTwoScouts 1 3 1
              = Ok Scenario.stEngineOn1) by (vm_compute; reflexivity).
  split; [exact H|].
  destruct (X23_install_effects _ _ _ _ _ _ H)
    as (p & p' & slotType & slotIndex & _ & _ & _ & _ & _ & _ & _ & _ & _ & Ho & _).
  exact Ho.
Defined.

(** ** The records of the crafted items *)

Lemma craftModule_tables k tx newId st h t ms az b st' :
  ModuleCraftingSystem.craftModule k tx newId st h t ms az b = Ok st' ->
  exists p rarity biome,
    PlanetTable st !! h = Some p /\ 4 <= level p /\ 1 <= t <= 4 /\
    ModuleCraftingSystem._calculateModuleRarity (level p)
      (keccakSeed k (blockTimestamp tx) (msgSender tx) h) = Ok rarity /\
    ArtifactTable st' = <[newId mod 2 ^ 32 := mkArtifactData 23 rarity]> (ArtifactTable st) /\
    CraftedModules st'
    = <[newId mod 2 ^ 32 :=
          mkCraftedModulesData t biome rarity (blockTimestamp tx mod 2 ^ 64) (msgSender tx)]>
        (CraftedModules st) /\
    ModuleBonus st'
    = <[newId mod 2 ^ 32 :=
          mkBonus (ModuleCraftingSystem._calculateAttackBonus biome rarity t)
            (ModuleCraftingSystem._calculateDefenseBonus biome rarity t)
            (ModuleCraftingSystem._calculateSpeedBonus biome rarity t)
            (ModuleCraftingSystem._calculateRangeBonus biome rarity t)]> (ModuleBonus st) /\
    CraftedSpaceship st' = CraftedSpaceship st /\ SpaceshipBonus st' = SpaceshipBonus st /\
    SpaceshipSlot st' = SpaceshipSlot st /\
    SpaceshipModuleInstalled st' = SpaceshipModuleInstalled st.
Proof.
  intros H. apply craftModule_process in H as [_ H].
  unfold ModuleCraftingSystem._processModuleCrafting in H.
  bind_inv H as foundry Hread. bind_inv H as u0 Hval. destruct u0.
  apply readInitedPlanet_Ok in Hread as (p & Hp & ->).
  apply module_validateCrafting_Ok in Hval as (_ & _ & Hlvl & Ht & _ & _).
  unfold ModuleCraftingSystem._executeCrafting in H.
  bind_inv H as f1 Hcons. bind_inv H as rarity Hrar. bind_inv H as cb Hcb.
  bind_inv H as f2 Hpush. bind_inv H as newCount Hcnt. injection H as <-.
  pose proof (module_consume_same _ _ _ _ Hcons) as (Ho & Hh & Hty & Hl & Hs & Hpe & Hst).
  simpl in Ho, Hh, Hty, Hl, Hs, Hpe, Hst, Hlvl.
  rewrite Hl, Hh in Hrar.
  exists p, rarity, (if (b =? 0) || (b >? Biome_max) then cb else b).
  split; [exact Hp|]. split; [exact Hlvl|]. split; [exact Ht|]. split; [exact Hrar|].
  repeat split.
Qed.

Lemma craftSpaceship_tables k tx newId st h t ms az b st' :
  FoundryCraftingSystem.craftSpaceship k tx newId st h t ms az b = Ok st' ->
  exists p rarity biome,
    PlanetTable st !! h = Some p /\ 4 <= level p /\ 1 <= t <= 4 /\
    FoundryCraftingSystem._calculateSpaceshipRarity (level p)
      (keccakSeed k (blockTimestamp tx) (msgSender tx) h) = Ok rarity /\
    ArtifactTable st' = <[newId mod 2 ^ 32 := mkArtifactData 3 rarity]> (ArtifactTable st) /\
    CraftedSpaceship st'
    = <[newId mod 2 ^ 32 :=
          mkCraftedSpaceshipData t biome rarity (blockTimestamp tx mod 2 ^ 64) 0
            (msgSender tx)]> (CraftedSpaceship st) /\
    SpaceshipBonus st'
    = <[newId mod 2 ^ 32 :=
          mkBonus (FoundryCraftingSystem._calculateAttackBonus biome rarity t)
            (FoundryCraftingSystem._calculateDefenseBonus biome rarity t)
            (FoundryCraftingSystem._calculateSpeedBonus biome rarity t)
            (FoundryCraftingSystem._calculateRangeBonus biome rarity t)]>
        (SpaceshipBonus st) /\
    CraftedModules st' = CraftedModules st /\ ModuleBonus st' = ModuleBonus st /\
    SpaceshipSlot st' = SpaceshipSlot st /\
    SpaceshipModuleInstalled st' = SpaceshipModuleInstalled st.
Proof.
  intros H. apply craftSpaceship_process in H as [_ H].
  unfold FoundryCraftingSystem._processSpaceshipCrafting in H.
  bind_inv H as foundry Hread. bind_inv H as u0 Hval. destruct u0.
  apply readInitedPlanet_Ok in Hread as (p & Hp & ->).
  apply ship_validateCrafting_Ok in Hval as (_ & _ & Hlvl & Ht & _ & _).
  unfold FoundryCraftingSystem._executeCrafting in H.
  bind_inv H as f1 Hcons. bind_inv H as rarity Hrar. bind_inv H as cb Hcb.
  bind_inv H as f2 Hpush. bind_inv H as newCount Hcnt. injection H as <-.
  pose proof (ship_consume_same _ _ _ _ Hcons) as (Ho & Hh & Hty & Hl & Hs & Hpe & Hst).
  simpl in Ho, Hh, Hty, Hl, Hs, Hpe, Hst, Hlvl.
  rewrite Hl, Hh in Hrar.
  exists p, rarity, (if (b =? 0) || (b >? Biome_max) then cb else b).
  split; [exact Hp|]. split; [exact Hlvl|]. split; [exact Ht|]. split; [exact Hrar|].
  repeat split.
Qed.

Lemma records_inv_same (st st' : World) :
  ArtifactTable st' = ArtifactTable st -> CraftedModules st' = CraftedModules st ->
  ModuleBonus st' = ModuleBonus st -> CraftedSpaceship st' = CraftedSpaceship st ->
  SpaceshipModuleInstalled st' = SpaceshipModuleInstalled st ->
  SpaceshipBonus st' = SpaceshipBonus st ->
  records_inv st -> records_inv st'.
Proof.
  intros Ha Hm Hb Hs Hi Hsb [H2 H3 H4 H5].
  constructor; unfold moduleCraftedBonus, ArtifactTable_get, CraftedModules_get,
    ModuleBonus_get, CraftedSpaceship_get, SpaceshipModuleInstalled_get,
    SpaceshipBonus_get in *; rewrite ?Ha, ?Hm, ?Hb, ?Hs, ?Hi, ?Hsb; assumption.
Qed.

Lemma rarity_atLeastEpic (level seed : Z) (r : ArtifactRarity) :
  4 <= level -> ModuleCraftingSystem._calculateModuleRarity level seed = Ok r ->
  atLeastEpic r.
Proof.
  intros Hl H. apply calculateModuleRarity_Ok in H as (l & Hr & _ & Ht).
  unfold atLeastEpic.
  destruct Ht as [[? ->]|[[? ->]|[[? ->]|[[? ->]|[? ->]]]]]; simpl; lia.
Qed.

Lemma records_inv_craftModule k tx newId st h t ms az b st' :
  wf st -> records_inv st -> freshId st newId ->
  ModuleCraftingSystem.craftModule k tx newId st h t ms az b = Ok st' ->
  records_inv st'.
Proof.
  intros Hwf [H2 H3 H4 H5] Hfresh H.
  destruct (fresh_mod _ _ Hfresh) as [Hmod Hidx].
  apply craftModule_tables in H
    as (p & rarity & biome & _ & Hlvl & Ht & Hrar & Ha & Hm & Hb & Hs & Hsb & _ & Hi).
  rewrite Hmod in Ha, Hm, Hb.
  assert (Hat : forall a, ArtifactTable_get st' a
                          = if decide (newId = a) then mkArtifactData 23 rarity
                            else ArtifactTable_get st a).
  { intros a. unfold ArtifactTable_get. rewrite Ha. apply default_insert. }
  assert (Hcm : forall a, CraftedModules_get st' a
                          = if decide (newId = a)
                            then mkCraftedModulesData t biome rarity
                                   (blockTimestamp tx mod 2 ^ 64) (msgSender tx)
                            else CraftedModules_get st a).
  { intros a. unfold CraftedModules_get. rewrite Hm. apply default_insert. }
  assert (Hmb : forall a, ModuleBonus_get st' a
                          = if decide (newId = a)
                            then mkBonus (ModuleCraftingSystem._calculateAttackBonus biome rarity t)
                                   (ModuleCraftingSystem._calculateDefenseBonus biome rarity t)
                                   (ModuleCraftingSystem._calculateSpeedBonus biome rarity t)
                                   (ModuleCraftingSystem._calculateRangeBonus biome rarity t)
                            else ModuleBonus_get st a).
  { intros a. unfold ModuleBonus_get. rewrite Hb. apply default_insert. }
  assert (Hcs : forall a, CraftedSpaceship_get st' a = CraftedSpaceship_get st a).
  { intros a. unfold CraftedSpaceship_get. rewrite Hs. reflexivity. }
  assert (Hin : forall a, SpaceshipModuleInstalled_get st' a
                          = SpaceshipModuleInstalled_get st a).
  { intros a. unfold SpaceshipModuleInstalled_get. rewrite Hi. reflexivity. }
  assert (Hbo : forall a, SpaceshipBonus_get st' a = SpaceshipBonus_get st a).
  { intros a. unfold SpaceshipBonus_get. rewrite Hsb. reflexivity. }
  constructor.
  - intros m. unfold moduleCraftedBonus. rewrite Hat, Hmb, Hcm.
    case_decide as Hd; simpl.
    + intros _. split; [exact Ht|]. split; [|split; reflexivity].
      exact (rarity_atLeastEpic _ _ _ Hlvl Hrar).
    + apply H2.
  - intros s. rewrite Hat, Hcs. case_decide; simpl; [discriminate|apply H3].
  - intros m. rewrite Hin, Hcm. intros Hinst. case_decide as Hd; [|apply H4, Hinst].
    subst m. destruct (wf_kinds st Hwf newId Hinst) as [Hk _]. congruence.
  - intros s ax. rewrite Hbo. apply H5.
Qed.

Lemma records_inv_craftSpaceship k tx newId st h t ms az b st' :
  wf st -> records_inv st -> freshId st newId ->
  FoundryCraftingSystem.craftSpaceship k tx newId st h t ms az b = Ok st' ->
  records_inv st'.
Proof.
  intros Hwf [H2 H3 H4 H5] Hfresh H.
  destruct (fresh_mod _ _ Hfresh) as [Hmod Hidx].
  apply craftSpaceship_tables in H
    as (p & rarity & biome & _ & Hlvl & Ht & Hrar & Ha & Hs & Hsb & Hm & Hb & _ & Hi).
  rewrite Hmod in Ha, Hs, Hsb.
  assert (Hat : forall a, ArtifactTable_get st' a
                          = if decide (newId = a) then mkArtifactData 3 rarity
                            else ArtifactTable_get st a).
  { intros a. unfold ArtifactTable_get. rewrite Ha. apply default_insert. }
  assert (Hcs : forall a, CraftedSpaceship_get st' a
                          = if decide (newId = a)
                            then mkCraftedSpaceshipData t biome rarity
                                   (blockTimestamp tx mod 2 ^ 64) 0 (msgSender tx)
                            else CraftedSpaceship_get st a).
  { intros a. unfold CraftedSpaceship_get. rewrite Hs. apply default_insert. }
  assert (Hbo : forall a, SpaceshipBonus_get st' a
                          = if decide (newId = a)
                            then mkBonus (FoundryCraftingSystem._calculateAttackBonus biome rarity t)
                                   (FoundryCraftingSystem._calculateDefenseBonus biome rarity t)
                                   (FoundryCraftingSystem._calculateSpeedBonus biome rarity t)
                                   (FoundryCraftingSystem._calculateRangeBonus biome rarity t)
                            else SpaceshipBonus_get st a).
  { intros a. unfold SpaceshipBonus_get. rewrite Hsb. apply default_insert. }
  assert (Hcm : forall a, CraftedModules_get st' a = CraftedModules_get st a).
  { intros a. unfold CraftedModules_get. rewrite Hm. reflexivity. }
  assert (Hmb : forall a, ModuleBonus_get st' a = ModuleBonus_get st a).
  { intros a. unfold ModuleBonus_get. rewrite Hb. reflexivity. }
  assert (Hin : forall a, SpaceshipModuleInstalled_get st' a
                          = SpaceshipModuleInstalled_get st a).
  { intros a. unfold SpaceshipModuleInstalled_get. rewrite Hi. reflexivity. }
  constructor.
  - intros m. unfold moduleCraftedBonus. rewrite Hat, Hmb, Hcm.
    case_decide; simpl; [discriminate|apply H2].
  - intros s. rewrite Hat, Hcs. case_decide; simpl.
    + intros _. split; [exact Ht|]. split; [|split; reflexivity].
      rewrite calculateSpaceshipRarity_eq in Hrar.
      exact (rarity_atLeastEpic _ _ _ Hlvl Hrar).
    + apply H3.
  - intros m. rewrite Hin, Hcm. apply H4.
  - intros s ax. rewrite Hbo. case_decide; [|apply H5].
    unfold uint_max.
    pose proof (ship_attack_range biome rarity t).
    pose proof (ship_defense_range biome rarity t).
    pose proof (ship_speed_range biome rarity t).
    pose proof (ship_range_range biome rarity t).
    destruct ax; simpl; lia.
Qed.

Lemma slotType_is_moduleType (t slotType : Z) :
  SpaceshipModuleSystem._getSlotTypeForModuleType t = Ok slotType ->
  slotType = t /\ 1 <= t <= 4.
Proof.
  unfold SpaceshipModuleSystem._getSlotTypeForModuleType,
    SpaceshipModuleSystem.ENGINES_SLOT, SpaceshipModuleSystem.WEAPONS_SLOT,
    SpaceshipModuleSystem.HULL_SLOT, SpaceshipModuleSystem.SHIELD_SLOT.
  intros H. zeqb; try discriminate H; injection H as <-; lia.
Qed.

Lemma floorSub_range (a b : Z) : 0 <= a -> 0 <= b -> 0 <= floorSub a b <= a.
Proof. unfold floorSub. intros Ha Hb. destruct (Z.geb_spec a b); lia. Qed.

Lemma axis_subBonus_range (ax : Axis) (x y : BonusData) :
  0 <= axis ax x -> 0 <= axis ax y -> 0 <= axis ax (subBonus x y) <= axis ax x.
Proof. destruct ax; simpl; apply floorSub_range. Qed.

Lemma records_inv_install tx st s m h st' :
  wf st -> records_inv st ->
  SpaceshipModuleSystem.installModule tx st s m h = Ok st' -> records_inv st'.
Proof.
  intros Hwf [H2 H3 H4 H5] H.
  apply installModule_steps in H
    as (p0 & slotType & slotIndex & Hp & Hchk & Hhas & Hsum & ->).
  destruct Hchk as [_ _ _ _ _ Hmk _ _ Hst _].
  apply slotType_is_moduleType in Hst as [-> _].
  set (st' := markInstalled s m (moduleType (CraftedModules_get st m)) slotIndex
                (detach m (PlanetLib.setPlanetHash p0 h) st)).
  assert (Hin : forall a, SpaceshipModuleInstalled_get st' a
                          = if decide (m = a)
                            then mkSpaceshipModuleInstalledData s
                                   (moduleType (CraftedModules_get st m)) true
                            else SpaceshipModuleInstalled_get st a).
  { intros a. unfold SpaceshipModuleInstalled_get, st'. simpl. apply default_insert. }
  assert (Hbo : forall a, SpaceshipBonus_get st' a
                          = if decide (s = a)
                            then addBonus (SpaceshipBonus_get st s) (ModuleBonus_get st m)
                            else SpaceshipBonus_get st a).
  { intros a. unfold SpaceshipBonus_get at 1, st'. simpl. apply default_insert. }
  constructor.
  - exact H2.
  - exact H3.
  - intros a. rewrite Hin.
    change (CraftedModules_get st' a) with (CraftedModules_get st a).
    case_decide as Hd; [subst a; reflexivity|apply H4].
  - intros a ax. rewrite Hbo. case_decide as Hd; [|apply H5].
    rewrite axis_addBonus. split; [|apply Hsum].
    pose proof (proj1 (H5 s ax)). pose proof (wf_module_bonus st Hwf m ax). lia.
Qed.

Lemma records_inv_uninstall tx st s m h st' :
  wf st -> records_inv st ->
  SpaceshipModuleSystem.uninstallModule tx st s m h = Ok st' -> records_inv st'.
Proof.
  intros Hwf [H2 H3 H4 H5] H.
  apply uninstallModule_steps in H as (p0 & slotIndex & _ & _ & _ & _ & _ & _ & ->).
  set (slotType := inst_moduleSlotType (SpaceshipModuleInstalled_get st m)).
  set (st' := attach m (PlanetLib.setPlanetHash p0 h)
                (markUninstalled s m slotType slotIndex st)).
  assert (Hin : forall a, SpaceshipModuleInstalled_get st' a
                          = if decide (m = a)
                            then mkSpaceshipModuleInstalledData 0 0 false
                            else SpaceshipModuleInstalled_get st a).
  { intros a. unfold SpaceshipModuleInstalled_get, st'. simpl. apply default_insert. }
  assert (Hbo : forall a, SpaceshipBonus_get st' a
                          = if decide (s = a)
                            then subBonus (SpaceshipBonus_get st s) (ModuleBonus_get st m)
                            else SpaceshipBonus_get st a).
  { intros a. unfold SpaceshipBonus_get at 1, st'. simpl. apply default_insert. }
  constructor.
  - exact H2.
  - exact H3.
  - intros a. rewrite Hin.
    change (CraftedModules_get st' a) with (CraftedModules_get st a).
    case_decide as Hd; [discriminate|apply H4].
  - intros a ax. rewrite Hbo. case_decide as Hd; [|apply H5].
    pose proof (H5 s ax) as [Hlo Hhi].
    pose proof (axis_subBonus_range ax (SpaceshipBonus_get st s) (ModuleBonus_get st m)
                  Hlo (wf_module_bonus st Hwf m ax)).
    lia.
Qed.

Lemma records_inv_upgrade k tx st h st' :
  records_inv st -> FoundryUpgradeSystem.upgradeFoundry k tx st h = Ok st' ->
  records_inv st'.
Proof.
  intros Hinv H. apply upgradeFoundry_steps in H as (p0 & revenue & _ & _ & ->).
  revert Hinv. apply records_inv_same; reflexivity.
Qed.

Lemma records_inv_voyage a h1 h2 st st' :
  records_inv st -> envVoyage a h1 h2 st = Ok st' -> records_inv st'.
Proof.
  intros Hinv H. apply envVoyage_steps in H as (p1 & p2 & _ & _ & _ & _ & ->).
  revert Hinv. apply records_inv_same; reflexivity.
Qed.

Lemma records_inv_initial st : initial st -> records_inv st.
Proof.
  intros (_ & _ & Ha & Hs & Hm & _ & Hi & Hsb & Hb & _).
  constructor; unfold ArtifactTable_get, SpaceshipModuleInstalled_get, SpaceshipBonus_get.
  - intros a. rewrite Ha, lookup_empty. discriminate.
  - intros a. rewrite Ha, lookup_empty. discriminate.
  - intros a. rewrite Hi, lookup_empty. discriminate.
  - intros a ax. rewrite Hsb, lookup_empty. destruct ax; simpl; unfold uint_max; lia.
Qed.

Lemma reachable_records k st : reachable k st -> records_inv st.
Proof.
  induction 1 as [st Hi|st op st' Hr IH Hf Hrun|st h p Hr IH Hs|st a h1 h2 st' Hr IH Hne Hv].
  - apply records_inv_initial, Hi.
  - pose proof (reachable_wf k st Hr) as Hwf.
    destruct op; simpl in Hrun, Hf.
    + exact (records_inv_craftModule _ _ _ _ _ _ _ _ _ _ Hwf IH Hf Hrun).
    + exact (records_inv_craftSpaceship _ _ _ _ _ _ _ _ _ _ Hwf IH Hf Hrun).
    + exact (records_inv_upgrade _ _ _ _ _ IH Hrun).
    + exact (records_inv_install _ _ _ _ _ _ Hwf IH Hrun).
    + exact (records_inv_uninstall _ _ _ _ _ _ Hwf IH Hrun).
  - revert IH. apply records_inv_same; reflexivity.
  - exact (records_inv_voyage _ _ _ _ _ IH Hv).
Qed.

(** ** Properties of every reachable state *)

(** X24: in every reachable state the record of a module has a type from
    1 to 4 and a rarity of Epic or better, and its bonus row is still the
    bonus computed from the type, biome and rarity of its record; the record
    of a spaceship has a type from 1 to 4, a rarity of Epic or better, and
    token id 0 (no token is minted); a module recorded as installed is a
    module, in the slot category of its type. *)
Theorem X24_crafted_records (k : Keccak) (st : World) :
  reachable k st ->
  (forall m,
     artifactIndex (ArtifactTable_get st m) = 23 ->
     1 <= moduleType (CraftedModules_get st m) <= 4 /\
     atLeastEpic (module_rarity (CraftedModules_get st m)) /\
     artifact_rarity (ArtifactTable_get st m) = module_rarity (CraftedModules_get st m) /\
     ModuleBonus_get st m = moduleCraftedBonus st m) /\
  (forall s,
     artifactIndex (ArtifactTable_get st s) = 3 ->
     1 <= spaceshipType (CraftedSpaceship_get st s) <= 4 /\
     atLeastEpic (ship_rarity (CraftedSpaceship_get st s)) /\
     artifact_rarity (ArtifactTable_get st s) = ship_rarity (CraftedSpaceship_get st s) /\
     nftTokenId (CraftedSpaceship_get st s) = 0) /\
  (forall m,
     inst_installed (SpaceshipModuleInstalled_get st m) = true ->
     artifactIndex (ArtifactTable_get st m) = 23 /\
     inst_moduleSlotType (SpaceshipModuleInstalled_get st m)
     = moduleType (CraftedModules_get st m)).
Proof.
  intros Hr. destruct (reachable_records k st Hr) as [H2 H3 H4 _].
  split; [exact H2|]. split; [exact H3|].
  intros m Hm. split; [|exact (H4 m Hm)].
  exact (proj1 (wf_kinds st (reachable_wf k st Hr) m Hm)).
Qed.

Lemma X24_crafted_records_witness :
  reachable Scenario.k0 Scenario.stEngineOn1 /\
  ModuleBonus_get Scenario.stEngineOn1 3 = moduleCraftedBonus Scenario.stEngineOn1 3.
Proof.
  assert (Hr : reachable Scenario.k0 Scenario.stEngineOn1)
    by (apply scenario_reachable; vm_compute; reflexivity).
  split; [exact Hr|].
  refine (proj2 (proj2 (proj2 (proj1 (X24_crafted_records _ _ Hr) 3 _)))).
  vm_compute. reflexivity.
Defined.

(** X25: in every reachable state each bonus of a carrier is between 0 and
    [2^16 - 1], the range of its [uint16] column, and each bonus of a module
    is between 0 and 54; an install succeeds only if the sum of the two
    bonuses stays in the range on every axis. *)
Theorem X25_bonus_columns_in_range (k : Keccak) (st : World) :
  reachable k st ->
  (forall s ax, 0 <= axis ax (SpaceshipBonus_get st s) <= uint_max 16) /\
  (forall m ax,
     artifactIndex (ArtifactTable_get st m) = 23 ->
     0 <= axis ax (ModuleBonus_get st m) <= 54) /\
  (forall tx s m h ax st',
     SpaceshipModuleSystem.installModule tx st s m h = Ok st' ->
     axis ax (SpaceshipBonus_get st s) + axis ax (ModuleBonus_get st m) <= uint_max 16).
Proof.
  intros Hr. destruct (reachable_records k st Hr) as [H2 _ _ H5].
  split; [exact H5|]. split.
  - intros m ax Hm. destruct (H2 m Hm) as (_ & _ & _ & ->). unfold moduleCraftedBonus.
    cbv zeta.
    set (d := CraftedModules_get st m).
    pose proof (module_attack_range (module_biome d) (module_rarity d) (moduleType d)).
    pose proof (module_defense_range (module_biome d) (module_rarity d) (moduleType d)).
    pose proof (module_speed_range (module_biome d) (module_rarity d) (moduleType d)).
    pose proof (module_range_range (module_biome d) (module_rarity d) (moduleType d)).
    destruct ax; simpl; lia.
  - intros tx s m h ax st' H.
    apply installModule_steps in H as (_ & _ & _ & _ & _ & _ & Hsum & _). apply Hsum.
Qed.

Lemma X25_bonus_columns_in_range_witness :
  reachable Scenario.k0 Scenario.stTwoHulls /\
  0 <= axis Defense (SpaceshipBonus_get Scenario.stTwoHulls 1) <= uint_max 16.
Proof.
  assert (Hr : reachable Scenario.k0 Scenario.stTwoHulls)
    by (apply scenario_reachable; vm_compute; reflexivity).
  split; [exact Hr|].
  exact (proj1 (X25_bonus_columns_in_range _ _ Hr) 1 Defense).
Defined.

(** X26: in every reachable state an artifact lies in at most one inventory,
    and at most once in it; the owner table is the index of the inventories
    (an artifact of a planet's inventory has that planet as owner, and an
    owner row points to a planet that holds the artifact); a module recorded
    as installed lies in no inventory and has no owner row, and an artifact
    of an inventory is not recorded as installed. *)
Theorem X26_artifact_in_one_place (k : Keccak) (st : World) :
  reachable k st ->
  (forall h p, PlanetTable st !! h = Some p -> NoDup (artifactStorage p)) /\
  (forall h1 h2 p1 p2 a,
     PlanetTable st !! h1 = Some p1 -> PlanetTable st !! h2 = Some p2 ->
     a ∈ artifactStorage p1 -> a ∈ artifactStorage p2 -> h1 = h2) /\
  (forall h p a,
     PlanetTable st !! h = Some p -> a ∈ artifactStorage p ->
     ArtifactOwner_get st a = h /\
     inst_installed (SpaceshipModuleInstalled_get st a) = false) /\
  (forall a,
     ArtifactOwner_get st a <> 0 ->
     exists p, PlanetTable st !! ArtifactOwner_get st a = Some p /\ a ∈ artifactStorage p) /\
  (forall m,
     inst_installed (SpaceshipModuleInstalled_get st m) = true ->
     ArtifactOwner_get st m = 0 /\
     forall h p, PlanetTable st !! h = Some p -> m ∉ artifactStorage p).
Proof.
  intros Hr. pose proof (reachable_wf k st Hr) as Hwf.
  split; [|split; [|split; [|split]]].
  - intros h p Hp. exact (proj1 (wf_inventory st Hwf h p Hp)).
  - intros h1 h2 p1 p2 a Hp1 Hp2 H1 H2.
    rewrite <- (wf_located st Hwf h1 p1 a Hp1 H1). exact (wf_located st Hwf h2 p2 a Hp2 H2).
  - intros h p a Hp Ha. split; [exact (wf_located st Hwf h p a Hp Ha)|].
    exact (stored_not_installed st h p a Hwf Hp Ha).
  - exact (wf_owner st Hwf).
  - intros m Hm. exact (wf_off_planet st Hwf m Hm).
Qed.

Lemma X26_artifact_in_one_place_witness :
  reachable Scenario.k0 Scenario.stEngineOn1 /\
  inst_installed (SpaceshipModuleInstalled_get Scenario.stEngineOn1 3) = true /\
  ArtifactOwner_get Scenario.stEngineOn1 3 = 0.
Proof.
  assert (Hr : reachable Scenario.k0 Scenario.stEngineOn1)
    by (apply scenario_reachable; vm_compute; reflexivity).
  assert (Hi : inst_installed (SpaceshipModuleInstalled_get Scenario.stEngineOn1 3) = true)
    by (vm_compute; reflexivity).
  split; [exact Hr|]. split; [exact Hi|].
  exact (proj1 (proj2 (proj2 (proj2 (proj2 (X26_artifact_in_one_place _ _ Hr)))) 3 Hi)).
Defined.

(** ** The checks of an uninstall *)

(** A slot type from 1 to 4 has a slot index. *)
Lemma slotIndex_exists (slotType : Z) :
  1 <= slotType <= 4 ->
  exists slotIndex, SpaceshipModuleSystem._getSlotIndexForSlotType slotType = Ok slotIndex.
Proof.
  intros Hr. unfold SpaceshipModuleSystem._getSlotIndexForSlotType,
    SpaceshipModuleSystem.ENGINES_SLOT, SpaceshipModuleSystem.WEAPONS_SLOT,
    SpaceshipModuleSystem.HULL_SLOT, SpaceshipModuleSystem.SHIELD_SLOT.
  zeqb; simpl; try (eexists; reflexivity); lia.
Qed.

(** The row of an installed module has a slot index. *)
Lemma installed_slotIndex (st : World) (m : Z) :
  wf st -> records_inv st ->
  inst_installed (SpaceshipModuleInstalled_get st m) = true ->
  exists slotIndex,
    SpaceshipModuleSystem._getSlotIndexForSlotType
      (inst_moduleSlotType (SpaceshipModuleInstalled_get st m)) = Ok slotIndex.
Proof.
  intros Hwf Hri Hi. apply slotIndex_exists.
  rewrite (ri_slot st Hri m Hi).
  destruct (wf_kinds st Hwf m Hi) as [Hk _].
  exact (proj1 (ri_module st Hri m Hk)).
Qed.

(** X27: the checks of an uninstall at an initialised station of a reachable
    state, in their order: a sender who is not the owner gets NotPlanetOwner;
    a carrier that is not in the station's inventory gets
    ArtifactNotOnPlanet3; a module whose row names another carrier gets
    ModuleNotInstalled; a module that is not recorded as installed, when its
    row names the carrier, gets InvalidModuleType (the slot category of the
    row is 0); an installed module gets ArtifactStorageFull when the
    inventory is full, and otherwise the uninstall succeeds.  A station that
    was never initialised gets PlanetNotInitialized. *)
Theorem X27_uninstall_checks (k : Keccak) (st : World) (tx : Tx) (s m h : Z) :
  reachable k st ->
  match PlanetTable st !! h with
  | None =>
      SpaceshipModuleSystem.uninstallModule tx st s m h = Revert PlanetNotInitialized
  | Some p0 =>
      if negb (bool_decide (owner p0 = msgSender tx)) then
        SpaceshipModuleSystem.uninstallModule tx st s m h = Revert NotPlanetOwner
      else if negb (bool_decide (s ∈ artifactStorage p0)) then
        SpaceshipModuleSystem.uninstallModule tx st s m h = Revert ArtifactNotOnPlanet3
      else if negb (inst_artifactId (SpaceshipModuleInstalled_get st m) =? s) then
        SpaceshipModuleSystem.uninstallModule tx st s m h = Revert ModuleNotInstalled
      else if negb (inst_installed (SpaceshipModuleInstalled_get st m)) then
        SpaceshipModuleSystem.uninstallModule tx st s m h = Revert InvalidModuleType
      else if negb (bool_decide
                      (length (artifactStorage p0) < PlanetLib.MAX_ARTIFACTS_PER_PLANET)%nat)
      then
        SpaceshipModuleSystem.uninstallModule tx st s m h = Revert ArtifactStorageFull
      else
        exists st', SpaceshipModuleSystem.uninstallModule tx st s m h = Ok st'
  end.
Proof.
  intros Hr. pose proof (reachable_wf k st Hr) as Hwf.
  pose proof (reachable_records k st Hr) as Hri.
  unfold SpaceshipModuleSystem.uninstallModule,
    SpaceshipModuleSystem._processUninstallModule, PlanetLib.readInitedPlanet.
  destruct (PlanetTable st !! h) as [p0|] eqn:Hp; [|reflexivity].
  simpl. unfold SpaceshipModuleSystem._validateUninstallModule, PlanetLib.Has. simpl.
  destruct (bool_decide (owner p0 = msgSender tx)); [|reflexivity]. simpl.
  destruct (bool_decide (s ∈ artifactStorage p0)); [|reflexivity]. simpl.
  destruct (inst_artifactId (SpaceshipModuleInstalled_get st m) =? s); [|reflexivity]. simpl.
  unfold SpaceshipModuleSystem._executeUninstallModule.
  destruct (inst_installed (SpaceshipModuleInstalled_get st m)) eqn:Hi; simpl.
  - destruct (installed_slotIndex st m Hwf Hri Hi) as [slotIndex ->]. simpl.
    unfold PlanetLib.hasArtifactSlot, PlanetLib.pushArtifact, PlanetLib.hasArtifactSlot. simpl.
    destruct (bool_decide (length (artifactStorage p0) < PlanetLib.MAX_ARTIFACTS_PER_PLANET)%nat);
      simpl; [eexists; reflexivity|reflexivity].
  - rewrite (wf_cleared st Hwf m Hi). reflexivity.
Qed.

Lemma X27_uninstall_checks_witness :
  reachable Scenario.k0 Scenario.stEngineOn1 /\
  SpaceshipModuleSystem.uninstallModule Scenario.tx7 Scenario.stEngineOn1 2 3 1
  = Revert ModuleNotInstalled.
Proof.
  assert (Hr : reachable Scenario.k0 Scenario.stEngineOn1)
    by (apply scenario_reachable; vm_compute; reflexivity).
  split; [exact Hr|].
  exact (X27_uninstall_checks Scenario.k0 Scenario.stEngineOn1 Scenario.tx7 2 3 1 Hr).
Defined.

(** ** An uninstall followed by an install *)

(** The converse of [installModule_steps] for an empty slot: when the checks
    pass, the slot of the module's category is empty and the sums fit,
    [installModule] succeeds. *)
Lemma installModule_succeeds tx st s m h p0 slotType slotIndex :
  PlanetTable st !! h = Some p0 ->
  installChecked st (PlanetLib.setPlanetHash p0 h) (msgSender tx) s m slotType slotIndex ->
  inst_installed (SpaceshipModuleInstalled_get st m) = false ->
  slot_moduleId (SpaceshipSlot_get st s slotIndex) = 0 ->
  m ∈ artifactStorage p0 ->
  (forall ax, axis ax (SpaceshipBonus_get st s) + axis ax (ModuleBonus_get st m)
              <= uint_max 16) ->
  SpaceshipModuleSystem.installModule tx st s m h
  = Ok (markInstalled s m slotType slotIndex (detach m (PlanetLib.setPlanetHash p0 h) st)).
Proof.
  intros Hp Hic Hi Hslot Hm Hsum.
  unfold SpaceshipModuleSystem.installModule,
    SpaceshipModuleSystem._processInstallModule, PlanetLib.readInitedPlanet.
  rewrite Hp. simpl.
  assert (Hval : SpaceshipModuleSystem._validateInstallModule st
                   (PlanetLib.setPlanetHash p0 h) (msgSender tx) s m = Ok tt).
  { unfold SpaceshipModuleSystem._validateInstallModule.
    rewrite (bool_decide_eq_true_2 _ (ic_owner _ _ _ _ _ _ _ Hic)). simpl.
    pose proof (ic_here _ _ _ _ _ _ _ Hic) as Hh. simpl in Hh.
    rewrite (ic_ship_here _ _ _ _ _ _ _ Hic). simpl.
    rewrite (proj2 (Z.eqb_neq h 0) Hh), Z.eqb_refl. simpl.
    rewrite (ic_ship_kind _ _ _ _ _ _ _ Hic). simpl.
    rewrite (ic_module_here _ _ _ _ _ _ _ Hic). simpl.
    rewrite (proj2 (Z.eqb_neq h 0) Hh), Z.eqb_refl. simpl.
    rewrite (ic_module_kind _ _ _ _ _ _ _ Hic). simpl.
    rewrite Hi. simpl.
    rewrite (proj2 (Z.eqb_neq _ 0) (ic_ship_type _ _ _ _ _ _ _ Hic)). simpl.
    pose proof (ic_slot_type _ _ _ _ _ _ _ Hic) as Hst.
    destruct (slotType_is_moduleType _ _ Hst) as [_ Hrange].
    rewrite (proj2 (Z.eqb_neq (moduleType (CraftedModules_get st m)) 0)) by lia. simpl.
    rewrite Hst. simpl. rewrite (ic_slot_index _ _ _ _ _ _ _ Hic). simpl.
    rewrite Hslot. reflexivity. }
  rewrite Hval. simpl.
  unfold SpaceshipModuleSystem._executeInstallModule.
  rewrite (ic_slot_type _ _ _ _ _ _ _ Hic). simpl.
  rewrite (ic_slot_index _ _ _ _ _ _ _ Hic). simpl.
  change (SpaceshipBonus_get _ s) with (SpaceshipBonus_get st s).
  change (ModuleBonus_get _ m) with (ModuleBonus_get st m).
  pose proof (Hsum Attack) as Ha. pose proof (Hsum Defense) as Hd.
  pose proof (Hsum Speed) as Hs. pose proof (Hsum Range) as Hr. simpl in Ha, Hd, Hs, Hr.
  rewrite (proj2 (checked_add_Ok 16 _ _ _) (conj Ha eq_refl)). simpl.
  rewrite (proj2 (checked_add_Ok 16 _ _ _) (conj Hd eq_refl)). simpl.
  rewrite (proj2 (checked_add_Ok 16 _ _ _) (conj Hs eq_refl)). simpl.
  rewrite (proj2 (checked_add_Ok 16 _ _ _) (conj Hr eq_refl)). simpl.
  unfold PlanetLib.removeArtifact, PlanetLib.Has. simpl.
  rewrite (bool_decide_eq_true_2 _ Hm). reflexivity.
Qed.

Lemma slotType_of_moduleType (t : Z) :
  1 <= t <= 4 -> SpaceshipModuleSystem._getSlotTypeForModuleType t = Ok t.
Proof.
  intros Hr. unfold SpaceshipModuleSystem._getSlotTypeForModuleType,
    SpaceshipModuleSystem.ENGINES_SLOT, SpaceshipModuleSystem.WEAPONS_SLOT,
    SpaceshipModuleSystem.HULL_SLOT, SpaceshipModuleSystem.SHIELD_SLOT.
  zeqb; subst; try reflexivity; lia.
Qed.

(** X28: from a reachable state, a successful uninstall of module [m] from
    carrier [s] at a station [h] other than 0, followed at once by the
    install of [m] on [s] (a transaction of the same sender), succeeds and
    undoes it: the carrier's four bonuses, the module's row of the installed
    table and the station's inventory are as before the uninstall, and the
    module has no owner row again. *)
Theorem X28_uninstall_install_roundtrip (k : Keccak) (st : World) (tx tx' : Tx)
    (s m h : Z) (st1 : World) :
  reachable k st ->
  msgSender tx' = msgSender tx ->
  h <> 0 ->
  SpaceshipModuleSystem.uninstallModule tx st s m h = Ok st1 ->
  exists st2 p p2,
    SpaceshipModuleSystem.installModule tx' st1 s m h = Ok st2 /\
    (forall ax, axis ax (SpaceshipBonus_get st2 s) = axis ax (SpaceshipBonus_get st s)) /\
    SpaceshipModuleInstalled_get st2 m = SpaceshipModuleInstalled_get st m /\
    inst_installed (SpaceshipModuleInstalled_get st m) = true /\
    PlanetTable st !! h = Some p /\ PlanetTable st2 !! h = Some p2 /\
    artifactStorage p2 = artifactStorage p /\
    ArtifactOwner_get st m = 0 /\ ArtifactOwner_get st1 m = h /\ ArtifactOwner_get st2 m = 0.
Proof.
  intros Hr Htx Hh Hun. pose proof (reachable_wf k st Hr) as Hwf.
  pose proof (reachable_records k st Hr) as Hri.
  apply uninstallModule_steps in Hun
    as (p0 & slotIndex & Hp & Hown & Hs & Hrow & Hidx & Hlen & Hst1).
  pose proof (uninstall_row_installed st m slotIndex Hwf Hidx) as Hi.
  destruct (wf_kinds st Hwf m Hi) as [Hkm Hks]. rewrite Hrow in Hks.
  destruct (ri_module st Hri m Hkm) as (Hmt & _ & _ & _).
  destruct (ri_ship st Hri s Hks) as (Hsty & _ & _ & _).
  pose proof (ri_slot st Hri m Hi) as Hslot.
  destruct (wf_off_planet st Hwf m Hi) as [Hown0 Hoff].
  pose proof (Hoff h p0 Hp) as Hnot.
  destruct (markUninstalled_wf st s m
              (inst_moduleSlotType (SpaceshipModuleInstalled_get st m)) slotIndex
              Hwf Hi Hrow) as [_ Hsub].
  set (slotType := inst_moduleSlotType (SpaceshipModuleInstalled_get st m)) in *.
  set (P0 := PlanetLib.setPlanetHash p0 h) in *.
  set (p1 := PlanetLib.setArtifactStorage P0 (artifactStorage p0 ++ [m])).
  assert (Hp1 : PlanetTable st1 !! h = Some p1).
  { subst st1. simpl. apply lookup_insert_eq. }
  assert (Hin_m : m ∈ artifactStorage p0 ++ [m]).
  { apply elem_of_app. right. apply list_elem_of_singleton. reflexivity. }
  assert (Hin_s : s ∈ artifactStorage p0 ++ [m]).
  { apply elem_of_app. left. exact Hs. }
  assert (Hom : ArtifactOwner_get st1 m = h).
  { subst st1. unfold ArtifactOwner_get. simpl. rewrite owner_foldr_in by exact Hin_m.
    reflexivity. }
  assert (Hos : ArtifactOwner_get st1 s = h).
  { subst st1. unfold ArtifactOwner_get. simpl. rewrite owner_foldr_in by exact Hin_s.
    reflexivity. }
  assert (Hrow1 : SpaceshipModuleInstalled_get st1 m
                  = mkSpaceshipModuleInstalledData 0 0 false).
  { subst st1. unfold SpaceshipModuleInstalled_get. simpl. rewrite lookup_insert_eq.
    reflexivity. }
  assert (Hslot1 : slot_moduleId (SpaceshipSlot_get st1 s slotIndex) = 0).
  { subst st1. unfold SpaceshipSlot_get. simpl. rewrite lookup_insert_eq. reflexivity. }
  assert (Hb1 : forall ax,
             axis ax (SpaceshipBonus_get st1 s)
             = axis ax (SpaceshipBonus_get st s) - axis ax (ModuleBonus_get st m)).
  { intros ax. rewrite <- Hsub. subst st1. reflexivity. }
  assert (Hmb1 : ModuleBonus_get st1 m = ModuleBonus_get st m) by (subst st1; reflexivity).
  assert (Hic : installChecked st1 (PlanetLib.setPlanetHash p1 h) (msgSender tx') s m
                  slotType slotIndex).
  { constructor; simpl.
    - rewrite Htx. exact Hown.
    - exact Hos.
    - exact Hh.
    - subst st1. exact Hks.
    - exact Hom.
    - subst st1. exact Hkm.
    - rewrite Hrow1. discriminate.
    - subst st1. change (spaceshipType (CraftedSpaceship_get st s) <> 0). lia.
    - subst st1. change (SpaceshipModuleSystem._getSlotTypeForModuleType
                           (moduleType (CraftedModules_get st m)) = Ok slotType).
      rewrite Hslot. apply slotType_of_moduleType. exact Hmt.
    - exact Hidx. }
  assert (Hinst : SpaceshipModuleSystem.installModule tx' st1 s m h
                  = Ok (markInstalled s m slotType slotIndex
                          (detach m (PlanetLib.setPlanetHash p1 h) st1))).
  { apply installModule_succeeds.
    - exact Hp1.
    - exact Hic.
    - rewrite Hrow1. reflexivity.
    - exact Hslot1.
    - exact Hin_m.
    - intros ax. rewrite Hb1, Hmb1.
      pose proof (ri_bonus_range st Hri s ax). lia. }
  eexists _, p0, _. split; [exact Hinst|].
  split; [|split; [|split; [exact Hi|split; [exact Hp|split;
    [simpl; apply lookup_insert_eq|split; [|split; [exact Hown0|split; [exact Hom|]]]]]]]].
  - intros ax. unfold SpaceshipBonus_get at 1. simpl. rewrite lookup_insert_eq. simpl.
    rewrite axis_addBonus.
    change (SpaceshipBonus_get (detach m (PlanetLib.setPlanetHash p1 h) st1) s)
      with (SpaceshipBonus_get st1 s).
    change (ModuleBonus_get (detach m (PlanetLib.setPlanetHash p1 h) st1) m)
      with (ModuleBonus_get st1 m).
    rewrite Hb1, Hmb1. lia.
  - unfold SpaceshipModuleInstalled_get at 1. simpl. rewrite lookup_insert_eq. simpl.
    subst slotType. destruct (SpaceshipModuleInstalled_get st m) as [a t i].
    simpl in Hrow, Hi. subst a i. reflexivity.
  - simpl. rewrite filter_app. rewrite filter_absent by exact Hnot.
    rewrite filter_cons_False by (intros Hne; apply Hne; reflexivity).
    rewrite filter_nil. apply app_nil_r.
  - unfold ArtifactOwner_get. simpl. rewrite lookup_delete_eq. reflexivity.
Qed.

Lemma X28_uninstall_install_roundtrip_witness :
  reachable Scenario.k0 Scenario.stEngineOn1 /\
  SpaceshipModuleSystem.uninstallModule Scenario.tx7 Scenario.stEngineOn1 1 3 1
  = Ok Cases.stEngineOff /\
  exists st2 p p2,
    SpaceshipModuleSystem.installModule Scenario.tx7 Cases.stEngineOff 1 3 1 = Ok st2 /\
    (forall ax, axis ax (SpaceshipBonus_get st2 1)
                = axis ax (SpaceshipBonus_get Scenario.stEngineOn1 1)) /\
    SpaceshipModuleInstalled_get st2 3 = SpaceshipModuleInstalled_get Scenario.stEngineOn1 3 /\
    inst_installed (SpaceshipModuleInstalled_get Scenario.stEngineOn1 3) = true /\
    PlanetTable Scenario.stEngineOn1 !! 1 = Some p /\ PlanetTable st2 !! 1 = Some p2 /\
    artifactStorage p2 = artifactStorage p /\
    ArtifactOwner_get Scenario.stEngineOn1 3 = 0 /\
    ArtifactOwner_get Cases.stEngineOff 3 = 1 /\ ArtifactOwner_get st2 3 = 0.
Proof.
  assert (Hr : reachable Scenario.k0 Scenario.stEngineOn1)
    by (apply scenario_reachable; vm_compute; reflexivity).
  assert (Hu : SpaceshipModuleSystem.uninstallModule Scenario.tx7 Scenario.stEngineOn1 1 3 1
               = Ok Cases.stEngineOff) by (vm_compute; reflexivity).
  split; [exact Hr|]. split; [exact Hu|].
  refine (X28_uninstall_install_roundtrip Scenario.k0 Scenario.stEngineOn1 Scenario.tx7
            Scenario.tx7 1 3 1 Cases.stEngineOff Hr eq_refl _ Hu).
  discriminate.
Defined.

(** ** What an install and an uninstall leave alone *)



